(* ===== verification/_CoqProject ===== *)
-Q . S2P
Prelude.v
PyStr.v
Format.v
NetStore.v
Layers.v
Geometry.v
Generator.v
GenWf.v
DefWriter.v
TechLef.v
Fracture.v
Extractor.v
OpenCheck.v
Checker.v
Writer.v
Flow.v
RoundTrip.v
Main.v
Gui.v
Install.v
MainIO.v
Shipped.v
