(* ===== verification/Prelude.v ===== *)
(** * A verification library for the PG Generator V3 RC extraction flow

    The repository is one installer, [src/Phase6/Phase6_improve_rc_performance_install.py],
    that writes the Python modules of a power-grid generator and its RC
    extraction flow as strings.  This library models the modules of that file
    that carry the parasitic-extraction core and proves their properties.

    ** The program and how its parts interact

    - [core/generator.py] ([Generator]) turns a JSON configuration into
      wires (one per stripe), vias (at every crossing of a horizontal and a
      vertical stripe of one net on adjacent layers), standard-cell
      instances with two rail pins each, and top-level pins (ports).
    - [core/extractor.py] ([RCExtractor]) consumes the generator's lists
      and builds, per net, a graph: a node-identity map from
      (layer, x, y) to a dense id, resistor and capacitor lists, and a
      rename table from ids to the symbolic names of instance pins and
      ports.  It also records, extractor-wide, the instance connections
      [inst_conns] and the ports [ports] it found, and a cache of the
      next-layer function.
    - [io_utils/dspf_writer.py] ([DSPFWriter]) serialises the graphs to a
      DSPF text file.
    - [core/dspf_checker.py] ([DSPFChecker]) re-parses that text and runs
      an open check (breadth-first search from the ports over the
      resistors) and a short check (two nets declaring a coordinate-named
      node at one location).
    - [core/tech_lef.py] ([TechLEF]) reads the LEF file: [units] and the
      layer and via names with a few layer properties.
    - [core/stack_manager.py] ([StackManager]) runs one generator (2D) or
      one per die (3D); [main.py] loads the LEF and the configuration,
      runs the stack and, per generator, writes the DEF
      ([io_utils/def_writer.py]), runs the extractor and the writer and,
      in 2D, the checker; in 3D it first writes a SPICE deck
      ([io_utils/spice_writer.py]); it ends with the [gui/] viewers.
    - The script itself, run as a program, installs all of these:
      [install()] writes each entry of its dict [files] to disk.

    ** The files of this library

    - [Prelude] (this file): the scope [pg_scope], the hint databases
      [pgrc] and [pgrc_rw], the tactic [destruct_match_eq] and the
      generic lemmas on truncating division, [math.ceil], list sums,
      insertion-ordered dicts ([odict_set], [odict_get]), [List.filter],
      [for] loops ([fold_left_inv]) and grouping a list by a key
      ([concat_group_perm]).
    - [PyStr]: the Python string built-ins the code calls, on
      [String.string]: [str] of an integer ([py_str_Z]), [int] and
      [float] of a string ([py_int], [py_float]), [strip], [split(c)],
      [split()], [startswith], [find], slicing, with the round trips
      [py_int (py_str_Z z) = Some z] and split-of-join.
    - [Format]: the writer's number formatting: [.3f] of [x/1000]
      (exact, [fmt_milli]) and the class [EFormat] of the [.4E]
      formatter, with an instance for exact rationals.
    - [NetStore] (Module [NetData]): the per-net record [net_data[net]]
      of [RCExtractor] (node map, id table, resistors, capacitors, rename
      table, [next_id]) and [_get_node_id]; its invariant (node map and
      id table inverse bijections onto [1 .. next_id - 1]) and node
      identity (C1).
    - [Layers] (Module [LayerMap]): [_get_next_layer] with the search for
      [M(\d+)] written out, its cache [layer_map_cache] (C5), and the
      generator's layer order.
    - [Geometry] (Module [Geom]): the generator's output records and the
      [tech_properties] getters.
    - [Generator] (Module [Gen]): [Generator.run] and every method it
      calls, threading the generator's state ([gen_state]) and the
      spatial index ([sindex]): the configuration records, [_to_dbu]
      (round half to even), the stripe loops as [zloop], the via loops,
      [_generate_instances_snapped] ([row_loop], [rows_loop]),
      [_generate_pins_area] and [_create_pin] (C17-C21).
    - [GenWf] (Module [GenWf]): the shape of the generator's output, a
      specification predicate [gen_wf] (every wire a full stripe of the
      die, every cell pin and port on a wire of its net and layer) and
      [nets_cover] (every wire's net in [nets_used]), and their proof for
      every terminating [Generator.run] ([gen_run_inv], C32); the vias
      of a run, only at crossings of striped layers adjacent in the
      sorted layer list ([gen_run_vias], C26).
    - [DefWriter] (Module [DefW]): [DEFWriter.write] as the sequence of
      its [f.write] calls and [SpiceWriter.write]; the DEF lists every
      generated wire once (C33) and writes the die area in microns
      (C34).
    - [TechLef] (Module [Lef]): [TechLEF.parse] as a step on the parser's
      locals ([lef_step], [None] for a raised exception) run until the
      first exception ([parse_lines]); Python's [float] is [py_float] in
      [PyStr] (C23-C25).
    - [Fracture] (Module [Fracture]): [_fracture_wire]: cuts, the sorted
      cut set, the subdivision loop as written, rational values (C2-C4),
      and the capacitance of a wire ([fracture_wire_capacitance]).
    - [Extractor] (Module [Extract]): [add_cut], the passes of
      [_process_net], [run]; the extraction invariant (C6), independence
      of the nets (C7), the last-wins renaming (C8) and the resistor
      each via leaves in its net's graph ([via_res]).
    - [OpenCheck] (Module [Opens]): [_check_opens]: the adjacency, the
      breadth-first search as a fuelled recursion, the error count
      (C9, C10) and the specification's examples.
    - [Checker] (Module [Check]): [DSPFChecker._parse] as a fold of a
      line step over the file's lines, [_add_to_spatial_map],
      [_check_shorts] and [run] (C11-C13), the visited set of the open
      check and the specification's short example.
    - [Writer] (Module [DspfWriter]): [DSPFWriter]: the file as a list of
      lines written in a state and exception monad ([M], with stdpp's
      [MRet]/[MBind] notations) (C14).
    - [Flow] (Module [Flow]): the 2D flow of [main.py], extraction then
      writing then checking, the end-to-end false open on a concrete
      design and on a generated one, and where the extractor ends every
      via the generator places (C31).
    - [RoundTrip] (Module [RoundTrip]): what [_parse] makes of each kind
      of line the writer emits; [_write_net] as a pure list of lines
      ([net_block], proved equal to what the monadic writer emits); the
      round trip writer/checker (C15); the name the writer gives a node
      shared by several pins and the false open it causes in general
      (C16).
    - [Main] (Module [Main]): [StackManager.load_and_run],
      [_generate_tsvs] and [main] with three outcomes (a result, a
      [KeyError], a generator that does not terminate), the files each
      die's export writes and the SPICE deck (C28, C29, C35, C36), and
      the capacitance extracted from a generated stripe at any [units]
      (C30).
    - [MainIO] (Module [MainIO]): [main] on the disk: the report
      directory, [tech.lef] and the configuration file read, the DEF,
      DSPF and SPICE files written, the 2D check of the DSPF file read
      back under the 500 MB guard (C22), the configuration's loading
      errors (C27), the files on the disk when a 3D run raises (C38).
    - [Gui] (Module [Gui]): [Viewer2D] as a state (the combobox's text,
      the canvas items) and a step per user event, [root.mainloop] as
      the fold of these steps, [Viewer3D.__init__] and [plot] as the
      points it scatters, and the window of [main]'s step 5 (its title,
      geometry and notebook tabs) behind the 50k-wire guard (C39, C40).
    - [Install] (Module [Install]): the disk as directories and files,
      [install()] as a fold over the dict [files] (C37), [for line in f]
      as [file_lines], [load_config] with [json.load] as a parameter, and
      the script's [files] with the LEF's text written out.
    - [Shipped] (Module [Shipped]): the repository's own inputs written
      out, the LEF file [tech.lef] line by line and the performance
      configuration: the installed LEF reads as these lines, what
      [TechLEF.parse] makes of it, and the termination of
      [Generator.run] on the shipped configuration (the witness of C18).

    The components meet at these interfaces: the LEF's layer names and
    [units] ([Lef.gen_tech]) are what the generator reads of the tech; the
    generator's [gen_state] becomes the extractor's input through
    [Gen.to_gen_out] and is what the DEF writer and the viewers read; the
    extractor's [ext_state] is what the writer reads; the writer's lines
    are what the checker parses; the checker's per-net [net_rec] is what
    the open check searches; the installed [tech.lef] is what [main]
    reads.  The writer is a section over the [EFormat] class, so its
    theorems hold for every [.4E] formatter whose text is one token; the
    DEF writer is a section over [NumStr], the printing of the
    configuration's JSON numbers.

    ** The theorems

    - Invariants and safety: the node-identity invariant of a net store
      (kept by every operation of [_process_net]), the extraction
      invariant after [run] (C6), the parser invariant (C11), that the
      writer raises no [KeyError] on a well-formed extraction (C14), and
      that the window [main] opens holds only the 2D viewer, blank at
      first, whose canvas then always shows one whole drawing or nothing
      (C39).
    - Functional behaviour: node identity (C1), the resistor chain of a
      fractured wire (C2) and its total resistance (C4), per-net results
      independent of the order of the nets (C7), the open check's count
      (C10) and the short check's (C13), the DEF's routed wires (C33,
      C34), the SPICE deck's includes (C35), the 3D plot (C40).
    - Type: the shape of every generated design, stripes spanning the
      die and each pin on a wire of its own net (C32).
    - Bounds: the length of the pieces of a gap, exactly characterised
      (C3).
    - Termination: the open check's search with the fuel it is given
      (C9); [Generator.run] when pitches and pin intervals are positive
      (C18), and never when a pitch rounds to zero DBU (C19).
    - Liveness: [main] reaches its last step, every die exported,
      whenever the pitches are positive and the stack connections
      complete (C36).
    - Equivalence: the spatial-index via generation and the quadratic
      reference [naive_vias] (C20).
    - Error behaviour: which LEF lines raise (C23), the LEF reader
      stopping at the first (C24), the [KeyError]s of [_generate_tsvs]
      (C28) and of [main]'s GUI step in 3D (C29), the configuration
      file missing or undecodable (C27), and the files a 3D run has
      written when it raises (C38).
    - Round trip: the coordinate names the writer gives decode to their
      location (C12); parsing the written file gives back every net's
      ports, pins and resistors (C15); the check [main] runs in 2D reads
      back from the disk the lines the writer wrote (C22).
    - Refinement: the cached [_get_next_layer] is the uncached function
      (C5); [install()] writes the dict its assignments define (C37); the
      monadic [_write_net] emits the pure [net_block].
    - The generator: its stripes (C17), the shared rail pins of adjacent
      rows (C21), no via when every adjacent pair of the sorted layer
      list has an unstriped layer (C26); with the extractor: the
      capacitance of a stripe scales with [units / 1000] (C30), and a
      via's resistor ends on [_get_next_layer] of its layer, the
      generator's upper layer only for consecutive metals (C31).

    ** What the modelling showed

    - [_fracture_wire] subdivides a gap with the already-advanced
      [prev], so pieces exceed the maximum beyond twice the maximum, and
      become empty or negative for longer gaps (C3).
    - The rename passes let the last contact at a node win (C8), the
      writer names the node after the last pin, and a pin that shares
      its location with a later one is reported floating on a connected
      net (C16); the generator produces exactly that situation on every
      shared rail (C21).
    - A pitch or pin interval under half a database unit makes
      [Generator.run] loop forever (C19).
    - [TechLEF.parse] takes a via's [LAYER] lines for layer definitions,
      resetting the layers' properties (C25); without
      [tech_properties['layers']] the cut layers it adds sit between the
      metals in the sorted layer list and no via is generated (C26).
    - [_generate_tsvs] creates nothing (C28); every 3D run of [main] ends
      in [KeyError: 'single_die'] (C29), after its files are written
      (C38); a [units] other than 1000 scales the generator but not the
      extractor and the writer (C30).
    - A via between non-adjacent metals (a configured [M1]/[M3] pair) is
      generated, but the extractor joins it to [_get_next_layer] of its
      lower layer ([M2]), so the via ends on a layer with no wire (C31).
    - The DEF's [DIEAREA] is in microns while its routes are in database
      units (C34); [Viewer3D] plots every horizontal stripe on the
      diagonal (C40), and [main] never shows it: its window has the 2D
      tab only, whose canvas stays blank until a pick or [Refresh]
      (C39).

    ** Fuel

    [Opens.bfs], the [while queue] loop of [_check_opens], takes fuel
    [1 + len(ports) + |nodes of the adjacency|], and C9 proves it is never
    exhausted, because each round pops one queue entry and queues only
    nodes it marks visited.  [Gen.zloop], the [while curr < end] loops of
    the generator, takes fuel [1 + (end - start)]: a positive integer step
    exits within that many rounds, which C17, C18 and C36 use, and a step
    of zero or less never exits, so C19 holds for every fuel.
    [Gen.row_loop] takes fuel [count - cnt], the bound its test
    [cnt < inst_count] sets ([row_loop_fuel]: more fuel changes
    nothing).

    ** Not modelled

    [argparse] (the two arguments are [main_io]'s inputs), timing and
    the messages, and [os.path.exists] on a file where a directory is
    expected; the Tk and matplotlib rendering of the items the viewers
    compute and the widgets' packing (the window's content, its tabs
    and the viewers' state, is modelled); [json.load] (a library, a parameter of
    [load_config]) and the texts of the Python modules, which the
    installer copies without reading.  Python sets are iterated in the
    order of stdpp's [elements], an order the code does not fix either;
    the statements about them are about membership or hold for every
    order.  Python's float arithmetic is modelled as exact rational
    arithmetic (below); printed float values go through [EFormat] and
    [NumStr].

    ** Arithmetic

    Coordinates are Python integers in database units: [Z].  Resistance and
    capacitance values are Python floats; they are modelled as exact
    rationals [Q], so a statement about them (conservation of resistance)
    is the exact-arithmetic statement.  The subdivision point
    [int(prev + k*step)] with [step = dist/num] is the truncation toward
    zero of the exact rational [prev + k*dist/num], [Z.quot]: it is the
    code's value whenever the float rounding of [prev + k*step] does not
    cross an integer.  [math.ceil(dist / max_len)] is the exact ceiling
    for the integer [dist] and the integral [max_len = 20000.0]: the
    quotient of two integers below 2^53 is correctly rounded, and a
    non-integral quotient [dist / 20000] is at least [1/20000] away
    from an integer.  [_to_dbu] rounds the exact product [v * units] half
    to even ([Gen.py_round]); the float product can differ only when it
    lands within rounding error of a half. *)

From Stdlib Require Export ZArith QArith.
From stdpp Require Export base list gmap strings sorting.

Declare Scope pg_scope.
Delimit Scope pg_scope with pg.
Open Scope Z_scope.

(** Hint databases of the development: [pgrc] for the lemmas that [eauto]
    chains, [pgrc_rw] for rewriting with the equations of the models. *)
Create HintDb pgrc discriminated.
Create Rewrite HintDb pgrc_rw.

(** ** Truncating division, Python's [int()] of a non-integral float *)

(** [Z.quot a n] for [n > 0] differs from [a / n] by less than one, toward
    zero. *)
Lemma quot_pos_bounds (a n : Z) :
  0 < n -> 0 <= a -> n * Z.quot a n <= a < n * Z.quot a n + n.
Proof.
  intros Hn Ha. pose proof (Z.quot_rem' a n).
  pose proof (Z.rem_bound_pos a n Ha Hn). lia.
Qed.

Lemma quot_neg_bounds (a n : Z) :
  0 < n -> a <= 0 -> n * Z.quot a n - n < a <= n * Z.quot a n.
Proof.
  intros Hn Ha. pose proof (Z.quot_rem' a n).
  pose proof (Z.rem_nonpos a n ltac:(lia) Ha).
  pose proof (Z.rem_bound_abs a n ltac:(lia)). lia.
Qed.

(** Both cases together, in the form [lia] consumes: the truncated
    quotient is within one of the exact one. *)
Lemma quot_bounds (a n : Z) :
  0 < n -> a - n < n * Z.quot a n < a + n.
Proof.
  intros Hn. destruct (Z_le_gt_dec 0 a).
  - pose proof (quot_pos_bounds a n Hn). lia.
  - pose proof (quot_neg_bounds a n Hn). lia.
Qed.

Lemma quot_mul_exact (a n : Z) : 0 < n -> Z.quot (a * n) n = a.
Proof. intros Hn. apply Z.quot_mul. lia. Qed.

(** ** Sums of rationals *)

Fixpoint Qsum (l : list Q) : Q :=
  match l with
  | [] => 0%Q
  | x :: l' => (x + Qsum l')%Q
  end.

Lemma Qsum_app (l1 l2 : list Q) : (Qsum (l1 ++ l2) == Qsum l1 + Qsum l2)%Q.
Proof.
  induction l1 as [|x l1 IH]; simpl.
  - ring.
  - rewrite IH. ring.
Qed.

(** ** Sums of integers *)

Fixpoint Zsum (l : list Z) : Z :=
  match l with
  | [] => 0
  | x :: l' => x + Zsum l'
  end.

Lemma Zsum_app (l1 l2 : list Z) : Zsum (l1 ++ l2) = Zsum l1 + Zsum l2.
Proof. induction l1 as [|x l1 IH]; simpl; lia. Qed.

(** ** Python's [math.ceil(a / b)] on integers *)

Definition py_ceil_div (a b : Z) : Z := - ((- a) / b).

Lemma py_ceil_div_spec (a b : Z) :
  0 < b -> b * py_ceil_div a b - b < a <= b * py_ceil_div a b.
Proof.
  intros Hb. unfold py_ceil_div.
  pose proof (Z.mul_div_le (- a) b Hb). pose proof (Z.mul_succ_div_gt (- a) b Hb). lia.
Qed.

(** The ceiling is [k] when [a] lies in [((k-1)*b, k*b]]. *)
Lemma py_ceil_div_eq (a b k : Z) :
  0 < b -> (k - 1) * b < a <= k * b -> py_ceil_div a b = k.
Proof.
  intros Hb Hk. pose proof (py_ceil_div_spec a b Hb) as Hc.
  set (n := py_ceil_div a b) in *.
  assert (b * (n - k - 1) < 0) by lia. assert (b * (k - n - 1) < 0) by lia. nia.
Qed.

(** ** Lists *)

(** [d[k] = v] on an insertion-ordered dict: the value is replaced in
    place when the key is present and appended otherwise. *)
Fixpoint odict_set {V} (d : list (string * V)) (k : string) (v : V) : list (string * V) :=
  match d with
  | [] => [(k, v)]
  | (k', v') :: r => if String.eqb k' k then (k, v) :: r else (k', v') :: odict_set r k v
  end.

Definition odict_get {V} (d : list (string * V)) (k : string) : option V :=
  snd <$> List.find (fun kv => String.eqb kv.1 k) d.

Lemma odict_get_set {V} (d : list (string * V)) (k : string) (v : V) : odict_get (odict_set d k v) k = Some v.
Proof.
  unfold odict_get. induction d as [|[k' v'] r IH]; simpl; [by rewrite String.eqb_refl|].
  destruct (String.eqb_spec k' k) as [->|Hk]; simpl; [by rewrite String.eqb_refl|].
  destruct (String.eqb_spec k' k); [done|exact IH].
Qed.

Lemma odict_get_set_ne {V} (d : list (string * V)) (k k' : string) (v : V) :
  k <> k' -> odict_get (odict_set d k v) k' = odict_get d k'.
Proof.
  intros Hk. unfold odict_get. induction d as [|[k0 v0] r IH]; simpl.
  - by destruct (String.eqb_spec k k').
  - destruct (String.eqb_spec k0 k) as [->|H0]; simpl.
    + destruct (String.eqb_spec k k'); [done|]. by destruct (String.eqb_spec k k').
    + destruct (String.eqb_spec k0 k'); [done|exact IH].
Qed.

(** The last element of a non-empty list does not depend on the
    default. *)
Lemma last_cons_default {A} (x : A) (r : list A) (d : A) :
  List.last (x :: r) d = List.last r x.
Proof.
  revert x d. induction r as [|y r IH]; intros x d; [done|].
  change (List.last (x :: y :: r) d) with (List.last (y :: r) d). by rewrite !IH.
Qed.

Lemma elem_of_app_singleton {A} (x y : A) (l : list A) :
  x ∈ l ++ [y] <-> x ∈ l \/ x = y.
Proof. rewrite elem_of_app, list_elem_of_singleton. tauto. Qed.

Lemma last_elem_of {A} (h : A) (r : list A) : List.last r h ∈ h :: r.
Proof.
  revert h. induction r as [|x r IH]; intros h; [by left|].
  rewrite last_cons_default, elem_of_cons. right. apply IH.
Qed.

(** Membership in Python's [[x for x in l if f(x)]], the Standard
    Library's [List.filter]. *)
Lemma elem_of_List_filter {A} (f : A -> bool) (l : list A) (x : A) :
  x ∈ List.filter f l <-> x ∈ l /\ f x = true.
Proof. rewrite !list_elem_of_In. apply filter_In. Qed.

(** A property kept by every iteration of a [for] loop holds after it. *)
Lemma fold_left_inv {A B} (P : A -> Prop) (f : A -> B -> A) (l : list B) (a : A) :
  P a -> (forall a b, P a -> P (f a b)) -> P (fold_left f l a).
Proof. revert a. induction l as [|b l IH]; intros a Ha Hf; simpl; [done|]. apply IH; [apply Hf, Ha|exact Hf]. Qed.

(** Grouping a list by a key, over duplicate-free keys that cover every
    element's key, gives back the list up to order: the shape of a file
    written section by section, one section per key. *)
Lemma concat_group_perm {A K} `{EqDecision K} (key : A -> K) (ks : list K) (l : list A) :
  NoDup ks -> (forall x, x ∈ l -> key x ∈ ks) ->
  concat (map (fun k => filter (fun x => key x = k) l) ks) ≡ₚ l.
Proof.
  revert l. induction ks as [|k ks IH]; intros l Hnd Hc; simpl.
  - destruct l as [|x l]; [done|]. exfalso. apply (not_elem_of_nil (key x)), Hc. by left.
  - apply NoDup_cons in Hnd as [Hk Hnd].
    transitivity (filter (fun x => key x = k) l ++ filter (fun x => ~ key x = k) l);
      [|apply filter_app_complement].
    f_equiv. rewrite <- (IH (filter (fun x => ~ key x = k) l) Hnd).
    + rewrite (map_ext_in (fun k' => filter (fun x => key x = k') l)
                 (fun k' => filter (fun x => key x = k') (filter (fun x => ~ key x = k) l)) ks); [done|].
      intros k' Hk'%list_elem_of_In. symmetry.
      apply list_filter_filter_l. intros x ->. by intros ->.
    + intros x Hx%list_elem_of_filter. destruct Hx as [Hne Hx]. apply Hc, elem_of_cons in Hx. tauto.
Qed.

#[export] Hint Resolve quot_bounds : pgrc.
#[export] Hint Rewrite Qsum_app Zsum_app : pgrc_rw.

(** [destruct_match_eq] cases on the first [match] of the goal and keeps
    the equation, the step every proof about a Python [if]/[in] test
    starts with. *)
Ltac destruct_match_eq :=
  match goal with
  | |- context [match ?e with _ => _ end] =>
      let E := fresh "E" in destruct e eqn:E
  end.
