(* ===== verification/PyStr.v ===== *)
(** * Python string primitives

    The Python built-ins the modelled code calls on strings, on ASCII
    [String.string]: [str(n)] for an integer ([py_str_Z]), [int(s)]
    ([py_int]), [s.strip()] ([py_strip]), [s.split(c)] ([py_split]),
    [s.split()] ([py_words]), ['_'.join] ([py_join]), [s.startswith(p)]
    ([py_startswith]) and [s.find(c, start)] ([py_find]).  These are the
    language's semantics restricted to ASCII, not code of the
    repository; the lemmas here are the round trips the checker relies
    on. *)

From S2P Require Import Prelude.
From Stdlib Require Import Ascii DecimalString DecimalPos DecimalZ.

Local Open Scope string_scope.

(** ASCII whitespace in the sense of [str.isspace]: tab, line feed,
    vertical tab, form feed, carriage return, the four separators
    [\x1c .. \x1f] and the space. *)
Definition py_isspace (c : ascii) : bool :=
  let n := Ascii.nat_of_ascii c in
  ((9 <=? n) && (n <=? 13))%nat || ((28 <=? n) && (n <=? 32))%nat.

(** [str(n)] for an integer: the canonical decimal, with a minus sign. *)
Definition py_str_Z (z : Z) : string := NilEmpty.string_of_int (Z.to_int z).

Fixpoint lstrip (s : string) : string :=
  match s with
  | String c r => if py_isspace c then lstrip r else s
  | EmptyString => EmptyString
  end.

Fixpoint rstrip (s : string) : string :=
  match s with
  | EmptyString => EmptyString
  | String c r =>
      match rstrip r with
      | EmptyString => if py_isspace c then EmptyString else String c EmptyString
      | r' => String c r'
      end
  end.

(** [s.strip()]. *)
Definition py_strip (s : string) : string := rstrip (lstrip s).

(** Digits with single underscores between them, as [int()] accepts
    them: the underscores removed, or [None] for a leading, trailing or
    doubled underscore. *)
Fixpoint drop_underscores (after_digit : bool) (s : string) : option string :=
  match s with
  | EmptyString => if after_digit then Some EmptyString else None
  | String "_" r =>
      match r with
      | String c _ => if after_digit && negb (Ascii.eqb c "_") then drop_underscores false r else None
      | EmptyString => None
      end
  | String c r => option_map (String c) (drop_underscores true r)
  end.

(** The unsigned part of [int(s)]: one or more decimal digits. *)
Definition py_digits (s : string) : option Z :=
  match drop_underscores false s with
  | Some ds =>
      match NilEmpty.uint_of_string ds with
      | Some Decimal.Nil | None => None
      | Some d => Some (Z.of_uint d)
      end
  | None => None
  end.

(** [int(s)] on a string, base 10: [None] is the [ValueError]. *)
Definition py_int (s : string) : option Z :=
  match py_strip s with
  | String "-" r => option_map Z.opp (py_digits r)
  | String "+" r => py_digits r
  | r => py_digits r
  end.

(** [s.split(c)] for a one-character separator. *)
Fixpoint py_split (c : ascii) (s : string) : list string :=
  match s with
  | EmptyString => [EmptyString]
  | String a r =>
      let parts := py_split c r in
      if Ascii.eqb a c then EmptyString :: parts
      else match parts with
           | p :: ps => String a p :: ps
           | [] => [String a EmptyString]
           end
  end.

(** [c.join(parts)]. *)
Fixpoint py_join (c : ascii) (parts : list string) : string :=
  match parts with
  | [] => EmptyString
  | [p] => p
  | p :: ps => p ++ String c (py_join c ps)
  end.

(** [s.split()]: maximal runs of non-whitespace characters. *)
Fixpoint py_words_go (cur : option string) (s : string) : list string :=
  match s with
  | EmptyString => option_list cur
  | String a r =>
      if py_isspace a then option_list cur ++ py_words_go None r
      else py_words_go (Some (default EmptyString cur ++ String a EmptyString)) r
  end.

Definition py_words (s : string) : list string := py_words_go None s.

(** [s.startswith(p)]. *)
Definition py_startswith (s p : string) : bool := String.prefix p s.

(** [s.find(c, start)]: the index of the first occurrence of the
    character at or after [start]; [None] stands for [-1]. *)
Definition py_find (s : string) (c : ascii) (start : nat) : option nat :=
  String.index start (String c EmptyString) s.

(** [s[i:j]] for [0 <= i <= j]. *)
Definition py_slice (s : string) (i j : nat) : string := String.substring i (j - i) s.

(** Every character of a string satisfies [p]. *)
Fixpoint all_chars (p : ascii -> bool) (s : string) : bool :=
  match s with
  | EmptyString => true
  | String a r => p a && all_chars p r
  end.

(** A character does not occur in a string. *)
Definition no_char (c : ascii) (s : string) : bool :=
  all_chars (fun a => negb (Ascii.eqb a c)) s.

(** No character of [s] is whitespace. *)
Definition ws_free (s : string) : bool := all_chars (fun c => negb (py_isspace c)) s.

(** A word of [s.split()]: not empty, without whitespace. *)
Definition ws_token (s : string) : bool := negb (String.eqb s EmptyString) && ws_free s.

Definition is_dec_digit (c : ascii) : bool :=
  let n := Ascii.nat_of_ascii c in ((48 <=? n) && (n <=? 57))%nat.

(** ** [float(s)] *)

(** What [float(s)] returns: a finite value, an infinity or a NaN. A
    finite float is modelled by the exact decimal value of its text. *)
Inductive pyfloat := PFin (q : Q) | PInf (neg : bool) | PNaN.

Definition ascii_lower (c : ascii) : ascii :=
  let n := Ascii.nat_of_ascii c in
  if ((65 <=? n) && (n <=? 90))%nat then Ascii.ascii_of_nat (n + 32) else c.

(** [s.lower()] on ASCII. *)
Fixpoint str_lower (s : string) : string :=
  match s with
  | EmptyString => EmptyString
  | String c r => String (ascii_lower c) (str_lower r)
  end.

(** The text before the first character satisfying [p], and the text
    after it when there is one. *)
Fixpoint split_first (p : ascii -> bool) (s : string) : string * option string :=
  match s with
  | EmptyString => (EmptyString, None)
  | String c r => if p c then (EmptyString, Some r) else let '(a, b) := split_first p r in (String c a, b)
  end.

(** A possibly empty digit part [digit (['_'] digit)*]: its value and
    its number of digits. *)
Definition digit_part (s : string) : option (Z * nat) :=
  match s with
  | EmptyString => Some (0, 0%nat)
  | _ => ds ← drop_underscores false s;
         if all_chars is_dec_digit ds then v ← py_digits ds; Some (v, String.length ds) else None
  end.

(** The exponent after [e] or [E]: a sign and at least one digit. *)
Definition exp_part (s : string) : option Z :=
  let '(neg, r) := match s with String "-" r => (true, r) | String "+" r => (false, r) | _ => (false, s) end in
  match r with
  | EmptyString => None
  | _ => '(v, _) ← digit_part r; Some (if neg then - v else v)
  end.

(** An unsigned finite literal: digits, a point and digits (at least one
    digit in all), and an optional exponent. *)
Definition py_float_fin (s : string) : option Q :=
  let '(mant, ex) := split_first (fun c => Ascii.eqb c "e" || Ascii.eqb c "E") s in
  let '(ip, fp) := split_first (fun c => Ascii.eqb c ".") mant in
  '(iv, il) ← digit_part ip;
  '(fv, fl) ← digit_part (default EmptyString fp);
  if (il + fl =? 0)%nat then None else
  e ← match ex with None => Some 0 | Some es => exp_part es end;
  Some ((inject_Z iv + inject_Z fv / inject_Z (10 ^ Z.of_nat fl)) * Qpower 10 e)%Q.

(** [float(s)] on a string: surrounding whitespace, a sign, then
    [inf], [infinity] or [nan] in any case, or a finite literal; [None]
    is the [ValueError]. *)
Definition py_float (s : string) : option pyfloat :=
  let t := py_strip s in
  let '(neg, body) := match t with String "-" r => (true, r) | String "+" r => (false, r) | _ => (false, t) end in
  let lb := str_lower body in
  if String.eqb lb "inf" || String.eqb lb "infinity" then Some (PInf neg)
  else if String.eqb lb "nan" then Some PNaN
  else (fun q => PFin (if neg then - q else q)%Q) <$> py_float_fin body.

(** ** Round trips *)

Lemma py_split_app_char c p r :
  no_char c p = true -> py_split c (p ++ String c r) = p :: py_split c r.
Proof.
  induction p as [|a p IH]; simpl; intros H.
  - by rewrite Ascii.eqb_refl.
  - apply andb_prop in H as [Ha Hp]. apply negb_true_iff in Ha.
    rewrite Ha, IH by done. done.
Qed.

Lemma py_split_no_char c p : no_char c p = true -> py_split c p = [p].
Proof.
  induction p as [|a p IH]; simpl; intros H; [done|].
  apply andb_prop in H as [Ha Hp]. apply negb_true_iff in Ha. by rewrite Ha, IH.
Qed.

Lemma py_split_nonempty c s : py_split c s <> [].
Proof.
  destruct s as [|a r]; simpl; [done|].
  destruct (Ascii.eqb a c); [done|]. by destruct (py_split c r).
Qed.

(** Splitting at a separator written between two strings splits each of
    them. *)
Lemma py_split_app c p r : py_split c (p ++ String c r) = (py_split c p ++ py_split c r)%list.
Proof.
  induction p as [|a p IH]; simpl; [by rewrite Ascii.eqb_refl|].
  rewrite IH. destruct (Ascii.eqb a c); [done|].
  pose proof (py_split_nonempty c p) as Hne. by destruct (py_split c p).
Qed.

(** Splitting a join gives the parts back when no part contains the
    separator. *)
Lemma py_split_join c parts :
  parts <> [] -> Forall (fun p => no_char c p = true) parts ->
  py_split c (py_join c parts) = parts.
Proof.
  induction parts as [|p [|q ps] IH]; intros Hne HF; [done| |].
  - inversion HF; subst. simpl. by apply py_split_no_char.
  - inversion HF; subst.
    change (py_join c (p :: q :: ps)) with (p ++ String c (py_join c (q :: ps))).
    rewrite py_split_app_char by done. by rewrite IH.
Qed.

Lemma all_chars_app p s1 s2 : all_chars p (s1 ++ s2) = all_chars p s1 && all_chars p s2.
Proof. induction s1 as [|a s1 IH]; simpl; [done|]. by rewrite IH, andb_assoc. Qed.

(** [strip] leaves a string without whitespace unchanged. *)
Lemma py_strip_id s : all_chars (fun c => negb (py_isspace c)) s = true -> py_strip s = s.
Proof.
  intros H. unfold py_strip.
  assert (lstrip s = s) as ->.
  { destruct s as [|a r]; simpl in *; [done|].
    apply andb_prop in H as [Ha _]. apply negb_true_iff in Ha. by rewrite Ha. }
  induction s as [|a r IH]; simpl in *; [done|].
  apply andb_prop in H as [Ha Hr]. apply negb_true_iff in Ha.
  rewrite IH by done. destruct r; simpl; [by rewrite Ha|done].
Qed.

Lemma string_of_uint_digits d :
  all_chars is_dec_digit (NilEmpty.string_of_uint d) = true.
Proof. induction d; simpl; auto. Qed.

Lemma digits_no_space s :
  all_chars is_dec_digit s = true -> all_chars (fun c => negb (py_isspace c)) s = true.
Proof.
  induction s as [|a r IH]; simpl; [done|]. intros H. apply andb_prop in H as [Ha Hr].
  rewrite IH by done. destruct a as [[] [] [] [] [] [] [] []]; try discriminate; reflexivity.
Qed.

Lemma digits_no_char_us s :
  all_chars is_dec_digit s = true -> no_char "_" s = true.
Proof.
  unfold no_char. induction s as [|a r IH]; simpl; [done|]. intros H.
  apply andb_prop in H as [Ha Hr].
  rewrite IH by done. destruct a as [[] [] [] [] [] [] [] []]; try discriminate; reflexivity.
Qed.

Lemma drop_underscores_digits s b :
  s <> EmptyString \/ b = true -> all_chars is_dec_digit s = true ->
  drop_underscores b s = Some s.
Proof.
  revert b. induction s as [|a s IH]; simpl; intros b Hne Hd.
  - destruct Hne as [Hne| ->]; [congruence|done].
  - apply andb_prop in Hd as [Ha Hd].
    rewrite IH; [| by right | done].
    destruct a as [[] [] [] [] [] [] [] []]; try discriminate; reflexivity.
Qed.

Lemma py_digits_uint d :
  d <> Decimal.Nil -> py_digits (NilEmpty.string_of_uint d) = Some (Z.of_uint d).
Proof.
  intros Hd. unfold py_digits.
  rewrite drop_underscores_digits; [| left; by destruct d | apply string_of_uint_digits].
  rewrite NilEmpty.usu. by destruct d.
Qed.

(** The decimal of an integer parses back to it: [int(str(z)) == z]. *)
Theorem py_int_str (z : Z) : py_int (py_str_Z z) = Some z.
Proof.
  unfold py_int, py_str_Z.
  rewrite py_strip_id.
  2:{ destruct z as [|p|p]; simpl; [done| |];
      apply digits_no_space, string_of_uint_digits. }
  destruct z as [|p|p]; simpl; [done| |].
  - pose proof (Unsigned.to_uint_nonnil p) as Hn.
    pose proof (DecimalZ.of_to (Z.pos p)) as Hv. simpl in Hv.
    rewrite <- Hv, <- (py_digits_uint _ Hn).
    destruct (Pos.to_uint p); simpl; done.
  - pose proof (DecimalZ.of_to (Z.neg p)) as Hv. simpl in Hv.
    rewrite py_digits_uint by apply Unsigned.to_uint_nonnil. simpl. by rewrite Hv.
Qed.

(** Names made of a fixed prefix and a decimal are equal only for
    equal numbers. *)
Lemma py_str_Z_prefix_inj (p : string) (a b : Z) : p ++ py_str_Z a = p ++ py_str_Z b -> a = b.
Proof.
  intros H. apply (inj (String.append p)) in H. apply (f_equal py_int) in H.
  by rewrite !py_int_str in H; injection H.
Qed.

(** The decimal of an integer has no whitespace and no underscore. *)
Lemma py_str_Z_no_us (z : Z) : no_char "_" (py_str_Z z) = true.
Proof.
  unfold py_str_Z. destruct z as [|p|p]; simpl; [done| |].
  - apply digits_no_char_us, string_of_uint_digits.
  - apply (digits_no_char_us (NilEmpty.string_of_uint (Pos.to_uint p))),
      string_of_uint_digits.
Qed.

(** ** Lines of text: [strip], [split()], [find] and slices *)

(** [String.append] does not unfold by [simpl]: its equation. *)
Lemma string_app_cons (x : ascii) (a b : string) : String x a ++ b = String x (a ++ b).
Proof. reflexivity. Qed.

Lemma string_app_assoc (a b c : string) : (a ++ b) ++ c = a ++ (b ++ c).
Proof. induction a as [|x a IH]; [done|]. by rewrite !string_app_cons, IH. Qed.

Lemma string_app_nil_r (a : string) : a ++ EmptyString = a.
Proof. induction a as [|x a IH]; [done|]. by rewrite string_app_cons, IH. Qed.

Lemma ws_token_cons s : ws_token s = true -> exists a r, s = String a r /\ py_isspace a = false.
Proof.
  unfold ws_token, ws_free. destruct s as [|a r]; [done|]. simpl. intros H.
  apply andb_prop in H as [Ha _]. apply negb_true_iff in Ha. eauto.
Qed.

Lemma ws_token_free s : ws_token s = true -> ws_free s = true.
Proof. unfold ws_token. intros H. by apply andb_prop in H as [_ H]. Qed.

Lemma rstrip_cons a s : py_isspace a = false -> rstrip (String a s) = String a (rstrip s).
Proof. intros Ha. simpl. destruct (rstrip s); [by rewrite Ha|done]. Qed.

Lemma rstrip_ws_free s : ws_free s = true -> rstrip s = s.
Proof.
  unfold ws_free. induction s as [|a r IH]; simpl; [done|]. intros H.
  apply andb_prop in H as [Ha Hr]. apply negb_true_iff in Ha. rewrite <- (IH Hr) at 2.
  destruct (rstrip r); [by rewrite Ha|done].
Qed.

(** [strip()] leaves a line that starts and ends with non-whitespace. *)
Lemma rstrip_app_token s t : ws_token t = true -> rstrip (s ++ t) = s ++ t.
Proof.
  intros Ht. induction s as [|a s IH]; simpl.
  - by apply rstrip_ws_free, ws_token_free.
  - rewrite IH. destruct (ws_token_cons t Ht) as (b & r & -> & _). by destruct s.
Qed.

Lemma py_strip_line a s t :
  py_isspace a = false -> ws_token t = true -> py_strip (String a (s ++ t)) = String a (s ++ t).
Proof.
  intros Ha Ht. unfold py_strip. simpl. rewrite Ha.
  change (String a (s ++ t)) with (String a s ++ t). by apply rstrip_app_token.
Qed.

Lemma py_words_go_free c t s :
  ws_free t = true -> py_words_go (Some c) (t ++ s) = py_words_go (Some (c ++ t)) s.
Proof.
  unfold ws_free. revert c. induction t as [|a t IH]; intros c Ht; simpl.
  - by rewrite string_app_nil_r.
  - apply andb_prop in Ht as [Ha Ht]. apply negb_true_iff in Ha. rewrite Ha, IH by done.
    by rewrite string_app_assoc.
Qed.

Lemma py_words_go_token t s :
  ws_token t = true -> py_words_go None (t ++ s) = py_words_go (Some t) s.
Proof.
  intros Ht. destruct (ws_token_cons t Ht) as (a & r & -> & Ha). simpl. rewrite Ha.
  apply andb_prop in Ht as [_ Ht]. unfold ws_free in Ht. simpl in Ht.
  apply andb_prop in Ht as [_ Hr]. by rewrite py_words_go_free.
Qed.

Lemma py_words_go_space cur r :
  py_words_go cur (String " " r) = (option_list cur ++ py_words_go None r)%list.
Proof. reflexivity. Qed.

(** [" ".join(ts).split()] gives the words back. *)
Lemma py_words_join ts :
  ts <> [] -> Forall (fun t => ws_token t = true) ts -> py_words (py_join " " ts) = ts.
Proof.
  unfold py_words. induction ts as [|t [|u ts] IH]; intros Hne HF; [done| |].
  - inversion HF; subst. change (py_join " " [t]) with t.
    rewrite <- (string_app_nil_r t) at 1. by rewrite py_words_go_token.
  - inversion HF; subst. change (py_join " " (t :: u :: ts)) with (t ++ String " " (py_join " " (u :: ts))).
    rewrite py_words_go_token, py_words_go_space by done. by rewrite IH.
Qed.

Lemma index_app_offset (p s : string) (c : ascii) :
  String.index (String.length p) (String c EmptyString) (p ++ s) =
    Nat.add (String.length p) <$> String.index 0 (String c EmptyString) s.
Proof.
  induction p as [|a p IH]; [change (EmptyString ++ s) with s; simpl; by destruct (String.index 0 _ s)|].
  rewrite string_app_cons. simpl. rewrite IH. by destruct (String.index 0 _ s).
Qed.

Lemma index_no_char (p s : string) (c : ascii) :
  no_char c p = true ->
  String.index 0 (String c EmptyString) (p ++ s) =
    Nat.add (String.length p) <$> String.index 0 (String c EmptyString) s.
Proof.
  unfold no_char. induction p as [|a p IH]; intros H;
    [change (EmptyString ++ s) with s; simpl; by destruct (String.index 0 _ s)|].
  - rewrite string_app_cons. simpl. simpl in H. apply andb_prop in H as [Ha Hp]. apply negb_true_iff, Ascii.eqb_neq in Ha.
    destruct (Ascii.ascii_dec c a); [congruence|].
    rewrite IH by done. by destruct (String.index 0 _ s).
Qed.

Lemma index_hit (s : string) (c : ascii) : String.index 0 (String c EmptyString) (String c s) = Some 0%nat.
Proof.
  simpl. destruct (Ascii.ascii_dec c c); [|done]. by destruct s.
Qed.

Lemma substring_app_l (p s : string) (k m : nat) :
  String.substring (String.length p + k) m (p ++ s) = String.substring k m s.
Proof. induction p as [|a p IH]; [done|]. rewrite string_app_cons. simpl. by rewrite IH. Qed.

Lemma substring_prefix (q r : string) : String.substring 0 (String.length q) (q ++ r) = q.
Proof.
  induction q as [|a q IH]; [by destruct r|]. rewrite string_app_cons. simpl. by rewrite IH.
Qed.

#[export] Hint Rewrite py_int_str : pgrc_rw.
