(* ===== verification/Format.v ===== *)
(** * Number formatting of the DSPF writer

    The writer prints coordinates as [f"{x/1000:.3f}"] and values as
    [f"{v:.4E}"].  A coordinate is an integer number of database units
    below 2^53, so [x/1000.0] is the double nearest the decimal
    [x/1000], within far less than [0.0005] of it, and [.3f] prints that
    decimal exactly: [fmt_milli] is the printed text.  A value is a
    float the model holds as an exact rational; its [.4E] text depends
    on the float's rounding, so the writer is parameterised by a
    formatter [EFormat] whose law is what the checker needs of the text:
    one non-empty token without whitespace, [(] or [_].  [e_format_q]
    is an instance: the [.4E] text of the exact rational, rounding half
    to even as Python does. *)

From S2P Require Import Prelude PyStr.
From Stdlib Require Import Ascii Qabs DecimalString.

Local Open Scope string_scope.

Module Fmt.

(** [f"{n:03d}"] for [0 <= n < 1000]. *)
Definition pad3 (n : Z) : string :=
  if (n <? 10)%Z then "00" ++ py_str_Z n
  else if (n <? 100)%Z then "0" ++ py_str_Z n
  else py_str_Z n.

(** [f"{x/1000:.3f}"] for an integer [x]. *)
Definition fmt_milli (x : Z) : string :=
  (if (x <? 0)%Z then "-" else "") ++ py_str_Z (Z.abs x / 1000) ++ "." ++ pad3 (Z.abs x mod 1000).

(** A token of a DSPF line: not empty, and none of its characters is
    whitespace, [(] or [_]. *)
Definition token_char (c : ascii) : bool :=
  negb (py_isspace c) && negb (Ascii.eqb c "(") && negb (Ascii.eqb c "_").

Definition is_token (s : string) : bool :=
  negb (String.eqb s "") && all_chars token_char s.

(** The [.4E] formatter of the writer and its law. *)
Class EFormat := {
  fmt_E : Q -> string;
  fmt_E_token : forall q, is_token (fmt_E q) = true
}.

(** ** An instance: [.4E] of an exact rational *)

(** [f"{n:0kd}"] for [0 <= n]. *)
Fixpoint pad_zeros (k : nat) (s : string) : string :=
  match k with
  | O => s
  | S k' => if (String.length s <? k)%nat then "0" ++ pad_zeros k' s else s
  end.

Definition pow10Q (e : Z) : Q :=
  if (0 <=? e)%Z then inject_Z (10 ^ e) else / inject_Z (10 ^ (- e)).

(** The exponent [e] with [10^e <= a < 10^(e+1)] for [0 < a]: a search
    from an estimate, bounded by the sizes of the numerator and the
    denominator. *)
Fixpoint exp10_search (a : Q) (fuel : nat) (e : Z) : Z :=
  match fuel with
  | O => e
  | S f => if Qle_bool (pow10Q (e + 1)) a then exp10_search a f (e + 1)
           else if Qle_bool (pow10Q e) a then e else exp10_search a f (e - 1)
  end.

Definition exp10 (a : Q) : Z :=
  let n := Z.log2 (Qnum a) in
  let d := Z.log2 (Zpos (Qden a)) in
  exp10_search a (Z.to_nat (Z.abs (n - d) + 4)) ((n - d) * 3 / 10)%Z.

(** Rounding half to even of a non-negative rational to an integer. *)
Definition round_half_even (a : Q) : Z :=
  let fl := (Qnum a / Zpos (Qden a))%Z in
  let r := (a - inject_Z fl)%Q in
  if Qlt_le_dec r (1 # 2) then fl
  else if Qeq_bool r (1 # 2) then (if Z.even fl then fl else fl + 1) else fl + 1.

Definition fmt_E_q (q : Q) : string :=
  if Qeq_bool q 0 then "0.0000E+00"
  else
    let a := Qabs q in
    let e0 := exp10 a in
    let m0 := round_half_even (a / pow10Q e0 * inject_Z 10000) in
    let '(m, e) := if (100000 <=? m0)%Z then (10000%Z, (e0 + 1)%Z) else (m0, e0) in
    (if Qlt_le_dec q 0 then "-" else "") ++ py_str_Z (m / 10000) ++ "." ++
      pad_zeros 4 (py_str_Z (m mod 10000)) ++ "E" ++ (if (e <? 0)%Z then "-" else "+") ++
      pad_zeros 2 (py_str_Z (Z.abs e)).

(** ** The instance satisfies the law *)

Lemma all_chars_impl (p q : ascii -> bool) (s : string) :
  (forall c, p c = true -> q c = true) -> all_chars p s = true -> all_chars q s = true.
Proof.
  intros Hpq. induction s as [|a r IH]; simpl; [done|].
  intros H. apply andb_prop in H as [Ha Hr]. by rewrite Hpq, IH.
Qed.

Lemma token_char_digit c : is_dec_digit c = true -> token_char c = true.
Proof. destruct c as [[] [] [] [] [] [] [] []]; try discriminate; reflexivity. Qed.

Lemma py_str_Z_token_chars z : all_chars token_char (py_str_Z z) = true.
Proof.
  unfold py_str_Z. destruct z as [|p|p]; simpl; [done| |];
    apply (all_chars_impl is_dec_digit); [apply token_char_digit|apply string_of_uint_digits|
                                          apply token_char_digit|apply string_of_uint_digits].
Qed.

Lemma pad_zeros_token_chars k s :
  all_chars token_char s = true -> all_chars token_char (pad_zeros k s) = true.
Proof.
  intros Hs. induction k as [|k IH]; simpl; [done|].
  case_match; [|done]. by rewrite all_chars_app, IH.
Qed.

Lemma is_token_intro s : all_chars token_char s = true -> s <> "" -> is_token s = true.
Proof. intros H Hne. unfold is_token. rewrite H. destruct s; [done|reflexivity]. Qed.

Lemma string_app_nonempty_r s t : t <> "" -> s ++ t <> "".
Proof. destruct s; simpl; [done|discriminate]. Qed.

Lemma fmt_E_q_token q : is_token (fmt_E_q q) = true.
Proof.
  unfold fmt_E_q. destruct (Qeq_bool q 0); [reflexivity|].
  destruct (if (100000 <=? _)%Z then _ else _) as [m e]. apply is_token_intro.
  - rewrite !all_chars_app, !py_str_Z_token_chars, !pad_zeros_token_chars by apply py_str_Z_token_chars.
    destruct (Qlt_le_dec q 0), (e <? 0)%Z; reflexivity.
  - do 2 apply string_app_nonempty_r. discriminate.
Qed.

(** A token is a word of [split()]. *)
Lemma is_token_ws_token s : is_token s = true -> ws_token s = true.
Proof.
  unfold is_token, ws_token, ws_free. intros H. apply andb_prop in H as [Hne H].
  rewrite Hne. simpl. revert H. apply all_chars_impl. intros c Hc.
  unfold token_char in Hc. by apply andb_prop in Hc as [Hc _]; apply andb_prop in Hc as [Hc _].
Qed.

#[export] Instance e_format_q : EFormat := {| fmt_E := fmt_E_q; fmt_E_token := fmt_E_q_token |}.

End Fmt.
