(* ===== verification/NetStore.v ===== *)
(** * The per-net store of [RCExtractor] and [_get_node_id]

    [RCExtractor.net_data] is a [defaultdict] whose value for a net is a
    dict with the keys [node_map], [id_coords], [resistors],
    [capacitors], [renamed] and [next_id] (extractor.py, lines 361-368).
    It is the record [NetStore] here; [_get_node_id] (lines 418-428) is
    [get_node_id].  The invariant [ids_wf] says that the node map and the
    id table are inverse bijections between the keys seen so far and the
    dense ids [1 .. next_id - 1]; [graph_wf] adds that every resistor,
    capacitor and renamed id names a node. *)

From S2P Require Import Prelude.

Module NetData.

(** A node key [(layer, x, y)]. *)
Abbreviation NodeKey := (string * Z * Z)%type.

Record NetStore := mkNetStore {
  node_map : gmap NodeKey nat;
  id_coords : gmap nat NodeKey;
  resistors : list (nat * nat * Q);
  capacitors : list (nat * Q);
  renamed : gmap nat string;
  next_id : nat
}.

(** The default value of the [defaultdict]. *)
Definition empty_store : NetStore :=
  {| node_map := ∅; id_coords := ∅; resistors := []; capacitors := [];
     renamed := ∅; next_id := 1 |}.

(** [_get_node_id(net_store, layer, x, y)]: the id of the key if it is
    in the node map, otherwise [next_id], recorded in both tables, and
    [next_id] incremented. *)
Definition get_node_id (st : NetStore) (layer : string) (x y : Z) : nat * NetStore :=
  let key := (layer, x, y) in
  match node_map st !! key with
  | Some uid => (uid, st)
  | None =>
      let uid := next_id st in
      (uid, {| node_map := <[key:=uid]> (node_map st);
               id_coords := <[uid:=key]> (id_coords st);
               resistors := resistors st;
               capacitors := capacitors st;
               renamed := renamed st;
               next_id := S uid |})
  end.

(** [net_store['resistors'].append((n1, n2, val))] and the capacitor
    counterpart. *)
Definition add_resistor (st : NetStore) (n1 n2 : nat) (v : Q) : NetStore :=
  {| node_map := node_map st; id_coords := id_coords st;
     resistors := resistors st ++ [(n1, n2, v)];
     capacitors := capacitors st; renamed := renamed st;
     next_id := next_id st |}.

Definition add_capacitor (st : NetStore) (n : nat) (v : Q) : NetStore :=
  {| node_map := node_map st; id_coords := id_coords st;
     resistors := resistors st;
     capacitors := capacitors st ++ [(n, v)]; renamed := renamed st;
     next_id := next_id st |}.

(** [net_store['renamed'][nid] = name]. *)
Definition set_renamed (st : NetStore) (nid : nat) (name : string) : NetStore :=
  {| node_map := node_map st; id_coords := id_coords st;
     resistors := resistors st; capacitors := capacitors st;
     renamed := <[nid:=name]> (renamed st); next_id := next_id st |}.

(** A sequence of lookups, threading the store: the model of a run of
    [_get_node_id] calls. *)
Fixpoint get_node_ids (st : NetStore) (ks : list NodeKey) : list nat * NetStore :=
  match ks with
  | [] => ([], st)
  | (l, x, y) :: ks' =>
      let '(i, st1) := get_node_id st l x y in
      let '(ids, st2) := get_node_ids st1 ks' in
      (i :: ids, st2)
  end.

(** ** Invariants *)

(** The node map and the id table are inverse, and the ids in use are
    exactly [1 .. next_id - 1]. *)
Record ids_wf (st : NetStore) : Prop := {
  ids_inverse : forall k i, node_map st !! k = Some i <-> id_coords st !! i = Some k;
  ids_range : forall i k, id_coords st !! i = Some k -> (1 <= i < next_id st)%nat;
  ids_dense : forall i, (1 <= i < next_id st)%nat -> is_Some (id_coords st !! i);
  ids_next_pos : (1 <= next_id st)%nat;
}.

(** A node id of the store. *)
Definition is_node (st : NetStore) (i : nat) : Prop := is_Some (id_coords st !! i).

(** The graph invariant: the ids are well formed and every element of the
    graph names a node. *)
Record graph_wf (st : NetStore) : Prop := {
  graph_ids : ids_wf st;
  graph_res : forall a b v, (a, b, v) ∈ resistors st -> is_node st a /\ is_node st b;
  graph_cap : forall a v, (a, v) ∈ capacitors st -> is_node st a;
  graph_ren : forall a s, renamed st !! a = Some s -> is_node st a;
}.

(** The store [st'] extends [st]: every node of [st] keeps its id. *)
Definition store_le (st st' : NetStore) : Prop :=
  forall k i, node_map st !! k = Some i -> node_map st' !! k = Some i.

Ltac unfold_store :=
  unfold get_node_id, add_resistor, add_capacitor, set_renamed in *; simpl in *.

(** ** Lemmas on [get_node_id] *)

Lemma empty_store_graph_wf : graph_wf empty_store.
Proof.
  split; [split| | |]; simpl.
  - intros k i. rewrite !lookup_empty. split; discriminate.
  - intros i k H. rewrite lookup_empty in H. discriminate.
  - intros i Hi. lia.
  - lia.
  - intros a b v H. apply elem_of_nil in H. contradiction.
  - intros a v H. apply elem_of_nil in H. contradiction.
  - intros a s H. rewrite lookup_empty in H. discriminate.
Qed.

Lemma get_node_id_hit st l x y i :
  node_map st !! (l, x, y) = Some i -> get_node_id st l x y = (i, st).
Proof. intros H. unfold get_node_id. by rewrite H. Qed.

Lemma get_node_id_miss st l x y :
  node_map st !! (l, x, y) = None ->
  get_node_id st l x y =
    (next_id st, {| node_map := <[(l, x, y):=next_id st]> (node_map st);
                    id_coords := <[next_id st:=(l, x, y)]> (id_coords st);
                    resistors := resistors st; capacitors := capacitors st;
                    renamed := renamed st; next_id := S (next_id st) |}).
Proof. intros H. unfold get_node_id. by rewrite H. Qed.

(** A fresh id is not yet in the id table. *)
Lemma ids_wf_next_free st : ids_wf st -> id_coords st !! next_id st = None.
Proof.
  intros Hwf. destruct (id_coords st !! next_id st) as [k|] eqn:E; [|done].
  apply (ids_range _ Hwf) in E. lia.
Qed.

Lemma get_node_id_ids_wf st l x y :
  ids_wf st -> ids_wf (snd (get_node_id st l x y)).
Proof.
  intros Hwf. destruct (node_map st !! (l, x, y)) as [i|] eqn:E.
  - by rewrite (get_node_id_hit _ _ _ _ _ E).
  - rewrite (get_node_id_miss _ _ _ _ E). pose proof (ids_wf_next_free st Hwf) as Hfree.
    split; simpl.
    + intros k i. rewrite !lookup_insert.
      destruct (decide ((l, x, y) = k)) as [<-|Hk];
        destruct (decide (next_id st = i)) as [<-|Hi].
      * done.
      * split; [congruence|]. intros Hc. apply (ids_inverse _ Hwf) in Hc. congruence.
      * split; [|congruence]. intros Hc. apply (ids_inverse _ Hwf) in Hc. congruence.
      * apply (ids_inverse _ Hwf).
    + intros i k. rewrite lookup_insert. case_decide as Hi.
      * intros _. subst. pose proof (ids_next_pos _ Hwf). lia.
      * intros Hk. apply (ids_range _ Hwf) in Hk. lia.
    + intros i Hi. rewrite lookup_insert. case_decide; [done|].
      apply (ids_dense _ Hwf). lia.
    + pose proof (ids_next_pos _ Hwf). lia.
Qed.

Lemma get_node_id_le st l x y : store_le st (snd (get_node_id st l x y)).
Proof.
  intros k i Hk. destruct (node_map st !! (l, x, y)) as [j|] eqn:E.
  - by rewrite (get_node_id_hit _ _ _ _ _ E).
  - rewrite (get_node_id_miss _ _ _ _ E). simpl. rewrite lookup_insert_ne; [done|].
    intros <-. congruence.
Qed.

(** After the lookup the key maps to the returned id, in both tables. *)
Lemma get_node_id_lookup st l x y :
  ids_wf st ->
  node_map (snd (get_node_id st l x y)) !! (l, x, y) = Some (fst (get_node_id st l x y)).
Proof.
  intros Hwf. destruct (node_map st !! (l, x, y)) as [j|] eqn:E.
  - by rewrite (get_node_id_hit _ _ _ _ _ E).
  - rewrite (get_node_id_miss _ _ _ _ E). simpl. by rewrite lookup_insert_eq.
Qed.

Lemma store_le_refl st : store_le st st.
Proof. by intros k i. Qed.

Lemma store_le_trans st1 st2 st3 : store_le st1 st2 -> store_le st2 st3 -> store_le st1 st3.
Proof. intros H1 H2 k i Hk. auto. Qed.

(** Injectivity of the node map, from the inverse table. *)
Lemma ids_wf_inj st k1 k2 i :
  ids_wf st -> node_map st !! k1 = Some i -> node_map st !! k2 = Some i -> k1 = k2.
Proof.
  intros Hwf H1 H2. apply (ids_inverse _ Hwf) in H1, H2. congruence.
Qed.

(** The id table grows with the node map. *)
Lemma store_le_is_node st st' i :
  ids_wf st -> ids_wf st' -> store_le st st' -> is_node st i -> is_node st' i.
Proof.
  intros Hwf Hwf' Hle [k Hk]. apply (ids_inverse _ Hwf) in Hk.
  apply Hle, (ids_inverse _ Hwf') in Hk. by exists k.
Qed.

Lemma get_node_id_is_node st l x y :
  ids_wf st -> is_node (snd (get_node_id st l x y)) (fst (get_node_id st l x y)).
Proof.
  intros Hwf. exists (l, x, y). apply (ids_inverse _ (get_node_id_ids_wf _ l x y Hwf)).
  by apply get_node_id_lookup.
Qed.

(** A run of lookups keeps the invariant, extends the store, and returns
    for each key the id the final store maps it to. *)
Lemma get_node_ids_spec st ks :
  ids_wf st ->
  ids_wf (snd (get_node_ids st ks)) /\ store_le st (snd (get_node_ids st ks)) /\
  Forall2 (fun k n => node_map (snd (get_node_ids st ks)) !! k = Some n) ks
          (fst (get_node_ids st ks)).
Proof.
  revert st. induction ks as [|[[l x] y] ks IH]; intros st Hwf; simpl.
  - split_and!; [done | apply store_le_refl | constructor].
  - destruct (get_node_id st l x y) as [i st1] eqn:E1.
    assert (Hwf1 : ids_wf st1).
    { change st1 with (snd (i, st1)). rewrite <- E1. by apply get_node_id_ids_wf. }
    assert (Hle1 : store_le st st1).
    { change st1 with (snd (i, st1)). rewrite <- E1. apply get_node_id_le. }
    assert (Hk1 : node_map st1 !! (l, x, y) = Some i).
    { pose proof (get_node_id_lookup st l x y Hwf) as H. by rewrite E1 in H. }
    destruct (IH st1 Hwf1) as (Hwf2 & Hle2 & HF).
    destruct (get_node_ids st1 ks) as [ids st2]; simpl in *.
    split_and!; [done | by eapply store_le_trans | constructor; auto].
Qed.

(** ** The graph invariant under the operations *)

Lemma get_node_id_graph_wf st l x y : graph_wf st -> graph_wf (snd (get_node_id st l x y)).
Proof.
  intros Hg. pose proof (graph_ids _ Hg) as Hwf.
  pose proof (get_node_id_ids_wf st l x y Hwf) as Hwf'.
  pose proof (fun i => store_le_is_node _ _ i Hwf Hwf' (get_node_id_le st l x y)) as Hmono.
  assert (Hsame : resistors (snd (get_node_id st l x y)) = resistors st /\
                  capacitors (snd (get_node_id st l x y)) = capacitors st /\
                  renamed (snd (get_node_id st l x y)) = renamed st).
  { unfold get_node_id. by destruct (node_map st !! (l, x, y)). }
  destruct Hsame as (Hr & Hc & Hn).
  split; [done| | |]; rewrite ?Hr, ?Hc, ?Hn.
  - intros a b v Hab. destruct (graph_res _ Hg a b v Hab). auto.
  - intros a v Ha. eauto using graph_cap.
  - intros a s' Ha. eauto using graph_ren.
Qed.

(** [ids_wf] only reads the node map, the id table and [next_id]. *)
Lemma ids_wf_ext st st' :
  node_map st' = node_map st -> id_coords st' = id_coords st -> next_id st' = next_id st ->
  ids_wf st -> ids_wf st'.
Proof.
  intros Hn Hi Hx [Hinv Hr Hd Hp]. split; rewrite ?Hn, ?Hi, ?Hx; done.
Qed.

Lemma add_resistor_graph_wf st a b v :
  graph_wf st -> is_node st a -> is_node st b -> graph_wf (add_resistor st a b v).
Proof.
  intros Hg Ha Hb. destruct Hg as [Hwf Hres Hcap Hren].
  split; [by apply (ids_wf_ext st) | | exact Hcap | exact Hren].
  simpl. intros a' b' v' Hin. apply elem_of_app_singleton in Hin as [Hin|Hin]; [eauto|].
  by simplify_eq.
Qed.

Lemma add_capacitor_graph_wf st a v :
  graph_wf st -> is_node st a -> graph_wf (add_capacitor st a v).
Proof.
  intros Hg Ha. destruct Hg as [Hwf Hres Hcap Hren].
  split; [by apply (ids_wf_ext st) | exact Hres | | exact Hren].
  simpl. intros a' v' Hin. apply elem_of_app_singleton in Hin as [Hin|Hin]; [eauto|].
  by simplify_eq.
Qed.

Lemma set_renamed_graph_wf st a s :
  graph_wf st -> is_node st a -> graph_wf (set_renamed st a s).
Proof.
  intros Hg Ha. destruct Hg as [Hwf Hres Hcap Hren].
  split; [by apply (ids_wf_ext st) | exact Hres | exact Hcap |].
  simpl. intros a' s' Hin. rewrite lookup_insert in Hin. case_decide; [by subst|eauto].
Qed.

(** Everything a proof needs from one [get_node_id] step, read off its
    result. *)
Lemma get_node_id_step st l x y n st' :
  graph_wf st -> get_node_id st l x y = (n, st') ->
  graph_wf st' /\ store_le st st' /\ node_map st' !! (l, x, y) = Some n /\ is_node st' n /\
  resistors st' = resistors st /\ capacitors st' = capacitors st /\ renamed st' = renamed st.
Proof.
  intros Hg E. pose proof (graph_ids _ Hg) as Hwf.
  assert (resistors st' = resistors st /\ capacitors st' = capacitors st /\
          renamed st' = renamed st) as (Hr & Hc & Hn).
  { unfold get_node_id in E. destruct (node_map st !! (l, x, y)); by simplify_eq. }
  pose proof (get_node_id_graph_wf st l x y Hg) as H1.
  pose proof (get_node_id_le st l x y) as H2.
  pose proof (get_node_id_lookup st l x y Hwf) as H3.
  pose proof (get_node_id_is_node st l x y Hwf) as H4.
  rewrite E in H1, H2, H3, H4. auto 10.
Qed.

Lemma add_resistor_le st a b v : store_le st (add_resistor st a b v).
Proof. by intros k i. Qed.

Lemma add_capacitor_le st a v : store_le st (add_capacitor st a v).
Proof. by intros k i. Qed.

Lemma set_renamed_le st a s : store_le st (set_renamed st a s).
Proof. by intros k i. Qed.

#[export] Hint Resolve add_resistor_le add_capacitor_le set_renamed_le : pgrc.

#[export] Hint Resolve get_node_id_graph_wf add_resistor_graph_wf add_capacitor_graph_wf
  set_renamed_graph_wf graph_ids : pgrc.

#[export] Hint Resolve get_node_id_ids_wf get_node_id_le store_le_refl
  get_node_id_is_node : pgrc.

(** ** Node identity *)

(** C1. Node identity (spec section 8): along any sequence of
    [_get_node_id] calls on a well-formed store, two calls return the
    same id exactly when they look up the same (layer, x, y). *)
Theorem get_node_ids_identity (st : NetStore) (ks : list NodeKey) :
  ids_wf st ->
  forall i j k1 k2 n1 n2,
    ks !! i = Some k1 -> ks !! j = Some k2 ->
    fst (get_node_ids st ks) !! i = Some n1 -> fst (get_node_ids st ks) !! j = Some n2 ->
    n1 = n2 <-> k1 = k2.
Proof.
  intros Hwf i j k1 k2 n1 n2 Hi Hj Hn1 Hn2.
  destruct (get_node_ids_spec st ks Hwf) as (Hwf' & _ & HF).
  pose proof (Forall2_lookup_lr _ _ _ _ _ _ HF Hi Hn1) as H1.
  pose proof (Forall2_lookup_lr _ _ _ _ _ _ HF Hj Hn2) as H2.
  split.
  - intros ->. exact (ids_wf_inj _ _ _ _ Hwf' H1 H2).
  - intros ->. congruence.
Qed.

(** The identity theorem at a fresh store and four lookups, two of which
    repeat a key. *)
Lemma get_node_ids_identity_witness :
  ids_wf empty_store /\
  fst (get_node_ids empty_store [("M1", 0, 0); ("M2", 0, 0); ("M1", 0, 0); ("M1", 5, 0)])
    = [1%nat; 2%nat; 1%nat; 3%nat] /\
  (1%nat = 1%nat <-> ("M1", 0, 0) = ("M1", 0, 0)).
Proof.
  split; [exact (graph_ids _ empty_store_graph_wf)|]. split; [reflexivity|].
  apply (get_node_ids_identity empty_store
           [("M1", 0, 0); ("M2", 0, 0); ("M1", 0, 0); ("M1", 5, 0)]
           (graph_ids _ empty_store_graph_wf) 0 2); reflexivity.
Defined.

End NetData.
