(* ===== verification/Layers.v ===== *)
(** * Layer succession: [_get_next_layer] and its cache, [sort_key]

    [RCExtractor._get_next_layer] (extractor.py, lines 408-416) finds the
    leftmost match of the regular expression [M(\d+)] in a layer name and
    returns ["M" + str(int(group) + 1)], memoised in [layer_map_cache];
    without a match it returns [layer + "_TOP"] and caches nothing.  The
    search is written out on strings: [search_M_digits] returns the
    digits of the leftmost match.  [Generator._generate_stripes_and_vias]
    orders the layers by [sort_key] (generator.py, lines 199-206), the
    first run of digits anywhere in the name, or 999, and pairs each layer
    with the next one of that order; [sorted_layers] and [layer_pairs]
    model that. *)

From S2P Require Import Prelude PyStr.
From Stdlib Require Import Ascii.

Local Open Scope string_scope.

Module LayerMap.

(** The maximal run of decimal digits at the head of a string ([\d+],
    greedy). *)
Fixpoint digit_prefix (s : string) : string :=
  match s with
  | String c r => if is_dec_digit c then String c (digit_prefix r) else EmptyString
  | EmptyString => EmptyString
  end.

(** [re.search(r'M(\d+)', layer)]: the group of the leftmost match. *)
Fixpoint search_M_digits (s : string) : option string :=
  match s with
  | EmptyString => None
  | String c r =>
      if Ascii.eqb c "M" then
        match digit_prefix r with
        | EmptyString => search_M_digits r
        | ds => Some ds
        end
      else search_M_digits r
  end.

(** [re.search(r'(\d+)', lname)]: the leftmost run of digits. *)
Fixpoint search_digits (s : string) : option string :=
  match s with
  | EmptyString => None
  | String c r => if is_dec_digit c then Some (digit_prefix s) else search_digits r
  end.

(** The uncached body of [_get_next_layer]: [int(match.group(1))] cannot
    fail on a run of digits, its default is never taken. *)
Definition next_layer (layer : string) : string :=
  match search_M_digits layer with
  | Some ds => "M" ++ py_str_Z (default 0 (py_int ds) + 1)
  | None => layer ++ "_TOP"
  end.

(** [_get_next_layer] with the cache threaded: a cached name is returned
    as is, a computed [M<n+1>] is cached, a [_TOP] name is not. *)
Definition get_next_layer (cache : gmap string string) (layer : string)
  : string * gmap string string :=
  match cache !! layer with
  | Some res => (res, cache)
  | None =>
      match search_M_digits layer with
      | Some ds =>
          let res := "M" ++ py_str_Z (default 0 (py_int ds) + 1) in
          (res, <[layer:=res]> cache)
      | None => (layer ++ "_TOP", cache)
      end
  end.

(** [sort_key(lname)] of the generator. *)
Definition sort_key (lname : string) : Z :=
  match search_digits lname with
  | Some ds => default 0 (py_int ds)
  | None => 999
  end.

Definition key_le (a b : string) : Prop := sort_key a <= sort_key b.

#[export] Instance key_le_dec : RelDecision key_le.
Proof. intros a b. unfold key_le. apply _. Defined.

(** [sorted(layers, key=sort_key)]: a stable sort on the key. *)
Definition sorted_layers (layers : list string) : list string :=
  merge_sort key_le layers.

(** [(sorted_layers[i], sorted_layers[i+1])] for [i] in
    [range(len(sorted_layers) - 1)]. *)
Fixpoint adjacent_pairs {A} (l : list A) : list (A * A) :=
  match l with
  | x :: ((y :: _) as r) => (x, y) :: adjacent_pairs r
  | _ => []
  end.

Definition layer_pairs (layers : list string) : list (string * string) :=
  adjacent_pairs (sorted_layers layers).

(** Every cached entry is the uncached value. *)
Definition cache_ok (cache : gmap string string) : Prop :=
  forall l r, cache !! l = Some r -> r = next_layer l.

(** ** Lemmas *)

Lemma digit_prefix_all s : all_chars is_dec_digit s = true -> digit_prefix s = s.
Proof.
  induction s as [|c r IH]; simpl; [done|]. intros H. apply andb_prop in H as [Hc Hr].
  by rewrite Hc, IH.
Qed.

Lemma cache_ok_empty : cache_ok ∅.
Proof. intros l r H. by rewrite lookup_empty in H. Qed.

Lemma get_next_layer_cache_ok cache layer :
  cache_ok cache -> cache_ok (snd (get_next_layer cache layer)).
Proof.
  intros Hok. unfold get_next_layer.
  destruct (cache !! layer) as [r|] eqn:E; [done|].
  destruct (search_M_digits layer) as [ds|] eqn:Es; simpl; [|done].
  intros l r. rewrite lookup_insert. case_decide as Hl.
  - intros [= <-]. subst. unfold next_layer. by rewrite Es.
  - apply Hok.
Qed.

#[export] Hint Resolve cache_ok_empty get_next_layer_cache_ok : pgrc.

(** From a coherent cache, the cached function returns the uncached value. *)
Lemma get_next_layer_fst cache layer :
  cache_ok cache -> fst (get_next_layer cache layer) = next_layer layer.
Proof.
  intros Hok. unfold get_next_layer. destruct (cache !! layer) as [r|] eqn:E.
  - by apply Hok.
  - unfold next_layer. by destruct (search_M_digits layer).
Qed.

(** C5. The cache of [_get_next_layer] is transparent: from a coherent
    cache, the cached function returns the value of the uncached body and
    leaves a coherent cache. *)
Theorem get_next_layer_refines (cache : gmap string string) (layer : string) :
  cache_ok cache ->
  fst (get_next_layer cache layer) = next_layer layer /\
  cache_ok (snd (get_next_layer cache layer)).
Proof.
  intros Hok. split; [by apply get_next_layer_fst|by apply get_next_layer_cache_ok].
Qed.

(** The refinement at a cache that already holds [M1 -> M2], on a layer
    that is not cached. *)
Lemma get_next_layer_refines_witness :
  cache_ok {[ "M1" := "M2" ]} /\ fst (get_next_layer {[ "M1" := "M2" ]} "M7") = "M8".
Proof.
  assert (Hok : cache_ok {[ "M1" := "M2" ]}).
  { intros l r. rewrite lookup_singleton. case_decide as Hl; [|done].
    intros [= <-]. subst. reflexivity. }
  split; [exact Hok|].
  rewrite (proj1 (get_next_layer_refines _ "M7" Hok)). reflexivity.
Defined.

(** The names [M<n>] step to [M<n+1>]. *)
Theorem next_layer_metal (n : Z) :
  0 <= n -> next_layer ("M" ++ py_str_Z n) = "M" ++ py_str_Z (n + 1).
Proof.
  intros Hn. unfold next_layer.
  assert (Hd : all_chars is_dec_digit (py_str_Z n) = true).
  { unfold py_str_Z. destruct n as [|p|p]; [done| apply string_of_uint_digits | lia]. }
  assert (Hne : py_str_Z n <> EmptyString).
  { unfold py_str_Z. destruct n as [|p|p]; [done| |lia]. simpl.
    pose proof (DecimalPos.Unsigned.to_uint_nonnil p). by destruct (Pos.to_uint p). }
  assert (Hs : search_M_digits ("M" ++ py_str_Z n) = Some (py_str_Z n)).
  { simpl. rewrite digit_prefix_all by done. by destruct (py_str_Z n). }
  by rewrite Hs, py_int_str.
Qed.

Lemma next_layer_metal_witness : (0 <= 9)%Z /\ next_layer "M9" = "M10".
Proof. split; [lia|]. apply (next_layer_metal 9). lia. Defined.

End LayerMap.
