(* ===== verification/Geometry.v ===== *)
(** * The generator's output, as the extractor reads it

    The dicts that [Generator] appends to [self.wires], [self.vias],
    [self.pins] and [self.instances] (generator.py, lines 181-184, 225,
    270-295, 336), as records with the fields the code reads, and the
    [tech_properties] section of the configuration with the two getters
    of [RCExtractor] (extractor.py, lines 398-406).  A float parameter of
    the configuration is a rational. *)

From S2P Require Import Prelude.

Local Open Scope string_scope.

Module Geom.

(** [w['orient']]: the generator writes ['H'] or ['V'], and the extractor
    tests [orient == 'H'] and treats anything else as vertical. *)
Inductive orient := OH | OV.

#[export] Instance orient_eq_dec : EqDecision orient.
Proof. solve_decision. Defined.

(** A rectangle [(x1, y1, x2, y2)]. *)
Abbreviation rect := (Z * Z * Z * Z)%type.

Definition rx1 (r : rect) : Z := r.1.1.1.
Definition ry1 (r : rect) : Z := r.1.1.2.
Definition rx2 (r : rect) : Z := r.1.2.
Definition ry2 (r : rect) : Z := r.2.

(** A wire: [{'rect', 'layer', 'net', 'orient', 'center', 'width'}]. *)
Record wire := mkWire {
  w_rect : rect; w_layer : string; w_net : string;
  w_orient : orient; w_center : Z; w_width : Z
}.

(** A via: [{'pos', 'name', 'net', 'bot_layer'}]. *)
Record via := mkVia {
  v_pos : Z * Z; v_name : string; v_net : string; v_bot_layer : string
}.

(** A physical pin of an instance: [{'name', 'net', 'layer', 'center',
    'rect'}]. *)
Record phys_pin := mkPhysPin {
  pp_name : string; pp_net : string; pp_layer : string;
  pp_center : Z * Z; pp_rect : rect
}.

(** An instance: [{'name', 'master', 'pos', 'orient', 'rect',
    'physical_pins'}]. *)
Record instance := mkInstance {
  i_name : string; i_master : string; i_pos : Z * Z;
  i_physical_pins : list phys_pin
}.

(** A top-level pin (a port): [{'name', 'net', 'layer', 'pos', 'orient',
    'rect'}]. *)
Record gen_pin := mkGenPin {
  p_name : string; p_net : string; p_layer : string; p_pos : Z * Z; p_rect : rect
}.

(** The generator's lists and [nets_used]; [nets_used] is a Python set,
    iterated in an order the model takes as given. *)
Record gen_out := mkGenOut {
  g_wires : list wire; g_vias : list via; g_pins : list gen_pin;
  g_instances : list instance; g_nets_used : list string
}.

(** [config['tech_properties']]: its ['layers'] and ['vias'] sections,
    [None] when the key is absent, each a map from a name to its
    parameters. *)
Record tech_props := mkTechProps {
  tp_layers : option (gmap string (gmap string Q));
  tp_vias : option (gmap string (gmap string Q))
}.

(** [_get_layer_param] and [_get_via_param]: the parameter of the named
    layer or via when the section and the name exist, with the default
    of [.get(key, default)] otherwise. *)
Definition get_param (sect : option (gmap string (gmap string Q))) (name key : string)
    (dflt : Q) : Q :=
  match sect with
  | Some m =>
      match m !! name with
      | Some ps => default dflt (ps !! key)
      | None => dflt
      end
  | None => dflt
  end.

Definition get_layer_param (tp : tech_props) (layer key : string) (dflt : Q) : Q :=
  get_param (tp_layers tp) layer key dflt.

Definition get_via_param (tp : tech_props) (via_name key : string) (dflt : Q) : Q :=
  get_param (tp_vias tp) via_name key dflt.

End Geom.
