(* ===== verification/Generator.v ===== *)
(** * The generator: [Generator] (generator.py)

    [Generator.run] (lines 121-137 of the installer) reads the
    configuration and fills [self.wires], [self.vias], [self.instances]
    and [self.pins].  This file models the configuration as records,
    [_to_dbu], the stripe loops of [_generate_stripes_and_vias] (lines
    150-198) with the spatial index they fill, the via loops (lines
    200-232), [_generate_instances_snapped] (lines 234-295) and
    [_generate_pins_area] with [_create_pin] (lines 297-328).  The
    [while] loops over coordinates do not terminate when their step is
    not positive; they are recursions on fuel whose result is [None] when
    the fuel runs out, and the fuel the model gives each loop is enough
    whenever the step is positive. *)

From Stdlib Require Import Qround Ascii.
From S2P Require Import Prelude PyStr Layers Geometry.

Local Open Scope string_scope.

Module Gen.
Import LayerMap Geom.

(** ** The configuration *)

(** An entry of [net['layers']]: [name], [direction] (absent or a
    string), [offset], [pitch] and [width] in microns (with the defaults
    [0], [1.0] and [0.1] of [.get]). *)
Record layer_rule := mkLayerRule {
  lr_name : string; lr_direction : option string;
  lr_offset : Q; lr_pitch : Q; lr_width : Q
}.

(** [net['pin_config']]: [layer] (default ['M9']) and [interval]
    (default [50.0]). *)
Record pin_cfg := mkPinCfg { pc_layer : string; pc_interval : Q }.

Record net_cfg := mkNetCfg {
  nc_name : string; nc_layers : list layer_rule; nc_pin_config : option pin_cfg
}.

(** [config['die_area']] in microns. *)
Record die_area := mkDieArea { da_llx : Q; da_lly : Q; da_urx : Q; da_ury : Q }.

(** [config['instance_placement']] with the defaults of its [.get]s:
    [rail_layer] ['M1'], [master] ['std_cell'], [count] [10],
    [width_um] [5.0], and the [pin_map]'s [power_nets] and
    [ground_nets]. *)
Record inst_cfg := mkInstCfg {
  ic_rail_layer : string; ic_master : string; ic_count : Z; ic_width_um : Q;
  ic_power_nets : list string; ic_ground_nets : list string
}.

(** ** [_to_dbu] *)

(** Python's [round] of a float: to the nearest integer, ties to even. *)
Definition py_round (q : Q) : Z :=
  let fl := Qfloor q in
  let r := (q - inject_Z fl)%Q in
  match Qcompare r (1 # 2) with
  | Lt => fl
  | Gt => fl + 1
  | Eq => if Z.even fl then fl else fl + 1
  end.

(** [int(round(val_microns * self.tech.units))]. *)
Definition to_dbu (units : Z) (v : Q) : Z := py_round (v * inject_Z units).

(** ** The stripes *)

(** [spatial_index[layer][net]]: the centers of the horizontal and of
    the vertical stripes. *)
Record hv := mkHV { hv_h : gset Z; hv_v : gset Z }.

Abbreviation sindex := (gmap string (gmap string hv)).

Definition hv_empty : hv := mkHV ∅ ∅.

(** [spatial_index[l][net][orient].add(c)] on the nested [defaultdict]. *)
Definition index_add (idx : sindex) (l net : string) (o : orient) (c : Z) : sindex :=
  let m := default ∅ (idx !! l) in
  let s := default hv_empty (m !! net) in
  let s' := match o with
            | OH => mkHV ({[c]} ∪ hv_h s) (hv_v s)
            | OV => mkHV (hv_h s) ({[c]} ∪ hv_v s)
            end in
  <[l := <[net := s']> m]> idx.

(** The die in database units. *)
Record die := mkDie { d_llx : Z; d_lly : Z; d_urx : Z; d_ury : Z }.

(** The stripe of one layer rule at [c]: its rectangle, and the wire
    dict appended to [self.wires]. *)
Definition stripe (dd : die) (l net : string) (o : orient) (width c : Z) : wire :=
  let half_w := width / 2 in
  let r := match o with
           | OH => (d_llx dd, c - half_w, d_urx dd, c + half_w)
           | OV => (c - half_w, d_lly dd, c + half_w, d_ury dd)
           end in
  {| w_rect := r; w_layer := l; w_net := net; w_orient := o; w_center := c; w_width := width |}.

(** ** The [while] loops over a coordinate *)

(** [while curr < stop: body(curr); curr += step], with [fuel] iterations
    at most: [None] when the fuel runs out before the test fails. *)
Fixpoint zloop {A} (fuel : nat) (step stop : Z) (body : Z -> A -> A) (curr : Z) (s : A) : option A :=
  match fuel with
  | O => None
  | S f => if (curr <? stop)%Z then zloop f step stop body (curr + step) (body curr s) else Some s
  end.

(** The fuel the model gives a loop from [curr] to [stop]: one more than
    the distance, which a positive integer step cannot exceed. *)
Definition zloop_fuel (curr stop : Z) : nat := S (Z.to_nat (stop - curr)).

(** The number of iterations of a loop with a positive step,
    [ceil((stop - curr) / step)] when positive. *)
Definition loop_iters (curr stop step : Z) : nat := Z.to_nat (py_ceil_div (stop - curr) step).

(** The [n] values [curr], [curr + step], ... the loop variable takes. *)
Fixpoint loop_points (n : nat) (curr step : Z) : list Z :=
  match n with
  | O => []
  | S n' => curr :: loop_points n' (curr + step) step
  end.

(** ** The stripes *)

(** [dir_setting.upper().startswith('V')] when [dir_setting] is truthy. *)
Definition is_horiz_of (d : option string) : bool :=
  match d with
  | Some (String c _) => negb (bool_decide (c = "V"%char) || bool_decide (c = "v"%char))
  | _ => true
  end.

(** The generator's state: its lists and maps and sets. *)
Inductive net_type := POWER | GROUND.

Record gen_state := mkGenState {
  gs_wires : list wire; gs_vias : list via; gs_pins : list gen_pin;
  gs_instances : list instance;
  gs_net_conn_map : gmap string (list string);
  gs_net_type_map : gmap string net_type;
  gs_layers_used : gset string; gs_vias_used : gset string; gs_nets_used : gset string
}.

(** The state after [run]'s [clear()] calls. *)
Definition gen_init : gen_state := mkGenState [] [] [] [] ∅ ∅ ∅ ∅ ∅.

Definition add_wire (st : gen_state) (w : wire) : gen_state :=
  mkGenState (gs_wires st ++ [w]) (gs_vias st) (gs_pins st) (gs_instances st)
    (gs_net_conn_map st) (gs_net_type_map st) (gs_layers_used st) (gs_vias_used st) (gs_nets_used st).

Definition use_layer (st : gen_state) (l : string) : gen_state :=
  mkGenState (gs_wires st) (gs_vias st) (gs_pins st) (gs_instances st)
    (gs_net_conn_map st) (gs_net_type_map st) ({[l]} ∪ gs_layers_used st) (gs_vias_used st) (gs_nets_used st).

(** [self.nets_used.add(net_name)] and
    [if net_name not in self.net_conn_map: self.net_conn_map[net_name] = []]. *)
Definition use_net (st : gen_state) (n : string) : gen_state :=
  mkGenState (gs_wires st) (gs_vias st) (gs_pins st) (gs_instances st)
    (match gs_net_conn_map st !! n with Some _ => gs_net_conn_map st | None => <[n:=[]]> (gs_net_conn_map st) end)
    (gs_net_type_map st) (gs_layers_used st) (gs_vias_used st) ({[n]} ∪ gs_nets_used st).

(** The body of a stripe loop: append the wire, add its center to the
    index. *)
Definition stripe_step (dd : die) (l net : string) (o : orient) (width : Z)
    (c : Z) (p : gen_state * sindex) : gen_state * sindex :=
  (add_wire p.1 (stripe dd l net o width c), index_add p.2 l net o c).

(** One entry of [net['layers']] (lines 164-196). *)
Definition gen_layer_rule (units : Z) (dd : die) (net : string) (lr : layer_rule)
    (p : gen_state * sindex) : option (gen_state * sindex) :=
  let l := lr_name lr in
  let p := (use_layer p.1 l, p.2) in
  let offset := to_dbu units (lr_offset lr) in
  let pitch := to_dbu units (lr_pitch lr) in
  let width := to_dbu units (lr_width lr) in
  if is_horiz_of (lr_direction lr) then
    zloop (zloop_fuel (d_lly dd + offset) (d_ury dd)) pitch (d_ury dd)
      (stripe_step dd l net OH width) (d_lly dd + offset) p
  else
    zloop (zloop_fuel (d_llx dd + offset) (d_urx dd)) pitch (d_urx dd)
      (stripe_step dd l net OV width) (d_llx dd + offset) p.

(** [for x in l: f(x)] where a body can diverge. *)
Fixpoint for_opt {A B} (f : B -> A -> option A) (l : list B) (a : A) : option A :=
  match l with
  | [] => Some a
  | x :: r => a' ← f x a; for_opt f r a'
  end.

(** One net of [nets_cfg] (lines 158-196). *)
Definition gen_net_stripes (units : Z) (dd : die) (n : net_cfg) (p : gen_state * sindex)
  : option (gen_state * sindex) :=
  for_opt (gen_layer_rule units dd (nc_name n)) (nc_layers n) (use_net p.1 (nc_name n), p.2).

(** The wire loop of [_generate_stripes_and_vias], from an empty index. *)
Definition gen_stripes (units : Z) (dd : die) (nets : list net_cfg) (st : gen_state)
  : option (gen_state * sindex) :=
  for_opt (gen_net_stripes units dd) nets (st, ∅).

(** ** The vias *)

(** [f"VIA{b_idx}{t_idx}"]. *)
Definition via_name (bot top : string) : string :=
  "VIA" ++ py_str_Z (sort_key bot) ++ py_str_Z (sort_key top).

(** [self.vias.append(...)] and [self.vias_used.add(via_name)]. *)
Definition add_via (st : gen_state) (v : via) : gen_state :=
  mkGenState (gs_wires st) (gs_vias st ++ [v]) (gs_pins st) (gs_instances st)
    (gs_net_conn_map st) (gs_net_type_map st) (gs_layers_used st) ({[v_name v]} ∪ gs_vias_used st)
    (gs_nets_used st).

(** [for a in as_: for b in bs: self.vias.append({'pos': mk a b, ...})];
    a Python set is iterated in an order the model takes from
    [elements]. *)
Definition via_grid (name net bot : string) (mk : Z -> Z -> Z * Z) (as_ bs : gset Z)
    (st : gen_state) : gen_state :=
  fold_left (fun st a => fold_left (fun st b => add_via st (mkVia (mk a b) name net bot))
                           (elements bs) st) (elements as_) st.

Definition nonempty (s : gset Z) : bool := negb (bool_decide (s = ∅)).

(** One net of [common_nets] (lines 218-232): the crossings of the
    horizontal stripes of [bot] with the vertical ones of [top], then of
    the vertical stripes of [bot] with the horizontal ones of [top]. *)
Definition gen_vias_net (mb mt : gmap string hv) (bot name : string) (st : gen_state) (net : string)
  : gen_state :=
  let bs := default hv_empty (mb !! net) in
  let ts := default hv_empty (mt !! net) in
  let st := if nonempty (hv_h bs) && nonempty (hv_v ts)
            then via_grid name net bot (fun y x => (x, y)) (hv_h bs) (hv_v ts) st else st in
  if nonempty (hv_v bs) && nonempty (hv_h ts)
  then via_grid name net bot (fun x y => (x, y)) (hv_v bs) (hv_h ts) st else st.

(** One pair [(bot, top)] of adjacent layers (lines 209-232). *)
Definition gen_vias_pair (idx : sindex) (st : gen_state) (pr : string * string) : gen_state :=
  let '(bot, top) := pr in
  match idx !! bot, idx !! top with
  | Some mb, Some mt =>
      fold_left (gen_vias_net mb mt bot (via_name bot top)) (elements (dom mb ∩ dom mt)) st
  | _, _ => st
  end.

(** The via loop over the layers of [tech_properties['layers']] when the
    configuration has it, of the LEF otherwise, sorted by [sort_key]. *)
Definition gen_vias (layers : list string) (idx : sindex) (st : gen_state) : gen_state :=
  fold_left (gen_vias_pair idx) (layer_pairs layers) st.

(** ** The instances *)

(** [[w for w in self.wires if w['layer'] == rail_layer and
    w['orient'] == 'H']]. *)
Definition is_rail (rail_layer : string) (w : wire) : bool :=
  bool_decide (w_layer w = rail_layer) && bool_decide (w_orient w = OH).

Definition center_le (a b : wire) : Prop := w_center a <= w_center b.

#[export] Instance center_le_dec : RelDecision center_le.
Proof. intros a b. unfold center_le. apply _. Defined.

(** [rails.sort(key=lambda w: w['center'])], a stable sort. *)
Definition rails_of (rail_layer : string) (ws : list wire) : list wire :=
  merge_sort center_le (List.filter (is_rail rail_layer) ws).

(** The physical pin of an instance at [place_x] on rail [r]. *)
Definition rail_pin (rail_layer : string) (inst_width place_x : Z) (r : wire) : phys_pin :=
  {| pp_name := w_net r; pp_net := w_net r; pp_layer := rail_layer;
     pp_center := (place_x + inst_width / 2, w_center r);
     pp_rect := (place_x, w_center r - w_width r / 2, place_x + inst_width, w_center r + w_width r / 2) |}.

(** [self.net_conn_map.setdefault(net, []).append(s)]. *)
Definition conn_add (m : gmap string (list string)) (net s : string) : gmap string (list string) :=
  <[net := (default [] (m !! net) ++ [s])%list]> m.

(** [self.instances.append(...)] and the [net_conn_map] entries of its
    pins. *)
Definition add_instance (st : gen_state) (i : instance) : gen_state :=
  mkGenState (gs_wires st) (gs_vias st) (gs_pins st) (gs_instances st ++ [i])
    (fold_left (fun m p => conn_add m (pp_net p) (i_name i ++ " " ++ pp_name p)) (i_physical_pins i)
       (gs_net_conn_map st))
    (gs_net_type_map st) (gs_layers_used st) (gs_vias_used st) (gs_nets_used st).

(** The instance [cell_<cnt>] at [place_x] in the row between [bot] and
    [top]. *)
Definition row_cell (rail_layer master : string) (inst_width : Z) (bot top : wire) (place_x cnt : Z) : instance :=
  {| i_name := "cell_" ++ py_str_Z cnt; i_master := master; i_pos := (place_x, w_center bot);
     i_physical_pins := [rail_pin rail_layer inst_width place_x bot; rail_pin rail_layer inst_width place_x top] |}.

(** [while current_x + inst_width < die_urx and cnt < inst_count] (lines
    263-295): the count after the row and the state. *)
Fixpoint row_loop (fuel : nat) (rail_layer master : string) (count inst_width die_urx : Z)
    (bot top : wire) (current_x cnt : Z) (st : gen_state) : Z * gen_state :=
  match fuel with
  | O => (cnt, st)
  | S f =>
      if (current_x + inst_width <? die_urx)%Z && (cnt <? count)%Z then
        row_loop f rail_layer master count inst_width die_urx bot top (current_x + inst_width + 2000) (cnt + 1)
          (add_instance st (row_cell rail_layer master inst_width bot top current_x cnt))
      else (cnt, st)
  end.

(** [for i in range(len(rails) - 1)] (lines 252-263): stop once [cnt]
    reaches the count, skip a pair of rails of one net, start each row at
    [die_llx + 1000]; the row loop's fuel is [count - cnt], the bound its
    test [cnt < inst_count] sets. *)
Fixpoint rows_loop (rail_layer master : string) (count inst_width die_llx die_urx : Z)
    (pairs : list (wire * wire)) (cnt : Z) (st : gen_state) : gen_state :=
  match pairs with
  | [] => st
  | (bot, top) :: r =>
      if (count <=? cnt)%Z then st
      else if bool_decide (w_net bot = w_net top) then
        rows_loop rail_layer master count inst_width die_llx die_urx r cnt st
      else
        let '(cnt', st') := row_loop (Z.to_nat (count - cnt)) rail_layer master count inst_width die_urx
                              bot top (die_llx + 1000) cnt st in
        rows_loop rail_layer master count inst_width die_llx die_urx r cnt' st'
  end.

(** The [n] cells a row loop places from [current_x] and [cnt]. *)
Fixpoint row_cells (n : nat) (rail_layer master : string) (inst_width : Z) (bot top : wire)
    (current_x cnt : Z) : list instance :=
  match n with
  | O => []
  | S n' => row_cell rail_layer master inst_width bot top current_x cnt
              :: row_cells n' rail_layer master inst_width bot top (current_x + inst_width + 2000) (cnt + 1)
  end.

(** [_to_dbu] of the four corners of the die. *)
Definition die_of (units : Z) (da : die_area) : die :=
  mkDie (to_dbu units (da_llx da)) (to_dbu units (da_lly da)) (to_dbu units (da_urx da)) (to_dbu units (da_ury da)).

(** [_generate_instances_snapped] (lines 234-295). *)
Definition gen_instances (units : Z) (da : die_area) (ic : option inst_cfg) (st : gen_state) : gen_state :=
  match ic with
  | None => st
  | Some ic =>
      match rails_of (ic_rail_layer ic) (gs_wires st) with
      | [] => st
      | rails =>
          rows_loop (ic_rail_layer ic) (ic_master ic) (ic_count ic) (to_dbu units (ic_width_um ic))
            (d_llx (die_of units da)) (d_urx (die_of units da)) (adjacent_pairs rails) 0 st
      end
  end.

(** ** The pins *)

Definition add_pin (st : gen_state) (p : gen_pin) : gen_state :=
  mkGenState (gs_wires st) (gs_vias st) (gs_pins st ++ [p]) (gs_instances st)
    (gs_net_conn_map st) (gs_net_type_map st) (gs_layers_used st) (gs_vias_used st) (gs_nets_used st).

(** [_create_pin] (lines 329-336): a square pin as thick as the wire. *)
Definition create_pin (net layer : string) (w : wire) (cx cy : Z) : gen_pin :=
  let r := w_rect w in
  let half := if bool_decide (w_orient w = OH) then (ry2 r - ry1 r) / 2 else (rx2 r - rx1 r) / 2 in
  {| p_name := net ++ "_PIN_" ++ layer ++ "_" ++ py_str_Z cx ++ "_" ++ py_str_Z cy;
     p_net := net; p_layer := layer; p_pos := (cx, cy);
     p_rect := (cx - half, cy - half, cx + half, cy + half) |}.

(** The pins along one wire (lines 313-327): every [interval] from
    [interval // 2] past its start, skipping a wire of no length. *)
Definition pins_wire (net layer : string) (interval : Z) (w : wire) (st : gen_state) : option gen_state :=
  let r := w_rect w in
  match w_orient w with
  | OH =>
      if (rx2 r - rx1 r <=? 0)%Z then Some st
      else zloop (zloop_fuel (rx1 r + interval / 2) (rx2 r)) interval (rx2 r)
             (fun x st => add_pin st (create_pin net layer w x (w_center w))) (rx1 r + interval / 2) st
  | OV =>
      if (ry2 r - ry1 r <=? 0)%Z then Some st
      else zloop (zloop_fuel (ry1 r + interval / 2) (ry2 r)) interval (ry2 r)
             (fun y st => add_pin st (create_pin net layer w (w_center w) y)) (ry1 r + interval / 2) st
  end.

(** One net of [_generate_pins_area] (lines 304-327): nothing without a
    [pin_config], else the pins along each wire of the net on the target
    layer. *)
Definition gen_pins_net (units : Z) (n : net_cfg) (st : gen_state) : option gen_state :=
  match nc_pin_config n with
  | None => Some st
  | Some pc =>
      let ws := List.filter (fun w => bool_decide (w_net w = nc_name n) && bool_decide (w_layer w = pc_layer pc))
                  (gs_wires st) in
      for_opt (pins_wire (nc_name n) (pc_layer pc) (to_dbu units (pc_interval pc))) ws st
  end.

Definition gen_pins (units : Z) (nets : list net_cfg) (st : gen_state) : option gen_state :=
  for_opt (gen_pins_net units) nets st.

(** ** [_analyze_net_types] and [run] *)

Definition set_net_type (st : gen_state) (n : string) (ty : net_type) : gen_state :=
  mkGenState (gs_wires st) (gs_vias st) (gs_pins st) (gs_instances st)
    (gs_net_conn_map st) (<[n:=ty]> (gs_net_type_map st)) (gs_layers_used st) (gs_vias_used st) (gs_nets_used st).

(** [POWER] for a power net, [GROUND] for a ground net that is not a
    power net, [POWER] otherwise. *)
Definition net_type_of (pwr gnd : list string) (n : string) : net_type :=
  if bool_decide (n ∈ pwr) then POWER else if bool_decide (n ∈ gnd) then GROUND else POWER.

(** [_analyze_net_types] (lines 137-146), with the default lists of the
    [pin_map]. *)
Definition analyze_net_types (ic : option inst_cfg) (nets : list net_cfg) (st : gen_state) : gen_state :=
  let pwr := match ic with Some ic => ic_power_nets ic | None => ["VDD"; "VDDR"] end in
  let gnd := match ic with Some ic => ic_ground_nets ic | None => ["VSS"; "VSS2"] end in
  fold_left (fun st n => set_net_type st (nc_name n) (net_type_of pwr gnd (nc_name n))) nets st.

(** The parsed LEF: [units] and the layer names in file order. *)
Record tech_lef := mkTechLef { tl_units : Z; tl_layers : list string }.

(** The configuration: the keys of [tech_properties['layers']] in file
    order (when present), [die_area] (absent or empty: [None]), [nets]
    and [instance_placement] (absent or empty: [None]). *)
Record config := mkConfig {
  cfg_tech_layers : option (list string); cfg_die_area : option die_area;
  cfg_nets : list net_cfg; cfg_instance_placement : option inst_cfg
}.

(** [Generator.run] (lines 121-135): [None] when a loop does not
    terminate. *)
Definition gen_run (tech : tech_lef) (c : config) : option gen_state :=
  match cfg_die_area c with
  | None => Some gen_init
  | Some da =>
      let units := tl_units tech in
      let st := analyze_net_types (cfg_instance_placement c) (cfg_nets c) gen_init in
      p ← gen_stripes units (die_of units da) (cfg_nets c) st;
      let st := gen_vias (default (tl_layers tech) (cfg_tech_layers c)) p.2 p.1 in
      let st := gen_instances units da (cfg_instance_placement c) st in
      gen_pins units (cfg_nets c) st
  end.

(** The lists the extractor reads. *)
Definition to_gen_out (st : gen_state) : gen_out :=
  {| g_wires := gs_wires st; g_vias := gs_vias st; g_pins := gs_pins st;
     g_instances := gs_instances st; g_nets_used := elements (gs_nets_used st) |}.

(** ** The spatial index *)

(** The centers [spatial_index[l][net][o]] holds (empty when absent). *)
Definition hv_of (idx : sindex) (l net : string) : hv := default hv_empty (default ∅ (idx !! l) !! net).

Definition centers (h : hv) (o : orient) : gset Z :=
  match o with OH => hv_h h | OV => hv_v h end.

(** The index holds the centers of the wires, by layer, net and
    orientation. *)
Definition index_ok (idx : sindex) (ws : list wire) : Prop :=
  forall l net o c, c ∈ centers (hv_of idx l net) o <->
    exists w, w ∈ ws /\ w_layer w = l /\ w_net w = net /\ w_orient w = o /\ w_center w = c.

(** The vias [gen_vias_pair] places between [bot] and [top]: named
    after the pair, on [bot], at a crossing of a horizontal center of one
    layer with a vertical center of the other, for the via's net. *)
Definition pair_via (idx : sindex) (bot top : string) (v : via) : Prop :=
  v_name v = via_name bot top /\ v_bot_layer v = bot /\
  (((v_pos v).2 ∈ hv_h (hv_of idx bot (v_net v)) /\ (v_pos v).1 ∈ hv_v (hv_of idx top (v_net v))) \/
   ((v_pos v).1 ∈ hv_v (hv_of idx bot (v_net v)) /\ (v_pos v).2 ∈ hv_h (hv_of idx top (v_net v)))).

(** Two wires cross at [p]: one horizontal, one vertical, [p] their
    centers. *)
Definition crosses (wb wt : wire) (p : Z * Z) : Prop :=
  (w_orient wb = OH /\ w_orient wt = OV /\ p = (w_center wt, w_center wb)) \/
  (w_orient wb = OV /\ w_orient wt = OH /\ p = (w_center wb, w_center wt)).

(** The reference the spatial index replaces: for each pair of adjacent
    layers, every pair of wires of one net on them, a horizontal and a
    vertical one, gives a via at their crossing. *)
Definition naive_vias (layers : list string) (ws : list wire) : list via :=
  pr ← layer_pairs layers; wb ← ws; wt ← ws;
  if bool_decide (w_layer wb = pr.1 /\ w_layer wt = pr.2 /\ w_net wb = w_net wt) then
    match w_orient wb, w_orient wt with
    | OH, OV => [mkVia (w_center wt, w_center wb) (via_name pr.1 pr.2) (w_net wb) pr.1]
    | OV, OH => [mkVia (w_center wb, w_center wt) (via_name pr.1 pr.2) (w_net wb) pr.1]
    | _, _ => []
    end
  else [].

(** ** Lemmas on the loops *)

Lemma loop_iters_step (curr stop step : Z) :
  0 < step -> curr < stop -> loop_iters curr stop step = S (loop_iters (curr + step) stop step).
Proof.
  intros Hs Hc. unfold loop_iters, py_ceil_div.
  replace (- (stop - (curr + step))) with (- (stop - curr) + 1 * step) by lia.
  rewrite Z.div_add by lia.
  assert (- (stop - curr) / step < 0) by (apply Z.div_lt_upper_bound; lia). lia.
Qed.

Lemma loop_iters_done (curr stop step : Z) :
  0 < step -> stop <= curr -> loop_iters curr stop step = O.
Proof.
  intros Hs Hc. unfold loop_iters, py_ceil_div.
  assert (0 <= - (stop - curr) / step) by (apply Z.div_pos; lia). lia.
Qed.

Lemma elem_of_loop_points (n : nat) (curr step c : Z) :
  c ∈ loop_points n curr step <-> exists k, (k < n)%nat /\ c = curr + Z.of_nat k * step.
Proof.
  revert curr. induction n as [|n IH]; intros curr; simpl.
  - split; [intros H; inversion H | intros (k & Hk & _); lia].
  - rewrite elem_of_cons, IH. split.
    + intros [->|(k & Hk & ->)]; [exists O; split; lia | exists (S k); split; lia].
    + intros ([|k] & Hk & ->); [left; lia | right; exists k; split; lia].
Qed.

(** [_to_dbu] of a whole number of microns is exact. *)
Lemma to_dbu_int (units a : Z) : to_dbu units (inject_Z a) = units * a.
Proof.
  unfold to_dbu, py_round. rewrite <- inject_Z_mult, Qfloor_Z.
  assert (H : (inject_Z (a * units) - inject_Z (a * units) < 1 # 2)%Q)
    by (unfold Qminus; rewrite Qplus_opp_r; reflexivity).
  apply Qlt_alt in H. unfold Qcompare. rewrite H. lia.
Qed.

Section Loop.
Context {A : Type} (step stop : Z) (body : Z -> A -> A).

Lemma zloop_some (fuel : nat) (curr : Z) (s : A) :
  0 < step -> (Z.to_nat (stop - curr) < fuel)%nat ->
  zloop fuel step stop body curr s
  = Some (fold_left (fun s c => body c s) (loop_points (loop_iters curr stop step) curr step) s).
Proof.
  intros Hs. revert curr s. induction fuel as [|f IH]; intros curr s Hf; [lia|]. simpl.
  destruct (Z.ltb_spec curr stop).
  - rewrite loop_iters_step by done. simpl. apply IH. lia.
  - by rewrite loop_iters_done.
Qed.

Lemma zloop_none (fuel : nat) (curr : Z) (s : A) :
  step <= 0 -> curr < stop -> zloop fuel step stop body curr s = None.
Proof.
  intros Hs. revert curr s. induction fuel as [|f IH]; intros curr s Hc; simpl; [done|].
  destruct (Z.ltb_spec curr stop); [apply IH; lia | lia].
Qed.

(** A property of the state that every iteration keeps holds at the
    end of the loop. *)
Lemma zloop_inv (P : A -> Prop) (fuel : nat) (curr : Z) (s s' : A) :
  P s -> (forall c a, P a -> P (body c a)) -> zloop fuel step stop body curr s = Some s' -> P s'.
Proof.
  intros Hs Hb. revert curr s Hs. induction fuel as [|f IH]; intros curr s Hs; simpl; [done|].
  destruct (curr <? stop)%Z; [apply IH; auto | by intros [= <-]].
Qed.

End Loop.

Lemma for_opt_inv {A B} (P : A -> Prop) (f : B -> A -> option A) (l : list B) (a a' : A) :
  P a -> (forall x b b', P b -> f x b = Some b' -> P b') -> for_opt f l a = Some a' -> P a'.
Proof.
  intros Ha Hf. revert a Ha. induction l as [|x r IH]; intros a Ha; simpl; [by intros [= <-]|].
  destruct (f x a) as [b|] eqn:E; simpl; [|done]. apply IH. eauto.
Qed.

Lemma for_opt_some {A B} (f : B -> A -> option A) (l : list B) (a : A) :
  (forall x b, x ∈ l -> is_Some (f x b)) -> is_Some (for_opt f l a).
Proof.
  revert a. induction l as [|x r IH]; intros a Hf; simpl; [by eexists|].
  destruct (Hf x a) as [b Hb]; [by left|]. rewrite Hb. simpl. apply IH.
  intros y c Hy. apply Hf. by right.
Qed.

(** ** Lemmas on the spatial index *)

Lemma hv_of_index_add (idx : sindex) (l net : string) (o : orient) (c : Z) (l' net' : string) :
  hv_of (index_add idx l net o c) l' net' =
  if bool_decide (l' = l /\ net' = net) then
    match o with
    | OH => mkHV ({[c]} ∪ hv_h (hv_of idx l net)) (hv_v (hv_of idx l net))
    | OV => mkHV (hv_h (hv_of idx l net)) ({[c]} ∪ hv_v (hv_of idx l net))
    end
  else hv_of idx l' net'.
Proof.
  unfold hv_of, index_add.
  case_bool_decide as Hq.
  { destruct Hq as [-> ->]. rewrite lookup_insert_eq. simpl. rewrite lookup_insert_eq. by destruct o. }
  destruct (decide (l' = l)) as [->|Hl].
  - rewrite lookup_insert_eq. simpl. rewrite lookup_insert_ne by naive_solver. done.
  - by rewrite lookup_insert_ne by done.
Qed.

Lemma index_ok_empty : index_ok ∅ [].
Proof.
  intros l net o c. unfold hv_of. rewrite lookup_empty. simpl.
  split; [destruct o; simpl; set_solver | intros (w & Hw & _); inversion Hw].
Qed.

Lemma stripe_fields (dd : die) (l net : string) (o : orient) (width c : Z) :
  w_layer (stripe dd l net o width c) = l /\ w_net (stripe dd l net o width c) = net /\
  w_orient (stripe dd l net o width c) = o /\ w_center (stripe dd l net o width c) = c.
Proof. done. Qed.

Lemma index_ok_add (idx : sindex) (ws : list wire) (dd : die) (l net : string) (o : orient) (width c : Z) :
  index_ok idx ws -> index_ok (index_add idx l net o c) (ws ++ [stripe dd l net o width c]).
Proof.
  intros H l' net' o' c'. rewrite hv_of_index_add.
  setoid_rewrite elem_of_app. setoid_rewrite list_elem_of_singleton.
  pose proof (stripe_fields dd l net o width c) as (F1 & F2 & F3 & F4).
  case_bool_decide as Hq.
  - destruct Hq as [-> ->].
    assert (Hc : forall o2, c' ∈ centers (hv_of idx l net) o2 <-> exists w, w ∈ ws /\ w_layer w = l /\
              w_net w = net /\ w_orient w = o2 /\ w_center w = c') by (intros; apply H).
    pose proof (Hc OH) as HH. pose proof (Hc OV) as HV. simpl in HH, HV. clear Hc.
    destruct o, o'; simpl; rewrite ?elem_of_union, ?elem_of_singleton, ?HH, ?HV; split;
      first [ intros [->|(w & ? & ? & ? & ? & ?)]; [eexists; split; [right; done|done] | exists w; naive_solver]
            | intros (w & [? | ->] & ? & ? & ? & ?); [right; exists w; naive_solver | left; congruence]
            | intros (w & ? & ? & ? & ? & ?); exists w; naive_solver
            | intros (w & [? | ->] & ? & ? & ? & ?); [exists w; naive_solver | congruence] ].
  - rewrite (H l' net' o' c'). split; [intros (w & Hw & Hr); exists w; split; [left|]; done|]. intros (w & [Hw | ->] & Hl & Hn & ?); [naive_solver|].
    exfalso. apply Hq. split; congruence.
Qed.

Lemma stripe_step_ok (dd : die) (l net : string) (o : orient) (width c : Z) (p : gen_state * sindex) :
  index_ok p.2 (gs_wires p.1) ->
  index_ok (stripe_step dd l net o width c p).2 (gs_wires (stripe_step dd l net o width c p).1).
Proof. apply index_ok_add. Qed.

Lemma gen_stripes_index_ok (units : Z) (dd : die) (nets : list net_cfg) (st : gen_state) (p : gen_state * sindex) :
  gs_wires st = [] -> gen_stripes units dd nets st = Some p -> index_ok p.2 (gs_wires p.1).
Proof.
  intros Hw. apply (for_opt_inv (fun p => index_ok p.2 (gs_wires p.1))); [simpl; rewrite Hw; apply index_ok_empty|].
  intros n [st1 i1] p' H1. apply (for_opt_inv (fun p => index_ok p.2 (gs_wires p.1))); [exact H1|].
  intros lr [st2 i2] p2 H2. unfold gen_layer_rule.
  destruct (is_horiz_of _); apply (zloop_inv _ _ _ (fun p => index_ok p.2 (gs_wires p.1))); first [exact H2 | intros; apply stripe_step_ok; auto].
Qed.

(** ** Lemmas on the vias *)

Lemma fold_vias_elem {X} (f : gen_state -> X -> gen_state) (Q : X -> via -> Prop) (l : list X)
    (st : gen_state) (v : via) :
  (forall st x, v ∈ gs_vias (f st x) <-> v ∈ gs_vias st \/ Q x v) ->
  v ∈ gs_vias (fold_left f l st) <-> v ∈ gs_vias st \/ exists x, x ∈ l /\ Q x v.
Proof.
  intros Hf. revert st. induction l as [|x r IH]; intros st; simpl.
  - split; [auto|]. intros [?|(x & Hx & _)]; [done|inversion Hx].
  - rewrite IH, Hf. setoid_rewrite elem_of_cons. naive_solver.
Qed.

Lemma add_via_elem (st : gen_state) (w v : via) : v ∈ gs_vias (add_via st w) <-> v ∈ gs_vias st \/ v = w.
Proof. simpl. by rewrite elem_of_app, list_elem_of_singleton. Qed.

Lemma via_grid_elem (name net bot : string) (mk : Z -> Z -> Z * Z) (as_ bs : gset Z) (st : gen_state) (v : via) :
  v ∈ gs_vias (via_grid name net bot mk as_ bs st) <->
  v ∈ gs_vias st \/ exists a b, a ∈ as_ /\ b ∈ bs /\ v = mkVia (mk a b) name net bot.
Proof.
  unfold via_grid. rewrite (fold_vias_elem _ (fun a v => exists b, b ∈ bs /\ v = mkVia (mk a b) name net bot)).
  - setoid_rewrite elem_of_elements. naive_solver.
  - intros st' a. rewrite (fold_vias_elem _ (fun b v => v = mkVia (mk a b) name net bot)).
    + setoid_rewrite elem_of_elements. naive_solver.
    + intros. apply add_via_elem.
Qed.

Lemma guarded_grid_elem (name net bot : string) (mk : Z -> Z -> Z * Z) (as_ bs : gset Z) (st : gen_state) (v : via) :
  v ∈ gs_vias (if nonempty as_ && nonempty bs then via_grid name net bot mk as_ bs st else st) <->
  v ∈ gs_vias st \/ exists a b, a ∈ as_ /\ b ∈ bs /\ v = mkVia (mk a b) name net bot.
Proof.
  unfold nonempty. destruct (bool_decide_reflect (as_ = ∅)) as [->|Ha];
    [simpl; set_solver|].
  destruct (bool_decide_reflect (bs = ∅)) as [->|Hb]; [simpl; set_solver|].
  apply via_grid_elem.
Qed.

Lemma gen_vias_net_elem (mb mt : gmap string hv) (bot name : string) (st : gen_state) (net : string) (v : via) :
  v ∈ gs_vias (gen_vias_net mb mt bot name st net) <-> v ∈ gs_vias st \/
  (v_name v = name /\ v_net v = net /\ v_bot_layer v = bot /\
   (((v_pos v).2 ∈ hv_h (default hv_empty (mb !! net)) /\ (v_pos v).1 ∈ hv_v (default hv_empty (mt !! net))) \/
    ((v_pos v).1 ∈ hv_v (default hv_empty (mb !! net)) /\ (v_pos v).2 ∈ hv_h (default hv_empty (mt !! net))))).
Proof.
  unfold gen_vias_net. rewrite !guarded_grid_elem.
  split; [intros [[?|(a & b & ? & ? & ->)]|(a & b & ? & ? & ->)]; simpl; auto 10|].
  intros [?|(Hn & Hnet & Hb & [[? ?]|[? ?]])]; [auto|left; right|right].
  - exists (v_pos v).2, (v_pos v).1. destruct v as [[x y] ? ? ?]; simpl in *; subst; auto.
  - exists (v_pos v).1, (v_pos v).2. destruct v as [[x y] ? ? ?]; simpl in *; subst; auto.
Qed.

Lemma gen_vias_pair_elem (idx : sindex) (st : gen_state) (bot top : string) (v : via) :
  v ∈ gs_vias (gen_vias_pair idx st (bot, top)) <-> v ∈ gs_vias st \/ pair_via idx bot top v.
Proof.
  unfold gen_vias_pair, pair_via, hv_of.
  destruct (idx !! bot) as [mb|] eqn:Eb, (idx !! top) as [mt|] eqn:Et; simpl;
    [|split; [auto|intros [?|(_ & _ & [[? ?]|[? ?]])]; [done|set_solver..]]..].
  rewrite (fold_vias_elem _ (fun net v => v_name v = via_name bot top /\ v_net v = net /\ v_bot_layer v = bot /\
     (((v_pos v).2 ∈ hv_h (default hv_empty (mb !! net)) /\ (v_pos v).1 ∈ hv_v (default hv_empty (mt !! net))) \/
      ((v_pos v).1 ∈ hv_v (default hv_empty (mb !! net)) /\ (v_pos v).2 ∈ hv_h (default hv_empty (mt !! net))))))
    by (intros; apply gen_vias_net_elem).
  setoid_rewrite elem_of_elements. setoid_rewrite elem_of_intersection. setoid_rewrite elem_of_dom.
  split; [naive_solver|]. intros [?|(Hn & Hb & Hc)]; [auto|right]. exists (v_net v).
  destruct (mb !! v_net v) eqn:E1, (mt !! v_net v) eqn:E2; simpl in *; [naive_solver|set_solver..].
Qed.

Lemma gen_vias_elem (layers : list string) (idx : sindex) (st : gen_state) (v : via) :
  v ∈ gs_vias (gen_vias layers idx st) <-> v ∈ gs_vias st \/
  exists bot top, (bot, top) ∈ layer_pairs layers /\ pair_via idx bot top v.
Proof.
  unfold gen_vias. rewrite (fold_vias_elem _ (fun pr v => pair_via idx pr.1 pr.2 v)).
  - split; intros [?|H]; auto; right; [destruct H as ([b t] & ? & ?); by exists b, t|].
    destruct H as (b & t & ? & ?). by exists (b, t).
  - intros st' [b t]. apply gen_vias_pair_elem.
Qed.

(** The vias of an index that holds the centers of [ws] are the
    crossings of wires of [ws]. *)
Lemma pair_via_crosses (idx : sindex) (ws : list wire) (bot top : string) (v : via) :
  index_ok idx ws ->
  pair_via idx bot top v <-> v_name v = via_name bot top /\ v_bot_layer v = bot /\
    exists wb wt, wb ∈ ws /\ wt ∈ ws /\ w_layer wb = bot /\ w_layer wt = top /\
      w_net wb = v_net v /\ w_net wt = v_net v /\ crosses wb wt (v_pos v).
Proof.
  intros H. unfold pair_via, crosses.
  pose proof (H bot (v_net v) OH (v_pos v).2) as H1. pose proof (H top (v_net v) OV (v_pos v).1) as H2.
  pose proof (H bot (v_net v) OV (v_pos v).1) as H3. pose proof (H top (v_net v) OH (v_pos v).2) as H4.
  simpl in H1, H2, H3, H4. rewrite H1, H2, H3, H4. destruct v as [[x y] n net b]; simpl.
  split; intros (? & ? & Hx); (split; [done|split; [done|]]).
  - destruct Hx as [((wb & ?) & (wt & ?))|((wb & ?) & (wt & ?))]; exists wb, wt; naive_solver.
  - destruct Hx as (wb & wt & ? & ? & ? & ? & ? & ? & [(? & ? & Hp)|(? & ? & Hp)]); injection Hp as -> ->;
      [left|right]; split; eexists; eauto 10.
Qed.

(** ** Lemmas on the instances *)

Lemma row_loop_fuel (f1 f2 : nat) (rl master : string) (count w urx : Z) (b t : wire) (cx cnt : Z) (st : gen_state) :
  (Z.to_nat (count - cnt) <= f1)%nat -> (Z.to_nat (count - cnt) <= f2)%nat ->
  row_loop f1 rl master count w urx b t cx cnt st = row_loop f2 rl master count w urx b t cx cnt st.
Proof.
  revert f2 cx cnt st. induction f1 as [|f1 IH]; intros [|f2] cx cnt st H1 H2; simpl; try done.
  - destruct (Z.ltb_spec cnt count); [lia|]. by rewrite andb_false_r.
  - destruct (Z.ltb_spec cnt count); [lia|]. by rewrite andb_false_r.
  - destruct (_ && _); [apply IH; lia|done].
Qed.

Lemma row_loop_spec (rl master : string) (count w urx : Z) (b t : wire) (cx cnt : Z) (st : gen_state) :
  0 < w + 2000 ->
  let n := Nat.min (Z.to_nat (count - cnt)) (loop_iters (cx + w) urx (w + 2000)) in
  row_loop (Z.to_nat (count - cnt)) rl master count w urx b t cx cnt st
  = (cnt + Z.of_nat n, fold_left add_instance (row_cells n rl master w b t cx cnt) st).
Proof.
  intros Hw. simpl. remember (Z.to_nat (count - cnt)) as F eqn:HF. revert cx cnt st HF.
  induction F as [|F IH]; intros cx cnt st HF; simpl; [rewrite Z.add_0_r; done|].
  destruct (Z.ltb_spec (cx + w) urx) as [Hx|Hx]; simpl.
  - destruct (Z.ltb_spec cnt count) as [Hc|Hc]; [|lia]. simpl.
    rewrite (loop_iters_step (cx + w)) by lia. simpl.
    replace (cx + w + (w + 2000)) with (cx + w + 2000 + w) by lia.
    rewrite IH by lia. f_equal. lia.
  - rewrite loop_iters_done by lia. simpl. by rewrite Z.add_0_r.
Qed.

Lemma fold_add_instance_instances (l : list instance) (st : gen_state) :
  gs_instances (fold_left add_instance l st) = (gs_instances st ++ l)%list.
Proof.
  revert st. induction l as [|i r IH]; intros st; simpl; [by rewrite app_nil_r|].
  rewrite IH. simpl. by rewrite <- app_assoc.
Qed.

Lemma row_loop_instances (f : nat) (rl master : string) (count w urx : Z) (b t : wire) (cx cnt : Z) (st : gen_state) :
  exists l, gs_instances (row_loop f rl master count w urx b t cx cnt st).2 = (gs_instances st ++ l)%list.
Proof.
  revert cx cnt st. induction f as [|f IH]; intros cx cnt st; simpl; [exists []; by rewrite app_nil_r|].
  destruct (_ && _); [|exists []; by rewrite app_nil_r].
  destruct (IH (cx + w + 2000) (cnt + 1) (add_instance st (row_cell rl master w b t cx cnt))) as [l Hl].
  rewrite Hl. simpl. exists (row_cell rl master w b t cx cnt :: l). by rewrite <- app_assoc.
Qed.

Lemma rows_loop_instances (rl master : string) (count w llx urx : Z) (pairs : list (wire * wire)) (cnt : Z) (st : gen_state) :
  exists l, gs_instances (rows_loop rl master count w llx urx pairs cnt st) = (gs_instances st ++ l)%list.
Proof.
  revert cnt st. induction pairs as [|[b t] r IH]; intros cnt st; simpl; [exists []; by rewrite app_nil_r|].
  destruct (count <=? cnt)%Z; [exists []; by rewrite app_nil_r|].
  case_bool_decide; [apply IH|].
  pose proof (row_loop_instances (Z.to_nat (count - cnt)) rl master count w urx b t (llx + 1000) cnt st) as [l1 H1].
  destruct (row_loop _ _ _ _ _ _ _ _ _ _ _) as [cnt' st'].
  destruct (IH cnt' st') as [l Hl]. rewrite Hl. simpl in H1. rewrite H1. exists (l1 ++ l)%list. by rewrite app_assoc.
Qed.

Lemma rows_loop_row (rl master : string) (count w llx urx : Z) (b t : wire) (r : list (wire * wire)) (cnt : Z) (st : gen_state) :
  cnt < count -> w_net b <> w_net t -> 0 < w + 2000 ->
  let n := Nat.min (Z.to_nat (count - cnt)) (loop_iters (llx + 1000 + w) urx (w + 2000)) in
  rows_loop rl master count w llx urx ((b, t) :: r) cnt st =
  rows_loop rl master count w llx urx r (cnt + Z.of_nat n)
    (fold_left add_instance (row_cells n rl master w b t (llx + 1000) cnt) st).
Proof.
  intros Hc Hn Hw. simpl. destruct (Z.leb_spec count cnt); [lia|].
  rewrite bool_decide_false by done. by rewrite row_loop_spec by done.
Qed.

Lemma row_cells_head (n : nat) (rl master : string) (w : Z) (b t : wire) (cx cnt : Z) :
  (0 < n)%nat -> row_cell rl master w b t cx cnt ∈ row_cells n rl master w b t cx cnt.
Proof. destruct n; [lia|]. intros _. left. Qed.

(** C21. The rows of [_generate_instances_snapped] share their rails
    and all start at [die_llx + 1000]: when the first three rails, sorted
    by center, belong to alternating nets and more than one row's worth
    of cells is asked for, the first cell of the first row ([cell_0]) and
    the first cell of the second row carry the same physical pin on the
    middle rail, at the same point, under two different names. *)
Theorem gen_instances_shared_rail_pin (units : Z) (da : die_area) (ic : inst_cfg) (st : gen_state)
    (b m t : wire) (rest : list wire) :
  rails_of (ic_rail_layer ic) (gs_wires st) = b :: m :: t :: rest ->
  w_net b <> w_net m -> w_net m <> w_net t ->
  0 < to_dbu units (ic_width_um ic) + 2000 ->
  (0 < loop_iters (d_llx (die_of units da) + 1000 + to_dbu units (ic_width_um ic)) (d_urx (die_of units da))
         (to_dbu units (ic_width_um ic) + 2000))%nat ->
  Z.of_nat (loop_iters (d_llx (die_of units da) + 1000 + to_dbu units (ic_width_um ic)) (d_urx (die_of units da))
         (to_dbu units (ic_width_um ic) + 2000)) < ic_count ic ->
  exists i1 i2, i1 ∈ gs_instances (gen_instances units da (Some ic) st) /\
    i2 ∈ gs_instances (gen_instances units da (Some ic) st) /\ i_name i1 <> i_name i2 /\
    rail_pin (ic_rail_layer ic) (to_dbu units (ic_width_um ic)) (d_llx (die_of units da) + 1000) m ∈ i_physical_pins i1 /\
    rail_pin (ic_rail_layer ic) (to_dbu units (ic_width_um ic)) (d_llx (die_of units da) + 1000) m ∈ i_physical_pins i2.
Proof.
  intros Hr Hbm Hmt Hw Hn Hc. unfold gen_instances. rewrite Hr. cbn [adjacent_pairs].
  set (w := to_dbu units (ic_width_um ic)) in *. set (llx := d_llx (die_of units da)) in *.
  set (urx := d_urx (die_of units da)) in *.
  remember (loop_iters (llx + 1000 + w) urx (w + 2000)) as n eqn:En.
  rewrite rows_loop_row by (done || lia). rewrite <- En.
  assert (E1 : Nat.min (Z.to_nat (ic_count ic - 0)) n = n) by lia. rewrite E1.
  rewrite rows_loop_row by (done || lia). rewrite <- En.
  match goal with |- context [rows_loop ?a ?b ?c ?d ?e ?f ?p ?k ?s] =>
    destruct (rows_loop_instances a b c d e f p k s) as [l Hl]; rewrite Hl end.
  rewrite !fold_add_instance_instances.
  exists (row_cell (ic_rail_layer ic) (ic_master ic) w b m (llx + 1000) 0),
         (row_cell (ic_rail_layer ic) (ic_master ic) w m t (llx + 1000) (0 + Z.of_nat n)).
  split; [apply elem_of_app; left; apply elem_of_app; left; apply elem_of_app; right; by apply row_cells_head|].
  split; [apply elem_of_app; left; apply elem_of_app; right; apply row_cells_head; lia|].
  split; [intros Hnm; apply py_str_Z_prefix_inj in Hnm; lia|].
  split; simpl; set_solver.
Qed.

(** ** Termination of [run] *)

Lemma for_opt_none {A B} (f : B -> A -> option A) (l : list B) (a : A) (x : B) :
  x ∈ l -> (forall b, f x b = None) -> for_opt f l a = None.
Proof.
  intros Hx Hf. revert a. induction l as [|y r IH]; intros a; [inversion Hx|]. simpl.
  apply elem_of_cons in Hx as [->|Hx]; [by rewrite Hf|].
  destruct (f y a); simpl; [by apply IH|done].
Qed.

Lemma zloop_model_some {A} (step stop : Z) (body : Z -> A -> A) (curr : Z) (s : A) :
  0 < step -> is_Some (zloop (zloop_fuel curr stop) step stop body curr s).
Proof. intros Hs. rewrite zloop_some by (unfold zloop_fuel; lia). by eexists. Qed.

(** The range of a layer rule's loop: its start and its end. *)
Definition rule_range (units : Z) (dd : die) (lr : layer_rule) : Z * Z :=
  if is_horiz_of (lr_direction lr) then (d_lly dd + to_dbu units (lr_offset lr), d_ury dd)
  else (d_llx dd + to_dbu units (lr_offset lr), d_urx dd).

(** The orientation of a layer rule's stripes. *)
Definition rule_orient (lr : layer_rule) : orient := if is_horiz_of (lr_direction lr) then OH else OV.

(** The length of a wire along its direction. *)
Definition wire_len (w : wire) : Z :=
  match w_orient w with OH => rx2 (w_rect w) - rx1 (w_rect w) | OV => ry2 (w_rect w) - ry1 (w_rect w) end.

Lemma gen_layer_rule_none (units : Z) (dd : die) (net : string) (lr : layer_rule) (p : gen_state * sindex) :
  to_dbu units (lr_pitch lr) <= 0 -> (rule_range units dd lr).1 < (rule_range units dd lr).2 ->
  gen_layer_rule units dd net lr p = None.
Proof.
  unfold gen_layer_rule, rule_range. intros Hp. destruct (is_horiz_of _); intros Hr; apply zloop_none; [done|exact Hr|done|exact Hr].
Qed.

Lemma gen_layer_rule_some (units : Z) (dd : die) (net : string) (lr : layer_rule) (p : gen_state * sindex) :
  0 < to_dbu units (lr_pitch lr) -> is_Some (gen_layer_rule units dd net lr p).
Proof. unfold gen_layer_rule. intros Hp. destruct (is_horiz_of _); by apply zloop_model_some. Qed.

Lemma pins_wire_some (net layer : string) (interval : Z) (w : wire) (st : gen_state) :
  0 < interval -> is_Some (pins_wire net layer interval w st).
Proof.
  intros Hi. unfold pins_wire. destruct (w_orient w); (case_match; [by eexists|]); by apply zloop_model_some.
Qed.

Lemma loop_iters_spec (curr stop step : Z) (k : nat) :
  0 < step -> (k < loop_iters curr stop step)%nat <-> curr + Z.of_nat k * step < stop.
Proof.
  intros Hs. unfold loop_iters. pose proof (py_ceil_div_spec (stop - curr) step Hs).
  split; intros Hk; nia.
Qed.

(** The loop variable takes the values [curr + k * step] below [stop]. *)
Lemma loop_points_spec (curr stop step c : Z) :
  0 < step -> c ∈ loop_points (loop_iters curr stop step) curr step <->
  exists k : nat, c = curr + Z.of_nat k * step /\ c < stop.
Proof.
  intros Hs. rewrite elem_of_loop_points. split.
  - intros (k & Hk & ->). exists k. split; [done|]. by apply loop_iters_spec.
  - intros (k & -> & Hc). exists k. split; [by apply loop_iters_spec|done].
Qed.

Lemma fold_stripe_wires (dd : die) (l net : string) (o : orient) (width : Z) (cs : list Z) (p : gen_state * sindex) :
  gs_wires (fold_left (fun s c => stripe_step dd l net o width c s) cs p).1
  = (gs_wires p.1 ++ map (stripe dd l net o width) cs)%list.
Proof.
  revert p. induction cs as [|c r IH]; intros p; simpl; [by rewrite app_nil_r|].
  rewrite IH. simpl. by rewrite <- app_assoc.
Qed.

Lemma gen_stripes_some (units : Z) (dd : die) (nets : list net_cfg) (st : gen_state) :
  (forall n lr, n ∈ nets -> lr ∈ nc_layers n -> 0 < to_dbu units (lr_pitch lr)) ->
  is_Some (gen_stripes units dd nets st).
Proof.
  intros H. apply for_opt_some. intros n p Hn. apply for_opt_some. intros lr q Hlr.
  apply gen_layer_rule_some. eauto.
Qed.

Lemma gen_pins_some (units : Z) (nets : list net_cfg) (st : gen_state) :
  (forall n pc, n ∈ nets -> nc_pin_config n = Some pc -> 0 < to_dbu units (pc_interval pc)) ->
  is_Some (gen_pins units nets st).
Proof.
  intros H. apply for_opt_some. intros n st' Hn. unfold gen_pins_net.
  destruct (nc_pin_config n) as [pc|] eqn:E; [|by eexists].
  apply for_opt_some. intros w st'' _. apply pins_wire_some. eauto.
Qed.

Lemma pins_wire_none (net layer : string) (interval : Z) (w : wire) (st : gen_state) :
  interval <= 0 -> 0 < wire_len w -> pins_wire net layer interval w st = None.
Proof.
  unfold pins_wire, wire_len. intros Hi.
  assert (interval / 2 <= 0) by (apply Z.div_le_upper_bound; lia).
  destruct (w_orient w); intros Hl; (case_match; [lia|]); apply zloop_none; lia.
Qed.

Lemma gen_stripes_vias (units : Z) (dd : die) (nets : list net_cfg) (st : gen_state) (p : gen_state * sindex) :
  gen_stripes units dd nets st = Some p -> gs_vias p.1 = gs_vias st.
Proof.
  apply (for_opt_inv (fun p => gs_vias p.1 = gs_vias st)); [done|].
  intros n [st1 i1] p' H1. apply (for_opt_inv (fun p => gs_vias p.1 = gs_vias st)); [exact H1|].
  intros lr [st2 i2] p2 H2. unfold gen_layer_rule.
  destruct (is_horiz_of _); apply (zloop_inv _ _ _ (fun p => gs_vias p.1 = gs_vias st)); try exact H2; done.
Qed.

(** ** Properties of the generator *)

(** C17. A layer rule whose pitch is a positive number of database units
    ends, and appends one stripe per value [start + k * pitch] below the
    end of the die, in increasing order, where [start] is the die's edge
    plus the offset ([rule_range]); the stripes are horizontal unless the
    direction starts with [V] or [v]. *)
Theorem gen_layer_rule_stripes (units : Z) (dd : die) (net : string) (lr : layer_rule) (p : gen_state * sindex) :
  0 < to_dbu units (lr_pitch lr) ->
  exists p', gen_layer_rule units dd net lr p = Some p' /\
    gs_wires p'.1 = (gs_wires p.1 ++ map (stripe dd (lr_name lr) net (rule_orient lr) (to_dbu units (lr_width lr)))
       (loop_points (loop_iters (rule_range units dd lr).1 (rule_range units dd lr).2 (to_dbu units (lr_pitch lr)))
          (rule_range units dd lr).1 (to_dbu units (lr_pitch lr))))%list.
Proof.
  intros Hp. unfold gen_layer_rule, rule_range, rule_orient.
  destruct (is_horiz_of _); (rewrite zloop_some by (done || unfold zloop_fuel; lia));
    (eexists; split; [reflexivity|]); by rewrite fold_stripe_wires.
Qed.

(** C18. [Generator.run] terminates when every layer rule's pitch and
    every pin interval are positive numbers of database units. *)
Theorem gen_run_terminates (tech : tech_lef) (c : config) :
  (forall n lr, n ∈ cfg_nets c -> lr ∈ nc_layers n -> 0 < to_dbu (tl_units tech) (lr_pitch lr)) ->
  (forall n pc, n ∈ cfg_nets c -> nc_pin_config n = Some pc -> 0 < to_dbu (tl_units tech) (pc_interval pc)) ->
  is_Some (gen_run tech c).
Proof.
  intros Hp Hi. unfold gen_run. destruct (cfg_die_area c) as [da|]; [|by eexists].
  destruct (gen_stripes_some (tl_units tech) (die_of (tl_units tech) da) (cfg_nets c)
              (analyze_net_types (cfg_instance_placement c) (cfg_nets c) gen_init) Hp) as [p ->].
  simpl. by apply gen_pins_some.
Qed.

(** C19. [Generator.run] does not terminate when a layer rule's pitch
    rounds to zero or fewer database units (a pitch under half a database
    unit, e.g. [0.0004] at 1000 units per micron) while its start lies
    inside the die: the stripe loop never advances. *)
Theorem gen_run_diverges (tech : tech_lef) (c : config) (da : die_area) (n : net_cfg) (lr : layer_rule) :
  cfg_die_area c = Some da -> n ∈ cfg_nets c -> lr ∈ nc_layers n ->
  to_dbu (tl_units tech) (lr_pitch lr) <= 0 ->
  (rule_range (tl_units tech) (die_of (tl_units tech) da) lr).1 < (rule_range (tl_units tech) (die_of (tl_units tech) da) lr).2 ->
  gen_run tech c = None.
Proof.
  intros Hda Hn Hlr Hp Hr. unfold gen_run. rewrite Hda. unfold gen_stripes.
  rewrite (for_opt_none _ _ _ n); [done|done|]. intros q. unfold gen_net_stripes.
  apply (for_opt_none _ _ _ lr Hlr). intros q'. by apply gen_layer_rule_none.
Qed.

(** The vias of [_generate_stripes_and_vias] are the crossings of its
    stripes. *)
Lemma gen_vias_crossings (units : Z) (dd : die) (nets : list net_cfg) (st : gen_state) (p : gen_state * sindex)
    (layers : list string) (v : via) :
  gs_wires st = [] -> gs_vias st = [] -> gen_stripes units dd nets st = Some p ->
  v ∈ gs_vias (gen_vias layers p.2 p.1) <->
  exists bot top, (bot, top) ∈ layer_pairs layers /\ v_name v = via_name bot top /\ v_bot_layer v = bot /\
    exists wb wt, wb ∈ gs_wires p.1 /\ wt ∈ gs_wires p.1 /\ w_layer wb = bot /\ w_layer wt = top /\
      w_net wb = v_net v /\ w_net wt = v_net v /\ crosses wb wt (v_pos v).
Proof.
  intros Hw Hv Hs. pose proof (gen_stripes_index_ok _ _ _ _ _ Hw Hs) as Hok.
  rewrite gen_vias_elem, (gen_stripes_vias _ _ _ _ _ Hs), Hv.
  setoid_rewrite (pair_via_crosses _ _ _ _ v Hok). split; [intros [Hn|H]; [inversion Hn|exact H]|auto].
Qed.

Lemma naive_vias_elem (layers : list string) (ws : list wire) (v : via) :
  v ∈ naive_vias layers ws <->
  exists bot top, (bot, top) ∈ layer_pairs layers /\ v_name v = via_name bot top /\ v_bot_layer v = bot /\
    exists wb wt, wb ∈ ws /\ wt ∈ ws /\ w_layer wb = bot /\ w_layer wt = top /\
      w_net wb = v_net v /\ w_net wt = v_net v /\ crosses wb wt (v_pos v).
Proof.
  unfold naive_vias, crosses. rewrite list_elem_of_bind. split.
  - intros ([bot top] & Hv & Hpr). apply list_elem_of_bind in Hv as (wb & Hv & Hwb).
    apply list_elem_of_bind in Hv as (wt & Hv & Hwt). simpl in Hv.
    case_bool_decide as Hc; [|inversion Hv]. destruct Hc as (Hb & Ht & Hn).
    exists bot, top. destruct (w_orient wb) eqn:Eb, (w_orient wt) eqn:Et;
      try by inversion Hv; apply list_elem_of_singleton in Hv; subst v; simpl;
      (split; [done|split; [done|split; [done|]]]); exists wb, wt; naive_solver.
  - intros (bot & top & Hpr & Hn & Hb & wb & wt & Hwb & Hwt & Hlb & Hlt & Hnb & Hnt & Hx).
    exists (bot, top). split; [|done]. apply list_elem_of_bind. exists wb. split; [|done].
    apply list_elem_of_bind. exists wt. split; [|done]. simpl.
    rewrite bool_decide_true by (split; [done|split; congruence]).
    destruct v as [pos n net b]; simpl in *; subst.
    destruct Hx as [(-> & -> & ->)|(-> & -> & ->)]; by left.
Qed.

(** C20. The spatial index of [_generate_stripes_and_vias] (its
    "[Optimization]") places the same vias as the quadratic reference
    [naive_vias] over the generated stripes: a via is placed iff a
    horizontal and a vertical stripe of its net, on two adjacent layers
    of the sorted layer list, cross at its position; it is named
    [VIA<bot><top>] and lies on the lower layer. *)
Theorem gen_vias_equiv_naive (units : Z) (dd : die) (nets : list net_cfg) (st : gen_state) (p : gen_state * sindex)
    (layers : list string) (v : via) :
  gs_wires st = [] -> gs_vias st = [] -> gen_stripes units dd nets st = Some p ->
  v ∈ gs_vias (gen_vias layers p.2 p.1) <-> v ∈ naive_vias layers (gs_wires p.1).
Proof. intros Hw Hv Hs. rewrite naive_vias_elem. by apply (gen_vias_crossings units dd nets st). Qed.

(** ** A configuration *)

(** A 20 x 20 micron die with [VSS] and [VDD] rails on [M1] every 10
    microns, 5 microns apart, and [VDD] straps on [M2] every 10 microns;
    ten 5-micron cells on the [M1] rails. *)
Definition ex_tech : tech_lef := mkTechLef 1000 ["M1"; "M2"].

Definition ex_cfg : config :=
  {| cfg_tech_layers := None;
     cfg_die_area := Some (mkDieArea 0 0 20 20);
     cfg_nets := [mkNetCfg "VSS" [mkLayerRule "M1" (Some "H") 0 10 (2 # 10)] None;
                  mkNetCfg "VDD" [mkLayerRule "M1" (Some "H") 5 10 (2 # 10);
                                  mkLayerRule "M2" (Some "V") 2 10 (2 # 10)] None];
     cfg_instance_placement := Some (mkInstCfg "M1" "INV" 10 5 ["VDD"] ["VSS"]) |}.

(** The same with a [VDD] pitch on [M2] of [0.0004] microns. *)
Definition ex_cfg_fine : config :=
  {| cfg_tech_layers := None; cfg_die_area := Some (mkDieArea 0 0 20 20);
     cfg_nets := [mkNetCfg "VDD" [mkLayerRule "M2" (Some "V") 2 (4 # 10000) (2 # 10)] None];
     cfg_instance_placement := None |}.

(** The state after the stripes of [ex_cfg]. *)
Definition ex_stripes : gen_state * sindex :=
  default (gen_init, ∅) (gen_stripes 1000 (die_of 1000 (mkDieArea 0 0 20 20)) (cfg_nets ex_cfg) gen_init).

Lemma gen_run_diverges_witness : gen_run ex_tech ex_cfg_fine = None.
Proof.
  apply (gen_run_diverges ex_tech ex_cfg_fine (mkDieArea 0 0 20 20) (mkNetCfg "VDD" [mkLayerRule "M2" (Some "V") 2 (4 # 10000) (2 # 10)] None)
           (mkLayerRule "M2" (Some "V") 2 (4 # 10000) (2 # 10)));
    first [reflexivity | left | vm_compute; congruence].
Defined.

Lemma gen_vias_equiv_naive_witness :
  gen_stripes 1000 (die_of 1000 (mkDieArea 0 0 20 20)) (cfg_nets ex_cfg) gen_init = Some ex_stripes /\
  (mkVia (2000, 5000) "VIA12" "VDD" "M1" ∈ gs_vias (gen_vias ["M1"; "M2"] ex_stripes.2 ex_stripes.1) <->
   mkVia (2000, 5000) "VIA12" "VDD" "M1" ∈ naive_vias ["M1"; "M2"] (gs_wires ex_stripes.1)).
Proof.
  split; [vm_compute; reflexivity|].
  exact (gen_vias_equiv_naive 1000 (die_of 1000 (mkDieArea 0 0 20 20)) (cfg_nets ex_cfg) gen_init ex_stripes
           ["M1"; "M2"] (mkVia (2000, 5000) "VIA12" "VDD" "M1") eq_refl eq_refl ltac:(vm_compute; reflexivity)).
Defined.

Definition ex_die : die := die_of 1000 (mkDieArea 0 0 20 20).

Lemma gen_instances_shared_rail_pin_witness :
  exists i1 i2, i1 ∈ gs_instances (gen_instances 1000 (mkDieArea 0 0 20 20) (cfg_instance_placement ex_cfg) ex_stripes.1) /\
    i2 ∈ gs_instances (gen_instances 1000 (mkDieArea 0 0 20 20) (cfg_instance_placement ex_cfg) ex_stripes.1) /\
    i_name i1 <> i_name i2 /\
    rail_pin "M1" 5000 1000 (stripe ex_die "M1" "VDD" OH 200 5000) ∈ i_physical_pins i1 /\
    rail_pin "M1" 5000 1000 (stripe ex_die "M1" "VDD" OH 200 5000) ∈ i_physical_pins i2.
Proof.
  apply (gen_instances_shared_rail_pin 1000 (mkDieArea 0 0 20 20) (mkInstCfg "M1" "INV" 10 5 ["VDD"] ["VSS"]) ex_stripes.1
           (stripe ex_die "M1" "VSS" OH 200 0) (stripe ex_die "M1" "VDD" OH 200 5000)
           (stripe ex_die "M1" "VSS" OH 200 10000) [stripe ex_die "M1" "VDD" OH 200 15000]);
    solve [vm_compute; reflexivity | vm_compute; congruence | vm_compute; lia].
Defined.

Lemma gen_layer_rule_stripes_witness :
  exists p', gen_layer_rule 1000 ex_die "VSS" (mkLayerRule "M1" (Some "H") 0 10 (2 # 10)) (gen_init, ∅) = Some p' /\
    gs_wires p'.1 = (gs_wires gen_init ++ map (stripe ex_die "M1" "VSS" (rule_orient (mkLayerRule "M1" (Some "H") 0 10 (2 # 10))) 200)
       (loop_points (loop_iters (rule_range 1000 ex_die (mkLayerRule "M1" (Some "H") 0 10 (2 # 10))).1
                                (rule_range 1000 ex_die (mkLayerRule "M1" (Some "H") 0 10 (2 # 10))).2 10000)
          (rule_range 1000 ex_die (mkLayerRule "M1" (Some "H") 0 10 (2 # 10))).1 10000))%list.
Proof. apply (gen_layer_rule_stripes 1000 ex_die "VSS" (mkLayerRule "M1" (Some "H") 0 10 (2 # 10))). vm_compute. reflexivity. Defined.

End Gen.
