(* ===== verification/GenWf.v ===== *)
(** * Well-formedness of the generator's output

    The extractor gives an instance pin or a port a node only when a wire
    of its net and layer passes through its location (the contact is
    otherwise dropped without a word, see [Extractor]).  This file proves
    that [Generator.run] only produces contacts of that kind: every wire
    is a full-die stripe, every physical pin of a cell lies on the rail it
    was made from, and every port lies on the wire it was placed along.
    The proof follows [run]: the stripe loops ([zloop]) keep every wire a
    stripe, the via loops touch only the vias, the row loops
    ([row_loop], [rows_loop]) place cells whose pins lie within the die on
    their rails, and the pin loops place ports between the ends of their
    wires.  The last section follows the vias through [run]: the cells
    and ports leave them as the via loops made them, every one at a
    crossing of two stripes on layers adjacent in the sorted layer list,
    so that a layer list whose adjacent pairs all hold an unstriped
    layer gives no via (C26). *)

From S2P Require Import Prelude PyStr Layers Geometry Generator.

Local Open Scope string_scope.

Module GenWf.
Import Geom Gen LayerMap.

(** ** The invariant *)

(** [p] lies on the center line of [w], between its ends. *)
Definition on_wire (w : wire) (p : Z * Z) : Prop :=
  match w_orient w with
  | OH => p.2 = w_center w /\ rx1 (w_rect w) <= p.1 <= rx2 (w_rect w)
  | OV => p.1 = w_center w /\ ry1 (w_rect w) <= p.2 <= ry2 (w_rect w)
  end.

(** A contact of [net] on [layer] at [p] that a wire of [ws] carries. *)
Definition contact_ok (ws : list wire) (net layer : string) (p : Z * Z) : Prop :=
  exists w, w ∈ ws /\ w_net w = net /\ w_layer w = layer /\ on_wire w p.

(** Every wire of [ws] is the stripe of the die [dd] at its center. *)
Definition stripes_of (dd : die) (ws : list wire) : Prop :=
  forall w, w ∈ ws -> w = stripe dd (w_layer w) (w_net w) (w_orient w) (w_width w) (w_center w).

(** The output is well formed: its wires are stripes of the die, and
    every cell pin and every port lies on a wire of its net and layer. *)
Definition gen_wf (dd : die) (st : gen_state) : Prop :=
  stripes_of dd (gs_wires st) /\
  (forall i p, i ∈ gs_instances st -> p ∈ i_physical_pins i ->
     contact_ok (gs_wires st) (pp_net p) (pp_layer p) (pp_center p)) /\
  (forall q, q ∈ gs_pins st -> contact_ok (gs_wires st) (p_net q) (p_layer q) (p_pos q)).

(** Every wire's net is in [nets_used], the set the DEF writer and the
    extractor iterate. *)
Definition nets_cover (st : gen_state) : Prop := forall w, w ∈ gs_wires st -> w_net w ∈ gs_nets_used st.

(** The layers the configuration's rules stripe: [layer['name']] of
    every entry of every net's [layers]. *)
Definition rule_layers (nets : list net_cfg) : list string := nets ≫= (fun n => lr_name <$> nc_layers n).

(** Two states with the same vias and wires. *)
Definition same_vw (a b : gen_state) : Prop := gs_vias a = gs_vias b /\ gs_wires a = gs_wires b.

(** ** Loops that return *)

(** When a loop returns, every round ran with the loop variable between
    its start and its end: a step of zero or less never returns once a
    round has run. *)
Lemma zloop_inv_range {A} (P : A -> Prop) (fuel : nat) (step stop : Z) (body : Z -> A -> A)
    (curr : Z) (s s' : A) :
  zloop fuel step stop body curr s = Some s' -> P s ->
  (forall c a, curr <= c < stop -> P a -> P (body c a)) -> P s'.
Proof.
  revert curr s. induction fuel as [|f IH]; intros curr s H Hs Hb; simpl in H; [done|].
  destruct (Z.ltb_spec curr stop) as [Hc|Hc]; [|by injection H as <-].
  destruct (Z.le_gt_cases step 0) as [Hst|Hst].
  - by rewrite zloop_none in H by lia.
  - apply (IH _ _ H); [apply Hb; [lia|done]|]. intros c a Hca. apply Hb. lia.
Qed.

(** ** The stripes and the vias *)

Lemma stripe_self (dd : die) (l net : string) (o : orient) (width c : Z) :
  stripe dd (w_layer (stripe dd l net o width c)) (w_net (stripe dd l net o width c))
    (w_orient (stripe dd l net o width c)) (w_width (stripe dd l net o width c)) (w_center (stripe dd l net o width c))
  = stripe dd l net o width c.
Proof. by destruct o. Qed.

Lemma stripes_of_snoc (dd : die) (ws : list wire) (w : wire) :
  stripes_of dd ws -> w = stripe dd (w_layer w) (w_net w) (w_orient w) (w_width w) (w_center w) ->
  stripes_of dd (ws ++ [w])%list.
Proof. intros H Hw x Hx. apply elem_of_app in Hx as [Hx|Hx]; [auto|]. by apply list_elem_of_singleton in Hx as ->. Qed.

(** The stripe loops add only stripes of the die, and no cell or port. *)
Lemma nets_cover_add_wire (st : gen_state) (w : wire) :
  nets_cover st -> w_net w ∈ gs_nets_used st -> nets_cover (add_wire st w).
Proof.
  intros H Hw x Hx. simpl in Hx. apply elem_of_app in Hx as [Hx|Hx]; [by apply H|].
  by apply list_elem_of_singleton in Hx as ->.
Qed.

Lemma gen_stripes_wf (units : Z) (dd : die) (nets : list net_cfg) (st : gen_state) (p : gen_state * sindex) :
  gen_stripes units dd nets st = Some p -> stripes_of dd (gs_wires st) ->
  gs_instances st = [] -> gs_pins st = [] -> nets_cover st ->
  stripes_of dd (gs_wires p.1) /\ gs_instances p.1 = [] /\ gs_pins p.1 = [] /\ nets_cover p.1.
Proof.
  intros H Hw Hi Hp Hc.
  set (P := fun q : gen_state * sindex =>
              stripes_of dd (gs_wires q.1) /\ gs_instances q.1 = [] /\ gs_pins q.1 = [] /\ nets_cover q.1).
  apply (for_opt_inv P (gen_net_stripes units dd) nets (st, ∅) p (conj Hw (conj Hi (conj Hp Hc)))); [|exact H].
  intros n q q' Hq Hn. set (P' := fun q : gen_state * sindex => P q /\ nc_name n ∈ gs_nets_used q.1).
  cut (P' q'); [by intros []|].
  apply (for_opt_inv P' (gen_layer_rule units dd (nc_name n)) (nc_layers n) (use_net q.1 (nc_name n), q.2) q');
    [| |exact Hn].
  { destruct Hq as (H1 & H2 & H3 & H4). split; [split; [done|split; [done|split; [done|]]]|simpl; set_solver].
    intros w Hw'. simpl in *. apply H4 in Hw'. set_solver. }
  intros lr q1 q2 Hq1 Hlr. unfold gen_layer_rule in Hlr.
  destruct (is_horiz_of _); revert Hlr; (apply (zloop_inv _ _ _ P'); [exact Hq1|]);
    intros c [st1 i1] ((H1 & H2 & H3 & H4) & H5); unfold stripe_step; simpl in *;
    (refine (conj (conj _ (conj H2 (conj H3 _))) H5);
     [apply stripes_of_snoc; [done|symmetry; apply stripe_self]|by apply nets_cover_add_wire]).
Qed.

(** Wires, cells, ports and [nets_used] of two states. *)
Definition same_wip (a b : gen_state) : Prop :=
  gs_wires a = gs_wires b /\ gs_instances a = gs_instances b /\ gs_pins a = gs_pins b /\
  gs_nets_used a = gs_nets_used b.

Lemma same_wip_add_via (st : gen_state) (v : via) : same_wip (add_via st v) st.
Proof. done. Qed.

Lemma same_wip_fold {X} (f : gen_state -> X -> gen_state) (l : list X) (st : gen_state) :
  (forall a x, same_wip (f a x) a) -> same_wip (fold_left f l st) st.
Proof.
  intros Hf. apply (fold_left_inv (fun a => same_wip a st)); [done|].
  intros a x (H1 & H2 & H3 & H4). destruct (Hf a x) as (G1 & G2 & G3 & G4). unfold same_wip.
  by rewrite G1, G2, G3, G4.
Qed.

(** The via loops change only the vias. *)
Lemma gen_vias_same (layers : list string) (idx : sindex) (st : gen_state) : same_wip (gen_vias layers idx st) st.
Proof.
  apply same_wip_fold. intros a [bot top]. unfold gen_vias_pair.
  destruct (idx !! bot), (idx !! top); try done. apply same_wip_fold. intros b net. unfold gen_vias_net.
  assert (Hg : forall nm mk as_ bs c, same_wip (via_grid nm net bot mk as_ bs c) c).
  { intros. unfold via_grid. apply same_wip_fold. intros. apply same_wip_fold. intros. apply same_wip_add_via. }
  destruct (_ && _), (_ && _); try done; try apply Hg.
  destruct (Hg (via_name bot top) (fun x y => (x, y)) (hv_v (default hv_empty (g !! net))) (hv_h (default hv_empty (g0 !! net)))
             (via_grid (via_name bot top) net bot (fun y x => (x, y)) (hv_h (default hv_empty (g !! net)))
                (hv_v (default hv_empty (g0 !! net))) b)) as (G1 & G2 & G3 & G4).
  destruct (Hg (via_name bot top) (fun y x => (x, y)) (hv_h (default hv_empty (g !! net))) (hv_v (default hv_empty (g0 !! net))) b)
    as (G5 & G6 & G7 & G8).
  unfold same_wip. by rewrite G1, G2, G3, G4, G5, G6, G7, G8.
Qed.

(** ** The cells *)

Definition inst_ok (ws : list wire) (st : gen_state) : Prop :=
  forall i p, i ∈ gs_instances st -> p ∈ i_physical_pins i -> contact_ok ws (pp_net p) (pp_layer p) (pp_center p).

Lemma stripe_rect_H (dd : die) (ws : list wire) (r : wire) :
  stripes_of dd ws -> r ∈ ws -> w_orient r = OH -> rx1 (w_rect r) = d_llx dd /\ rx2 (w_rect r) = d_urx dd.
Proof. intros H Hr Ho. rewrite (H r Hr), Ho. done. Qed.

(** A rail pin of a cell that fits in the die lies on its rail. *)
Lemma rail_pin_ok (dd : die) (ws : list wire) (rl : string) (w x : Z) (r : wire) :
  stripes_of dd ws -> r ∈ ws -> w_orient r = OH -> w_layer r = rl -> 0 <= w ->
  d_llx dd <= x -> x + w < d_urx dd ->
  contact_ok ws (pp_net (rail_pin rl w x r)) (pp_layer (rail_pin rl w x r)) (pp_center (rail_pin rl w x r)).
Proof.
  intros H Hr Ho Hl Hw Hx1 Hx2. destruct (stripe_rect_H dd ws r H Hr Ho) as [E1 E2].
  assert (0 <= w / 2 <= w) by (split; [apply Z.div_pos|apply Z.div_le_upper_bound]; lia).
  exists r. split; [done|]. split; [done|]. split; [done|]. unfold on_wire. rewrite Ho, E1, E2. simpl. lia.
Qed.

Lemma inst_ok_add (ws : list wire) (st : gen_state) (i : instance) :
  inst_ok ws st -> (forall p, p ∈ i_physical_pins i -> contact_ok ws (pp_net p) (pp_layer p) (pp_center p)) ->
  inst_ok ws (add_instance st i).
Proof.
  intros H Hi j p Hj Hp. simpl in Hj. apply elem_of_app in Hj as [Hj|Hj]; [by apply (H j)|].
  apply list_elem_of_singleton in Hj as ->. by apply Hi.
Qed.

(** A rail of the rows: a horizontal stripe of the rail layer. *)
Definition rail_in (ws : list wire) (rl : string) (r : wire) : Prop := r ∈ ws /\ w_orient r = OH /\ w_layer r = rl.

Lemma row_loop_wf (dd : die) (ws : list wire) (fuel : nat) (rl master : string) (count w : Z) (b t : wire)
    (cx cnt : Z) (st : gen_state) :
  stripes_of dd ws -> rail_in ws rl b -> rail_in ws rl t -> 0 <= w -> d_llx dd <= cx ->
  inst_ok ws st ->
  inst_ok ws (row_loop fuel rl master count w (d_urx dd) b t cx cnt st).2 /\
  gs_wires (row_loop fuel rl master count w (d_urx dd) b t cx cnt st).2 = gs_wires st /\
  gs_pins (row_loop fuel rl master count w (d_urx dd) b t cx cnt st).2 = gs_pins st /\
  gs_nets_used (row_loop fuel rl master count w (d_urx dd) b t cx cnt st).2 = gs_nets_used st.
Proof.
  intros H (Hb & Hbo & Hbl) (Ht & Hto & Htl) Hw. revert cx cnt st.
  induction fuel as [|f IH]; intros cx cnt st Hx Hst; simpl; [done|].
  destruct (Z.ltb_spec (cx + w) (d_urx dd)) as [Hc|Hc]; simpl; [|done].
  destruct (cnt <? count)%Z; simpl; [|done].
  destruct (IH (cx + w + 2000) (cnt + 1) (add_instance st (row_cell rl master w b t cx cnt))) as (G1 & G2 & G3 & G4);
    [lia| |].
  - apply inst_ok_add; [done|]. intros p Hp. simpl in Hp.
    apply elem_of_cons in Hp as [->|Hp]; [by apply (rail_pin_ok dd)|].
    apply list_elem_of_singleton in Hp as ->. by apply (rail_pin_ok dd).
  - split; [done|]. by rewrite G2, G3, G4.
Qed.

Lemma adjacent_pairs_elem {A} (l : list A) (x y : A) : (x, y) ∈ adjacent_pairs l -> x ∈ l /\ y ∈ l.
Proof.
  induction l as [|a [|b r] IH]; simpl; intros H; [inversion H|inversion H|].
  apply elem_of_cons in H as [[= -> ->]|H]; [split; [left|right; left]|].
  destruct (IH H) as [Hx Hy]. split; by right.
Qed.

Lemma rows_loop_wf (dd : die) (ws : list wire) (rl master : string) (count w : Z) (pairs : list (wire * wire))
    (cnt : Z) (st : gen_state) :
  stripes_of dd ws -> (forall b t, (b, t) ∈ pairs -> rail_in ws rl b /\ rail_in ws rl t) -> 0 <= w ->
  inst_ok ws st ->
  inst_ok ws (rows_loop rl master count w (d_llx dd) (d_urx dd) pairs cnt st) /\
  gs_wires (rows_loop rl master count w (d_llx dd) (d_urx dd) pairs cnt st) = gs_wires st /\
  gs_pins (rows_loop rl master count w (d_llx dd) (d_urx dd) pairs cnt st) = gs_pins st /\
  gs_nets_used (rows_loop rl master count w (d_llx dd) (d_urx dd) pairs cnt st) = gs_nets_used st.
Proof.
  intros H Hp Hw. revert cnt st. induction pairs as [|[b t] r IH]; intros cnt st Hst; simpl; [done|].
  destruct (count <=? cnt)%Z; [done|].
  assert (Hr : forall b t, (b, t) ∈ r -> rail_in ws rl b /\ rail_in ws rl t) by (intros; apply Hp; by right).
  case_bool_decide; [by apply IH|].
  destruct (Hp b t) as [Hb Ht]; [by left|].
  pose proof (row_loop_wf dd ws (Z.to_nat (count - cnt)) rl master count w b t (d_llx dd + 1000) cnt st H Hb Ht Hw
                ltac:(lia) Hst) as (G1 & G2 & G3 & G4).
  destruct (row_loop _ _ _ _ _ _ _ _ _ _ _) as [cnt' st'] eqn:E. simpl in G1, G2, G3, G4.
  destruct (IH Hr cnt' st' G1) as (F1 & F2 & F3 & F4). by rewrite F2, F3, F4, G2, G3, G4.
Qed.

Lemma rails_of_rail_in (rl : string) (ws : list wire) (r : wire) : r ∈ rails_of rl ws -> rail_in ws rl r.
Proof.
  unfold rails_of, rail_in, is_rail. rewrite (merge_sort_Permutation _ _ : _ ≡ₚ _), elem_of_List_filter.
  intros [Hr Hb]. apply andb_prop in Hb as [H1 H2]. apply bool_decide_eq_true in H1, H2. auto.
Qed.

Lemma gen_instances_wf (units : Z) (da : die_area) (ic : option inst_cfg) (st : gen_state) :
  stripes_of (die_of units da) (gs_wires st) ->
  (forall c, ic = Some c -> 0 <= to_dbu units (ic_width_um c)) ->
  inst_ok (gs_wires st) st ->
  inst_ok (gs_wires st) (gen_instances units da ic st) /\
  gs_wires (gen_instances units da ic st) = gs_wires st /\ gs_pins (gen_instances units da ic st) = gs_pins st /\
  gs_nets_used (gen_instances units da ic st) = gs_nets_used st.
Proof.
  intros H Hw Hst. unfold gen_instances. destruct ic as [c|]; [|done].
  destruct (rails_of (ic_rail_layer c) (gs_wires st)) as [|r0 rs] eqn:Er; [done|]. rewrite <- Er.
  apply rows_loop_wf; [done| |by apply Hw|done].
  intros b t Hbt. apply adjacent_pairs_elem in Hbt as [Hb Ht]. split; by apply rails_of_rail_in.
Qed.

(** ** The ports *)

Definition pins_ok (ws : list wire) (st : gen_state) : Prop :=
  forall q, q ∈ gs_pins st -> contact_ok ws (p_net q) (p_layer q) (p_pos q).

Lemma pins_ok_add (ws : list wire) (st : gen_state) (q : gen_pin) :
  pins_ok ws st -> contact_ok ws (p_net q) (p_layer q) (p_pos q) -> pins_ok ws (add_pin st q).
Proof.
  intros H Hq q' Hq'. simpl in Hq'. apply elem_of_app in Hq' as [Hq'|Hq']; [auto|].
  by apply list_elem_of_singleton in Hq' as ->.
Qed.

(** The invariant of the pin loops: the ports lie on wires of [ws], the
    wires and the cells are those of [st0]. *)
Definition pin_inv (ws : list wire) (st0 st : gen_state) : Prop :=
  pins_ok ws st /\ gs_wires st = gs_wires st0 /\ gs_instances st = gs_instances st0 /\
  gs_nets_used st = gs_nets_used st0.

Lemma pins_loop_wf (ws : list wire) (net layer : string) (iv : Z) (w : wire) (st0 st st' : gen_state)
    (lo hi : Z) (pt : Z -> Z * Z) :
  w ∈ ws -> w_net w = net -> w_layer w = layer -> pin_inv ws st0 st -> lo < hi ->
  (forall c, lo <= c < hi -> on_wire w (pt c)) ->
  zloop (zloop_fuel (lo + iv / 2) hi) iv hi (fun c st => add_pin st (create_pin net layer w (pt c).1 (pt c).2))
    (lo + iv / 2) st = Some st' ->
  pin_inv ws st0 st'.
Proof.
  intros Hw Hn Hl Hst Hlh Hpt Hz. destruct (Z.le_gt_cases iv 0) as [Hi|Hi].
  - assert (iv / 2 <= 0) by (apply Z.div_le_upper_bound; lia). by rewrite zloop_none in Hz by lia.
  - assert (0 <= iv / 2) by (apply Z.div_pos; lia).
    apply (zloop_inv_range (pin_inv ws st0) _ _ _ _ _ _ _ Hz Hst). intros c a Hc (H1 & H2 & H3 & H4).
    split; [|split; [exact H2|split; [exact H3|exact H4]]]. apply pins_ok_add; [exact H1|].
    exists w. split; [done|]. simpl. split; [done|split; [done|]]. rewrite <- surjective_pairing. apply Hpt. lia.
Qed.

Lemma pins_wire_wf (ws : list wire) (net layer : string) (iv : Z) (w : wire) (st0 st st' : gen_state) :
  w ∈ ws -> w_net w = net -> w_layer w = layer -> pin_inv ws st0 st ->
  pins_wire net layer iv w st = Some st' -> pin_inv ws st0 st'.
Proof.
  intros Hw Hn Hl Hst. unfold pins_wire. destruct (w_orient w) eqn:Ho; (case_match; [by intros [= <-]|]).
  - apply (pins_loop_wf ws net layer iv w st0 st st' _ _ (fun x => (x, w_center w))); try done; [lia|].
    intros c Hc. unfold on_wire. rewrite Ho. simpl. lia.
  - apply (pins_loop_wf ws net layer iv w st0 st st' _ _ (fun y => (w_center w, y))); try done; [lia|].
    intros c Hc. unfold on_wire. rewrite Ho. simpl. lia.
Qed.

Lemma for_opt_inv_in {A B} (P : A -> Prop) (f : B -> A -> option A) (l : list B) (a a' : A) :
  P a -> (forall x b b', x ∈ l -> P b -> f x b = Some b' -> P b') -> for_opt f l a = Some a' -> P a'.
Proof.
  intros Ha Hf. revert a Ha. induction l as [|x r IH]; intros a Ha; simpl; [by intros [= <-]|].
  destruct (f x a) as [b|] eqn:E; simpl; [|done]. apply IH; [|by eapply Hf; [left| |]].
  intros y c c' Hy. apply Hf. by right.
Qed.

Lemma gen_pins_wf (units : Z) (nets : list net_cfg) (st st' : gen_state) :
  gen_pins units nets st = Some st' -> pin_inv (gs_wires st) st st -> pin_inv (gs_wires st) st st'.
Proof.
  intros H Hst. apply (for_opt_inv (pin_inv (gs_wires st) st) (gen_pins_net units) nets st st' Hst); [|exact H].
  intros n a b Ha Hn. unfold gen_pins_net in Hn. destruct (nc_pin_config n) as [pc|]; [|by injection Hn as <-].
  revert Hn. apply (for_opt_inv_in (pin_inv (gs_wires st) st)); [exact Ha|].
  intros w a1 b1 Hw Ha1. apply elem_of_List_filter in Hw as [Hw Hf].
  apply andb_prop in Hf as [H1 H2]. apply bool_decide_eq_true in H1, H2.
  destruct Ha as (_ & Haw & _ & _). rewrite Haw in Hw. by apply pins_wire_wf.
Qed.

Lemma analyze_net_types_same (ic : option inst_cfg) (nets : list net_cfg) (st : gen_state) :
  same_wip (analyze_net_types ic nets st) st.
Proof. apply same_wip_fold. done. Qed.

(** ** The output of [run] *)

(** What a terminating [run] produces: a well-formed output whose
    wires' nets are all in [nets_used]. *)
Lemma gen_run_inv (tech : tech_lef) (c : config) (da : die_area) (st : gen_state) :
  cfg_die_area c = Some da ->
  (forall ic, cfg_instance_placement c = Some ic -> 0 <= to_dbu (tl_units tech) (ic_width_um ic)) ->
  gen_run tech c = Some st -> gen_wf (die_of (tl_units tech) da) st /\ nets_cover st.
Proof.
  intros Hda Hw. unfold gen_run. rewrite Hda.
  destruct (analyze_net_types_same (cfg_instance_placement c) (cfg_nets c) gen_init) as (A1 & A2 & A3 & A4).
  set (st0 := analyze_net_types (cfg_instance_placement c) (cfg_nets c) gen_init) in *.
  destruct (gen_stripes _ _ _ st0) as [p|] eqn:Es; simpl; [|done]. intros Hp.
  destruct (gen_stripes_wf _ _ _ _ _ Es) as (S1 & S2 & S3 & S4);
    [rewrite A1; intros w Hw0; inversion Hw0|by rewrite A2|by rewrite A3|unfold nets_cover; rewrite A1; intros w Hw0; inversion Hw0|].
  destruct (gen_vias_same (default (tl_layers tech) (cfg_tech_layers c)) p.2 p.1) as (V1 & V2 & V3 & V4).
  set (st1 := gen_vias _ p.2 p.1) in *.
  destruct (gen_instances_wf (tl_units tech) da (cfg_instance_placement c) st1) as (I1 & I2 & I3 & I4);
    [by rewrite V1|done|intros i q Hi; rewrite V2, S2 in Hi; inversion Hi|].
  set (st2 := gen_instances _ _ _ st1) in *.
  destruct (gen_pins_wf _ _ st2 st Hp) as (P1 & P2 & P3 & P4).
  { split; [|done]. intros q Hq. rewrite I3, V3, S3 in Hq. inversion Hq. }
  split; [split; [|split]|].
  - by rewrite P2, I2, V1.
  - intros i q Hi Hq. rewrite P3 in Hi. rewrite P2, I2. by apply (I1 i q).
  - intros q Hq. rewrite P2. exact (P1 q Hq).
  - intros w. rewrite P2, I2, V1, P4, I4, V4. apply S4.
Qed.

(** The nets of a terminating [run]'s wires are in [nets_used], with or
    without a [die_area]. *)
Lemma gen_run_nets_cover (tech : tech_lef) (c : config) (st : gen_state) :
  (forall ic, cfg_instance_placement c = Some ic -> 0 <= to_dbu (tl_units tech) (ic_width_um ic)) ->
  gen_run tech c = Some st -> nets_cover st.
Proof.
  intros Hw Hr. destruct (cfg_die_area c) as [da|] eqn:Hda.
  - exact (proj2 (gen_run_inv tech c da st Hda Hw Hr)).
  - revert Hr. unfold gen_run. rewrite Hda. intros [= <-] w Hw'. inversion Hw'.
Qed.

(** C32. [Generator.run] only produces contacts the extractor can
    attach: every wire is a full stripe of the die, every physical pin
    of every cell lies on a wire of its net and layer (its rail, between
    the die's edges), and every port lies on a wire of its net and layer,
    between the wire's ends — provided the cells have a width of zero or
    more. *)
Theorem gen_run_wf (tech : tech_lef) (c : config) (da : die_area) (st : gen_state) :
  cfg_die_area c = Some da ->
  (forall ic, cfg_instance_placement c = Some ic -> 0 <= to_dbu (tl_units tech) (ic_width_um ic)) ->
  gen_run tech c = Some st -> gen_wf (die_of (tl_units tech) da) st.
Proof. intros Hda Hw Hr. exact (proj1 (gen_run_inv tech c da st Hda Hw Hr)). Qed.

(** ** The vias of [run] *)

(** The stripe loops put every wire on a layer of the rules. *)
Lemma gen_stripes_layers (units : Z) (dd : die) (nets : list net_cfg) (st : gen_state) (p : gen_state * sindex) :
  gen_stripes units dd nets st = Some p ->
  (forall w, w ∈ gs_wires st -> w_layer w ∈ rule_layers nets) ->
  forall w, w ∈ gs_wires p.1 -> w_layer w ∈ rule_layers nets.
Proof.
  intros H Hst.
  set (P := fun q : gen_state * sindex => forall w, w ∈ gs_wires q.1 -> w_layer w ∈ rule_layers nets).
  change (P p). revert H. unfold gen_stripes. apply (for_opt_inv_in P); [exact Hst|].
  intros n q q' Hn Hq. unfold gen_net_stripes. apply (for_opt_inv_in P); [exact Hq|].
  intros lr q1 q2 Hlr Hq1.
  assert (Hl : lr_name lr ∈ rule_layers nets).
  { apply list_elem_of_bind. exists n. split; [|done]. by apply list_elem_of_fmap_2. }
  unfold gen_layer_rule. destruct (is_horiz_of _); (apply (zloop_inv _ _ _ P); [exact Hq1|]);
    intros c [st1 i1] Ha w Hw; simpl in Hw; apply elem_of_app in Hw as [Hw|Hw]; [by apply Ha| |by apply Ha|];
    by apply list_elem_of_singleton in Hw as ->.
Qed.

Lemma same_vw_fold {X} (f : gen_state -> X -> gen_state) (l : list X) (st : gen_state) :
  (forall a x, same_vw (f a x) a) -> same_vw (fold_left f l st) st.
Proof.
  intros Hf. apply (fold_left_inv (fun a => same_vw a st)); [done|].
  intros a x [H1 H2]. destruct (Hf a x) as [G1 G2]. split; congruence.
Qed.

Lemma row_loop_vw (f : nat) (rl master : string) (count w urx : Z) (b t : wire) (cx cnt : Z) (st : gen_state) :
  same_vw (row_loop f rl master count w urx b t cx cnt st).2 st.
Proof.
  revert cx cnt st. induction f as [|f IH]; intros cx cnt st; simpl; [done|].
  destruct (_ && _); [|done].
  destruct (IH (cx + w + 2000) (cnt + 1) (add_instance st (row_cell rl master w b t cx cnt))) as [H1 H2].
  split; [rewrite H1|rewrite H2]; done.
Qed.

Lemma rows_loop_vw (rl master : string) (count w llx urx : Z) (prs : list (wire * wire)) (cnt : Z) (st : gen_state) :
  same_vw (rows_loop rl master count w llx urx prs cnt st) st.
Proof.
  revert cnt st. induction prs as [|[b t] r IH]; intros cnt st; simpl; [done|].
  destruct (_ <=? _)%Z; [done|]. case_bool_decide; [apply IH|].
  pose proof (row_loop_vw (Z.to_nat (count - cnt)) rl master count w urx b t (llx + 1000) cnt st) as Hrow.
  destruct (row_loop _ _ _ _ _ _ _ _ _ _ _) as [c' st'] eqn:E. try rewrite E in Hrow.
  destruct (IH c' st') as [H1 H2]. simpl in Hrow. destruct Hrow as [G1 G2]. split; congruence.
Qed.

(** The cells, the ports and the net types leave the vias and the wires
    as they are. *)
Lemma gen_instances_vw (units : Z) (da : die_area) (ic : option inst_cfg) (st : gen_state) :
  same_vw (gen_instances units da ic st) st.
Proof.
  unfold gen_instances. destruct ic as [c|]; [|done].
  destruct (rails_of _ _); [done|apply rows_loop_vw].
Qed.

Lemma pins_wire_vw (net layer : string) (iv : Z) (w : wire) (st st' : gen_state) :
  pins_wire net layer iv w st = Some st' -> same_vw st' st.
Proof.
  unfold pins_wire. destruct (w_orient w); (destruct (_ <=? 0)%Z; [by intros [= <-]|]);
    (apply (zloop_inv _ _ _ (fun a => same_vw a st)); [done|]); intros c a Ha; exact Ha.
Qed.

Lemma gen_pins_vw (units : Z) (nets : list net_cfg) (st st' : gen_state) :
  gen_pins units nets st = Some st' -> same_vw st' st.
Proof.
  apply (for_opt_inv (fun a => same_vw a st)); [done|].
  intros n a b Ha. unfold gen_pins_net. destruct (nc_pin_config n); [|by intros [= <-]].
  apply (for_opt_inv (fun b => same_vw b st)); [exact Ha|].
  intros w a1 b1 [G1 G2] Hw. destruct (pins_wire_vw _ _ _ _ _ _ Hw) as [K1 K2]. split; congruence.
Qed.

Lemma analyze_net_types_vw (ic : option inst_cfg) (nets : list net_cfg) (st : gen_state) :
  same_vw (analyze_net_types ic nets st) st.
Proof. apply same_vw_fold. done. Qed.

(** Every via [run] places lies at the crossing of two stripes of its
    net, on two layers adjacent in the sorted layer list that the rules
    both stripe. *)
Lemma gen_run_vias (tech : tech_lef) (c : config) (st : gen_state) :
  gen_run tech c = Some st -> forall v, v ∈ gs_vias st ->
  exists bot top, (bot, top) ∈ layer_pairs (default (tl_layers tech) (cfg_tech_layers c)) /\
    v_name v = via_name bot top /\ v_bot_layer v = bot /\
    bot ∈ rule_layers (cfg_nets c) /\ top ∈ rule_layers (cfg_nets c) /\
    exists wb wt, wb ∈ gs_wires st /\ wt ∈ gs_wires st /\ w_layer wb = bot /\ w_layer wt = top /\
      w_net wb = v_net v /\ w_net wt = v_net v /\ crosses wb wt (v_pos v).
Proof.
  unfold gen_run. destruct (cfg_die_area c) as [da|]; [|intros [= <-] v Hv; inversion Hv].
  destruct (analyze_net_types_vw (cfg_instance_placement c) (cfg_nets c) gen_init) as [A1 A2].
  set (st0 := analyze_net_types _ _ gen_init) in *.
  destruct (gen_stripes _ _ _ st0) as [p|] eqn:Es; simpl; [|done]. intros Hp v Hv.
  destruct (gen_pins_vw _ _ _ _ Hp) as [P1 P2]. rewrite P1 in Hv. rewrite P2.
  rewrite (proj1 (gen_instances_vw _ _ _ _)) in Hv. rewrite (proj2 (gen_instances_vw _ _ _ _)).
  rewrite (proj1 (gen_vias_same _ _ _)).
  apply (gen_vias_crossings _ _ _ st0 p _ v A2 A1 Es) in Hv
    as (bot & top & Hpr & Hn & Hb & wb & wt & Hwb & Hwt & Hlb & Hlt & Hx).
  assert (HL := gen_stripes_layers _ _ _ _ _ Es). rewrite A2 in HL.
  exists bot, top. split_and!; try done.
  - rewrite <- Hlb. apply HL; [intros w Hw; inversion Hw|done].
  - rewrite <- Hlt. apply HL; [intros w Hw; inversion Hw|done].
  - by exists wb, wt.
Qed.

(** C26. [Generator.run] places a via only at the crossing of two
    stripes of its net on two layers adjacent in the sorted layer list:
    when every adjacent pair of that list has a layer on which no rule
    lays stripes, as when the layers come from a LEF whose cut layers
    ([V1], [VIA1], ...) sort between the metals they join, it places no
    via at all, whatever the nets. *)
Theorem gen_run_unstriped_pairs (tech : tech_lef) (c : config) (st : gen_state) :
  gen_run tech c = Some st ->
  (forall bot top, (bot, top) ∈ layer_pairs (default (tl_layers tech) (cfg_tech_layers c)) ->
     bot ∉ rule_layers (cfg_nets c) \/ top ∉ rule_layers (cfg_nets c)) ->
  gs_vias st = [].
Proof.
  intros Hr Hp. destruct (gs_vias st) as [|v vs] eqn:E; [done|].
  destruct (gen_run_vias tech c st Hr v) as (bot & top & Hpr & _ & _ & Hb & Ht & _); [rewrite E; left|].
  by destruct (Hp bot top Hpr).
Qed.

Lemma gen_run_wf_witness :
  gen_wf (die_of 1000 (mkDieArea 0 0 20 20)) (default gen_init (gen_run ex_tech ex_cfg)).
Proof.
  apply (gen_run_wf ex_tech ex_cfg); [reflexivity| |vm_compute; reflexivity].
  intros ic [= <-]. vm_compute. intros H. discriminate.
Defined.

(** The layers of a LEF with its cut layers, in file order. *)
Definition ex_tech_cut : tech_lef := mkTechLef 1000 ["M1"; "V1"; "M2"; "V2"].

Lemma gen_run_unstriped_pairs_witness :
  gen_run ex_tech_cut ex_cfg = Some (default gen_init (gen_run ex_tech_cut ex_cfg)) /\
  gs_vias (default gen_init (gen_run ex_tech_cut ex_cfg)) = [].
Proof.
  split; [vm_compute; reflexivity|].
  apply (gen_run_unstriped_pairs ex_tech_cut ex_cfg); [vm_compute; reflexivity|].
  intros b t H. change ((b, t) ∈ layer_pairs ["M1"; "V1"; "M2"; "V2"]) in H.
  assert (E : layer_pairs ["M1"; "V1"; "M2"; "V2"] = [("M1", "V1"); ("V1", "M2"); ("M2", "V2")])
    by (vm_compute; reflexivity).
  rewrite E in H. change (rule_layers (cfg_nets ex_cfg)) with ["M1"; "M1"; "M2"].
  apply elem_of_cons in H as [H|H]; [injection H as -> ->; right; set_solver|].
  apply elem_of_cons in H as [H|H]; [injection H as -> ->; left; set_solver|].
  apply elem_of_cons in H as [H|H]; [injection H as -> ->; right; set_solver|].
  by apply elem_of_nil in H.
Defined.

End GenWf.
