(* ===== verification/DefWriter.v ===== *)
(** * [DEFWriter] and [SpiceWriter] (def_writer.py, spice_writer.py)

    [DEFWriter.write] (lines 826-865 of the installer) writes a
    generator's design as DEF text through a sequence of [f.write] calls.
    Here the file is that sequence of strings ([def_write]); its text is
    their concatenation.  The writer reads the generator's [tech.units],
    its [die_area] dict (the configuration's, in microns), [instances],
    [nets_used] (a set, iterated in [elements] order), [net_conn_map] and
    [wires].  [SpiceWriter.write] (lines 875-885) writes a deck that
    [.INCLUDE]s one DSPF file per generator of the stack ([spice_write]).
    The [os.path.join] and the [print]s are not modelled.

    The theorems: every wire of a generated design is written exactly
    once, in the [ROUTED] section of its own net (C33); the [DIEAREA]
    statement is written in microns while every routed coordinate is in
    database units (C34). *)

From S2P Require Import Prelude PyStr Format Geometry Generator GenWf.
From Stdlib Require Import Ascii.

Local Open Scope string_scope.

Module DefW.
Import Geom Gen GenWf.

(** ["\n"]. *)
Definition nl : string := String (ascii_of_nat 10) EmptyString.

(** ** Numbers of the configuration *)

(** [str(v)] of a number of the configuration's JSON: an [int] prints as
    its decimal, a [float] as its shortest [repr].  The model keeps the
    value, not its JSON type, so the printing is a class; [float_num_str]
    below is the [float] case. *)
Class NumStr := num_str : Q -> string.

(** The number of digits after the point of a decimal with at most 17 of
    them. *)
Fixpoint frac_len_go (n k : nat) (q : Q) : nat :=
  match n with
  | O => k
  | S n' => if Z.eqb ((Qnum q * 10 ^ Z.of_nat k) mod Zpos (Qden q)) 0 then k else frac_len_go n' (S k) q
  end.

Definition frac_len (q : Q) : nat := frac_len_go 17 0 q.

(** [repr] of a float whose value is a decimal of at most 17 digits
    after the point and of magnitude in [1e-4, 1e16) (a JSON literal such
    as [5000.0] or [0.2]): the integer part, the point, the digits of the
    fraction or a single [0]. *)
Definition py_float_repr (q : Q) : string :=
  let k := frac_len q in
  let a := Z.abs (Qnum q) * 10 ^ Z.of_nat k / Zpos (Qden q) in
  (if (Qnum q <? 0)%Z then "-" else EmptyString) ++ py_str_Z (a / 10 ^ Z.of_nat k) ++ "." ++
  match k with O => "0" | _ => Fmt.pad_zeros k (py_str_Z (a mod 10 ^ Z.of_nat k)) end.

#[export] Instance float_num_str : NumStr := py_float_repr.

(** ** [DEFWriter.write] *)

Section Def.
Context `{NumStr}.

(** The header: [VERSION], [DESIGN] and [UNITS DISTANCE MICRONS] with
    the tech's [units]. *)
Definition def_header (units : Z) (design_name : string) : string :=
  "VERSION 5.8 ;" ++ nl ++ "DESIGN " ++ design_name ++ " ;" ++ nl ++
  "UNITS DISTANCE MICRONS " ++ py_str_Z units ++ " ;" ++ nl.

(** [self.gen.die_area.get(k, 0)]: the configuration's value, or the
    [int] [0] when [die_area] is empty. *)
Definition die_get (da : option die_area) (f : die_area -> Q) : string :=
  match da with Some d => num_str (f d) | None => "0" end.

Definition def_diearea (da : option die_area) : string :=
  "DIEAREA ( " ++ die_get da da_llx ++ " " ++ die_get da da_lly ++ " ) ( " ++
  die_get da da_urx ++ " " ++ die_get da da_ury ++ " ) ;" ++ nl.

(** One component: [- name master + PLACED ( x y ) N ;]. *)
Definition comp_line (i : instance) : string :=
  "- " ++ i_name i ++ " " ++ i_master i ++ " + PLACED ( " ++ py_str_Z (i_pos i).1 ++ " " ++
  py_str_Z (i_pos i).2 ++ " ) N ;" ++ nl.

(** [f"  ( " + " ) ( ".join(conns) + " )"] when [conns] is not empty. *)
Definition conns_chunk (conns : list string) : list string :=
  match conns with
  | [] => []
  | _ => ["  ( " ++ String.concat " ) ( " conns ++ " )"]
  end.

(** One routed segment: a horizontal wire from [( x1 center )] to
    [( x2 * )], a vertical one from [( center y1 )] to [( * y2 )]. *)
Definition seg_chunk (w : wire) : string :=
  let r := w_rect w in
  match w_orient w with
  | OH => nl ++ "    " ++ w_layer w ++ " ( " ++ py_str_Z (rx1 r) ++ " " ++ py_str_Z (w_center w) ++
          " ) ( " ++ py_str_Z (rx2 r) ++ " * )"
  | OV => nl ++ "    " ++ w_layer w ++ " ( " ++ py_str_Z (w_center w) ++ " " ++ py_str_Z (ry1 r) ++
          " ) ( * " ++ py_str_Z (ry2 r) ++ " )"
  end.

(** [[w for w in self.gen.wires if w['net'] == net]]. *)
Definition net_wires (ws : list wire) (net : string) : list wire := filter (fun w => w_net w = net) ws.

Definition routed_chunks (ws : list wire) : list string :=
  match ws with
  | [] => []
  | _ => (nl ++ "  + ROUTED") :: map seg_chunk ws
  end.

(** One net: its name, its connections, its wires and the closing
    [;]. *)
Definition net_chunks (st : gen_state) (net : string) : list string :=
  ("- " ++ net ++ nl)%string :: (conns_chunk (default [] (gs_net_conn_map st !! net)) ++
   routed_chunks (net_wires (gs_wires st) net) ++ [" ;" ++ nl]%string)%list.

(** [DEFWriter(gen).write(filename, design_name)]: the [f.write]
    calls in order. *)
Definition def_write (units : Z) (da : option die_area) (st : gen_state) (design_name : string) : list string :=
  ([def_header units design_name; def_diearea da;
    ("COMPONENTS " ++ py_str_Z (Z.of_nat (length (gs_instances st))) ++ " ;" ++ nl)%string] ++
   map comp_line (gs_instances st) ++
   [("END COMPONENTS" ++ nl)%string;
    ("NETS " ++ py_str_Z (Z.of_nat (length (elements (gs_nets_used st)))) ++ " ;" ++ nl)%string] ++
   concat (map (net_chunks st) (elements (gs_nets_used st))) ++
   [("END NETS" ++ nl)%string; ("END DESIGN" ++ nl)%string])%list.

End Def.

(** ** [SpiceWriter.write] *)

(** The deck: a title, [.PARAM], an [.INCLUDE output_<die>.dspf] per
    generator of the stack in its order, [.END]. *)
Definition spice_write {G} (gens : list (string * G)) : list string :=
  ([("* 3D Stack SPICE Netlist" ++ nl)%string; (".PARAM" ++ nl)%string] ++
   map (fun '(die_name, _) => (".INCLUDE output_" ++ die_name ++ ".dspf" ++ nl)%string) gens ++
   [(".END" ++ nl)%string])%list.

(** The chunks that open a routed segment. *)
Definition is_seg (s : string) : Prop := String.prefix (nl ++ "    ") s = true.

#[export] Instance is_seg_dec : forall s, Decision (is_seg s).
Proof. intros s. unfold is_seg. apply _. Defined.

(** ** Lemmas *)

Lemma prefix_app (s t : string) : String.prefix s (s ++ t) = true.
Proof. induction s as [|a s IH]; simpl; [by destruct t|]. by destruct (ascii_dec a a). Qed.

Lemma seg_chunk_is_seg `{NumStr} (w : wire) : is_seg (seg_chunk w).
Proof. unfold is_seg, seg_chunk. destruct (w_orient w); apply (prefix_app (nl ++ "    ")). Qed.

(** A chunk whose first characters differ from a segment's. *)
Ltac not_seg := let Hs := fresh in intros Hs; vm_compute in Hs; discriminate.

Lemma filter_segs `{NumStr} (ws : list wire) : filter is_seg (map seg_chunk ws) = map seg_chunk ws.
Proof.
  induction ws as [|w ws IH]; [done|]. simpl. rewrite filter_cons_True by apply seg_chunk_is_seg. by rewrite IH.
Qed.

Lemma filter_none {A} (P : A -> Prop) `{!forall x, Decision (P x)} (l : list A) :
  (forall x, x ∈ l -> ~ P x) -> filter P l = [].
Proof.
  induction l as [|x l IH]; intros Hl; [done|]. rewrite filter_cons_False by (apply Hl; left).
  apply IH. intros y Hy. apply Hl. by right.
Qed.

Lemma filter_concat {A} (P : A -> Prop) `{!forall x, Decision (P x)} (ls : list (list A)) :
  filter P (concat ls) = concat (map (filter P) ls).
Proof. induction ls as [|l ls IH]; [done|]. simpl. by rewrite filter_app, IH. Qed.

(** The segments of a net's section are its wires, in order. *)
Lemma net_chunks_segs `{NumStr} (st : gen_state) (net : string) :
  filter is_seg (net_chunks st net) = map seg_chunk (net_wires (gs_wires st) net).
Proof.
  unfold net_chunks. rewrite filter_cons_False by not_seg. rewrite !filter_app.
  rewrite (filter_none _ (conns_chunk _)), (filter_none _ [_]); cycle 1.
  - intros x ->%list_elem_of_singleton. not_seg.
  - unfold conns_chunk. case_match; [intros x Hx; inversion Hx|]. intros x ->%list_elem_of_singleton. not_seg.
  - unfold routed_chunks. destruct (net_wires _ _) as [|w ws] eqn:E; [done|].
    rewrite filter_cons_False by not_seg. rewrite app_nil_l, app_nil_r. apply filter_segs.
Qed.

(** The segments of the whole file are those of the nets' sections, in
    the order of [nets_used]. *)
Lemma def_write_segs `{NumStr} (units : Z) (da : option die_area) (st : gen_state) (name : string) :
  filter is_seg (def_write units da st name) =
  map seg_chunk (concat (map (net_wires (gs_wires st)) (elements (gs_nets_used st)))).
Proof.
  unfold def_write. rewrite !filter_app, filter_concat, map_map.
  rewrite (filter_none _ [_; _; _]), (filter_none _ (map comp_line _)), (filter_none _ [_; _]),
    (filter_none _ [_; _]); cycle 1.
  - intros x Hx. repeat (apply elem_of_cons in Hx as [->|Hx]; [not_seg|]). inversion Hx.
  - intros x Hx. repeat (apply elem_of_cons in Hx as [->|Hx]; [not_seg|]). inversion Hx.
  - intros x (i & -> & _)%list_elem_of_fmap. not_seg.
  - intros x Hx. repeat (apply elem_of_cons in Hx as [->|Hx]; [not_seg|]). inversion Hx.
  - rewrite ?app_nil_l, ?app_nil_r, concat_map, map_map. f_equal. apply map_ext. intros n. apply net_chunks_segs.
Qed.

(** ** The routed wires *)

(** C33. [DEFWriter.write] on a design [Generator.run] produced lists
    every wire exactly once: the [ROUTED] segments of a net's section
    are that net's wires in generation order, and the segments of the
    whole file are all the wires, each once (in the order of the nets of
    [nets_used]), because every wire's net is in [nets_used] and a set
    holds each net once.  Cell widths of zero or more are assumed, as
    for [run]'s other properties. *)
Theorem def_routes_every_wire_once `{NumStr} (tech : tech_lef) (c : config) (st : gen_state) (name : string) :
  (forall ic, cfg_instance_placement c = Some ic -> 0 <= to_dbu (tl_units tech) (ic_width_um ic)) ->
  gen_run tech c = Some st ->
  (forall net, filter is_seg (net_chunks st net) = map seg_chunk (net_wires (gs_wires st) net)) /\
  filter is_seg (def_write (tl_units tech) (cfg_die_area c) st name) ≡ₚ map seg_chunk (gs_wires st).
Proof.
  intros Hw Hr. split; [apply net_chunks_segs|]. rewrite def_write_segs.
  f_equiv. apply concat_group_perm; [apply NoDup_elements|].
  intros w Hw'. apply elem_of_elements. exact (gen_run_nets_cover tech c st Hw Hr w Hw').
Qed.

(** C34. The [DIEAREA] statement prints the configuration's [die_area]
    as it stands, in microns, while every routed segment of a design
    [Generator.run] produced runs between the die's edges in database
    units ([_to_dbu]): a horizontal wire from [llx] to [urx], a vertical
    one from [lly] to [ury], each converted.  With [UNITS DISTANCE
    MICRONS] other than 1 the routes leave the declared die area. *)
Theorem def_diearea_microns `{NumStr} (tech : tech_lef) (c : config) (da : die_area) (st : gen_state) (name : string) :
  cfg_die_area c = Some da ->
  (forall ic, cfg_instance_placement c = Some ic -> 0 <= to_dbu (tl_units tech) (ic_width_um ic)) ->
  gen_run tech c = Some st ->
  nth 1 (def_write (tl_units tech) (cfg_die_area c) st name) EmptyString =
    "DIEAREA ( " ++ num_str (da_llx da) ++ " " ++ num_str (da_lly da) ++ " ) ( " ++
    num_str (da_urx da) ++ " " ++ num_str (da_ury da) ++ " ) ;" ++ nl /\
  forall w, w ∈ gs_wires st ->
    seg_chunk w =
      match w_orient w with
      | OH => nl ++ "    " ++ w_layer w ++ " ( " ++ py_str_Z (to_dbu (tl_units tech) (da_llx da)) ++ " " ++
              py_str_Z (w_center w) ++ " ) ( " ++ py_str_Z (to_dbu (tl_units tech) (da_urx da)) ++ " * )"
      | OV => nl ++ "    " ++ w_layer w ++ " ( " ++ py_str_Z (w_center w) ++ " " ++
              py_str_Z (to_dbu (tl_units tech) (da_lly da)) ++ " ) ( * " ++
              py_str_Z (to_dbu (tl_units tech) (da_ury da)) ++ " )"
      end.
Proof.
  intros Hda Hw Hr. rewrite Hda. split; [reflexivity|].
  destruct (gen_run_inv tech c da st Hda Hw Hr) as [(Hs & _ & _) _].
  intros w Hw'. rewrite (Hs w Hw'). unfold seg_chunk, stripe. simpl. by destruct (w_orient w).
Qed.

(** ** Examples *)

(** The design of [Gen.ex_cfg] (a 20 by 20 micron die at 1000 units). *)
Definition ex_st : gen_state := default gen_init (gen_run ex_tech ex_cfg).

Lemma def_routes_every_wire_once_witness :
  (forall net, filter is_seg (net_chunks ex_st net) = map seg_chunk (net_wires (gs_wires ex_st) net)) /\
  filter is_seg (def_write (tl_units ex_tech) (cfg_die_area ex_cfg) ex_st "TOP") ≡ₚ map seg_chunk (gs_wires ex_st).
Proof.
  apply (def_routes_every_wire_once ex_tech ex_cfg ex_st "TOP");
    [intros ic [= <-]; vm_compute; discriminate|vm_compute; reflexivity].
Defined.

Lemma def_diearea_microns_witness :
  nth 1 (def_write (tl_units ex_tech) (cfg_die_area ex_cfg) ex_st "TOP") EmptyString =
    "DIEAREA ( 0.0 0.0 ) ( 20.0 20.0 ) ;" ++ nl /\
  seg_chunk (stripe (die_of 1000 (mkDieArea 0 0 20 20)) "M1" "VSS" OH 200 0) = nl ++ "    M1 ( 0 0 ) ( 20000 * )" /\
  stripe (die_of 1000 (mkDieArea 0 0 20 20)) "M1" "VSS" OH 200 0 ∈ gs_wires ex_st.
Proof.
  assert (Hin : stripe (die_of 1000 (mkDieArea 0 0 20 20)) "M1" "VSS" OH 200 0 ∈ gs_wires ex_st)
    by (vm_compute; left).
  destruct (def_diearea_microns ex_tech ex_cfg (mkDieArea 0 0 20 20) ex_st "TOP") as [H1 H2];
    [reflexivity|intros ic [= <-]; vm_compute; discriminate|vm_compute; reflexivity|].
  split; [rewrite H1; vm_compute; reflexivity|]. split; [|exact Hin].
  rewrite (H2 _ Hin). vm_compute. reflexivity.
Defined.

End DefW.
