(* ===== verification/TechLef.v ===== *)
(** * The technology LEF reader: [TechLEF.parse] (tech_lef.py)

    [TechLEF] (lines 29-93 of the installer) holds [units], the dict
    [layers] and the dict [vias]; [parse] reads the file line by line,
    splits each line into words and dispatches on the first word, keeping
    the current section ([LAYER], [VIA] or none) and the current layer or
    via.  The whole loop is inside one [try]: the first line that raises
    (an [IndexError] of a missing word, a [ValueError] of [float]) ends the
    parse with the dicts as they were after the line before it.  Here the
    dicts are insertion-ordered association lists ([odict_set]), a step is
    [lef_step] returning [None] for a raised exception, and [parse_lines]
    runs the steps until the first exception.  The layer names of the
    result, in file order, are what [Generator] sorts when the
    configuration has no [tech_properties['layers']]. *)

From S2P Require Import Prelude PyStr Layers Generator.

Local Open Scope string_scope.

Module Lef.

(** ** The data *)

(** [self.layers[name]]: [{'name'}] and the optional [type],
    [direction], [width] and [pitch]. *)
Record lef_layer := mkLefLayer {
  ly_name : string; ly_type : option string; ly_direction : option string;
  ly_width : option pyfloat; ly_pitch : option pyfloat
}.

(** [self.vias[name] = {'name': name, 'layers': {}, 'rects': []}]: the
    two collections stay empty, since the via lines only [pass]. *)
Record lef_via := mkLefVia { lv_name : string }.

Record tech := mkTech {
  units : Z; layers : list (string * lef_layer); vias : list (string * lef_via)
}.

(** [TechLEF.__init__]. *)
Definition tech_init : tech := mkTech 1000 [] [].

Inductive section := NoSection | SecLayer | SecVia.

#[export] Instance section_eq_dec : EqDecision section.
Proof. solve_decision. Defined.

(** The locals of [parse]: [current_layer], [current_via], [section]. *)
Record lef_state := mkLefState {
  ls_tech : tech; current_layer : option string; current_via : option string; ls_section : section
}.

Definition set_units (st : lef_state) (u : Z) : lef_state :=
  let t := ls_tech st in
  mkLefState (mkTech u (layers t) (vias t)) (current_layer st) (current_via st) (ls_section st).

(** [self.layers[l] = v]. *)
Definition set_layer (st : lef_state) (l : string) (v : lef_layer) : lef_state :=
  let t := ls_tech st in
  mkLefState (mkTech (units t) (odict_set (layers t) l v) (vias t)) (current_layer st) (current_via st) (ls_section st).

(** [self.layers[current_layer][key] = value]: the update [f] of the
    current layer's record. *)
Definition update_layer (st : lef_state) (l : string) (f : lef_layer -> lef_layer) : lef_state :=
  set_layer st l (f (default (mkLefLayer l None None None None) (odict_get (layers (ls_tech st)) l))).

Definition set_via (st : lef_state) (v : string) : lef_state :=
  let t := ls_tech st in
  mkLefState (mkTech (units t) (layers t) (odict_set (vias t) v (mkLefVia v))) (current_layer st) (current_via st) (ls_section st).

Definition with_cursor (st : lef_state) (cl cv : option string) (sec : section) : lef_state :=
  mkLefState (ls_tech st) cl cv sec.

(** [parts[i]], [None] being the [IndexError]. *)
Definition part (parts : list string) (i : nat) : option string := parts !! i.

(** ** One line *)

(** The properties of the current layer (lines 71-81): [TYPE],
    [DIRECTION], and [WIDTH] and [PITCH] through [float]. *)
Definition lef_props (st : lef_state) (cl p0 : string) (parts : list string) : option lef_state :=
  if String.eqb p0 "TYPE" then
    v ← part parts 1;
    Some (update_layer st cl (fun r => mkLefLayer (ly_name r) (Some v) (ly_direction r) (ly_width r) (ly_pitch r)))
  else if String.eqb p0 "DIRECTION" then
    v ← part parts 1;
    Some (update_layer st cl (fun r => mkLefLayer (ly_name r) (ly_type r) (Some v) (ly_width r) (ly_pitch r)))
  else if String.eqb p0 "WIDTH" then
    v ← part parts 1; f ← py_float v;
    Some (update_layer st cl (fun r => mkLefLayer (ly_name r) (ly_type r) (ly_direction r) (Some f) (ly_pitch r)))
  else if String.eqb p0 "PITCH" then
    v ← part parts 1; f ← py_float v;
    Some (update_layer st cl (fun r => mkLefLayer (ly_name r) (ly_type r) (ly_direction r) (ly_width r) (Some f)))
  else Some st.

(** The branches from [LAYER] on (lines 54-91).  In a [VIA] section the
    code tests [parts[0] == 'LAYER'] and [RECT] and passes; its [LAYER]
    test is never reached, since the [LAYER] branch above takes every
    such line. *)
Definition lef_rest (st : lef_state) (p0 : string) (parts : list string) : option lef_state :=
  if String.eqb p0 "LAYER" then
    l ← part parts 1;
    Some (with_cursor (set_layer st l (mkLefLayer l None None None None)) (Some l) (current_via st) SecLayer)
  else if String.eqb p0 "VIA" then
    v ← part parts 1;
    Some (with_cursor (set_via st v) (current_layer st) (Some v) SecVia)
  else if String.eqb p0 "END" then
    match ls_section st with
    | SecLayer =>
        p1 ← part parts 1;
        Some (if bool_decide (Some p1 = current_layer st)
              then with_cursor st None (current_via st) NoSection else st)
    | SecVia =>
        p1 ← part parts 1;
        Some (if bool_decide (Some p1 = current_via st)
              then with_cursor st (current_layer st) None NoSection else st)
    | NoSection => Some st
    end
  else
    match ls_section st, current_layer st with
    | SecLayer, Some cl => lef_props st cl p0 parts
    | _, _ => Some st
    end.

(** The body of [for line in f] (lines 41-91) on [parts = line.split()];
    [None] is an exception. *)
Definition lef_parts (st : lef_state) (parts : list string) : option lef_state :=
  match parts with
  | [] => Some st
  | (p0 :: _) as parts =>
      if String.eqb p0 "UNITS" then Some st
      else if String.eqb p0 "DATABASE" then
        p1 ← part parts 1;
        if String.eqb p1 "MICRONS" then
          Some (match part parts 2 ≫= py_int with Some u => set_units st u | None => st end)
        else lef_rest st p0 parts
      else lef_rest st p0 parts
  end.

Definition lef_step (st : lef_state) (line : string) : option lef_state := lef_parts st (py_words line).

(** The loop inside [try]: the state after the lines, and [false] when a
    line raised, the state being then the one before that line. *)
Fixpoint parse_lines (st : lef_state) (ls : list string) : lef_state * bool :=
  match ls with
  | [] => (st, true)
  | l :: r => match lef_step st l with Some st' => parse_lines st' r | None => (st, false) end
  end.

(** [TechLEF.parse]: the tech after the file, and whether the
    [[WARN] LEF Parse Error] was printed. *)
Definition parse (t : tech) (ls : list string) : tech * bool :=
  let '(st, ok) := parse_lines (mkLefState t None None NoSection) ls in (ls_tech st, ok).

(** What [Generator] reads of the tech: [units] and the layer names in
    file order. *)
Definition gen_tech (t : tech) : Gen.tech_lef := Gen.mkTechLef (units t) (map fst (layers t)).

(** The lines that raise: a keyword that needs a second word without
    one ([DATABASE], [LAYER], [VIA], [END] inside a section, a layer
    property inside a layer), or a [WIDTH] or [PITCH] whose value [float]
    rejects. *)
Definition line_raises (st : lef_state) (parts : list string) : Prop :=
  match parts with
  | [] => False
  | [p0] => p0 = "DATABASE" \/ p0 = "LAYER" \/ p0 = "VIA" \/ (p0 = "END" /\ ls_section st <> NoSection) \/
            (ls_section st = SecLayer /\ is_Some (current_layer st) /\ p0 ∈ ["TYPE"; "DIRECTION"; "WIDTH"; "PITCH"])
  | p0 :: p1 :: _ => ls_section st = SecLayer /\ is_Some (current_layer st) /\
            (p0 = "WIDTH" \/ p0 = "PITCH") /\ py_float p1 = None
  end.

(** ** Lemmas *)

Ltac eqb_cases :=
  repeat match goal with
  | |- context [String.eqb ?a ?b] => destruct (String.eqb_spec a b); subst; simpl
  end.

Lemma lef_parts_raises (st : lef_state) (parts : list string) :
  lef_parts st parts = None <-> line_raises st parts.
Proof.
  destruct parts as [|p0 [|p1 r]]; simpl; [split; [done|done]| |];
    unfold lef_rest, lef_props; rewrite ?elem_of_cons, ?elem_of_nil;
    destruct (ls_section st), (current_layer st); simpl; eqb_cases; try (destruct (py_float p1); simpl);
    split; intros H; try done; by intuition (try discriminate; try congruence; eauto).
Qed.

Lemma parse_lines_app (st : lef_state) (ls1 ls2 : list string) :
  parse_lines st (ls1 ++ ls2) =
  let '(st1, ok) := parse_lines st ls1 in if ok then parse_lines st1 ls2 else (st1, false).
Proof.
  revert st. induction ls1 as [|l r IH]; intros st; simpl; [done|].
  destruct (lef_step st l); [apply IH|done].
Qed.

(** ** Properties of the reader *)

(** C23. A line raises exactly when a keyword that needs a second word
    has none ([DATABASE], [LAYER], [VIA], [END] inside a section,
    [TYPE], [DIRECTION], [WIDTH] or [PITCH] inside a layer), or when
    [float] rejects the value of a [WIDTH] or [PITCH] inside a layer; a
    bad [DATABASE MICRONS] value is swallowed by its own [try]. *)
Theorem lef_step_raises (st : lef_state) (line : string) :
  lef_step st line = None <-> line_raises st (py_words line).
Proof. apply lef_parts_raises. Qed.

(** C24. The reader stops at the first line that raises: the tech it
    leaves is the one read before that line, whatever follows, and the
    warning is printed. *)
Theorem parse_stops_at_raise (st st1 : lef_state) (ls1 ls2 : list string) (l : string) :
  parse_lines st ls1 = (st1, true) -> line_raises st1 (py_words l) ->
  parse_lines st (ls1 ++ l :: ls2) = (st1, false).
Proof.
  intros H1 Hl. rewrite parse_lines_app, H1. simpl.
  unfold lef_step. by rewrite (proj2 (lef_parts_raises st1 (py_words l)) Hl).
Qed.

(** C25. Inside a [VIA] definition a [LAYER l] line, which LEF uses to
    give the via's shapes on [l], is taken by the [LAYER] branch: it
    replaces the record of layer [l] by [{'name': l}], dropping the type,
    direction, width and pitch read before, adds [l] as a layer when it
    was not one, and leaves the section [LAYER] with [current_layer = l],
    so the via's [END] line closes nothing. *)
Theorem lef_via_layer_line (st : lef_state) (line l : string) (r : list string) :
  ls_section st = SecVia -> py_words line = "LAYER" :: l :: r ->
  exists st', lef_step st line = Some st' /\
    odict_get (layers (ls_tech st')) l = Some (mkLefLayer l None None None None) /\
    ls_section st' = SecLayer /\ current_layer st' = Some l.
Proof.
  intros Hs Hw. unfold lef_step. rewrite Hw. simpl. unfold lef_rest. simpl.
  eexists. split; [reflexivity|]. simpl. split; [apply odict_get_set|done].
Qed.

(** ** Examples *)

Definition lef_init : lef_state := mkLefState tech_init None None NoSection.

(** A LEF with routing layers [M1] and [M2], the cut layer [V1] between
    them, and the via [VIA12] on [M1], [V1] and [M2]. *)
Definition ex_lef : list string :=
  ["VERSION 5.8 ;"; "UNITS"; "  DATABASE MICRONS 1000 ;"; "END UNITS";
   "LAYER M1"; "  TYPE ROUTING ;"; "  DIRECTION HORIZONTAL ;"; "  WIDTH 0.14 ;"; "  PITCH 0.28 ;"; "END M1";
   "LAYER V1"; "  TYPE CUT ;"; "END V1";
   "LAYER M2"; "  TYPE ROUTING ;"; "  DIRECTION VERTICAL ;"; "  WIDTH 0.14 ;"; "END M2";
   "VIA VIA12 DEFAULT"; "  LAYER M1 ;"; "    RECT -0.07 -0.07 0.07 0.07 ;"; "  LAYER V1 ;";
   "    RECT -0.05 -0.05 0.05 0.05 ;"; "  LAYER M2 ;"; "    RECT -0.07 -0.07 0.07 0.07 ;"; "END VIA12";
   "END LIBRARY"].

Lemma parse_stops_at_raise_witness :
  parse_lines lef_init (["LAYER M1"; "  WIDTH 0.14 ;"] ++ "  PITCH 0,28 ;" :: ["END M1"]) =
  ((parse_lines lef_init ["LAYER M1"; "  WIDTH 0.14 ;"]).1, false).
Proof.
  apply parse_stops_at_raise; vm_compute; [reflexivity|].
  split; [reflexivity|split; [eexists; reflexivity|split; [right; reflexivity|reflexivity]]].
Defined.

Lemma lef_via_layer_line_witness :
  exists st', lef_step (parse_lines lef_init (take 18 ex_lef ++ ["VIA VIA12 DEFAULT"])).1 "  LAYER M1 ;" = Some st' /\
    odict_get (layers (ls_tech st')) "M1" = Some (mkLefLayer "M1" None None None None) /\
    ls_section st' = SecLayer /\ current_layer st' = Some "M1".
Proof. apply (lef_via_layer_line _ _ "M1" [";"]); vm_compute; reflexivity. Defined.

(** The LEF of [ex_lef] read by [TechLEF.parse]: the via's [LAYER]
    lines have reset [M1], [V1] and [M2] to their names, and the layer list
    [M1], [V1], [M2] that [Generator] sorts (for a configuration without
    [tech_properties['layers']]) puts [V1] between the metals; on the
    configuration [Gen.ex_cfg], whose [VDD] stripes on [M1] and [M2]
    cross four times, [Generator.run] places no via. *)
Example lef_generator_no_vias :
  parse tech_init ex_lef =
    (mkTech 1000 [("M1", mkLefLayer "M1" None None None None); ("V1", mkLefLayer "V1" None None None None);
                  ("M2", mkLefLayer "M2" None None None None)] [("VIA12", mkLefVia "VIA12")], true) /\
  exists st, Gen.gen_run (gen_tech (parse tech_init ex_lef).1) Gen.ex_cfg = Some st /\
    Gen.gs_vias st = [] /\ length (Gen.naive_vias ["M1"; "M2"] (Gen.gs_wires st)) = 4%nat.
Proof. split; [vm_compute; reflexivity|]. eexists. split; [vm_compute; reflexivity|]. split; vm_compute; reflexivity. Qed.

End Lef.
