(* ===== verification/Fracture.v ===== *)
(** * Fracturing a wire: [RCExtractor._fracture_wire]

    [_fracture_wire] (extractor.py, lines 496-564) collects the cut
    coordinates of a wire (its two ends and every cut of its layer on its
    centre line inside its span), sorts the set, and walks the gaps
    between consecutive cuts.  A gap longer than [max_len] is split with
    [num = ceil(dist / max_len)] and [mid = int(prev + k*step)] for
    [k = 1 .. num-1], where [prev] is the variable the loop itself
    advances; every piece becomes a resistor between the nodes of its two
    ends and a capacitor on its far end.

    [cut_loop] and [sub_loop] are the two loops as written, threading the
    [NetStore].  [cut_segments] and [gap_segments] compute the same
    pieces as a list of (from, to) pairs, and [cut_loop_segments] proves
    that the loops emit exactly that list; the arithmetic theorems are
    stated on the list. *)

From S2P Require Import Prelude NetStore Geometry.



Module Fracture.
Import NetData Geom.

(** [cuts_h] and [cuts_v]: layer, then the fixed coordinate, then the list
    of coordinates along the line. *)
Abbreviation cut_index := (gmap string (gmap Z (list Z))).

(** [cuts_h[layer][center]] read through the [defaultdict]s. *)
Definition cut_list (idx : cut_index) (layer : string) (c : Z) : list Z :=
  match idx !! layer with
  | Some m => default [] (m !! c)
  | None => []
  end.

(** [relevant_cuts]: the cuts inside [start .. end], then the two ends. *)
Definition relevant_cuts (idx : cut_index) (layer : string) (center start end_ : Z)
  : list Z :=
  List.filter (fun c => (start <=? c)%Z && (c <=? end_)%Z) (cut_list idx layer center)
    ++ [start; end_].

(** [sorted(list(relevant_cuts))] of the set. *)
Definition sorted_cuts (l : list Z) : list Z := merge_sort Z.le (remove_dups l).

(** The point of coordinate [a] along a wire of orientation [o] and centre
    line [center]. *)
Definition pt (o : orient) (center a : Z) : Z * Z :=
  match o with
  | OH => (a, center)
  | OV => (center, a)
  end.

(** The per-wire constants of the loop. *)
Record wparams := mkWParams {
  wp_layer : string; wp_orient : orient; wp_center : Z;
  wp_rpu : Q;   (** [r_per_um] *)
  wp_cpu : Q    (** [c_per_um] *)
}.

(** Python's [max(a, b)]: [b] only when it is greater. *)
Definition py_max (a b : Q) : Q := if Qlt_le_dec a b then b else a.

(** [(b - a) / 1000.0]: a length in microns. *)
Definition len_um (a b : Z) : Q := (inject_Z (b - a) / 1000)%Q.

Definition res_val (rpu : Q) (a b : Z) : Q := py_max (1 # 1000) (rpu * len_um a b).

Definition cap_val (cpu : Q) (a b : Z) : Q := (cpu * len_um a b)%Q.

(** One piece from [a] to [b]: [n1 = get_id(a)], [n2 = get_id(b)], the
    resistor [(n1, n2, max(0.001, r_per_um * len_um))] and the capacitor
    [(n2, c_per_um * len_um)]. *)
Definition emit_segment (wp : wparams) (a b : Z) (st : NetStore) : NetStore :=
  let '(x1, y1) := pt (wp_orient wp) (wp_center wp) a in
  let '(n1, st1) := get_node_id st (wp_layer wp) x1 y1 in
  let '(x2, y2) := pt (wp_orient wp) (wp_center wp) b in
  let '(n2, st2) := get_node_id st1 (wp_layer wp) x2 y2 in
  add_capacitor (add_resistor st2 n1 n2 (res_val (wp_rpu wp) a b)) n2
    (cap_val (wp_cpu wp) a b).

(** The inner loop [for k in range(1, num)], [cnt] iterations left, with
    [mid = int(prev + k*step)] and [prev = mid] at the end of the body. *)
Fixpoint sub_loop (wp : wparams) (dist num k : Z) (cnt : nat) (prev : Z) (st : NetStore)
  : Z * NetStore :=
  match cnt with
  | O => (prev, st)
  | S cnt' =>
      let mid := Z.quot (prev * num + k * dist) num in
      sub_loop wp dist num (k + 1) cnt' mid (emit_segment wp prev mid st)
  end.

(** The outer loop over [sorted_cuts[1:]]. *)
Fixpoint cut_loop (wp : wparams) (max_len prev : Z) (cuts : list Z) (st : NetStore)
  : NetStore :=
  match cuts with
  | [] => st
  | curr :: rest =>
      let dist := curr - prev in
      let '(prev', st1) :=
        if (max_len <? dist)%Z then
          let num := py_ceil_div dist max_len in
          sub_loop wp dist num 1 (Z.to_nat (num - 1)) prev st
        else (prev, st) in
      cut_loop wp max_len curr rest (emit_segment wp prev' curr st1)
  end.

(** The span [(start, end)] of a wire along its length and the cut index
    of its orientation. *)
Definition wire_span (w : wire) : Z * Z :=
  match w_orient w with
  | OH => (rx1 (w_rect w), rx2 (w_rect w))
  | OV => (ry1 (w_rect w), ry2 (w_rect w))
  end.

(** [width_um], with the substitution of [0.1] for a non-positive
    width. *)
Definition wire_width_um (w : wire) : Q :=
  let r := w_rect w in
  let raw := (inject_Z (match w_orient w with
                        | OH => ry2 r - ry1 r
                        | OV => rx2 r - rx1 r
                        end) / 1000)%Q in
  if Qle_bool raw 0 then (1 # 10)%Q else raw.

Definition wire_params (tp : tech_props) (w : wire) : wparams :=
  let r_sheet := get_layer_param tp (w_layer w) "r_sheet_ohm_per_sq"%string (1 # 10) in
  let c_area := get_layer_param tp (w_layer w) "c_area_ff_per_um2"%string 0 in
  let width_um := wire_width_um w in
  {| wp_layer := w_layer w; wp_orient := w_orient w; wp_center := w_center w;
     wp_rpu := (r_sheet / width_um)%Q; wp_cpu := (width_um * c_area)%Q |}.

Definition wire_cuts (cuts_h cuts_v : cut_index) (w : wire) : list Z :=
  let '(start, end_) := wire_span w in
  let idx := match w_orient w with OH => cuts_h | OV => cuts_v end in
  sorted_cuts (relevant_cuts idx (w_layer w) (w_center w) start end_).

(** [_fracture_wire(wire, cuts_h, cuts_v, net_store)]. *)
Definition fracture_wire (tp : tech_props) (max_len : Z) (cuts_h cuts_v : cut_index)
    (w : wire) (st : NetStore) : NetStore :=
  match wire_cuts cuts_h cuts_v w with
  | [] => st
  | c0 :: rest => cut_loop (wire_params tp w) max_len c0 rest st
  end.

(** ** The pieces as a list *)

Fixpoint sub_segs (dist num k : Z) (cnt : nat) (prev : Z) : list (Z * Z) * Z :=
  match cnt with
  | O => ([], prev)
  | S cnt' =>
      let mid := Z.quot (prev * num + k * dist) num in
      let '(segs, p) := sub_segs dist num (k + 1) cnt' mid in
      ((prev, mid) :: segs, p)
  end.

(** The pieces of one gap [prev .. curr]. *)
Definition gap_segments (max_len prev curr : Z) : list (Z * Z) :=
  let dist := curr - prev in
  let '(segs, p) :=
    if (max_len <? dist)%Z then
      let num := py_ceil_div dist max_len in
      sub_segs dist num 1 (Z.to_nat (num - 1)) prev
    else ([], prev) in
  segs ++ [(p, curr)].

Fixpoint cut_segments (max_len prev : Z) (cuts : list Z) : list (Z * Z) :=
  match cuts with
  | [] => []
  | curr :: rest => gap_segments max_len prev curr ++ cut_segments max_len curr rest
  end.

Definition emit_segments (wp : wparams) (segs : list (Z * Z)) (st : NetStore) : NetStore :=
  fold_left (fun st s => emit_segment wp s.1 s.2 st) segs st.

Definition seg_len (s : Z * Z) : Z := s.2 - s.1.

(** The pieces [segs] lead from [a] to [b], each starting where the
    previous one ends. *)
Fixpoint chain (a : Z) (segs : list (Z * Z)) (b : Z) : Prop :=
  match segs with
  | [] => a = b
  | s :: r => s.1 = a /\ chain s.2 r b
  end.

(** ** The loops emit the list *)

Lemma sub_loop_segs wp dist num k cnt prev st :
  sub_loop wp dist num k cnt prev st =
    ((sub_segs dist num k cnt prev).2, emit_segments wp (sub_segs dist num k cnt prev).1 st).
Proof.
  revert k prev st. induction cnt as [|cnt IH]; intros k prev st; simpl; [done|].
  rewrite IH. by destruct (sub_segs _ _ _ _ _).
Qed.

Lemma emit_segments_app wp s1 s2 st :
  emit_segments wp (s1 ++ s2) st = emit_segments wp s2 (emit_segments wp s1 st).
Proof. unfold emit_segments. apply fold_left_app. Qed.

(** The loops as written emit exactly the pieces of [cut_segments]. *)
Lemma cut_loop_segments wp max_len prev cuts st :
  cut_loop wp max_len prev cuts st = emit_segments wp (cut_segments max_len prev cuts) st.
Proof.
  revert prev st. induction cuts as [|curr rest IH]; intros prev st; simpl; [done|].
  rewrite emit_segments_app. unfold gap_segments.
  destruct (max_len <? curr - prev)%Z.
  - rewrite sub_loop_segs. destruct (sub_segs _ _ _ _ _) as [segs p].
    by rewrite emit_segments_app, IH.
  - by rewrite IH.
Qed.

(** ** Chains of pieces *)

Lemma chain_app a s1 b s2 c : chain a s1 b -> chain b s2 c -> chain a (s1 ++ s2) c.
Proof.
  revert a. induction s1 as [|s s1 IH]; simpl; intros a H1 H2; [by subst|].
  destruct H1 as [Hs H1]. split; [done|]. by eapply IH.
Qed.

(** The lengths of a chain add up to the distance it covers. *)
Lemma chain_len_sum a segs b : chain a segs b -> Zsum (map seg_len segs) = b - a.
Proof.
  revert a. induction segs as [|s segs IH]; simpl; intros a H; [lia|].
  destruct H as [<- H]. rewrite (IH _ H). unfold seg_len. lia.
Qed.

Lemma sub_segs_chain dist num k cnt prev :
  chain prev (sub_segs dist num k cnt prev).1 (sub_segs dist num k cnt prev).2.
Proof.
  revert k prev. induction cnt as [|cnt IH]; intros k prev; simpl; [done|].
  specialize (IH (k + 1) (Z.quot (prev * num + k * dist) num)).
  destruct (sub_segs _ _ _ _ _) as [segs p]. simpl in *. auto.
Qed.

Lemma gap_segments_chain max_len prev curr : chain prev (gap_segments max_len prev curr) curr.
Proof.
  unfold gap_segments. destruct (max_len <? curr - prev)%Z.
  - pose proof (sub_segs_chain (curr - prev) (py_ceil_div (curr - prev) max_len) 1
                  (Z.to_nat (py_ceil_div (curr - prev) max_len - 1)) prev) as H.
    destruct (sub_segs _ _ _ _ _) as [segs p]. eapply chain_app; [exact H|]. simpl. auto.
  - simpl. auto.
Qed.

Lemma cut_segments_chain max_len prev cuts :
  chain prev (cut_segments max_len prev cuts) (List.last cuts prev).
Proof.
  revert prev. induction cuts as [|c cuts IH]; intros prev; simpl; [done|].
  eapply chain_app; [apply gap_segments_chain|].
  change (chain c (cut_segments max_len c cuts) (List.last (c :: cuts) prev)).
  rewrite last_cons_default. apply IH.
Qed.

(** ** The pieces of one gap *)

Lemma gap_segments_short max_len prev curr :
  curr - prev <= max_len -> gap_segments max_len prev curr = [(prev, curr)].
Proof.
  intros H. unfold gap_segments. by replace (max_len <? curr - prev)%Z with false by lia.
Qed.

(** A gap of at most twice the maximum is cut once, at the truncated
    midpoint. *)
Lemma gap_segments_two max_len prev curr :
  0 < max_len -> max_len < curr - prev <= 2 * max_len ->
  gap_segments max_len prev curr =
    [(prev, Z.quot (prev * 2 + curr - prev) 2); (Z.quot (prev * 2 + curr - prev) 2, curr)].
Proof.
  intros Hm Hd. unfold gap_segments.
  replace (max_len <? curr - prev)%Z with true by lia.
  assert (Hn : py_ceil_div (curr - prev) max_len = 2) by (apply py_ceil_div_eq; lia).
  rewrite Hn. simpl.
  by replace (prev * 2 + 1 * (curr - prev)) with (prev * 2 + curr - prev) by lia.
Qed.

(** A longer gap is cut at least twice; its second piece ends at the
    point the loop computes from the first. *)
Lemma gap_segments_many max_len prev curr :
  0 < max_len -> 2 * max_len < curr - prev ->
  let num := py_ceil_div (curr - prev) max_len in
  let m1 := Z.quot (prev * num + curr - prev) num in
  let m2 := Z.quot (m1 * num + 2 * (curr - prev)) num in
  3 <= num /\ exists rest, gap_segments max_len prev curr = (prev, m1) :: (m1, m2) :: rest.
Proof.
  intros Hm Hd num m1 m2.
  pose proof (py_ceil_div_spec (curr - prev) max_len Hm) as Hc. fold num in Hc.
  assert (Hn : 3 <= num).
  { destruct (Z_le_gt_dec 3 num) as [|Hlt]; [done|].
    assert (max_len * (num - 2) <= 0) by nia. lia. }
  split; [done|].
  unfold gap_segments. replace (max_len <? curr - prev)%Z with true by lia. fold num.
  replace (Z.to_nat (num - 1)) with (S (S (Z.to_nat (num - 3)))) by lia.
  simpl. replace (prev * num + 1 * (curr - prev)) with (prev * num + curr - prev) by lia.
  fold m1. replace (1 + 1) with 2 by lia. fold m2.
  destruct (sub_segs _ _ _ _ _) as [segs p]. by eexists.
Qed.

(** ** What the loops append to the store *)

(** The node key of the point at coordinate [a] of the wire. *)
Definition seg_key (wp : wparams) (a : Z) : NodeKey :=
  let '(x, y) := pt (wp_orient wp) (wp_center wp) a in (wp_layer wp, x, y).

(** A resistor of [rs] stands for the piece [s] in the store [st]: it
    joins the nodes of the two ends and carries the piece's value. *)
Definition res_of (wp : wparams) (st : NetStore) (s : Z * Z) (r : nat * nat * Q) : Prop :=
  node_map st !! seg_key wp s.1 = Some r.1.1 /\ node_map st !! seg_key wp s.2 = Some r.1.2 /\
  r.2 = res_val (wp_rpu wp) s.1 s.2.

Definition cap_of (wp : wparams) (st : NetStore) (s : Z * Z) (c : nat * Q) : Prop :=
  node_map st !! seg_key wp s.2 = Some c.1 /\ c.2 = cap_val (wp_cpu wp) s.1 s.2.

Lemma res_of_le wp st st' s r : store_le st st' -> res_of wp st s r -> res_of wp st' s r.
Proof. intros Hle (H1 & H2 & H3). split_and!; auto. Qed.

Lemma cap_of_le wp st st' s c : store_le st st' -> cap_of wp st s c -> cap_of wp st' s c.
Proof. intros Hle (H1 & H2). split; auto. Qed.

Lemma emit_segment_spec wp a b st :
  graph_wf st ->
  graph_wf (emit_segment wp a b st) /\ store_le st (emit_segment wp a b st) /\
  exists r c, resistors (emit_segment wp a b st) = resistors st ++ [r] /\
    capacitors (emit_segment wp a b st) = capacitors st ++ [c] /\
    res_of wp (emit_segment wp a b st) (a, b) r /\ cap_of wp (emit_segment wp a b st) (a, b) c.
Proof.
  intros Hg. unfold emit_segment, res_of, cap_of, seg_key. simpl.
  destruct (pt (wp_orient wp) (wp_center wp) a) as [x1 y1].
  destruct (get_node_id st (wp_layer wp) x1 y1) as [n1 st1] eqn:E1.
  destruct (get_node_id_step _ _ _ _ _ _ Hg E1) as (Hg1 & Hle1 & Hk1 & Hn1 & Hr1 & Hc1 & _).
  destruct (pt (wp_orient wp) (wp_center wp) b) as [x2 y2].
  destruct (get_node_id st1 (wp_layer wp) x2 y2) as [n2 st2] eqn:E2.
  destruct (get_node_id_step _ _ _ _ _ _ Hg1 E2) as (Hg2 & Hle2 & Hk2 & Hn2 & Hr2 & Hc2 & _).
  assert (Hn1' : is_node st2 n1) by eauto using store_le_is_node, graph_ids.
  split_and!.
  - apply add_capacitor_graph_wf; [by apply add_resistor_graph_wf | done].
  - intros k i Hk. simpl. auto.
  - exists (n1, n2, res_val (wp_rpu wp) a b), (n2, cap_val (wp_cpu wp) a b).
    simpl. rewrite Hr2, Hr1, Hc2, Hc1. split_and!; auto.
Qed.

Lemma emit_segments_spec wp segs st :
  graph_wf st ->
  graph_wf (emit_segments wp segs st) /\ store_le st (emit_segments wp segs st) /\
  exists rs cs, resistors (emit_segments wp segs st) = resistors st ++ rs /\
    capacitors (emit_segments wp segs st) = capacitors st ++ cs /\
    Forall2 (res_of wp (emit_segments wp segs st)) segs rs /\
    Forall2 (cap_of wp (emit_segments wp segs st)) segs cs.
Proof.
  revert st. induction segs as [|[a b] segs IH]; intros st Hg.
  - simpl. split_and!; [done | apply store_le_refl |]. exists [], []. rewrite !app_nil_r.
    split_and!; done.
  - change (emit_segments wp ((a, b) :: segs) st) with
      (emit_segments wp segs (emit_segment wp a b st)).
    destruct (emit_segment_spec wp a b st Hg) as (Hg1 & Hle1 & r & c & Hr & Hc & Hro & Hco).
    destruct (IH _ Hg1) as (Hg2 & Hle2 & rs & cs & Hrs & Hcs & HFr & HFc).
    split_and!; [done | by eapply store_le_trans |].
    exists (r :: rs), (c :: cs). rewrite Hrs, Hcs, Hr, Hc, <- !app_assoc.
    split_and!; try done; constructor; eauto using res_of_le, cap_of_le.
Qed.

(** ** The cut points *)

Lemma sorted_cuts_spec (l : list Z) :
  StronglySorted Z.lt (sorted_cuts l) /\ (forall c, c ∈ sorted_cuts l <-> c ∈ l).
Proof.
  unfold sorted_cuts.
  pose proof (merge_sort_Permutation Z.le (remove_dups l)) as Hp.
  split.
  - assert (Hs : StronglySorted Z.le (merge_sort Z.le (remove_dups l)))
      by (apply StronglySorted_merge_sort; apply _).
    assert (Hnd : NoDup (merge_sort Z.le (remove_dups l)))
      by (rewrite Hp; apply NoDup_remove_dups).
    clear Hp. induction Hs as [|x r Hs IH HF]; constructor.
    + apply IH. by apply NoDup_cons in Hnd as [_ ?].
    + apply NoDup_cons in Hnd as [Hx _]. rewrite Forall_forall in HF |- *.
      intros y Hy. specialize (HF y Hy).
      assert (x <> y) by (intros ->; contradiction). lia.
  - intros c. by rewrite Hp, elem_of_remove_dups.
Qed.

(** In a strictly increasing list, every element is at most the last. *)
Lemma sorted_le_last h r :
  StronglySorted Z.lt (h :: r) -> forall c, c ∈ h :: r -> c <= List.last r h.
Proof.
  revert h. induction r as [|x r IH]; intros h Hs c Hc.
  - apply list_elem_of_singleton in Hc. simpl. lia.
  - rewrite last_cons_default in *. apply StronglySorted_inv in Hs as [Hs HF].
    apply elem_of_cons in Hc as [->|Hc]; [|by apply IH].
    inversion HF as [|? ? Hx _]; subst. pose proof (IH x Hs x ltac:(by apply elem_of_cons; left)). lia.
Qed.

(** The cut points of a wire: strictly increasing, and exactly its two
    ends and the cuts of its line inside its span. *)
Lemma wire_cuts_spec cuts_h cuts_v w :
  let '(start, end_) := wire_span w in
  let idx := match w_orient w with OH => cuts_h | OV => cuts_v end in
  StronglySorted Z.lt (wire_cuts cuts_h cuts_v w) /\
  (forall c, c ∈ wire_cuts cuts_h cuts_v w <->
     c = start \/ c = end_ \/ (c ∈ cut_list idx (w_layer w) (w_center w) /\ start <= c <= end_)).
Proof.
  unfold wire_cuts. destruct (wire_span w) as [start end_].
  destruct (sorted_cuts_spec (relevant_cuts (match w_orient w with OH => cuts_h | OV => cuts_v end)
              (w_layer w) (w_center w) start end_)) as [Hs Hm].
  split; [done|]. intros c. rewrite Hm. unfold relevant_cuts.
  rewrite elem_of_app, !list_elem_of_In, filter_In, <- !list_elem_of_In.
  rewrite !elem_of_cons, elem_of_nil, andb_true_iff, !Z.leb_le. tauto.
Qed.

(** For a wire whose span is not reversed, the first cut is its start and
    the last its end. *)
Lemma wire_cuts_ends cuts_h cuts_v w start end_ :
  wire_span w = (start, end_) -> start <= end_ ->
  exists rest, wire_cuts cuts_h cuts_v w = start :: rest /\ List.last rest start = end_.
Proof.
  intros Hspan Hle. pose proof (wire_cuts_spec cuts_h cuts_v w) as Hspec.
  rewrite Hspan in Hspec. destruct Hspec as [Hs Hm].
  assert (Hin : forall c, c ∈ wire_cuts cuts_h cuts_v w -> start <= c <= end_).
  { intros c Hc. apply Hm in Hc. lia. }
  destruct (wire_cuts cuts_h cuts_v w) as [|h rest] eqn:E.
  { exfalso. apply (not_elem_of_nil start). apply Hm. by left. }
  apply StronglySorted_inv in Hs as [Hs HF].
  assert (h = start) as ->.
  { assert (start ∈ h :: rest) as Hst by (apply Hm; by left).
    assert (start <= h) by (apply Hin; left).
    apply elem_of_cons in Hst as [->|Hst]; [done|].
    rewrite Forall_forall in HF. apply HF in Hst. lia. }
  exists rest. split; [done|].
  assert (end_ ∈ start :: rest) as He by (apply Hm; right; by left).
  assert (Hlast : List.last rest start ∈ start :: rest).
  { apply last_elem_of. }
  assert (Hs' : StronglySorted Z.lt (start :: rest)) by (constructor; done).
  pose proof (sorted_le_last _ _ Hs' _ He). pose proof (Hin _ Hlast). lia.
Qed.

(** ** Conservation of resistance *)

Lemma len_um_add a m b : (len_um a m + len_um m b == len_um a b)%Q.
Proof.
  unfold len_um. replace (b - a) with ((m - a) + (b - m)) by lia.
  rewrite inject_Z_plus. field.
Qed.

(** Without the floor, the value of a piece is [r_per_um] times its
    length. *)
Lemma res_val_no_floor rpu a b :
  (1 # 1000 <= rpu * len_um a b)%Q -> (res_val rpu a b == rpu * len_um a b)%Q.
Proof.
  intros H. unfold res_val, py_max. destruct (Qlt_le_dec _ _); [reflexivity|].
  apply Qle_antisym; done.
Qed.

(** The values of a chain of pieces add up to the value of the whole
    length, when no piece is floored. *)
Lemma chain_res_sum rpu a segs b :
  chain a segs b -> Forall (fun s => (1 # 1000 <= rpu * len_um s.1 s.2)%Q) segs ->
  (Qsum (map (fun s => res_val rpu s.1 s.2) segs) == rpu * len_um a b)%Q.
Proof.
  revert a. induction segs as [|[m1 m2] segs IH]; cbn [map Qsum chain]; intros a Hc HF.
  - subst. unfold len_um. rewrite Z.sub_diag. change (inject_Z 0) with 0%Q. field.
  - destruct Hc as [Ha Hc]. cbn [fst snd] in *. subst a.
    apply Forall_cons in HF as [Hs HF]. cbn [fst snd] in Hs.
    rewrite (IH _ Hc HF), res_val_no_floor by done.
    rewrite <- (len_um_add m1 m2 b). ring.
Qed.

(** Capacitance has no floor: the pieces of a chain add up to
    [c_per_um] times its length. *)
Lemma chain_cap_sum cpu a segs b :
  chain a segs b -> (Qsum (map (fun s => cap_val cpu s.1 s.2) segs) == cpu * len_um a b)%Q.
Proof.
  revert a. induction segs as [|[m1 m2] segs IH]; cbn [map Qsum chain]; intros a Hc.
  - subst. unfold len_um. rewrite Z.sub_diag. change (inject_Z 0) with 0%Q. field.
  - destruct Hc as [Ha Hc]. cbn [fst snd] in *. subst a. rewrite (IH _ Hc).
    unfold cap_val. rewrite <- (len_um_add m1 m2 b). ring.
Qed.

(** ** A wire *)

(** The pieces of a wire: the pieces of the gaps between its cut points. *)
Definition wire_segments (max_len : Z) (cuts_h cuts_v : cut_index) (w : wire) : list (Z * Z) :=
  match wire_cuts cuts_h cuts_v w with
  | [] => []
  | c0 :: rest => cut_segments max_len c0 rest
  end.

Lemma fracture_wire_emit tp max_len cuts_h cuts_v w st :
  fracture_wire tp max_len cuts_h cuts_v w st =
    emit_segments (wire_params tp w) (wire_segments max_len cuts_h cuts_v w) st.
Proof.
  unfold fracture_wire, wire_segments.
  destruct (wire_cuts cuts_h cuts_v w); [done|]. apply cut_loop_segments.
Qed.

Lemma wire_segments_chain max_len cuts_h cuts_v w start end_ :
  wire_span w = (start, end_) -> start <= end_ ->
  chain start (wire_segments max_len cuts_h cuts_v w) end_.
Proof.
  intros Hspan Hle. destruct (wire_cuts_ends cuts_h cuts_v w start end_ Hspan Hle) as (rest & E & Hl).
  unfold wire_segments. rewrite E, <- Hl. apply cut_segments_chain.
Qed.

(** C2. [_fracture_wire] on a wire whose span [start <= end] keeps the
    store well formed, keeps every existing node id, and appends one
    resistor per piece of a chain of pieces leading from the wire's start
    to its end: each resistor joins the nodes the final node map gives
    the two ends of its piece and carries the piece's value. *)
Theorem fracture_wire_chain (tp : tech_props) (max_len : Z) (cuts_h cuts_v : cut_index)
    (w : wire) (st : NetStore) (start end_ : Z) :
  graph_wf st -> wire_span w = (start, end_) -> start <= end_ ->
  let st' := fracture_wire tp max_len cuts_h cuts_v w st in
  graph_wf st' /\ store_le st st' /\
  exists rs, chain start (wire_segments max_len cuts_h cuts_v w) end_ /\
    resistors st' = resistors st ++ rs /\
    Forall2 (res_of (wire_params tp w) st') (wire_segments max_len cuts_h cuts_v w) rs.
Proof.
  intros Hg Hspan Hle st'. subst st'. rewrite fracture_wire_emit.
  destruct (emit_segments_spec (wire_params tp w) (wire_segments max_len cuts_h cuts_v w) st Hg)
    as (Hg' & Hle' & rs & cs & Hrs & _ & HF & _).
  split_and!; [done | done |]. exists rs. split_and!; [| done | done].
  by apply wire_segments_chain.
Qed.

(** C4. Resistance conservation (spec section 8): when no piece of a
    wire falls under the [0.001] floor, the resistors [_fracture_wire]
    appends add up to [r_per_um] times the length of the wire, the value
    of one resistor over the whole run. *)
Theorem fracture_wire_resistance (tp : tech_props) (max_len : Z) (cuts_h cuts_v : cut_index)
    (w : wire) (st : NetStore) (start end_ : Z) :
  graph_wf st -> wire_span w = (start, end_) -> start <= end_ ->
  Forall (fun s => (1 # 1000 <= wp_rpu (wire_params tp w) * len_um s.1 s.2)%Q)
    (wire_segments max_len cuts_h cuts_v w) ->
  exists rs, resistors (fracture_wire tp max_len cuts_h cuts_v w st) = resistors st ++ rs /\
    (Qsum (map snd rs) == wp_rpu (wire_params tp w) * len_um start end_)%Q.
Proof.
  intros Hg Hspan Hle Hfloor. rewrite fracture_wire_emit.
  destruct (emit_segments_spec (wire_params tp w) (wire_segments max_len cuts_h cuts_v w) st Hg)
    as (_ & _ & rs & _ & Hrs & _ & HF & _).
  exists rs. split; [done|].
  rewrite <- (chain_res_sum _ _ _ _ (wire_segments_chain max_len cuts_h cuts_v w _ _ Hspan Hle) Hfloor).
  clear -HF. induction HF as [|s r segs rs (_ & _ & Hv) _ IH]; cbn [map Qsum]; [reflexivity|].
  by rewrite IH, Hv.
Qed.

(** The capacitors [_fracture_wire] appends add up to [c_per_um] times
    the length of the wire. *)
Lemma fracture_wire_capacitance (tp : tech_props) (max_len : Z) (cuts_h cuts_v : cut_index)
    (w : wire) (st : NetStore) (start end_ : Z) :
  graph_wf st -> wire_span w = (start, end_) -> start <= end_ ->
  exists cs, capacitors (fracture_wire tp max_len cuts_h cuts_v w st) = capacitors st ++ cs /\
    (Qsum (map snd cs) == wp_cpu (wire_params tp w) * len_um start end_)%Q.
Proof.
  intros Hg Hspan Hle. rewrite fracture_wire_emit.
  destruct (emit_segments_spec (wire_params tp w) (wire_segments max_len cuts_h cuts_v w) st Hg)
    as (_ & _ & _ & cs & _ & Hcs & _ & HF).
  exists cs. split; [done|].
  rewrite <- (chain_cap_sum _ _ _ _ (wire_segments_chain max_len cuts_h cuts_v w _ _ Hspan Hle)).
  clear -HF. induction HF as [|s c segs cs (_ & Hv) _ IH]; cbn [map Qsum]; [reflexivity|].
  by rewrite IH, Hv.
Qed.

(** A horizontal [M1] wire from [x = 0] to [x = 50000] on [y = 0], cut
    at [10000] and [30000], with a sheet resistance of [0.5]. *)
Definition ex_wire : wire :=
  {| w_rect := (0, -100, 50000, 100); w_layer := "M1"; w_net := "VDD";
     w_orient := OH; w_center := 0; w_width := 200 |}.

Definition ex_cuts_h : cut_index := {[ "M1" := {[ 0 := [10000; 30000] ]} ]}.

Definition ex_tp : tech_props :=
  {| tp_layers := Some {[ "M1" := {[ "r_sheet_ohm_per_sq" := 1 # 2 ]} ]}%string;
     tp_vias := None |}.

Lemma fracture_wire_chain_witness :
  graph_wf (fracture_wire ex_tp 20000 ex_cuts_h ∅ ex_wire empty_store) /\
  wire_segments 20000 ex_cuts_h ∅ ex_wire = [(0, 10000); (10000, 30000); (30000, 50000)].
Proof.
  split; [|vm_compute; reflexivity].
  apply (fracture_wire_chain ex_tp 20000 ex_cuts_h ∅ ex_wire empty_store 0 50000
           empty_store_graph_wf eq_refl ltac:(lia)).
Defined.

Lemma fracture_wire_resistance_witness :
  exists rs, resistors (fracture_wire ex_tp 20000 ex_cuts_h ∅ ex_wire empty_store) = rs /\
    (Qsum (map snd rs) == 125)%Q.
Proof.
  destruct (fracture_wire_resistance ex_tp 20000 ex_cuts_h ∅ ex_wire empty_store 0 50000
              empty_store_graph_wf eq_refl ltac:(lia)) as (rs & Hrs & Hsum).
  { vm_compute. repeat constructor; vm_compute; discriminate. }
  exists rs. split; [exact Hrs|]. rewrite Hsum. vm_compute. reflexivity.
Defined.

(** ** The length bound of the pieces *)

(** A piece respects the bound: it is not empty and no longer than
    [max_len]. *)
Definition seg_ok (max_len : Z) (s : Z * Z) : Prop := 0 < seg_len s <= max_len.

(** C3. Segment length bound (spec section 8), as the code has it: the
    pieces of a gap are all non-empty and at most [max_len] long exactly
    when the gap is at most twice [max_len].  A longer gap is cut with a
    [prev] that the inner loop has already advanced, so its second piece
    is about [2 * dist / num] long, more than the maximum. *)
Theorem gap_segments_bounded_iff (max_len prev curr : Z) :
  0 < max_len -> prev < curr ->
  Forall (seg_ok max_len) (gap_segments max_len prev curr) <-> curr - prev <= 2 * max_len.
Proof.
  intros Hm Hpc. unfold seg_ok, seg_len. split.
  - intros HF. destruct (Z_le_gt_dec (curr - prev) (2 * max_len)) as [|Hgt]; [done|].
    destruct (gap_segments_many max_len prev curr Hm ltac:(lia)) as [Hn [rest Hg]].
    rewrite Hg in HF. apply Forall_cons in HF as [_ HF]. apply Forall_cons in HF as [[_ H2] _].
    simpl in H2. exfalso.
    set (num := py_ceil_div (curr - prev) max_len) in *.
    set (m1 := Z.quot (prev * num + curr - prev) num) in *.
    pose proof (quot_bounds (m1 * num + 2 * (curr - prev)) num ltac:(lia)) as Hq.
    pose proof (py_ceil_div_spec (curr - prev) max_len Hm) as Hc. fold num in Hc.
    set (m2 := Z.quot (m1 * num + 2 * (curr - prev)) num) in *.
    assert (num * (m2 - m1) <= num * max_len) by (apply Z.mul_le_mono_nonneg_l; lia).
    assert (0 <= (num - 2) * (max_len - 1)) by (apply Z.mul_nonneg_nonneg; lia).
    nia.
  - intros Hd. destruct (Z_le_gt_dec (curr - prev) max_len) as [Hs|Hl].
    + rewrite gap_segments_short by done. constructor; [simpl; lia | constructor].
    + rewrite gap_segments_two by lia.
      pose proof (quot_bounds (prev * 2 + curr - prev) 2 ltac:(lia)).
      repeat constructor; simpl; lia.
Qed.

(** The bound on a gap of twice the maximum, cut at its midpoint. *)
Lemma gap_segments_bounded_witness :
  Forall (seg_ok 20000) (gap_segments 20000 0 40000).
Proof.
  apply (proj2 (gap_segments_bounded_iff 20000 0 40000 ltac:(lia) ltac:(lia))). lia.
Defined.

(** A gap of three times the maximum: the second piece is twice the
    maximum and the last piece is empty. *)
Example gap_segments_three : gap_segments 20000 0 60000 = [(0, 20000); (20000, 60000); (60000, 60000)].
Proof. vm_compute. reflexivity. Qed.

(** A gap of four times the maximum: the pieces run past the end of the
    gap, to [120000], and the last one runs backwards. *)
Example gap_segments_four :
  gap_segments 20000 0 80000 = [(0, 20000); (20000, 60000); (60000, 120000); (120000, 80000)].
Proof. vm_compute. reflexivity. Qed.

End Fracture.
