(* ===== verification/Extractor.v ===== *)
(** * Net processing: [RCExtractor._process_net] and [RCExtractor.run]

    The extractor-wide state of [RCExtractor] (extractor.py, lines
    361-373) is the record [ext_state]: the [net_data] map, the
    instance connections [inst_conns], the [ports], the
    [layer_map_cache] and the [_internal_ports].  [_process_net]
    (lines 430-494) is [process_net], written as its passes: the via
    pass ([via_pass]: two cuts and one resistor per via), the cut passes
    of the instance pins and of the ports, the fracture of every wire of
    the net ([fracture_pass]), and the two rename passes ([pin_rename_pass],
    [port_rename_pass]).  [run] (lines 375-396) converts the generator's
    pins to ports and folds [process_net] over the nets.  The net's
    store is read from [net_data] with the [defaultdict] default and
    written back at the end; nothing else reads or writes it, so the
    Python aliasing of [net_store] is this read and write. *)

From S2P Require Import Prelude PyStr NetStore Layers Geometry Fracture.

Module Extract.
Import NetData LayerMap Geom Fracture.

(** [self.max_seg_len = 20.0 * 1000]. *)
Definition max_seg_len : Z := 20000.

(** [(inst, pin, net, node_id, x, y)] of [self.inst_conns]. *)
Record inst_conn := mkInstConn {
  ic_inst : string; ic_pin : string; ic_net : string; ic_nid : nat; ic_x : Z; ic_y : Z
}.

(** [(name, net, node_id, x, y)] of [self.ports]. *)
Record port := mkPort {
  po_name : string; po_net : string; po_nid : nat; po_x : Z; po_y : Z
}.

(** [(name, net, layer, x, y)] of [self._internal_ports]. *)
Record internal_port := mkInternalPort {
  ip_name : string; ip_net : string; ip_layer : string; ip_x : Z; ip_y : Z
}.

Record ext_state := mkExt {
  net_data : gmap string NetStore;
  inst_conns : list inst_conn;
  ports : list port;
  layer_map_cache : gmap string string;
  internal_ports : list internal_port
}.

Definition init_ext : ext_state :=
  {| net_data := ∅; inst_conns := []; ports := []; layer_map_cache := ∅;
     internal_ports := [] |}.

(** [add_cut(layer, x, y)]: [cuts_h[layer][y].append(x)] and
    [cuts_v[layer][x].append(y)]. *)
Definition cut_append (idx : cut_index) (layer : string) (c v : Z) : cut_index :=
  <[layer := <[c := cut_list idx layer c ++ [v]]> (default ∅ (idx !! layer))]> idx.

Definition add_cut (cuts : cut_index * cut_index) (layer : string) (x y : Z)
  : cut_index * cut_index :=
  (cut_append cuts.1 layer y x, cut_append cuts.2 layer x y).

(** The state the passes of [_process_net] thread: the layer cache (of
    the extractor), the net's store and the two cut indexes (local). *)
Record pass_state := mkPass {
  ps_cache : gmap string string;
  ps_store : NetStore;
  ps_cuts : cut_index * cut_index
}.

(** The body of the via loop: both cuts, both node ids, the via
    resistor with the via's [r_cut_ohm] (default [1.0]). *)
Definition via_step (tp : tech_props) (s : pass_state) (v : via) : pass_state :=
  let l_bot := v_bot_layer v in
  let '(l_top, cache) := get_next_layer (ps_cache s) l_bot in
  let '(vx, vy) := v_pos v in
  let cuts := add_cut (add_cut (ps_cuts s) l_bot vx vy) l_top vx vy in
  let '(n1, st1) := get_node_id (ps_store s) l_bot vx vy in
  let '(n2, st2) := get_node_id st1 l_top vx vy in
  let r_cut := get_via_param tp (v_name v) "r_cut_ohm"%string 1 in
  {| ps_cache := cache; ps_store := add_resistor st2 n1 n2 r_cut; ps_cuts := cuts |}.

Definition via_pass (tp : tech_props) (vias : list via) (s : pass_state) : pass_state :=
  fold_left (via_step tp) vias s.

(** The pins of the instances that are on the net, in the order of the
    two nested loops. *)
Definition net_pins (insts : list instance) (net : string) : list (instance * phys_pin) :=
  flat_map (fun i => map (fun p => (i, p))
                        (List.filter (fun p => String.eqb (pp_net p) net) (i_physical_pins i)))
    insts.

Definition net_ports (ips : list internal_port) (net : string) : list internal_port :=
  List.filter (fun p => String.eqb (ip_net p) net) ips.

(** The cut passes of the instance pins and of the ports. *)
Definition pin_cut_pass (pins : list (instance * phys_pin)) (cuts : cut_index * cut_index)
  : cut_index * cut_index :=
  fold_left (fun c ip => add_cut c (pp_layer ip.2) (pp_center ip.2).1 (pp_center ip.2).2)
    pins cuts.

Definition port_cut_pass (ps : list internal_port) (cuts : cut_index * cut_index)
  : cut_index * cut_index :=
  fold_left (fun c p => add_cut c (ip_layer p) (ip_x p) (ip_y p)) ps cuts.

(** [for wire in wires: self._fracture_wire(wire, cuts_h, cuts_v, net_store)]. *)
Definition fracture_pass (tp : tech_props) (wires : list wire) (cuts : cut_index * cut_index)
    (st : NetStore) : NetStore :=
  fold_left (fun st w => fracture_wire tp max_seg_len cuts.1 cuts.2 w st) wires st.

(** The rename pass of the instance pins: a pin whose key is a node
    renames it ["inst:pin"] and records an instance connection. *)
Definition pin_rename_step (net : string) (acc : NetStore * list inst_conn)
    (ip : instance * phys_pin) : NetStore * list inst_conn :=
  let '(st, conns) := acc in
  let '(i, p) := ip in
  let '(px, py) := pp_center p in
  match node_map st !! (pp_layer p, px, py) with
  | Some nid =>
      (set_renamed st nid (i_name i ++ ":" ++ pp_name p)%string,
       conns ++ [{| ic_inst := i_name i; ic_pin := pp_name p; ic_net := net;
                    ic_nid := nid; ic_x := px; ic_y := py |}])
  | None => (st, conns)
  end.

Definition pin_rename_pass (net : string) (pins : list (instance * phys_pin))
    (acc : NetStore * list inst_conn) : NetStore * list inst_conn :=
  fold_left (pin_rename_step net) pins acc.

Definition port_rename_step (net : string) (acc : NetStore * list port) (p : internal_port)
  : NetStore * list port :=
  let '(st, ps) := acc in
  match node_map st !! (ip_layer p, ip_x p, ip_y p) with
  | Some nid =>
      (set_renamed st nid (ip_name p),
       ps ++ [{| po_name := ip_name p; po_net := net; po_nid := nid;
                 po_x := ip_x p; po_y := ip_y p |}])
  | None => (st, ps)
  end.

Definition port_rename_pass (net : string) (ps : list internal_port)
    (acc : NetStore * list port) : NetStore * list port :=
  fold_left (port_rename_step net) ps acc.

(** [_process_net(net_name)]. *)
Definition process_net (g : gen_out) (tp : tech_props) (E : ext_state) (net : string)
  : ext_state :=
  let wires := List.filter (fun w => String.eqb (w_net w) net) (g_wires g) in
  let vias := List.filter (fun v => String.eqb (v_net v) net) (g_vias g) in
  let st0 := default empty_store (net_data E !! net) in
  let pins := net_pins (g_instances g) net in
  let nports := net_ports (internal_ports E) net in
  let s1 := via_pass tp vias {| ps_cache := layer_map_cache E; ps_store := st0;
                                ps_cuts := (∅, ∅) |} in
  let cuts := port_cut_pass nports (pin_cut_pass pins (ps_cuts s1)) in
  let st2 := fracture_pass tp wires cuts (ps_store s1) in
  let '(st3, conns) := pin_rename_pass net pins (st2, inst_conns E) in
  let '(st4, prts) := port_rename_pass net nports (st3, ports E) in
  {| net_data := <[net := st4]> (net_data E); inst_conns := conns; ports := prts;
     layer_map_cache := ps_cache s1; internal_ports := internal_ports E |}.

(** The pre-processing of [run]: a port per generator pin, at the floor
    midpoint of its rectangle. *)
Definition internal_port_of (p : gen_pin) : internal_port :=
  let r := p_rect p in
  {| ip_name := p_name p; ip_net := p_net p; ip_layer := p_layer p;
     ip_x := (rx1 r + rx2 r) / 2; ip_y := (ry1 r + ry2 r) / 2 |}.

(** [run()]: the ports, then [_process_net] for every net of
    [nets_used]; [_finalize_ports_connectivity] only prints. *)
Definition run (g : gen_out) (tp : tech_props) : ext_state :=
  let E0 := {| net_data := ∅; inst_conns := []; ports := []; layer_map_cache := ∅;
               internal_ports := map internal_port_of (g_pins g) |} in
  fold_left (process_net g tp) (g_nets_used g) E0.

(** ** Invariants *)

(** The extractor state is well formed: every net's graph is, every
    instance connection and port names a node of its net (the writer looks
    their ids up in [id_coords]), and the layer cache is coherent. *)
Record ext_wf (E : ext_state) : Prop := {
  ew_stores : forall n st, net_data E !! n = Some st -> graph_wf st;
  ew_conns : forall c, c ∈ inst_conns E ->
    exists st, net_data E !! ic_net c = Some st /\ is_node st (ic_nid c);
  ew_ports : forall p, p ∈ ports E ->
    exists st, net_data E !! po_net p = Some st /\ is_node st (po_nid p);
  ew_cache : cache_ok (layer_map_cache E);
}.

Section Passes.
Context (g : gen_out) (tp : tech_props).

(** The passes before renaming extend the store and keep it well formed. *)
Definition store_step (st st' : NetStore) : Prop := graph_wf st' /\ store_le st st'.

Lemma store_step_trans st1 st2 st3 :
  store_step st1 st2 -> store_step st2 st3 -> store_step st1 st3.
Proof. intros [_ H1] [H2 H3]. split; [done | by eapply store_le_trans]. Qed.

Lemma via_step_wf s v :
  graph_wf (ps_store s) -> cache_ok (ps_cache s) ->
  store_step (ps_store s) (ps_store (via_step tp s v)) /\ cache_ok (ps_cache (via_step tp s v)).
Proof.
  intros Hg Hc. unfold via_step.
  pose proof (get_next_layer_cache_ok (ps_cache s) (v_bot_layer v) Hc) as Hc'.
  destruct (get_next_layer (ps_cache s) (v_bot_layer v)) as [l_top cache].
  destruct (v_pos v) as [vx vy].
  destruct (get_node_id (ps_store s) (v_bot_layer v) vx vy) as [n1 st1] eqn:E1.
  destruct (get_node_id_step _ _ _ _ _ _ Hg E1) as (Hg1 & Hle1 & _ & Hn1 & _).
  destruct (get_node_id st1 l_top vx vy) as [n2 st2] eqn:E2.
  destruct (get_node_id_step _ _ _ _ _ _ Hg1 E2) as (Hg2 & Hle2 & _ & Hn2 & _).
  simpl. split; [|done]. split.
  - apply add_resistor_graph_wf; eauto using store_le_is_node, graph_ids.
  - intros k i Hk. simpl. eauto.
Qed.

Lemma via_pass_wf vias s :
  graph_wf (ps_store s) -> cache_ok (ps_cache s) ->
  store_step (ps_store s) (ps_store (via_pass tp vias s)) /\
  cache_ok (ps_cache (via_pass tp vias s)).
Proof.
  unfold via_pass. revert s. induction vias as [|v vias IH]; intros s Hg Hc; simpl.
  - split; [split; [done | apply store_le_refl] | done].
  - destruct (via_step_wf s v Hg Hc) as [[Hg1 Hle1] Hc1].
    destruct (IH _ Hg1 Hc1) as [Hs Hc2]. split; [|done].
    eapply store_step_trans; [split|]; eauto.
Qed.

Lemma fracture_pass_wf wires cuts st :
  graph_wf st -> store_step st (fracture_pass tp wires cuts st).
Proof.
  unfold fracture_pass. revert st. induction wires as [|w wires IH]; intros st Hg; simpl.
  - split; [done | apply store_le_refl].
  - rewrite fracture_wire_emit.
    destruct (emit_segments_spec (wire_params tp w) (wire_segments max_seg_len cuts.1 cuts.2 w)
                st Hg) as (Hg1 & Hle1 & _).
    eapply store_step_trans; [split; [exact Hg1 | exact Hle1] | by apply IH].
Qed.

(** The rename passes touch only the rename table: the node map and the id
    table stay, and every connection they record names a node of the net. *)
Lemma pin_rename_pass_spec net pins st conns :
  graph_wf st ->
  let '(st', conns') := pin_rename_pass net pins (st, conns) in
  graph_wf st' /\ node_map st' = node_map st /\ id_coords st' = id_coords st /\
  exists new, conns' = conns ++ new /\
    Forall (fun c => ic_net c = net /\ is_node st (ic_nid c)) new.
Proof.
  unfold pin_rename_pass. revert st conns.
  induction pins as [|[i p] pins IH]; intros st conns Hg; simpl.
  - split_and!; try done. exists []. by rewrite app_nil_r.
  - destruct (pp_center p) as [px py].
    destruct (node_map st !! (pp_layer p, px, py)) as [nid|] eqn:E.
    + assert (Hn : is_node st nid)
        by (exists (pp_layer p, px, py); by apply (ids_inverse _ (graph_ids _ Hg))).
      specialize (IH (set_renamed st nid (i_name i ++ ":" ++ pp_name p)%string)
                    (conns ++ [{| ic_inst := i_name i; ic_pin := pp_name p; ic_net := net;
                                  ic_nid := nid; ic_x := px; ic_y := py |}])
                    (set_renamed_graph_wf _ _ _ Hg Hn)).
      destruct (fold_left _ _ _) as [st' conns'].
      destruct IH as (Hg' & Hnm & Hid & new & -> & HF).
      split_and!; [done | done | done |].
      eexists. rewrite <- app_assoc. split; [done|]. constructor; [done|].
      eapply Forall_impl; [exact HF|]. intros c [? ?]. done.
    + apply IH, Hg.
Qed.

Lemma port_rename_pass_spec net ps st prts :
  graph_wf st ->
  let '(st', prts') := port_rename_pass net ps (st, prts) in
  graph_wf st' /\ node_map st' = node_map st /\ id_coords st' = id_coords st /\
  exists new, prts' = prts ++ new /\
    Forall (fun p => po_net p = net /\ is_node st (po_nid p)) new.
Proof.
  unfold port_rename_pass. revert st prts.
  induction ps as [|p ps IH]; intros st prts Hg; simpl.
  - split_and!; try done. exists []. by rewrite app_nil_r.
  - destruct (node_map st !! (ip_layer p, ip_x p, ip_y p)) as [nid|] eqn:E.
    + assert (Hn : is_node st nid)
        by (exists (ip_layer p, ip_x p, ip_y p); by apply (ids_inverse _ (graph_ids _ Hg))).
      specialize (IH (set_renamed st nid (ip_name p))
                    (prts ++ [{| po_name := ip_name p; po_net := net; po_nid := nid;
                                 po_x := ip_x p; po_y := ip_y p |}])
                    (set_renamed_graph_wf _ _ _ Hg Hn)).
      destruct (fold_left _ _ _) as [st' prts'].
      destruct IH as (Hg' & Hnm & Hid & new & -> & HF).
      split_and!; [done | done | done |].
      eexists. rewrite <- app_assoc. split; [done|]. constructor; [done|].
      eapply Forall_impl; [exact HF|]. intros c [? ?]. done.
    + apply IH, Hg.
Qed.

Lemma is_node_same_ids st st' i :
  id_coords st' = id_coords st -> is_node st i -> is_node st' i.
Proof. unfold is_node. by intros ->. Qed.

(** The lookup of a net after [<[net := st]>], in the form the
    connection invariants use. *)
Lemma conn_lookup_insert (nd : gmap string NetStore) net st n P :
  (n = net -> P st) -> (n <> net -> forall st0, nd !! n = Some st0 -> P st0) ->
  (n <> net -> exists st0, nd !! n = Some st0) ->
  exists st', <[net := st]> nd !! n = Some st' /\ P st'.
Proof.
  intros Heq Hne Hex. destruct (decide (n = net)) as [->|Hn].
  - exists st. rewrite lookup_insert_eq. auto.
  - destruct (Hex Hn) as [st0 H0]. exists st0. rewrite lookup_insert_ne by congruence. eauto.
Qed.

(** [_process_net] keeps the extractor state well formed. *)
Lemma process_net_wf E net : ext_wf E -> ext_wf (process_net g tp E net).
Proof.
  intros [Hst Hcn Hpt Hca]. unfold process_net.
  set (st0 := default empty_store (net_data E !! net)).
  assert (Hg0 : graph_wf st0).
  { subst st0. destruct (net_data E !! net) eqn:E0; simpl; eauto using empty_store_graph_wf. }
  assert (Hold : forall st, net_data E !! net = Some st -> st = st0).
  { intros st H. subst st0. by rewrite H. }
  set (s1 := via_pass tp _ _).
  destruct (via_pass_wf (List.filter (fun v => String.eqb (v_net v) net) (g_vias g))
              {| ps_cache := layer_map_cache E; ps_store := st0; ps_cuts := (∅, ∅) |} Hg0 Hca)
    as [[Hg1 Hle1] Hc1].
  fold s1 in Hg1, Hle1, Hc1. simpl in Hle1.
  set (st2 := fracture_pass tp _ _ (ps_store s1)).
  destruct (fracture_pass_wf (List.filter (fun w => String.eqb (w_net w) net) (g_wires g))
              (port_cut_pass (net_ports (internal_ports E) net)
                 (pin_cut_pass (net_pins (g_instances g) net) (ps_cuts s1)))
              (ps_store s1) Hg1) as [Hg2 Hle2].
  fold st2 in Hg2, Hle2.
  pose proof (pin_rename_pass_spec net (net_pins (g_instances g) net) st2 (inst_conns E) Hg2)
    as Hpin.
  destruct (pin_rename_pass _ _ _) as [st3 conns].
  destruct Hpin as (Hg3 & Hnm3 & Hid3 & cnew & -> & Hcnew).
  pose proof (port_rename_pass_spec net (net_ports (internal_ports E) net) st3 (ports E) Hg3)
    as Hprt.
  destruct (port_rename_pass _ _ _) as [st4 prts].
  destruct Hprt as (Hg4 & Hnm4 & Hid4 & pnew & -> & Hpnew).
  assert (Hid : id_coords st4 = id_coords st2) by congruence.
  assert (Hmono : forall i, is_node st0 i -> is_node st4 i).
  { intros i Hi. eapply is_node_same_ids; [exact Hid|].
    eapply store_le_is_node; [exact (graph_ids _ Hg0) | exact (graph_ids _ Hg2) | | exact Hi].
    eapply store_le_trans; eauto. }
  split; simpl.
  - intros n st. rewrite lookup_insert. case_decide; [intros [= <-]; done | eauto].
  - intros c Hc. apply elem_of_app in Hc as [Hc|Hc].
    + destruct (Hcn c Hc) as (stc & Hl & Hn). apply conn_lookup_insert.
      * intros Hnet. rewrite Hnet in Hl. rewrite (Hold _ Hl) in Hn. auto.
      * intros _ st' Hst'. congruence.
      * eauto.
    + rewrite Forall_forall in Hcnew. destruct (Hcnew c Hc) as [Hnet Hn].
      rewrite Hnet. exists st4. rewrite lookup_insert_eq. split; [done|].
      by eapply is_node_same_ids; [exact Hid|].
  - intros p Hp. apply elem_of_app in Hp as [Hp|Hp].
    + destruct (Hpt p Hp) as (stp & Hl & Hn). apply conn_lookup_insert.
      * intros Hnet. rewrite Hnet in Hl. rewrite (Hold _ Hl) in Hn. auto.
      * intros _ st' Hst'. congruence.
      * eauto.
    + rewrite Forall_forall in Hpnew. destruct (Hpnew p Hp) as [Hnet Hn].
      rewrite Hnet. exists st4. rewrite lookup_insert_eq. split; [done|].
      eapply is_node_same_ids; [|exact Hn]. congruence.
  - done.
Qed.

End Passes.

(** ** Renaming: the last contact wins *)

Definition pin_key (ip : instance * phys_pin) : NodeKey :=
  (pp_layer ip.2, (pp_center ip.2).1, (pp_center ip.2).2).

Definition pin_node_name (ip : instance * phys_pin) : string :=
  (i_name ip.1 ++ ":" ++ pp_name ip.2)%string.

Lemma pin_rename_pass_node_map net pins st c :
  node_map (pin_rename_pass net pins (st, c)).1 = node_map st.
Proof.
  unfold pin_rename_pass. revert st c.
  induction pins as [|[i p] pins IH]; intros st c; simpl; [done|].
  destruct (pp_center p) as [px py]. destruct (node_map st !! _); [rewrite IH|apply IH]; done.
Qed.

Lemma pin_rename_step_eq net st c i p :
  pin_rename_step net (st, c) (i, p) =
    match node_map st !! pin_key (i, p) with
    | Some nid =>
        (set_renamed st nid (pin_node_name (i, p)),
         c ++ [{| ic_inst := i_name i; ic_pin := pp_name p; ic_net := net;
                  ic_nid := nid; ic_x := (pp_center p).1; ic_y := (pp_center p).2 |}])
    | None => (st, c)
    end.
Proof. unfold pin_rename_step, pin_key, pin_node_name. cbn [fst snd]. by destruct (pp_center p). Qed.

(** C8. The rename pass of the instance pins gives a node the name of
    the last pin of the net whose location is that node, and leaves the
    rename table as it was for a node that no pin claims: of several
    pins at one location the last wins (the spec's section 4.1 says the
    first). *)
Theorem pin_rename_pass_renamed (net : string) (pins : list (instance * phys_pin))
    (st : NetStore) (c : list inst_conn) (nid : nat) :
  renamed (pin_rename_pass net pins (st, c)).1 !! nid =
    match last (List.filter (fun ip => bool_decide (node_map st !! pin_key ip = Some nid)) pins)
    with
    | Some ip => Some (pin_node_name ip)
    | None => renamed st !! nid
    end.
Proof.
  unfold pin_rename_pass. revert st c.
  induction pins as [|[i p] pins IH]; intros st c; [done|].
  cbn [fold_left]. rewrite pin_rename_step_eq.
  cbn [List.filter].
  destruct (node_map st !! pin_key (i, p)) as [nid'|] eqn:E.
  - rewrite IH. cbn [node_map set_renamed renamed].
    destruct (decide (nid' = nid)) as [->|Hne].
    + rewrite bool_decide_true by done. rewrite last_cons.
      destruct (last _) as [ip|]; [done|]. by rewrite lookup_insert_eq.
    + rewrite bool_decide_false by congruence.
      destruct (last _); [done|]. by rewrite lookup_insert_ne.
  - rewrite IH. by rewrite bool_decide_false by congruence.
Qed.

(** Two pins at one location: the node is named after the second, and
    both are recorded as instance connections. *)
Example pin_rename_two_pins :
  let p0 := {| pp_name := "VSS"; pp_net := "VSS"; pp_layer := "M1"; pp_center := (3000, 4000);
               pp_rect := (0, 0, 0, 0) |}%string in
  let i0 := {| i_name := "cell_0"; i_master := "STD"; i_pos := (1000, 0);
               i_physical_pins := [p0] |}%string in
  let i1 := {| i_name := "cell_7"; i_master := "STD"; i_pos := (1000, 4000);
               i_physical_pins := [p0] |}%string in
  let st := snd (get_node_id empty_store "M1"%string 3000 4000) in
  let '(st', conns) := pin_rename_pass "VSS"%string [(i0, p0); (i1, p0)] (st, []) in
  renamed st' !! 1%nat = Some "cell_7:VSS"%string /\ length conns = 2%nat.
Proof. vm_compute. split; reflexivity. Qed.

(** ** Independence of the nets *)

(** The initial state of [run] and the graph of one net processed alone
    from it. *)
Definition run_init (g : gen_out) : ext_state :=
  {| net_data := ∅; inst_conns := []; ports := []; layer_map_cache := ∅;
     internal_ports := map internal_port_of (g_pins g) |}.

Definition net_graph (g : gen_out) (tp : tech_props) (net : string) : NetStore :=
  default empty_store (net_data (process_net g tp (run_init g) net) !! net).

Section Independence.
Context (g : gen_out) (tp : tech_props).

(** A via step gives the same store and cuts from two coherent caches. *)
Lemma via_step_cache_indep s s' v :
  ps_store s = ps_store s' -> ps_cuts s = ps_cuts s' ->
  cache_ok (ps_cache s) -> cache_ok (ps_cache s') ->
  ps_store (via_step tp s v) = ps_store (via_step tp s' v) /\
  ps_cuts (via_step tp s v) = ps_cuts (via_step tp s' v) /\
  cache_ok (ps_cache (via_step tp s v)) /\ cache_ok (ps_cache (via_step tp s' v)).
Proof.
  intros Hst Hcu Hc Hc'. unfold via_step.
  destruct (get_next_layer_refines (ps_cache s) (v_bot_layer v) Hc) as [H1 Hok1].
  destruct (get_next_layer_refines (ps_cache s') (v_bot_layer v) Hc') as [H2 Hok2].
  destruct (get_next_layer (ps_cache s) _) as [t1 c1], (get_next_layer (ps_cache s') _) as [t2 c2].
  simpl in *. subst t1 t2. rewrite Hst, Hcu.
  destruct (v_pos v) as [vx vy].
  destruct (get_node_id (ps_store s') _ _ _) as [n1 st1].
  destruct (get_node_id st1 _ _ _) as [n2 st2]. simpl. done.
Qed.

Lemma via_pass_cache_indep vias s s' :
  ps_store s = ps_store s' -> ps_cuts s = ps_cuts s' ->
  cache_ok (ps_cache s) -> cache_ok (ps_cache s') ->
  ps_store (via_pass tp vias s) = ps_store (via_pass tp vias s') /\
  ps_cuts (via_pass tp vias s) = ps_cuts (via_pass tp vias s') /\
  cache_ok (ps_cache (via_pass tp vias s)) /\ cache_ok (ps_cache (via_pass tp vias s')).
Proof.
  unfold via_pass. revert s s'. induction vias as [|v vias IH]; intros s s' Hst Hcu Hc Hc'; simpl.
  - done.
  - destruct (via_step_cache_indep s s' v Hst Hcu Hc Hc') as (? & ? & ? & ?). by apply IH.
Qed.

(** The rename passes compute the store without looking at the
    connection lists they extend. *)
Lemma pin_rename_pass_store net pins st c1 c2 :
  (pin_rename_pass net pins (st, c1)).1 = (pin_rename_pass net pins (st, c2)).1.
Proof.
  unfold pin_rename_pass. revert st c1 c2.
  induction pins as [|[i p] pins IH]; intros st c1 c2; simpl; [done|].
  destruct (pp_center p) as [px py]. destruct (node_map st !! _); apply IH.
Qed.

Lemma port_rename_pass_store net ps st c1 c2 :
  (port_rename_pass net ps (st, c1)).1 = (port_rename_pass net ps (st, c2)).1.
Proof.
  unfold port_rename_pass. revert st c1 c2.
  induction ps as [|p ps IH]; intros st c1 c2; simpl; [done|].
  destruct (node_map st !! _); apply IH.
Qed.

(** The store [_process_net] writes back, as a function of what it
    reads: the cache, the net's store and the ports. *)
Definition proc_store (cache : gmap string string) (st0 : NetStore) (ips : list internal_port)
    (net : string) : NetStore :=
  let pins := net_pins (g_instances g) net in
  let s1 := via_pass tp (List.filter (fun v => String.eqb (v_net v) net) (g_vias g))
              {| ps_cache := cache; ps_store := st0; ps_cuts := (∅, ∅) |} in
  let cuts := port_cut_pass (net_ports ips net) (pin_cut_pass pins (ps_cuts s1)) in
  let st2 := fracture_pass tp (List.filter (fun w => String.eqb (w_net w) net) (g_wires g))
               cuts (ps_store s1) in
  let st3 := (pin_rename_pass net pins (st2, [])).1 in
  (port_rename_pass net (net_ports ips net) (st3, [])).1.

Lemma process_net_store E net :
  net_data (process_net g tp E net) =
    <[net := proc_store (layer_map_cache E) (default empty_store (net_data E !! net))
               (internal_ports E) net]> (net_data E).
Proof.
  unfold process_net, proc_store. simpl.
  set (st2 := fracture_pass _ _ _ _).
  rewrite (pin_rename_pass_store net _ st2 [] (inst_conns E)).
  destruct (pin_rename_pass net _ (st2, inst_conns E)) as [st3 c3]. simpl.
  rewrite (port_rename_pass_store net _ st3 [] (ports E)).
  by destruct (port_rename_pass net _ (st3, ports E)).
Qed.

Lemma proc_store_cache_indep c1 c2 st0 ips net :
  cache_ok c1 -> cache_ok c2 -> proc_store c1 st0 ips net = proc_store c2 st0 ips net.
Proof.
  intros H1 H2. unfold proc_store.
  destruct (via_pass_cache_indep (List.filter (fun v => String.eqb (v_net v) net) (g_vias g))
              {| ps_cache := c1; ps_store := st0; ps_cuts := (∅, ∅) |}
              {| ps_cache := c2; ps_store := st0; ps_cuts := (∅, ∅) |}
              eq_refl eq_refl H1 H2) as (Hs & Hcu & _).
  by rewrite Hs, Hcu.
Qed.

Lemma via_pass_cache_ok vias s :
  cache_ok (ps_cache s) -> cache_ok (ps_cache (via_pass tp vias s)).
Proof. intros H. apply (via_pass_cache_indep vias s s eq_refl eq_refl H H). Qed.

Lemma process_net_cache E net :
  cache_ok (layer_map_cache E) -> cache_ok (layer_map_cache (process_net g tp E net)).
Proof.
  intros Hc. unfold process_net.
  destruct (pin_rename_pass _ _ _), (port_rename_pass _ _ _). simpl.
  by apply via_pass_cache_ok.
Qed.

(** The fold of [run] over nets not processed yet adds each one's own
    graph. *)
Lemma run_fold_data nets E :
  NoDup nets -> cache_ok (layer_map_cache E) ->
  internal_ports E = map internal_port_of (g_pins g) ->
  (forall n, n ∈ nets -> net_data E !! n = None) ->
  forall n, net_data (fold_left (process_net g tp) nets E) !! n =
    if decide (n ∈ nets) then Some (net_graph g tp n) else net_data E !! n.
Proof.
  revert E. induction nets as [|m nets IH]; intros E Hnd Hc Hip Hnone n; cbn [fold_left].
  - by rewrite decide_False by (apply not_elem_of_nil).
  - apply NoDup_cons in Hnd as [Hm Hnd].
    assert (Hproc : net_data (process_net g tp E m) = <[m := net_graph g tp m]> (net_data E)).
    { rewrite process_net_store, Hip, (Hnone m ltac:(by left)). unfold net_graph.
      rewrite process_net_store. simpl. rewrite lookup_insert_eq. simpl.
      f_equal. apply proc_store_cache_indep; [done | apply cache_ok_empty]. }
    rewrite IH; [| done | by apply process_net_cache | | ].
    + rewrite Hproc. case_decide as Hn; case_decide as Hn'; try done.
      * exfalso. apply Hn'. by right.
      * rewrite lookup_insert. case_decide as Hnm; [by subst|].
        exfalso. apply elem_of_cons in Hn' as [->|Hn']; auto.
      * rewrite lookup_insert_ne; [done|]. intros ->. apply Hn'. by left.
    + unfold process_net. by destruct (pin_rename_pass _ _ _), (port_rename_pass _ _ _).
    + intros k Hk. rewrite Hproc, lookup_insert_ne by (intros ->; contradiction).
      apply Hnone. by right.
Qed.

End Independence.

(** ** The resistor of a via *)

(** A store grows into another: its nodes keep their ids and its
    resistors stay. *)
Definition store_grows (st st' : NetStore) : Prop :=
  store_le st st' /\ forall r, r ∈ resistors st -> r ∈ resistors st'.

(** The store holds the resistor of the via [v]: between its node on
    [v_bot_layer v] and its node on the next layer, at its position. *)
Definition via_res (st : NetStore) (v : via) : Prop :=
  exists n1 n2 r, node_map st !! (v_bot_layer v, (v_pos v).1, (v_pos v).2) = Some n1 /\
    node_map st !! (next_layer (v_bot_layer v), (v_pos v).1, (v_pos v).2) = Some n2 /\
    (n1, n2, r) ∈ resistors st.

Lemma store_grows_refl st : store_grows st st.
Proof. split; [apply store_le_refl|done]. Qed.

Lemma store_grows_trans st1 st2 st3 : store_grows st1 st2 -> store_grows st2 st3 -> store_grows st1 st3.
Proof. intros [H1 R1] [H2 R2]. split; [by eapply store_le_trans|auto]. Qed.

Lemma via_res_grows st st' v : store_grows st st' -> via_res st v -> via_res st' v.
Proof. intros [Hle Hr] (n1 & n2 & r & H1 & H2 & H3). exists n1, n2, r. split_and!; auto. Qed.

Section ViaResistor.
Context (g : gen_out) (tp : tech_props).

Lemma via_step_grows s v : graph_wf (ps_store s) -> store_grows (ps_store s) (ps_store (via_step tp s v)).
Proof.
  intros Hg. unfold via_step. destruct (get_next_layer _ _) as [l_top cache]. destruct (v_pos v) as [vx vy].
  destruct (get_node_id (ps_store s) (v_bot_layer v) vx vy) as [n1 st1] eqn:E1.
  destruct (get_node_id_step _ _ _ _ _ _ Hg E1) as (Hg1 & Hle1 & _ & _ & Hr1 & _).
  destruct (get_node_id st1 l_top vx vy) as [n2 st2] eqn:E2.
  destruct (get_node_id_step _ _ _ _ _ _ Hg1 E2) as (_ & Hle2 & _ & _ & Hr2 & _).
  split; [intros k i Hk; simpl; auto|]. intros r Hr. simpl. rewrite Hr2, Hr1. set_solver.
Qed.

(** The via step of [v] adds the resistor of [v]. *)
Lemma via_step_res s v : graph_wf (ps_store s) -> cache_ok (ps_cache s) -> via_res (ps_store (via_step tp s v)) v.
Proof.
  intros Hg Hc. pose proof (get_next_layer_fst (ps_cache s) (v_bot_layer v) Hc) as Hl.
  unfold via_step. destruct (get_next_layer _ _) as [l_top cache]. simpl in Hl. subst l_top.
  unfold via_res. destruct (v_pos v) as [vx vy]. simpl.
  destruct (get_node_id (ps_store s) (v_bot_layer v) vx vy) as [n1 st1] eqn:E1.
  destruct (get_node_id_step _ _ _ _ _ _ Hg E1) as (Hg1 & Hle1 & Hn1 & _).
  destruct (get_node_id st1 (next_layer (v_bot_layer v)) vx vy) as [n2 st2] eqn:E2.
  destruct (get_node_id_step _ _ _ _ _ _ Hg1 E2) as (_ & Hle2 & Hn2 & _).
  exists n1, n2, (get_via_param tp (v_name v) "r_cut_ohm"%string 1).
  split_and!; [simpl; apply Hle2, Hn1|exact Hn2|simpl; set_solver].
Qed.

Lemma via_pass_res vias s v :
  v ∈ vias -> graph_wf (ps_store s) -> cache_ok (ps_cache s) -> via_res (ps_store (via_pass tp vias s)) v.
Proof.
  unfold via_pass. revert s. induction vias as [|x vias IH]; intros s Hv Hg Hc; [inversion Hv|]. simpl.
  destruct (via_step_wf tp s x Hg Hc) as [[Hg1 _] Hc1].
  apply elem_of_cons in Hv as [<-|Hv]; [|by apply IH].
  apply (via_res_grows (ps_store (via_step tp s v))); [|by apply via_step_res].
  clear IH. revert Hg1 Hc1. generalize (via_step tp s v) as s'. induction vias as [|y vias IH]; intros s' Hg' Hc'; simpl;
    [apply store_grows_refl|].
  destruct (via_step_wf tp s' y Hg' Hc') as [[Hg2 _] Hc2].
  eapply store_grows_trans; [by apply via_step_grows|by apply IH].
Qed.

Lemma fracture_pass_grows wires cuts st : graph_wf st -> store_grows st (fracture_pass tp wires cuts st).
Proof.
  unfold fracture_pass. revert st. induction wires as [|w wires IH]; intros st Hg; simpl; [apply store_grows_refl|].
  rewrite fracture_wire_emit.
  destruct (emit_segments_spec (wire_params tp w) (wire_segments max_seg_len cuts.1 cuts.2 w) st Hg)
    as (Hg1 & Hle1 & rs & _ & Hrs & _).
  eapply store_grows_trans; [|by apply IH]. split; [done|]. intros r Hr. rewrite Hrs. set_solver.
Qed.

(** The rename passes keep the resistors. *)
Lemma pin_rename_pass_res net pins st conns : resistors (pin_rename_pass net pins (st, conns)).1 = resistors st.
Proof.
  unfold pin_rename_pass. revert st conns. induction pins as [|[i p] pins IH]; intros st conns; simpl; [done|].
  destruct (pp_center p) as [px py]. destruct (node_map st !! _); by rewrite IH.
Qed.

Lemma port_rename_pass_res net ps st prts : resistors (port_rename_pass net ps (st, prts)).1 = resistors st.
Proof.
  unfold port_rename_pass. revert st prts. induction ps as [|p ps IH]; intros st prts; simpl; [done|].
  destruct (node_map st !! _); by rewrite IH.
Qed.

(** The graph of a net holds the resistor of each of its vias. *)
Lemma net_graph_via_res v : v ∈ g_vias g -> via_res (net_graph g tp (v_net v)) v.
Proof.
  intros Hv. unfold net_graph. rewrite process_net_store. simpl. rewrite lookup_insert_eq, lookup_empty. simpl.
  unfold proc_store. set (net := v_net v).
  set (s1 := via_pass tp _ _).
  assert (H1 : via_res (ps_store s1) v).
  { apply via_pass_res; [|apply empty_store_graph_wf|apply cache_ok_empty].
    apply elem_of_List_filter. split; [done|]. apply String.eqb_refl. }
  destruct (via_pass_wf tp (List.filter (fun v => String.eqb (v_net v) net) (g_vias g))
              {| ps_cache := ∅; ps_store := empty_store; ps_cuts := (∅, ∅) |}
              empty_store_graph_wf cache_ok_empty) as [[Hg1 _] _].
  fold s1 in Hg1. set (st2 := fracture_pass _ _ _ _).
  assert (H2 : via_res st2 v) by (apply (via_res_grows (ps_store s1)); [by apply fracture_pass_grows|done]).
  pose proof (fracture_pass_wf tp (List.filter (fun w => String.eqb (w_net w) net) (g_wires g))
                (port_cut_pass (net_ports (map internal_port_of (g_pins g)) net)
                   (pin_cut_pass (net_pins (g_instances g) net) (ps_cuts s1))) _ Hg1) as [Hg2 _].
  fold st2 in Hg2.
  pose proof (pin_rename_pass_spec net (net_pins (g_instances g) net) st2 [] Hg2) as Hp.
  pose proof (pin_rename_pass_res net (net_pins (g_instances g) net) st2 []) as Hpr.
  destruct (pin_rename_pass _ _ _) as [st3 c3]. destruct Hp as (Hg3 & Hnm3 & _). simpl in Hpr |- *.
  pose proof (port_rename_pass_spec net (net_ports (map internal_port_of (g_pins g)) net) st3 [] Hg3) as Hq.
  pose proof (port_rename_pass_res net (net_ports (map internal_port_of (g_pins g)) net) st3 []) as Hqr.
  destruct (port_rename_pass _ _ _) as [st4 c4]. destruct Hq as (_ & Hnm4 & _). simpl in Hqr |- *.
  apply (via_res_grows st2); [|done]. split; [intros k i Hk; by rewrite Hnm4, Hnm3|intros r Hr; by rewrite Hqr, Hpr].
Qed.

(** After [run], the graph of each net of [nets_used] holds the
    resistor of each of its vias. *)
Lemma run_via_res v :
  NoDup (g_nets_used g) -> v ∈ g_vias g -> v_net v ∈ g_nets_used g ->
  exists sg, net_data (run g tp) !! v_net v = Some sg /\ via_res sg v.
Proof.
  intros Hnd Hv Hn. exists (net_graph g tp (v_net v)). split; [|by apply net_graph_via_res].
  unfold run. rewrite (run_fold_data g tp _ (run_init g) Hnd cache_ok_empty eq_refl); [|intros k _; apply lookup_empty].
  by rewrite decide_True.
Qed.

End ViaResistor.

(** C7. Nets are independent units of work (spec section 5): when
    [nets_used] has no duplicate, the graph [run] leaves for a net is the
    graph of that net processed alone from the initial state, whatever
    the order of [nets_used] and the state the other nets leave in the
    shared layer cache; a net that is not in [nets_used] has none. *)
Theorem run_net_data (g : gen_out) (tp : tech_props) (n : string) :
  NoDup (g_nets_used g) ->
  net_data (run g tp) !! n =
    if decide (n ∈ g_nets_used g) then Some (net_graph g tp n) else None.
Proof.
  intros Hnd. unfold run.
  rewrite (run_fold_data g tp _ (run_init g) Hnd cache_ok_empty eq_refl); [done|].
  intros k _. apply lookup_empty.
Qed.

(** Two nets and no geometry: each gets the empty graph. *)
Definition ex_gen2 : gen_out :=
  {| g_wires := []; g_vias := []; g_pins := []; g_instances := [];
     g_nets_used := ["VDD"; "VSS"]%string |}.

Lemma run_net_data_witness :
  NoDup (g_nets_used ex_gen2) /\
  net_data (run ex_gen2 {| tp_layers := None; tp_vias := None |}) !! "VSS"%string
    = Some empty_store.
Proof.
  assert (Hnd : NoDup (g_nets_used ex_gen2)).
  { apply (bool_decide_unpack _). vm_compute. exact I. }
  split; [exact Hnd|].
  rewrite (run_net_data ex_gen2 _ _ Hnd). vm_compute. reflexivity.
Defined.

(** C6. The extraction invariant: after [run], every net's graph is well
    formed (node map and id table inverse, dense ids, every resistor,
    capacitor and renamed id a node), every recorded instance connection
    and port names a node of its own net, so that the writer's
    [id_coords[nid]] lookups succeed, and the layer cache is coherent. *)
Theorem run_wf (g : gen_out) (tp : tech_props) : ext_wf (run g tp).
Proof.
  unfold run. generalize (g_nets_used g) as nets.
  assert (H0 : ext_wf {| net_data := ∅; inst_conns := []; ports := []; layer_map_cache := ∅;
                         internal_ports := map internal_port_of (g_pins g) |}).
  { split; simpl.
    - intros n st H. by rewrite lookup_empty in H.
    - intros c Hc. by apply elem_of_nil in Hc.
    - intros p Hp. by apply elem_of_nil in Hp.
    - apply cache_ok_empty. }
  intros nets. apply fold_left_inv; [exact H0|]. intros E n HE. by apply process_net_wf.
Qed.

End Extract.
