(* ===== verification/OpenCheck.v ===== *)
(** * The open check: [DSPFChecker._check_opens]

    [_check_opens] (dspf_checker.py, lines 692-728) builds an undirected
    adjacency from the parsed resistors, runs a breadth-first search from
    every declared port, and counts the declared instance pins the search
    does not visit; a net with no port reports all its pins.  The parsed
    data of one net (lines 630-632) is [net_rec].  The [while queue] loop
    is [bfs], a recursion on fuel; [check_opens] gives it
    [1 + len(ports) + |nodes of the adjacency|], and [bfs_terminates]
    proves that this fuel is never exhausted: every round pops one name
    from the queue and pushes only names it marks visited, so
    [len(queue) + |unvisited nodes|] drops by one per round. *)

From S2P Require Import Prelude.

Module Opens.

(** [{'ports': [], 'inst_pins': [], 'resistors': [], 'all_nodes': set()}];
    a resistor is [(rname, n1, n2)]. *)
Record net_rec := mkNetRec {
  nr_ports : list string;
  nr_inst_pins : list string;
  nr_resistors : list (string * string * string);
  nr_all_nodes : gset string
}.

Definition empty_net_rec : net_rec :=
  {| nr_ports := []; nr_inst_pins := []; nr_resistors := []; nr_all_nodes := ∅ |}.

(** [adj[a].append(b)] on the [defaultdict(list)]. *)
Definition adj_add (adj : gmap string (list string)) (a b : string) : gmap string (list string) :=
  <[a := default [] (adj !! a) ++ [b]]> adj.

(** [for rname, n1, n2 in resistors: adj[n1].append(n2); adj[n2].append(n1)]. *)
Definition build_adj (rs : list (string * string * string)) : gmap string (list string) :=
  fold_left (fun adj r => adj_add (adj_add adj r.1.2 r.2) r.2 r.1.2) rs ∅.

(** [adj[node]]. *)
Definition neighbors (adj : gmap string (list string)) (n : string) : list string :=
  default [] (adj !! n).

(** [for neighbor in adj[node]: if neighbor not in visited:
    visited.add(neighbor); queue.append(neighbor)]. *)
Definition visit_neighbors (nbs : list string) (vq : gset string * list string)
  : gset string * list string :=
  fold_left (fun '(vis, q) nb =>
               if decide (nb ∈ vis) then (vis, q) else ({[nb]} ∪ vis, q ++ [nb]))
    nbs vq.

(** [while queue: node = queue.popleft(); ...]; [None] when the fuel runs
    out. *)
Fixpoint bfs (fuel : nat) (adj : gmap string (list string)) (q : list string) (vis : gset string)
  : option (gset string) :=
  match fuel with
  | O => None
  | S f =>
      match q with
      | [] => Some vis
      | node :: q' =>
          let '(vis', q'') := visit_neighbors (neighbors adj node) (vis, q') in
          bfs f adj q'' vis'
      end
  end.

(** The fuel [check_opens] gives the search. *)
Definition bfs_fuel (adj : gmap string (list string)) (ports : list string) : nat :=
  S (length ports + size (dom adj))%nat.

(** The visited set: [visited.add(p)] for the ports in [all_nodes], then
    the search from [deque(ports)]. *)
Definition visited_init (d : net_rec) : gset string :=
  list_to_set (List.filter (fun p => bool_decide (p ∈ nr_all_nodes d)) (nr_ports d)).

Definition visited_of (d : net_rec) : gset string :=
  let adj := build_adj (nr_resistors d) in
  default ∅ (bfs (bfs_fuel adj (nr_ports d)) adj (nr_ports d) (visited_init d)).

(** [floating_pins = [p for p in inst_pins if p not in visited]]. *)
Definition floating_pins (d : net_rec) : list string :=
  List.filter (fun p => negb (bool_decide (p ∈ visited_of d))) (nr_inst_pins d).

(** [_check_opens(net_name, data)]: the number of errors it returns. *)
Definition check_opens (d : net_rec) : nat :=
  match nr_ports d with
  | [] => match nr_inst_pins d with [] => 0%nat | _ => length (nr_inst_pins d) end
  | _ :: _ => length (floating_pins d)
  end.

(** ** The adjacency *)

(** Every neighbour is itself a key of the adjacency. *)
Definition adj_closed (adj : gmap string (list string)) : Prop :=
  forall a b, b ∈ neighbors adj a -> b ∈ dom adj.

(** The undirected edge of a resistor list. *)
Definition res_edge (rs : list (string * string * string)) (a b : string) : Prop :=
  exists rn, (rn, a, b) ∈ rs \/ (rn, b, a) ∈ rs.

Lemma neighbors_adj_add adj a b x :
  neighbors (adj_add adj a b) x = if decide (a = x) then neighbors adj x ++ [b] else neighbors adj x.
Proof.
  unfold neighbors, adj_add. rewrite lookup_insert. case_decide; [by subst|done].
Qed.

Lemma build_adj_spec_aux rs adj x y :
  y ∈ neighbors (fold_left (fun adj r => adj_add (adj_add adj r.1.2 r.2) r.2 r.1.2) rs adj) x <->
  y ∈ neighbors adj x \/ res_edge rs x y.
Proof.
  revert adj. induction rs as [|[[rn n1] n2] rs IH]; intros adj; simpl.
  - split; [by left | intros [H|(rn & [H|H])]; [done | by apply elem_of_nil in H..]].
  - rewrite IH, !neighbors_adj_add. unfold res_edge.
    setoid_rewrite elem_of_cons.
    repeat case_decide; subst; rewrite ?elem_of_app, ?list_elem_of_singleton; naive_solver.
Qed.

(** The adjacency lists exactly the resistor edges, both ways. *)
Lemma build_adj_spec rs x y : y ∈ neighbors (build_adj rs) x <-> res_edge rs x y.
Proof.
  unfold build_adj. rewrite build_adj_spec_aux. unfold neighbors at 1.
  rewrite lookup_empty. simpl. split; [intros [H|H]; [by apply elem_of_nil in H | done] | by right].
Qed.

Lemma res_edge_sym rs a b : res_edge rs a b -> res_edge rs b a.
Proof. intros (rn & H). exists rn. tauto. Qed.

Lemma build_adj_closed rs : adj_closed (build_adj rs).
Proof.
  intros a b Hb. apply build_adj_spec, res_edge_sym, build_adj_spec in Hb.
  apply elem_of_dom. unfold neighbors in Hb.
  destruct (build_adj rs !! b); [done|]. by apply elem_of_nil in Hb.
Qed.

(** ** Termination *)

Lemma size_union_singleton_notin (X : gset string) (y : string) :
  y ∉ X -> size ({[y]} ∪ X) = S (size X).
Proof. intros H. rewrite size_union; [|set_solver]. by rewrite size_singleton. Qed.

Lemma size_difference_add (D V : gset string) (y : string) :
  y ∈ D -> y ∉ V -> (size (D ∖ ({[y]} ∪ V)) + 1 = size (D ∖ V))%nat.
Proof.
  intros HyD HyV.
  assert (Heq : D ∖ V = {[y]} ∪ (D ∖ ({[y]} ∪ V))).
  { apply set_eq. intros z.
    rewrite elem_of_union, !elem_of_difference, elem_of_union, !elem_of_singleton.
    destruct (decide (z = y)); naive_solver. }
  rewrite Heq, size_union_singleton_notin; [lia|].
  rewrite elem_of_difference, elem_of_union, elem_of_singleton. naive_solver.
Qed.

(** Visiting neighbours that are all nodes of [D] keeps
    [len(queue) + |D minus visited|]. *)
Lemma visit_neighbors_measure (D : gset string) nbs vis q :
  (forall b, b ∈ nbs -> b ∈ D) ->
  let '(vis', q') := visit_neighbors nbs (vis, q) in
  (length q' + size (D ∖ vis') = length q + size (D ∖ vis))%nat.
Proof.
  unfold visit_neighbors. revert vis q. induction nbs as [|b nbs IH]; intros vis q Hnb; simpl; [done|].
  case_decide as Hb.
  - apply IH. intros c Hc. apply Hnb. by right.
  - pose proof (IH ({[b]} ∪ vis) (q ++ [b]) ltac:(intros c Hc; apply Hnb; by right)) as H.
    destruct (fold_left _ nbs _) as [vis' q']. rewrite H, length_app.
    pose proof (size_difference_add D vis b ltac:(apply Hnb; by left) Hb). simpl. lia.
Qed.

(** The search stops with a result on a closed adjacency when the fuel
    exceeds [len(queue) + |nodes not yet visited|]. *)
Lemma bfs_some (fuel : nat) (adj : gmap string (list string)) (q : list string)
    (vis : gset string) :
  adj_closed adj -> (length q + size (dom adj ∖ vis) < fuel)%nat ->
  exists vis', bfs fuel adj q vis = Some vis'.
Proof.
  intros Hcl. revert q vis. induction fuel as [|fuel IH]; intros q vis Hf; [lia|].
  destruct q as [|node q]; simpl; [by eexists|].
  pose proof (visit_neighbors_measure (dom adj) (neighbors adj node) vis q
                (fun b Hb => Hcl node b Hb)) as Hm.
  destruct (visit_neighbors _ _) as [vis' q']. apply IH. simpl in Hf. lia.
Qed.

Lemma bfs_fuel_enough adj ports vis :
  (length ports + size (dom adj ∖ vis) < bfs_fuel adj ports)%nat.
Proof.
  unfold bfs_fuel.
  assert (Hsub : dom adj ∖ vis ⊆ dom adj) by (intros z; rewrite elem_of_difference; tauto).
  pose proof (subseteq_size _ _ Hsub). lia.
Qed.

(** ** What one round of the loop does *)

Lemma visit_neighbors_spec nbs vis q :
  let '(vis', q') := visit_neighbors nbs (vis, q) in
  vis ⊆ vis' /\ (forall b, b ∈ nbs -> b ∈ vis') /\
  exists new, q' = q ++ new /\ (forall y, y ∈ new -> y ∈ nbs) /\
              (forall y, y ∈ vis' -> y ∈ vis \/ y ∈ new).
Proof.
  unfold visit_neighbors. revert vis q. induction nbs as [|b nbs IH]; intros vis q; simpl.
  - split; [done|]. split; [intros b Hb; by apply elem_of_nil in Hb|].
    exists []. rewrite app_nil_r. split; [done|]. split; [intros y Hy; by apply elem_of_nil in Hy|tauto].
  - case_decide as Hb.
    + specialize (IH vis q). destruct (fold_left _ nbs _) as [vis' q'].
      destruct IH as (Hsub & Hnb & new & -> & Hnew & Hv). split; [done|]. split.
      * intros c. rewrite elem_of_cons. intros [->|Hc]; [by apply Hsub|by apply Hnb].
      * exists new. split; [done|]. split; [|done]. intros y Hy. right. by apply Hnew.
    + specialize (IH ({[b]} ∪ vis) (q ++ [b])). destruct (fold_left _ nbs _) as [vis' q'].
      destruct IH as (Hsub & Hnb & new & -> & Hnew & Hv). split; [set_solver|]. split.
      * intros c. rewrite elem_of_cons. intros [->|Hc]; [set_solver|by apply Hnb].
      * exists (b :: new). rewrite <- app_assoc. split; [done|]. split.
        -- intros y. rewrite !elem_of_cons. naive_solver.
        -- intros y Hy. destruct (Hv y Hy) as [Hy'|Hy']; [|right; by right].
           apply elem_of_union in Hy' as [Hy'|Hy']; [rewrite elem_of_singleton in Hy'; subst y; right; left|by left].
Qed.

(** ** The loop invariant of the search *)

Section Search.
Context (rs : list (string * string * string)) (ports : list string) (vis0 : gset string).
Hypothesis Hvis0 : forall y, y ∈ vis0 -> y ∈ ports.

(** A node the search must visit: a port it marks visited at the start,
    or a node at the end of a non-empty resistor path from a port. *)
Definition bfs_reach (y : string) : Prop :=
  y ∈ vis0 \/ exists p, p ∈ ports /\ tc (res_edge rs) p y.

(** [visited] holds only nodes the search must visit; it contains the
    starting set; the queue holds ports and such nodes; and an edge out
    of a port or a visited node ends at a visited node unless its source
    is still queued. *)
Definition bfs_inv (vis : gset string) (q : list string) : Prop :=
  (forall y, y ∈ vis -> bfs_reach y) /\ vis0 ⊆ vis /\
  (forall x, x ∈ q -> x ∈ ports \/ bfs_reach x) /\
  (forall x y, x ∈ ports \/ x ∈ vis -> res_edge rs x y -> y ∈ vis \/ x ∈ q).

Lemma bfs_reach_step x y :
  x ∈ ports \/ bfs_reach x -> res_edge rs x y -> bfs_reach y.
Proof.
  intros [Hx|[Hx|(p & Hp & Hpx)]] He; right.
  - exists x. split; [done|]. by apply tc_once.
  - exists x. split; [by apply Hvis0|]. by apply tc_once.
  - exists p. split; [done|]. by eapply tc_r.
Qed.

Lemma bfs_inv_init : bfs_inv vis0 ports.
Proof.
  split; [by left|]. split; [done|]. split; [by left|].
  intros x y [Hx|Hx] _; right; [done|by apply Hvis0].
Qed.

Lemma bfs_inv_step vis x q :
  bfs_inv vis (x :: q) ->
  let '(vis', q') := visit_neighbors (neighbors (build_adj rs) x) (vis, q) in bfs_inv vis' q'.
Proof.
  intros (Hsnd & H0 & Hq & Hcl).
  pose proof (visit_neighbors_spec (neighbors (build_adj rs) x) vis q) as Hs.
  destruct (visit_neighbors _ _) as [vis' q'].
  destruct Hs as (Hsub & Hnb & new & -> & Hnew & Hv).
  assert (Hx : x ∈ ports \/ bfs_reach x) by (apply Hq; by left).
  assert (Hsnd' : forall y, y ∈ vis' -> bfs_reach y).
  { intros y Hy. destruct (Hv y Hy) as [H|H]; [by apply Hsnd|].
    apply (bfs_reach_step x); [done|]. by apply build_adj_spec, Hnew. }
  split; [done|]. split; [set_solver|]. split.
  - intros z. rewrite elem_of_app. intros [Hz|Hz].
    + apply Hq. by right.
    + right. apply Hsnd'. by apply Hnb, Hnew.
  - intros z y Hz He. rewrite elem_of_app.
    destruct (decide (z = x)) as [->|Hzx].
    { left. by apply Hnb, build_adj_spec. }
    assert (Hz' : z ∈ ports \/ z ∈ vis \/ z ∈ new) by (destruct Hz as [?|Hz]; [tauto|]; destruct (Hv z Hz); tauto).
    destruct Hz' as [Hz'|[Hz'|Hz']]; [| |by right; right].
    all: destruct (Hcl z y ltac:(tauto) He) as [Hy|Hy]; [left; by apply Hsub|].
    all: apply elem_of_cons in Hy as [->|Hy]; [done|by right; left].
Qed.

Lemma bfs_inv_result fuel vis q r :
  bfs_inv vis q -> bfs fuel (build_adj rs) q vis = Some r -> bfs_inv r [].
Proof.
  revert vis q. induction fuel as [|fuel IH]; intros vis q Hi Hb; [done|].
  destruct q as [|x q]; simpl in Hb; [by simplify_eq|].
  pose proof (bfs_inv_step vis x q Hi) as Hs.
  destruct (visit_neighbors _ _) as [vis' q']. by eapply IH.
Qed.

(** At the end of the search the visited set is exactly the set of nodes
    the search must visit. *)
Lemma bfs_inv_final r y : bfs_inv r [] -> y ∈ r <-> bfs_reach y.
Proof.
  intros (Hsnd & H0 & _ & Hcl). split; [apply Hsnd|].
  assert (Hpath : forall a b, tc (res_edge rs) a b -> a ∈ ports \/ a ∈ r -> b ∈ r).
  { induction 1 as [a b He|a b c He _ IH]; intros Ha.
    - destruct (Hcl a b Ha He) as [?|Hn]; [done|by apply elem_of_nil in Hn].
    - apply IH. right. destruct (Hcl a b Ha He) as [?|Hn]; [done|by apply elem_of_nil in Hn]. }
  intros [Hy|(p & Hp & Hpy)]; [exact (H0 y Hy)|]. apply (Hpath p y Hpy). by left.
Qed.

End Search.

(** ** The open check *)

(** A node of a parsed net is reached when it is a port listed among the
    net's nodes, or the end of a non-empty resistor path from a port. *)
Definition reached (d : net_rec) (y : string) : Prop :=
  (y ∈ nr_ports d /\ y ∈ nr_all_nodes d) \/
  exists p, p ∈ nr_ports d /\ tc (res_edge (nr_resistors d)) p y.

Lemma visited_init_ports d y : y ∈ visited_init d -> y ∈ nr_ports d.
Proof.
  unfold visited_init. rewrite elem_of_list_to_set, elem_of_List_filter. tauto.
Qed.

Lemma bfs_reach_reached d y :
  bfs_reach (nr_resistors d) (nr_ports d) (visited_init d) y <-> reached d y.
Proof.
  unfold bfs_reach, reached, visited_init.
  rewrite elem_of_list_to_set, elem_of_List_filter, bool_decide_eq_true. tauto.
Qed.

Lemma visited_of_bfs d :
  exists r, bfs (bfs_fuel (build_adj (nr_resistors d)) (nr_ports d)) (build_adj (nr_resistors d))
              (nr_ports d) (visited_init d) = Some r /\ visited_of d = r.
Proof.
  destruct (bfs_some (bfs_fuel (build_adj (nr_resistors d)) (nr_ports d)) (build_adj (nr_resistors d))
              (nr_ports d) (visited_init d) (build_adj_closed _) (bfs_fuel_enough _ _ _)) as [r Hr].
  exists r. unfold visited_of. by rewrite Hr.
Qed.

(** The visited set of [_check_opens] is the set of reached nodes. *)
Lemma visited_of_reached d y : y ∈ visited_of d <-> reached d y.
Proof.
  destruct (visited_of_bfs d) as (r & Hr & ->).
  rewrite <- bfs_reach_reached.
  apply bfs_inv_final, (bfs_inv_result _ _ _ (visited_init_ports d) _ _ _ _ (bfs_inv_init _ _ _ (visited_init_ports d)) Hr).
Qed.

Lemma floating_pins_spec d p : p ∈ floating_pins d <-> p ∈ nr_inst_pins d /\ ~ reached d p.
Proof.
  unfold floating_pins. rewrite elem_of_List_filter, <- visited_of_reached.
  case_bool_decide as Hv; simpl; [split; [intros [_ ?]; discriminate|tauto]|].
  split; [intros [? _]; by split|intros [? _]; by split].
Qed.

(** C9. The [while queue] loop of [_check_opens] terminates: with the
    fuel [1 + len(ports) + |nodes of the adjacency|] the search from the
    ports of any parsed net returns a visited set. *)
Theorem check_opens_terminates (d : net_rec) :
  exists r, bfs (bfs_fuel (build_adj (nr_resistors d)) (nr_ports d)) (build_adj (nr_resistors d))
              (nr_ports d) (visited_init d) = Some r.
Proof. destruct (visited_of_bfs d) as (r & Hr & _). by exists r. Qed.

(** C10. On a net with a port, [_check_opens] reports one error per
    floating pin, and a declared instance pin is floating exactly when no
    port reaches it through the net's resistors. *)
Theorem check_opens_floating (d : net_rec) :
  nr_ports d <> [] ->
  check_opens d = length (floating_pins d) /\
  forall p, p ∈ floating_pins d <-> p ∈ nr_inst_pins d /\ ~ reached d p.
Proof.
  intros Hp. split; [|apply floating_pins_spec].
  unfold check_opens. by destruct (nr_ports d).
Qed.

(** [_check_opens] reports no error on a net exactly when the net
    has a port and every declared instance pin is reached from a port,
    or the net declares no instance pin. *)
Theorem check_opens_zero_iff (d : net_rec) :
  check_opens d = 0%nat <->
  forall p, p ∈ nr_inst_pins d -> nr_ports d <> [] /\ reached d p.
Proof.
  unfold check_opens. destruct (nr_ports d) as [|p0 ps] eqn:Ep.
  - destruct (nr_inst_pins d) as [|i is'].
    + split; [intros _ p Hp; by apply elem_of_nil in Hp|done].
    + split; [done|]. intros H. destruct (H i ltac:(by left)). done.
  - rewrite length_zero_iff_nil. split.
    + intros Hf p Hp. split; [done|]. apply visited_of_reached.
      destruct (decide (p ∈ visited_of d)) as [?|Hn]; [done|].
      assert (Hfl : p ∈ floating_pins d) by (apply floating_pins_spec; by rewrite <- visited_of_reached).
      rewrite Hf in Hfl. by apply elem_of_nil in Hfl.
    + intros H. apply elem_of_nil_inv. intros p Hfl.
      apply floating_pins_spec in Hfl as [Hp Hr]. by apply Hr, H.
Qed.

(** A net with one port [P], two instance pins, and a resistor path from
    [P] to [I1] only. *)
Definition ex_net : net_rec :=
  {| nr_ports := ["P"]; nr_inst_pins := ["I1"; "I2"];
     nr_resistors := [("R0", "P", "X"); ("R1", "X", "I1")];
     nr_all_nodes := {["P"; "X"; "I1"; "I2"]} |}%string.

Lemma check_opens_floating_witness :
  nr_ports ex_net <> [] /\ check_opens ex_net = length (floating_pins ex_net) /\
  ("I2"%string ∈ floating_pins ex_net <-> "I2"%string ∈ nr_inst_pins ex_net /\ ~ reached ex_net "I2").
Proof.
  assert (H : nr_ports ex_net <> []) by discriminate.
  destruct (check_opens_floating ex_net H) as [Hc Hf]. split; [done|]. split; [done|]. apply Hf.
Defined.

Example check_opens_ex_net : check_opens ex_net = 1%nat.
Proof. vm_compute. reflexivity. Qed.

(** The nets of the specification's open-detection examples: a port [P],
    an instance pin [X], with and without the resistor [P-X]; and a net
    with one instance pin and no port. *)
Definition spec_net (rs : list (string * string * string)) : net_rec :=
  {| nr_ports := ["P"]; nr_inst_pins := ["X"]; nr_resistors := rs;
     nr_all_nodes := {["P"; "X"]} |}%string.

Definition spec_isolated : net_rec :=
  {| nr_ports := []; nr_inst_pins := ["X"]; nr_resistors := []; nr_all_nodes := {["X"]} |}%string.

(** The specification's open-detection and isolated-net examples:
    with the edge [P-X] the pin [X] is reached and no pin floats; without
    it [X] floats; a net with one pin and no port reports exactly one
    floating pin. *)
Example check_opens_spec_examples :
  check_opens (spec_net [("R0", "P", "X")]%string) = 0%nat /\
  floating_pins (spec_net []) = ["X"%string] /\ check_opens (spec_net []) = 1%nat /\
  check_opens spec_isolated = 1%nat.
Proof. split_and!; vm_compute; reflexivity. Qed.

End Opens.
