(* ===== verification/Checker.v ===== *)
(** * The DSPF checker: [DSPFChecker._parse], [_add_to_spatial_map],
      [_check_shorts] and [run]

    [_parse] (dspf_checker.py, lines 613-678) reads the DSPF text line by
    line; the state it threads is [chk_state]: the dict [self.nets] of
    parsed nets, [self.ground_net], [self.spatial_map] and the local
    [current_net].  One iteration of its loop is [parse_line]; the loop
    is [parse], a fold over the lines (opening and reading the file is
    not modelled: the input is the list of its lines).  A node whose name
    has the shape the writer gives coordinate nodes,
    [n_<net>_<layer>_<x>_<y>], is decoded by [spatial_key] and recorded
    in the spatial map under the net that declares it; [_check_shorts]
    counts the locations declared by more than one net.  The open check
    of each parsed net is [Opens.check_opens]. *)

From S2P Require Import Prelude PyStr OpenCheck.
From Stdlib Require Import Ascii.

Local Open Scope string_scope.

Module Check.
Import Opens.

(** A location [(layer, x, y)] of [spatial_map]. *)
Abbreviation loc := (string * Z * Z)%type.

Record chk_state := mkChk {
  c_nets : gmap string net_rec;
  c_ground : option string;
  c_spatial : gmap loc (gset string);
  c_current : option string
}.

(** [self.nets = {}], [self.ground_net = None],
    [self.spatial_map = defaultdict(set)], [current_net = None]. *)
Definition init_chk : chk_state :=
  {| c_nets := ∅; c_ground := None; c_spatial := ∅; c_current := None |}.

(** The name the writer gives a node that is neither a port nor an
    instance pin: [f"n_{net}_{l}_{x}_{y}"] (dspf_writer.py, line 933). *)
Definition coord_name (net l : string) (x y : Z) : string :=
  "n_" ++ net ++ "_" ++ l ++ "_" ++ py_str_Z x ++ "_" ++ py_str_Z y.

(** The key [_add_to_spatial_map] computes: [None] when the name does not
    start with [n_], has fewer than five [_]-separated parts, or when
    [int()] of one of the last two raises [ValueError]. *)
Definition spatial_key (node_name : string) : option loc :=
  if py_startswith node_name "n_" then
    let parts := py_split "_" node_name in
    let n := length parts in
    if (5 <=? n)%nat then
      match py_int (nth (n - 1) parts ""), py_int (nth (n - 2) parts "") with
      | Some y, Some x => Some (nth (n - 3) parts "", x, y)
      | _, _ => None
      end
    else None
  else None.

(** [self.spatial_map[key].add(net_name)]. *)
Definition add_to_spatial_map (node_name net_name : string) (sm : gmap loc (gset string))
  : gmap loc (gset string) :=
  match spatial_key node_name with
  | Some k => <[k := {[net_name]} ∪ default ∅ (sm !! k)]> sm
  | None => sm
  end.

(** [start = line.find('('); end = line.find(' ', start);
    line[start+1:end]], [None] when either [find] returns [-1]. *)
Definition paren_name (line : string) : option string :=
  match py_find line "(" 0 with
  | Some st =>
      match py_find line " " st with
      | Some en => Some (py_slice line (S st) en)
      | None => None
      end
  | None => None
  end.

Definition set_net (st : chk_state) (cur : string) (d : net_rec) : chk_state :=
  {| c_nets := <[cur := d]> (c_nets st); c_ground := c_ground st;
     c_spatial := c_spatial st; c_current := c_current st |}.

Definition set_spatial (st : chk_state) (sm : gmap loc (gset string)) : chk_state :=
  {| c_nets := c_nets st; c_ground := c_ground st; c_spatial := sm;
     c_current := c_current st |}.

(** The [*|P], [*|I], [*|S] and [R] branches, on the record [data] of the
    current net. *)
Definition add_port (d : net_rec) (n : string) : net_rec :=
  {| nr_ports := nr_ports d ++ [n]; nr_inst_pins := nr_inst_pins d;
     nr_resistors := nr_resistors d; nr_all_nodes := {[n]} ∪ nr_all_nodes d |}.

Definition add_inst_pin (d : net_rec) (n : string) : net_rec :=
  {| nr_ports := nr_ports d; nr_inst_pins := nr_inst_pins d ++ [n];
     nr_resistors := nr_resistors d; nr_all_nodes := {[n]} ∪ nr_all_nodes d |}.

Definition add_node (d : net_rec) (n : string) : net_rec :=
  {| nr_ports := nr_ports d; nr_inst_pins := nr_inst_pins d;
     nr_resistors := nr_resistors d; nr_all_nodes := {[n]} ∪ nr_all_nodes d |}.

Definition add_res (d : net_rec) (rn n1 n2 : string) : net_rec :=
  {| nr_ports := nr_ports d; nr_inst_pins := nr_inst_pins d;
     nr_resistors := nr_resistors d ++ [(rn, n1, n2)];
     nr_all_nodes := {[n2]} ∪ ({[n1]} ∪ nr_all_nodes d) |}.

(** One iteration of the [for line in f] loop of [_parse]. *)
Definition parse_line (st : chk_state) (raw : string) : chk_state :=
  let line := py_strip raw in
  if String.eqb line "" then st
  else if py_startswith line "*|GROUND_NET" then
    match py_words line with
    | _ :: g :: _ =>
        {| c_nets := c_nets st; c_ground := Some g; c_spatial := c_spatial st;
           c_current := c_current st |}
    | _ => st
    end
  else if py_startswith line "*|NET" then
    match py_words line with
    | _ :: n :: _ =>
        {| c_nets := <[n := empty_net_rec]> (c_nets st); c_ground := c_ground st;
           c_spatial := c_spatial st; c_current := Some n |}
    | _ => st
    end
  else
    match c_current st with
    | None => st
    | Some cur =>
        let data := default empty_net_rec (c_nets st !! cur) in
        if py_startswith line "*|P" then
          match paren_name line with
          | Some pname => set_net st cur (add_port data pname)
          | None => st
          end
        else if py_startswith line "*|I" then
          match paren_name line with
          | Some iname => set_net st cur (add_inst_pin data iname)
          | None => st
          end
        else if py_startswith line "*|S" then
          match paren_name line with
          | Some sname =>
              set_spatial (set_net st cur (add_node data sname))
                (add_to_spatial_map sname cur (c_spatial st))
          | None => st
          end
        else if py_startswith line "R" then
          match py_words line with
          | rname :: n1 :: n2 :: _ :: _ =>
              set_spatial (set_net st cur (add_res data rname n1 n2))
                (add_to_spatial_map n2 cur (add_to_spatial_map n1 cur (c_spatial st)))
          | _ => st
          end
        else st
    end.

(** [_parse]: the loop over the lines of the file. *)
Definition parse (lines : list string) : chk_state := fold_left parse_line lines init_chk.

(** [_check_shorts]: the number of locations whose set of nets has more
    than one element. *)
Definition check_shorts (sm : gmap loc (gset string)) : nat :=
  length (List.filter (fun kv => bool_decide (1 < size kv.2)%nat) (map_to_list sm)).

(** [run] after a successful parse: the open errors summed over the nets
    and the short count; the check passes when both are zero. *)
Definition run_check (lines : list string) : nat * nat :=
  let st := parse lines in
  (sum_list_with (fun kv => check_opens kv.2) (map_to_list (c_nets st)),
   check_shorts (c_spatial st)).

Definition check_passes (lines : list string) : bool :=
  let '(o, s) := run_check lines in bool_decide (o = 0%nat /\ s = 0%nat).

(** ** Decoding coordinate names *)

Lemma nth_last_three {A} (l : list A) (a b c d : A) :
  let n := length (l ++ [a; b; c]) in
  nth (n - 1) (l ++ [a; b; c]) d = c /\ nth (n - 2) (l ++ [a; b; c]) d = b /\
  nth (n - 3) (l ++ [a; b; c]) d = a.
Proof.
  simpl. rewrite length_app. simpl.
  rewrite !app_nth2 by lia.
  replace (length l + 3 - 1 - length l)%nat with 2%nat by lia.
  replace (length l + 3 - 2 - length l)%nat with 1%nat by lia.
  replace (length l + 3 - 3 - length l)%nat with 0%nat by lia. done.
Qed.

(** The parts of a coordinate name. *)
Lemma py_split_coord_name net l x y :
  no_char "_" l = true ->
  py_split "_" (coord_name net l x y) = ((["n"] ++ py_split "_" net) ++ [l; py_str_Z x; py_str_Z y])%list.
Proof.
  intros Hl.
  change (coord_name net l x y) with
    ("n" ++ String "_" (net ++ String "_" (l ++ String "_" (py_str_Z x ++ String "_" (py_str_Z y))))).
  rewrite !py_split_app, (py_split_no_char _ l Hl), !(py_split_no_char _ (py_str_Z _))
    by apply py_str_Z_no_us.
  reflexivity.
Qed.

(** ** The invariant of the parser *)

(** Every port, instance pin and resistor end of a parsed net is one of
    its [all_nodes]. *)
Definition net_wf (d : net_rec) : Prop :=
  (forall p, p ∈ nr_ports d -> p ∈ nr_all_nodes d) /\
  (forall p, p ∈ nr_inst_pins d -> p ∈ nr_all_nodes d) /\
  (forall r, r ∈ nr_resistors d -> r.1.2 ∈ nr_all_nodes d /\ r.2 ∈ nr_all_nodes d).

(** [self.nets[current_net]] is defined whenever [current_net] is set, and
    every parsed net is well formed. *)
Definition chk_wf (st : chk_state) : Prop :=
  (forall cur, c_current st = Some cur -> is_Some (c_nets st !! cur)) /\
  map_Forall (fun _ d => net_wf d) (c_nets st).

Lemma net_wf_empty : net_wf empty_net_rec.
Proof. split; [|split]; intros ? H; by apply elem_of_nil in H. Qed.

Ltac net_wf_add :=
  intros (Hp & Hi & Hr); split; [|split]; simpl;
  [intros q; rewrite ?elem_of_app, ?list_elem_of_singleton
  |intros q; rewrite ?elem_of_app, ?list_elem_of_singleton
  |intros r; rewrite ?elem_of_app, ?list_elem_of_singleton];
  intros Hq; try destruct Hq as [Hq|Hq]; subst; set_solver.

Lemma net_wf_add_port d n : net_wf d -> net_wf (add_port d n).
Proof. net_wf_add. Qed.

Lemma net_wf_add_inst_pin d n : net_wf d -> net_wf (add_inst_pin d n).
Proof. net_wf_add. Qed.

Lemma net_wf_add_node d n : net_wf d -> net_wf (add_node d n).
Proof. net_wf_add. Qed.

Lemma net_wf_add_res d rn n1 n2 : net_wf d -> net_wf (add_res d rn n1 n2).
Proof. net_wf_add. Qed.

Lemma chk_wf_data st cur :
  chk_wf st -> c_current st = Some cur ->
  c_nets st !! cur = Some (default empty_net_rec (c_nets st !! cur)) /\
  net_wf (default empty_net_rec (c_nets st !! cur)).
Proof.
  intros [Hc Hf] Hcur. destruct (Hc cur Hcur) as [d Hd]. rewrite Hd. split; [done|].
  by apply (Hf cur).
Qed.

Lemma chk_wf_set_net st cur d :
  chk_wf st -> c_current st = Some cur -> net_wf d -> chk_wf (set_net st cur d).
Proof.
  intros [Hc Hf] Hcur Hd. split; simpl.
  - intros c Hc'. rewrite lookup_insert. case_decide; [done|by apply Hc].
  - by apply map_Forall_insert_2.
Qed.

Lemma chk_wf_set_spatial st sm : chk_wf st -> chk_wf (set_spatial st sm).
Proof. done. Qed.

Lemma chk_wf_init : chk_wf init_chk.
Proof. split; [done|]. apply map_Forall_empty. Qed.

(** Every iteration of the loop of [_parse] keeps the invariant. *)
Lemma parse_line_wf st raw : chk_wf st -> chk_wf (parse_line st raw).
Proof.
  intros Hwf. unfold parse_line.
  destruct (String.eqb _ _); [done|].
  destruct (py_startswith _ "*|GROUND_NET").
  { destruct (py_words _) as [|? [|g ?]]; [done..|]. exact Hwf. }
  destruct (py_startswith _ "*|NET").
  { destruct (py_words _) as [|? [|n ?]]; [done..|]. destruct Hwf as [_ Hf]. split; simpl.
    - intros c [= <-]. rewrite lookup_insert_eq. by eexists.
    - apply map_Forall_insert_2; [apply net_wf_empty|done]. }
  destruct (c_current st) as [cur|] eqn:Hcur; [|done].
  destruct (chk_wf_data st cur Hwf Hcur) as [_ Hd].
  repeat case_match; try done; try apply chk_wf_set_spatial; apply chk_wf_set_net; try done.
  - by apply net_wf_add_port.
  - by apply net_wf_add_inst_pin.
  - by apply net_wf_add_node.
  - by apply net_wf_add_res.
Qed.

(** A parsed net of the invariant: its ports are nodes, so its visited
    set is the set of nodes a possibly empty resistor path from a port
    reaches. *)
Lemma net_wf_reached d y :
  net_wf d -> reached d y <-> exists p, p ∈ nr_ports d /\ rtc (res_edge (nr_resistors d)) p y.
Proof.
  intros (Hp & _ & _). unfold reached. setoid_rewrite rtc_tc. split.
  - intros [[Hy _]|(p & Hp' & Ht)]; [exists y; by split; [|left]|exists p; by split; [|right]].
  - intros (p & Hp' & [->|Ht]); [left; split; [done|by apply Hp]|right; by exists p].
Qed.

(** C11. Parsing keeps its invariant: after any sequence of lines,
    [self.nets[current_net]] is defined whenever [current_net] is set (the
    lookup of the loop body never raises), and every port, instance pin
    and resistor end of every parsed net is in the net's [all_nodes]. *)
Theorem parse_wf (lines : list string) : chk_wf (parse lines).
Proof. unfold parse. apply fold_left_inv; [apply chk_wf_init|apply parse_line_wf]. Qed.

(** In a net of a parsed file, the open check visits exactly the
    nodes that a resistor path, possibly empty, reaches from a port. *)
Theorem parse_visited (lines : list string) (n : string) (d : net_rec) (y : string) :
  c_nets (parse lines) !! n = Some d ->
  y ∈ visited_of d <-> exists p, p ∈ nr_ports d /\ rtc (res_edge (nr_resistors d)) p y.
Proof.
  intros Hn. rewrite visited_of_reached. apply net_wf_reached.
  destruct (fold_left_inv chk_wf parse_line lines init_chk chk_wf_init parse_line_wf) as [_ Hf].
  exact (Hf n d Hn).
Qed.

(** C12. [_add_to_spatial_map] decodes the names the writer gives
    coordinate nodes: the name [n_<net>_<l>_<x>_<y>] gives the location
    [(l, x, y)] for every net name (which may contain [_]), every layer
    name without [_] and all integers [x] and [y]. *)
Theorem spatial_key_coord_name (net l : string) (x y : Z) :
  no_char "_" l = true -> spatial_key (coord_name net l x y) = Some (l, x, y).
Proof.
  intros Hl. unfold spatial_key.
  assert (Hs : py_startswith (coord_name net l x y) "n_" = true)
    by (unfold py_startswith, coord_name; simpl; by destruct (String.append _ _)).
  rewrite Hs.
  rewrite py_split_coord_name by done.
  destruct (nth_last_three (["n"] ++ py_split "_" net) l (py_str_Z x) (py_str_Z y) "")
    as (-> & -> & ->).
  rewrite !length_app. pose proof (py_split_nonempty "_" net).
  destruct (py_split "_" net); [done|]. simpl. rewrite Nat.add_comm. simpl. by rewrite !py_int_str.
Qed.

Lemma parse_visited_witness :
  c_nets (parse ["*|NET N"; "*|P (P B)"; "R0 P X 1.0"]) !! "N" =
    Some {| nr_ports := ["P"]; nr_inst_pins := []; nr_resistors := [("R0", "P", "X")];
            nr_all_nodes := {["X"]} ∪ ({["P"]} ∪ ({["P"]} ∪ ∅)) |} /\
  ("X" ∈ visited_of {| nr_ports := ["P"]; nr_inst_pins := []; nr_resistors := [("R0", "P", "X")];
                       nr_all_nodes := {["X"]} ∪ ({["P"]} ∪ ({["P"]} ∪ ∅)) |} <->
   exists p, p ∈ ["P"] /\ rtc (res_edge [("R0", "P", "X")]) p "X").
Proof.
  assert (H : c_nets (parse ["*|NET N"; "*|P (P B)"; "R0 P X 1.0"]) !! "N" =
    Some {| nr_ports := ["P"]; nr_inst_pins := []; nr_resistors := [("R0", "P", "X")];
            nr_all_nodes := {["X"]} ∪ ({["P"]} ∪ ({["P"]} ∪ ∅)) |}) by reflexivity.
  split; [exact H|]. exact (parse_visited _ _ _ "X" H).
Defined.

Lemma spatial_key_coord_name_witness :
  no_char "_" "M3" = true /\ spatial_key (coord_name "VDD_A" "M3" 1000 (-2000)) = Some ("M3", 1000, -2000).
Proof.
  assert (H : no_char "_" "M3" = true) by reflexivity.
  split; [exact H|]. exact (spatial_key_coord_name "VDD_A" "M3" 1000 (-2000) H).
Defined.

(** ** The short check *)

Lemma List_filter_nil {A} (f : A -> bool) (l : list A) :
  List.filter f l = [] <-> forall x, x ∈ l -> f x = false.
Proof.
  split.
  - intros Hf x Hx. destruct (f x) eqn:E; [|done].
    assert (Hin : x ∈ List.filter f l) by (apply elem_of_List_filter; by split).
    rewrite Hf in Hin. by apply elem_of_nil in Hin.
  - intros H. apply elem_of_nil_inv. intros x Hx.
    apply elem_of_List_filter in Hx as [Hx Hfx]. by rewrite H in Hfx.
Qed.

(** C13. [_check_shorts] reports no short exactly when every location of
    the spatial map is declared by at most one net. *)
Theorem check_shorts_zero_iff (sm : gmap loc (gset string)) :
  check_shorts sm = 0%nat <-> map_Forall (fun _ (ns : gset string) => (size ns <= 1)%nat) sm.
Proof.
  unfold check_shorts. rewrite length_zero_iff_nil, List_filter_nil. split.
  - intros H k ns Hk. apply elem_of_map_to_list in Hk. specialize (H _ Hk).
    apply bool_decide_eq_false in H. cbn [snd] in H. lia.
  - intros H [k ns] Hk. apply elem_of_map_to_list in Hk. apply bool_decide_eq_false.
    cbn [snd]. specialize (H k ns Hk). cbv beta in H. lia.
Qed.

(** The example of the specification: nets [VDD] and [VSS] both declare
    a node at [(M3, 1000, 2000)]. *)
Definition ex_short_lines : list string :=
  ["*|GROUND_NET VSS"; "*|NET VDD 1.0PF"; "*|P (VDD_P B 0.0 1.000 2.000)";
   "*|S (n_VDD_M3_1000_2000 1.000 2.000)"; "RVDD_0 VDD_P n_VDD_M3_1000_2000 1.0E-03";
   "*|NET VSS 1.0PF"; "*|S (n_VSS_M3_1000_2000 1.000 2.000)"].

(** On the specification's example the checker finds no open and
    exactly one short, at [(M3, 1000, 2000)] between [VDD] and [VSS]. *)
Example check_ex_short :
  run_check ex_short_lines = (0%nat, 1%nat) /\
  c_spatial (parse ex_short_lines) !! ("M3", 1000, 2000) = Some {["VDD"; "VSS"]}.
Proof. split; [vm_compute; reflexivity|]. vm_compute. reflexivity. Qed.

End Check.
