(* ===== verification/Writer.v ===== *)
(** * The DSPF writer: [DSPFWriter] (dspf_writer.py)

    [write] (lines 898-916 of the installer) writes the header, one block
    per net in sorted order ([_write_net], lines 921-967), the instance
    section ([_write_instances], lines 969-985) and [.ENDS].  The file is
    modelled as the list of its lines.  Writing threads the lines written
    so far and the [name_cache] of the net being written, and can raise
    ([KeyError] on a missing id); [write] catches the exception, and the
    file then holds the lines written before it.  This is the monad [M]:
    a state of the lines and the cache, with failure that keeps the
    state.  Coordinates are printed by [Fmt.fmt_milli]; values by the
    formatter [fmt_E] of the class [Fmt.EFormat], a parameter of the
    section. *)

From S2P Require Import Prelude PyStr Format NetStore Layers Geometry Fracture Extractor OpenCheck Checker.
From Stdlib Require Import Ascii.

Local Open Scope string_scope.

Module DspfWriter.
Import NetData Extract Check Fmt.

Record wstate := mkW { ws_out : list string; ws_cache : gmap nat string }.

(** Writing: the state after the step, and its result or [None] for an
    exception. *)
Definition M (A : Type) : Type := wstate -> wstate * option A.

#[export] Instance M_ret : MRet M := fun A a s => (s, Some a).

#[export] Instance M_bind : MBind M := fun A B k m s =>
  match m s with
  | (s', Some a) => k a s'
  | (s', None) => (s', None)
  end.

Definition raise {A} : M A := fun s => (s, None).

(** [f.write(line + "\n")]. *)
Definition write_line (l : string) : M unit :=
  fun s => ({| ws_out := ws_out s ++ [l]; ws_cache := ws_cache s |}, Some tt).

Definition cache_get (nid : nat) : M (option string) := fun s => (s, Some (ws_cache s !! nid)).

Definition cache_set (nid : nat) (nm : string) : M unit :=
  fun s => ({| ws_out := ws_out s; ws_cache := <[nid := nm]> (ws_cache s) |}, Some tt).

(** [name_cache = {}]. *)
Definition cache_reset : M unit :=
  fun s => ({| ws_out := ws_out s; ws_cache := ∅ |}, Some tt).

(** [for x in l: f(x)]. *)
Fixpoint for_each {A} (f : A -> M unit) (l : list A) : M unit :=
  match l with
  | [] => mret tt
  | x :: r => f x ;; for_each f r
  end.

(** [for i, x in enumerate(l): f(i, x)] from index [i]. *)
Fixpoint for_enum {A} (f : Z -> A -> M unit) (i : Z) (l : list A) : M unit :=
  match l with
  | [] => mret tt
  | x :: r => f i x ;; for_enum f (i + 1) r
  end.

(** [sorted] of a list of strings, in code-point order. *)
Definition str_le (a b : string) : Prop := String.leb a b = true.
#[export] Instance str_le_dec : RelDecision str_le.
Proof. intros a b. unfold str_le. apply _. Defined.

Definition sorted_strings (l : list string) : list string := merge_sort str_le l.

(** [sorted] of a list of ids. *)
Definition sorted_ids (l : list nat) : list nat := merge_sort Nat.le l.

(** [" ".join(l)]. *)
Definition join_space (l : list string) : string := py_join " " l.

(** [f"R{net}_{i}"] and [f"C{net}_{i}"]. *)
Definition elem_name (kind net : string) (i : Z) : string := kind ++ net ++ "_" ++ py_str_Z i.

(** [f"{inst}:{pin}"]. *)
Definition pin_name (inst pin : string) : string := inst ++ ":" ++ pin.

Section Writer.
Context `{EF : EFormat}.

(** The nested [get_name(nid)] of [_write_net]: the cached name, else the
    rename, else the coordinate name of [id_coords[nid]] (a [KeyError]
    when [nid] is not an id of the net), cached. *)
Definition get_name (net : string) (data : NetStore) (nid : nat) : M string :=
  c ← cache_get nid;
  match c with
  | Some s => mret s
  | None =>
      s ← match renamed data !! nid with
           | Some s => mret s
           | None =>
               match id_coords data !! nid with
               | Some (l, x, y) => mret (coord_name net l x y)
               | None => raise
               end
           end;
      cache_set nid s ;; mret s
  end.

(** The [*|P] line of a port. *)
Definition port_line (p : port) : string :=
  "*|P (" ++ po_name p ++ " B 0.0 " ++ fmt_milli (po_x p) ++ " " ++ fmt_milli (po_y p) ++ ")".

(** The [*|I] line of an instance connection. *)
Definition inst_line (c : inst_conn) : string :=
  "*|I (" ++ pin_name (ic_inst c) (ic_pin c) ++ " " ++ ic_inst c ++ " " ++ ic_pin c ++ " I 0.0 " ++
    fmt_milli (ic_x c) ++ " " ++ fmt_milli (ic_y c) ++ ")".

(** The net header [*|NET net cap PF]. *)
Definition net_line (net : string) (tot_cap : Q) : string :=
  "*|NET " ++ net ++ " " ++ fmt_E tot_cap ++ "PF".

(** The [*|S] line of a plain node. *)
Definition node_line (name : string) (x y : Z) : string :=
  "*|S (" ++ name ++ " " ++ fmt_milli x ++ " " ++ fmt_milli y ++ ")".

(** A resistor line [R{net}_{i} n1 n2 val]. *)
Definition res_line (net : string) (i : Z) (a b : string) (v : Q) : string :=
  elem_name "R" net i ++ " " ++ a ++ " " ++ b ++ " " ++ fmt_E v.

(** A capacitor line [C{net}_{i} n ground val PF]. *)
Definition cap_line (net : string) (i : Z) (a ground : string) (v : Q) : string :=
  elem_name "C" net i ++ " " ++ a ++ " " ++ ground ++ " " ++ fmt_E (v / 1000)%Q ++ "PF".

(** [_write_net(f, net, data)]. *)
Definition write_net (e : ext_state) (ground net : string) (data : NetStore) : M unit :=
  let tot_cap := (Qsum (map snd (capacitors data)) / 1000)%Q in
  write_line (net_line net tot_cap) ;;
  cache_reset ;;
  let ports_in_net := List.filter (fun p => String.eqb (po_net p) net) (ports e) in
  for_each (fun p => cache_set (po_nid p) (po_name p) ;; write_line (port_line p)) ports_in_net ;;
  let insts_in_net := List.filter (fun c => String.eqb (ic_net c) net) (inst_conns e) in
  for_each (fun c => cache_set (ic_nid c) (pin_name (ic_inst c) (ic_pin c)) ;;
                     write_line (inst_line c)) insts_in_net ;;
  let special : gset nat := list_to_set (map po_nid ports_in_net ++ map ic_nid insts_in_net) in
  for_each (fun nid =>
      if decide (nid ∈ special) then mret tt
      else match id_coords data !! nid with
           | Some (l, x, y) =>
               name ← get_name net data nid;
               write_line (node_line name x y)
           | None => raise
           end)
    (sorted_ids (map fst (map_to_list (id_coords data)))) ;;
  for_enum (fun i r =>
      a ← get_name net data r.1.1;
      b ← get_name net data r.1.2;
      write_line (res_line net i a b r.2))
    0 (resistors data) ;;
  for_enum (fun i c =>
      a ← get_name net data c.1;
      write_line (cap_line net i a ground c.2))
    0 (capacitors data) ;;
  write_line "".

(** The loop of [_write_instances] that builds [inst_map]; [None] is the
    [KeyError] of a missing net or id. *)
Definition inst_map_step (e : ext_state) (acc : option (list (string * list (string * string))))
    (c : inst_conn) : option (list (string * list (string * string))) :=
  match acc with
  | None => None
  | Some m =>
      let m1 := match odict_get m (ic_inst c) with Some _ => m | None => odict_set m (ic_inst c) [] end in
      match net_data e !! ic_net c with
      | None => None
      | Some nd =>
          let name :=
            match renamed nd !! ic_nid c with
            | Some s => Some s
            | None =>
                match id_coords nd !! ic_nid c with
                | Some (l, nx, ny) => Some (coord_name (ic_net c) l nx ny)
                | None => None
                end
            end in
          match name with
          | Some s => Some (odict_set m1 (ic_inst c) (odict_set (default [] (odict_get m1 (ic_inst c))) (ic_pin c) s))
          | None => None
          end
      end
  end.

(** [_write_instances(f)]. *)
Definition write_instances (e : ext_state) : M unit :=
  write_line "* Instance Section" ;;
  match fold_left (inst_map_step e) (inst_conns e) (Some []) with
  | None => raise
  | Some m =>
      for_each (fun inst =>
          let pins := default [] (odict_get m inst) in
          write_line ("X" ++ inst ++ " " ++ join_space (map (fun pn => pn.1 ++ "=" ++ pn.2) pins) ++ " STD_CELL"))
        (sorted_strings (map fst m))
  end.

(** [self.ground_net = "VSS"] of [DSPFWriter.__init__]. *)
Definition ground_net : string := "VSS".

(** [write(filename, output_dir, design_name)]: the lines of the file and
    whether it was written without an exception. *)
Definition write (e : ext_state) (design : string) : list string * bool :=
  let ground := ground_net in
  let nets := map fst (map_to_list (net_data e)) in
  let body : M unit :=
    write_line (".SUBCKT " ++ design ++ " " ++ join_space (sorted_strings nets)) ;;
    write_line "* DSPF Gen V3 Turbo" ;;
    write_line ("*|GROUND_NET " ++ ground) ;;
    write_line "*" ;;
    for_each (fun net => match net_data e !! net with
                         | Some d => write_net e ground net d
                         | None => raise
                         end) (sorted_strings nets) ;;
    write_instances e ;;
    write_line ".ENDS" in
  let '(s, r) := body {| ws_out := []; ws_cache := ∅ |} in
  (ws_out s, bool_decide (is_Some r)).

(** ** The writer raises no exception on a well-formed extraction *)

(** [m] returns a result from every state. *)
Definition ok {A} (m : M A) : Prop := forall s, is_Some (m s).2.

Lemma ok_ret {A} (a : A) : ok (mret a).
Proof. intros s. by eexists. Qed.

Lemma ok_bind {A B} (m : M A) (k : A -> M B) : ok m -> (forall a, ok (k a)) -> ok (m ≫= k).
Proof.
  intros Hm Hk s. unfold mbind, M_bind.
  destruct (m s) as [s' [a|]] eqn:E; [apply Hk|].
  specialize (Hm s). rewrite E in Hm. by destruct Hm.
Qed.

Lemma ok_write_line l : ok (write_line l).
Proof. intros s. by eexists. Qed.

Lemma ok_cache_set nid nm : ok (cache_set nid nm).
Proof. intros s. by eexists. Qed.

Lemma ok_cache_get nid : ok (cache_get nid).
Proof. intros s. by eexists. Qed.

Lemma ok_cache_reset : ok cache_reset.
Proof. intros s. by eexists. Qed.

#[local] Hint Resolve ok_ret ok_write_line ok_cache_set ok_cache_get ok_cache_reset : pgrc.

Lemma ok_for_each {A} (f : A -> M unit) (l : list A) :
  (forall x, x ∈ l -> ok (f x)) -> ok (for_each f l).
Proof.
  induction l as [|x l IH]; intros Hf; simpl; [apply ok_ret|].
  apply ok_bind; [apply Hf; by left|]. intros _. apply IH. intros y Hy. apply Hf. by right.
Qed.

Lemma ok_for_enum {A} (f : Z -> A -> M unit) (i : Z) (l : list A) :
  (forall j x, x ∈ l -> ok (f j x)) -> ok (for_enum f i l).
Proof.
  revert i. induction l as [|x l IH]; intros i Hf; simpl; [apply ok_ret|].
  apply ok_bind; [apply Hf; by left|]. intros _. apply IH. intros j y Hy. apply Hf. by right.
Qed.

Lemma ok_get_name net data nid : is_node data nid -> ok (get_name net data nid).
Proof.
  intros [k Hk]. unfold get_name. apply ok_bind; [apply ok_cache_get|]. intros [c|]; [apply ok_ret|].
  apply ok_bind; [|intros a; apply ok_bind; eauto with pgrc].
  destruct (renamed data !! nid); [apply ok_ret|]. rewrite Hk. destruct k as [[l x] y]. apply ok_ret.
Qed.

Lemma elem_of_map_fst_map_to_list {K V} `{Countable K} (m : gmap K V) k :
  k ∈ map fst (map_to_list m) -> is_Some (m !! k).
Proof.
  intros Hk. apply list_elem_of_fmap in Hk as ([k' v] & -> & Hkv).
  apply elem_of_map_to_list in Hkv. by eexists.
Qed.

Lemma elem_of_sorted_strings x l : x ∈ sorted_strings l <-> x ∈ l.
Proof. unfold sorted_strings. apply elem_of_Permutation_proper, merge_sort_Permutation. Qed.

Lemma elem_of_sorted_ids x l : x ∈ sorted_ids l <-> x ∈ l.
Proof. unfold sorted_ids. apply elem_of_Permutation_proper, merge_sort_Permutation. Qed.

Lemma ok_write_net e ground net data : graph_wf data -> ok (write_net e ground net data).
Proof.
  intros Hg. unfold write_net.
  repeat (apply ok_bind; [|intros _]); eauto with pgrc.
  - apply ok_for_each. intros p _. apply ok_bind; eauto with pgrc.
  - apply ok_for_each. intros c _. apply ok_bind; eauto with pgrc.
  - apply ok_for_each. intros nid Hnid. case_decide; [apply ok_ret|].
    apply elem_of_sorted_ids, elem_of_map_fst_map_to_list in Hnid as [[[l x] y] Hk].
    rewrite Hk. apply ok_bind; [|eauto with pgrc]. apply ok_get_name. by eexists.
  - apply ok_for_enum. intros j [[a b] v] Hr. destruct (graph_res _ Hg a b v Hr).
    apply ok_bind; [by apply ok_get_name|]. intros n1.
    apply ok_bind; [by apply ok_get_name|eauto with pgrc].
  - apply ok_for_enum. intros j [a v] Hc.
    apply ok_bind; [apply ok_get_name; exact (graph_cap _ Hg a v Hc)|eauto with pgrc].
Qed.

Lemma inst_map_ok e l m :
  (forall c, c ∈ l -> exists st, net_data e !! ic_net c = Some st /\ is_node st (ic_nid c)) ->
  is_Some (fold_left (inst_map_step e) l (Some m)).
Proof.
  revert m. induction l as [|c l IH]; intros m Hl; simpl; [by eexists|].
  destruct (Hl c ltac:(by left)) as (st & Hst & [k Hk]).
  cbn [inst_map_step]. rewrite Hst.
  destruct (renamed st !! ic_nid c); [apply IH; intros c' Hc'; apply Hl; by right|].
  rewrite Hk. destruct k as [[l0 x] y]. apply IH. intros c' Hc'. apply Hl. by right.
Qed.

Lemma ok_write_instances e :
  (forall c, c ∈ inst_conns e -> exists st, net_data e !! ic_net c = Some st /\ is_node st (ic_nid c)) ->
  ok (write_instances e).
Proof.
  intros Hc. unfold write_instances. apply ok_bind; [apply ok_write_line|intros _].
  destruct (inst_map_ok e (inst_conns e) [] Hc) as [m Hm]. rewrite Hm.
  apply ok_for_each. intros inst _. apply ok_write_line.
Qed.

(** C14. On a well-formed extraction, such as the one [run] leaves,
    [DSPFWriter.write] raises no exception: every id it looks up is a
    node of its net, so the file is written in full. *)
Theorem write_ok (e : ext_state) (design : string) :
  ext_wf e -> (write e design).2 = true.
Proof.
  intros He. unfold write.
  match goal with |- (match ?m ?s0 with _ => _ end).2 = true =>
    assert (Hm : ok m); [|destruct (Hm s0) as [u Hu]; destruct (m s0) as [s' r]; simpl in *; subst r;
                          by apply bool_decide_eq_true] end.
  do 4 (apply ok_bind; [apply ok_write_line|intros _]).
  apply ok_bind; [|intros _; apply ok_bind; [apply ok_write_instances, (ew_conns _ He)|
                                             intros _; apply ok_write_line]].
  apply ok_for_each. intros net Hn.
  apply elem_of_sorted_strings, elem_of_map_fst_map_to_list in Hn as [d Hd]. rewrite Hd.
  apply ok_write_net. exact (ew_stores _ He _ _ Hd).
Qed.

End Writer.


(** A net [N] with an empty graph and one port-less instance section. *)
Definition ex_ext : ext_state :=
  {| net_data := {[ "N" := empty_store ]}; inst_conns := []; ports := [];
     layer_map_cache := ∅; internal_ports := [] |}.

Lemma write_ok_witness : ext_wf ex_ext /\ (write ex_ext "TOP").2 = true.
Proof.
  assert (He : ext_wf ex_ext).
  { split; simpl.
    - intros n st Hn. apply lookup_singleton_Some in Hn as [_ <-]. apply empty_store_graph_wf.
    - intros c Hc. by apply elem_of_nil in Hc.
    - intros p Hp. by apply elem_of_nil in Hp.
    - apply LayerMap.cache_ok_empty. }
  split; [exact He|]. exact (write_ok ex_ext "TOP" He).
Defined.

End DspfWriter.
