(* ===== verification/Flow.v ===== *)
(** * The 2D flow of [main.py]: extraction, DSPF writing, DSPF check

    For each die of a 2D stack, [main] (lines 1175-1206 of the installer)
    runs [RCExtractor(gen, cfg).run()], writes the DSPF with
    [DSPFWriter(extractor).write] and runs [DSPFChecker] on the file
    ([flow_2d]; the 500 MB size limit, the DEF output and the timing
    messages are not modelled).  The example here is the false open of
    two instance pins at one location: the extraction joins them in one
    node, the writer names the node after the last of them, and the
    checker, which finds the first pin declared but never used by a
    resistor, reports it floating.  The second example runs the whole
    2D flow from a configuration: [Generator.run] places three rows of
    cells between alternating [VSS] and [VDD] rails, and each row starts
    at [die_llx + 1000], so the cells of adjacent rows put their pins on
    the shared rail at the same points.  The last theorem follows every
    via of a generated design into the extraction: its resistor ends on
    [_get_next_layer] of the via's lower layer, which is the layer the
    generator joined only for consecutive metal numbers (C31). *)

From S2P Require Import Prelude PyStr Format NetStore Layers Geometry Generator GenWf Fracture Extractor OpenCheck Checker Writer.

Local Open Scope string_scope.

Module Flow.
Import NetData Geom Extract Check DspfWriter Fmt.

(** [extractor.run()], [DSPFWriter(extractor).write(...)],
    [DSPFChecker(path).run()]: the open and short counts of the check. *)
Definition flow_2d `{EFormat} (g : gen_out) (tp : tech_props) (design : string) : nat * nat :=
  run_check (write (run g tp) design).1.

(** A VDD rail on [M1] from [0] to [50000] with a port at its start, and
    two cells [U1] and [U2] whose [VDD] pins sit at [(20000, 0)], as the
    generator places the shared rail pins of two adjacent rows. *)
Definition ex_rail : wire :=
  {| w_rect := (0, -100, 50000, 100); w_layer := "M1"; w_net := "VDD";
     w_orient := OH; w_center := 0; w_width := 200 |}.

Definition ex_vdd_pin : phys_pin :=
  {| pp_name := "VDD"; pp_net := "VDD"; pp_layer := "M1"; pp_center := (20000, 0);
     pp_rect := (19900, -100, 20100, 100) |}.

Definition ex_design : gen_out :=
  {| g_wires := [ex_rail]; g_vias := [];
     g_pins := [{| p_name := "VDD_P"; p_net := "VDD"; p_layer := "M1"; p_pos := (0, 0);
                   p_rect := (-100, -100, 100, 100) |}];
     g_instances := [{| i_name := "U1"; i_master := "INV"; i_pos := (19000, 0);
                        i_physical_pins := [ex_vdd_pin] |};
                     {| i_name := "U2"; i_master := "INV"; i_pos := (19000, -2000);
                        i_physical_pins := [ex_vdd_pin] |}];
     g_nets_used := ["VDD"] |}.

Definition ex_tech : tech_props := {| tp_layers := None; tp_vias := None |}.

(** The false open: in the extraction both pins are one node, joined
    to the port's node by a resistor, yet the checker run on the written
    DSPF reports one floating pin ([U1:VDD], which the file declares but
    no resistor names) and no short. *)
Example flow_false_open :
  map (fun c => (ic_inst c, ic_nid c)) (inst_conns (run ex_design ex_tech)) = [("U1", 2%nat); ("U2", 2%nat)] /\
  (exists st, net_data (run ex_design ex_tech) !! "VDD" = Some st /\ (1%nat, 2%nat) ∈ map (fun r => r.1) (resistors st)) /\
  flow_2d ex_design ex_tech "TOP" = (1%nat, 0%nat).
Proof.
  split; [vm_compute; reflexivity|]. split; [|vm_compute; reflexivity].
  eexists. split; [vm_compute; reflexivity|]. vm_compute. left.
Qed.

(** A 20 x 20 micron die: [VSS] rails on [M1] at 0 and 10 microns,
    [VDD] rails on [M1] at 5 and 15 microns and [VDD] straps on [M2] at 2
    and 12 microns, with pins every 10 microns on [M1] for [VSS] and on
    [M2] for [VDD]; 5-micron cells on the [M1] rails. *)
Definition ex_gen_cfg : Gen.config :=
  {| Gen.cfg_tech_layers := None;
     Gen.cfg_die_area := Some (Gen.mkDieArea 0 0 20 20);
     Gen.cfg_nets := [Gen.mkNetCfg "VSS" [Gen.mkLayerRule "M1" (Some "H") 0 10 (2 # 10)] (Some (Gen.mkPinCfg "M1" 10));
                      Gen.mkNetCfg "VDD" [Gen.mkLayerRule "M1" (Some "H") 5 10 (2 # 10);
                                          Gen.mkLayerRule "M2" (Some "V") 2 10 (2 # 10)] (Some (Gen.mkPinCfg "M2" 10))];
     Gen.cfg_instance_placement := Some (Gen.mkInstCfg "M1" "INV" 10 5 ["VDD"] ["VSS"]) |}.

(** The whole 2D flow on a generated design: the generator places
    six cells in three rows; the extraction joins the [VSS] pins of
    [cell_2] and [cell_4] (rail at 10 microns), of [cell_3] and
    [cell_5], and the [VDD] pins of [cell_0] and [cell_2] (rail at 5
    microns) and of [cell_1] and [cell_3] in one node each; the check of
    the written DSPF reports four floating pins, one per shared node, and
    no short. *)
Example flow_generated_false_opens :
  exists st, Gen.gen_run Gen.ex_tech ex_gen_cfg = Some st /\
    map (fun c => (ic_inst c, ic_pin c, ic_nid c)) (inst_conns (run (Gen.to_gen_out st) ex_tech)) =
      [("cell_0", "VSS", 2%nat); ("cell_1", "VSS", 4%nat); ("cell_2", "VSS", 8%nat);
       ("cell_3", "VSS", 10%nat); ("cell_4", "VSS", 8%nat); ("cell_5", "VSS", 10%nat);
       ("cell_0", "VDD", 10%nat); ("cell_1", "VDD", 11%nat); ("cell_2", "VDD", 10%nat);
       ("cell_3", "VDD", 11%nat); ("cell_4", "VDD", 14%nat); ("cell_5", "VDD", 15%nat)] /\
    flow_2d (Gen.to_gen_out st) ex_tech "TOP" = (4%nat, 0%nat).
Proof.
  eexists. split; [vm_compute; reflexivity|]. split; vm_compute; reflexivity.
Qed.

(** [VSS] rails on [M1], [VDD] rails on [M1] and [VDD] straps on
    [top], with pins on [M1] for [VSS] and on [top] for [VDD]; the
    configuration lists the layers [M1] and [top]; two cells. *)
Definition ex_skip_cfg (top : string) : Gen.config :=
  {| Gen.cfg_tech_layers := Some ["M1"; top];
     Gen.cfg_die_area := Some (Gen.mkDieArea 0 0 20 20);
     Gen.cfg_nets := [Gen.mkNetCfg "VSS" [Gen.mkLayerRule "M1" (Some "H") 0 10 (2 # 10)] (Some (Gen.mkPinCfg "M1" 10));
                      Gen.mkNetCfg "VDD" [Gen.mkLayerRule "M1" (Some "H") 5 10 (2 # 10);
                                          Gen.mkLayerRule top (Some "V") 2 10 (2 # 10)] (Some (Gen.mkPinCfg top 10))];
     Gen.cfg_instance_placement := Some (Gen.mkInstCfg "M1" "INV" 2 5 ["VDD"] ["VSS"]) |}.

(** On [ex_skip_cfg]: when the list skips a number ([M1], [M3]), the
    generator's [VIA13] vias on [M1] are joined by the extractor to [M2],
    where no wire lies, so the [VDD] straps and their ports on [M3] stay
    apart from the rails and the check reports both [VDD] cell pins
    floating; with [M2] instead of [M3] the same design checks clean. *)
Example flow_via_skips_layer_example :
  LayerMap.next_layer "M1" = "M2" /\
  exists st3 st2, Gen.gen_run Gen.ex_tech (ex_skip_cfg "M3") = Some st3 /\
    Gen.gen_run Gen.ex_tech (ex_skip_cfg "M2") = Some st2 /\
    map (fun v => (v_name v, v_bot_layer v)) (Gen.gs_vias st3) =
      [("VIA13", "M1"); ("VIA13", "M1"); ("VIA13", "M1"); ("VIA13", "M1")] /\
    flow_2d (Gen.to_gen_out st3) ex_tech "TOP" = (2%nat, 0%nat) /\
    flow_2d (Gen.to_gen_out st2) ex_tech "TOP" = (0%nat, 0%nat).
Proof.
  split; [vm_compute; reflexivity|]. do 2 eexists.
  split; [vm_compute; reflexivity|]. split; [vm_compute; reflexivity|].
  split; [vm_compute; reflexivity|]. split; vm_compute; reflexivity.
Qed.

(** C31. The generator places each via between two layers [bot] and
    [top] adjacent in its sorted layer list, names it [VIA<bot><top>]
    and records only [bot]; the extractor joins the via's node on [bot],
    in the graph of the via's net, by a resistor to the node at the same
    point on [_get_next_layer(bot)].  For metal layers [M<i>] and [M<j>]
    that layer is [top] exactly when [j = i + 1]: when the sorted list
    skips a number ([M1], [M3]), every via between the two ends on a
    layer ([M2]) other than the one the generator joined. *)
Theorem flow_via_skips_layer (tech : Gen.tech_lef) (c : Gen.config) (st : Gen.gen_state) (tp : tech_props) (v : via) :
  (forall ic, Gen.cfg_instance_placement c = Some ic -> 0 <= Gen.to_dbu (Gen.tl_units tech) (Gen.ic_width_um ic)) ->
  Gen.gen_run tech c = Some st -> v ∈ Gen.gs_vias st ->
  exists top sg, (v_bot_layer v, top) ∈ LayerMap.layer_pairs (default (Gen.tl_layers tech) (Gen.cfg_tech_layers c)) /\
    v_name v = Gen.via_name (v_bot_layer v) top /\
    net_data (run (Gen.to_gen_out st) tp) !! v_net v = Some sg /\ via_res sg v /\
    (forall i j, 0 <= i -> 0 <= j -> v_bot_layer v = "M" ++ py_str_Z i -> top = "M" ++ py_str_Z j ->
       LayerMap.next_layer (v_bot_layer v) = top <-> j = i + 1).
Proof.
  intros Hw Hr Hv.
  destruct (GenWf.gen_run_vias tech c st Hr v Hv) as (bot & top & Hpr & Hn & Hb & _ & _ & wb & wt & Hwb & _ & _ & _ & Hnb & _).
  destruct (run_via_res (Gen.to_gen_out st) tp v) as (sg & Hsg & Hres).
  - change (NoDup (elements (Gen.gs_nets_used st))). apply NoDup_elements.
  - exact Hv.
  - change (v_net v ∈ elements (Gen.gs_nets_used st)). apply elem_of_elements. rewrite <- Hnb.
    by apply (GenWf.gen_run_nets_cover tech c st Hw Hr).
  - subst bot. exists top, sg. split_and!; try done.
    intros i j Hi Hj Hbi ->. rewrite Hbi, LayerMap.next_layer_metal by done.
    split; [intros H; apply py_str_Z_prefix_inj in H; lia|intros ->; done].
Qed.

(** The design of [ex_skip_cfg "M3"] and its first via, a [VIA13] on
    [M1]. *)
Definition ex_skip_st : Gen.gen_state := default Gen.gen_init (Gen.gen_run Gen.ex_tech (ex_skip_cfg "M3")).
Definition ex_skip_via : via := default (mkVia (0, 0) EmptyString EmptyString EmptyString) (head (Gen.gs_vias ex_skip_st)).

Lemma flow_via_skips_layer_witness :
  exists top sg, (v_bot_layer ex_skip_via, top) ∈
      LayerMap.layer_pairs (default (Gen.tl_layers Gen.ex_tech) (Gen.cfg_tech_layers (ex_skip_cfg "M3"))) /\
    v_name ex_skip_via = Gen.via_name (v_bot_layer ex_skip_via) top /\
    net_data (run (Gen.to_gen_out ex_skip_st) ex_tech) !! v_net ex_skip_via = Some sg /\ via_res sg ex_skip_via /\
    (forall i j, 0 <= i -> 0 <= j -> v_bot_layer ex_skip_via = "M" ++ py_str_Z i -> top = "M" ++ py_str_Z j ->
       LayerMap.next_layer (v_bot_layer ex_skip_via) = top <-> j = i + 1).
Proof.
  apply (flow_via_skips_layer Gen.ex_tech (ex_skip_cfg "M3") ex_skip_st ex_tech ex_skip_via);
    [intros ic [= <-]; vm_compute; discriminate|vm_compute; reflexivity|vm_compute; left].
Defined.

End Flow.
