(* ===== verification/RoundTrip.v ===== *)
(** * The round trip from the writer to the checker

    [DSPFChecker] reads back the file [DSPFWriter] writes (the
    specification's round-trip property, section 8).  This file computes
    what [_parse] makes of each kind of line the writer emits, the lines
    [_write_net] emits as a pure list ([net_block]), and proves that
    parsing the written file gives, for every net, the ports, the instance
    pins and the resistors (by the names the writer gives their nodes) of
    the extraction.  The hypothesis [names_ok] is what the text format
    needs of the names: every net, layer, port, instance, pin and rename
    is a word of [split()] (not empty, no whitespace). *)

From S2P Require Import Prelude PyStr Format NetStore Layers Geometry Fracture Extractor OpenCheck Checker Writer.
From Stdlib Require Import Ascii.

Local Open Scope string_scope.

Module RoundTrip.
Import NetData Extract Check DspfWriter Fmt Opens.

(** ** Stripping a line *)

Lemma rstrip_app_id a b : rstrip b = b -> b <> "" -> rstrip (a ++ b) = a ++ b.
Proof.
  intros Hb Hne. induction a as [|x a IH]; [done|].
  rewrite string_app_cons. simpl. rewrite IH.
  destruct a as [|y a]; simpl; [by destruct b|done].
Qed.

Lemma ws_token_nonempty s : ws_token s = true -> s <> "".
Proof. by destruct s. Qed.

Lemma lstrip_lit a r s : py_isspace a = false -> lstrip (String a r ++ s) = String a r ++ s.
Proof. intros Ha. rewrite string_app_cons. simpl. by rewrite Ha. Qed.

Lemma py_strip_of a r s :
  py_isspace a = false -> rstrip (String a r ++ s) = String a r ++ s ->
  py_strip (String a r ++ s) = String a r ++ s.
Proof. intros Ha Hr. unfold py_strip. by rewrite lstrip_lit. Qed.

Ltac nonempty :=
  repeat apply string_app_nonempty_r;
  first [discriminate | apply ws_token_nonempty; eauto with pgrc].

(** [rstrip] of a line that ends with a literal or a word. *)
Ltac rstrip_tac :=
  repeat (apply rstrip_app_id; [|nonempty]);
  first [reflexivity | apply rstrip_ws_free, ws_token_free; eauto with pgrc].

Lemma ws_free_no_space s : ws_free s = true -> no_char " " s = true.
Proof.
  unfold ws_free, no_char. apply all_chars_impl. intros c Hc.
  destruct (Ascii.eqb c " ") eqn:E; [|done]. apply Ascii.eqb_eq in E. by subst.
Qed.

Lemma ws_token_no_space s : ws_token s = true -> no_char " " s = true.
Proof. intros H. by apply ws_free_no_space, ws_token_free. Qed.

(** [find('(')], [find(' ', start)] and the slice between them. *)
Lemma paren_name_spec hd name rest :
  no_char "(" hd = true -> no_char " " name = true ->
  paren_name (hd ++ String "(" (name ++ String " " rest)) = Some name.
Proof.
  intros Hhd Hn. unfold paren_name, py_find.
  rewrite index_no_char, index_hit by done. simpl. rewrite Nat.add_0_r.
  rewrite index_app_offset. simpl.
  rewrite index_no_char, index_hit by done. simpl.
  unfold py_slice. f_equal.
  replace (String.length hd + S (String.length name + 0) - S (String.length hd))%nat
    with (String.length name) by lia.
  replace (S (String.length hd)) with (String.length hd + 1)%nat by lia.
  rewrite substring_app_l. simpl. apply substring_prefix.
Qed.

Section Lines.
Context `{EF : EFormat}.

Lemma fmt_E_ws q : ws_token (fmt_E q) = true.
Proof. apply is_token_ws_token, fmt_E_token. Qed.

#[local] Hint Resolve fmt_E_ws : pgrc.

(** The line tests of [_parse] on a line whose prefix is literal. *)
Ltac parse_tests :=
  repeat match goal with
  | |- context [String.eqb ?l ""] =>
      let b := eval vm_compute in (String.eqb l "") in
      first [constr_eq b true | constr_eq b false]; change (String.eqb l "") with b
  | |- context [py_startswith ?l ?p] =>
      let b := eval vm_compute in (py_startswith l p) in
      first [constr_eq b true | constr_eq b false]; change (py_startswith l p) with b
  end; cbv iota.

Ltac strip_tac := apply py_strip_of; [reflexivity|rstrip_tac].

(** The [*|P] line of a port adds the port to the current net. *)
Lemma parse_port_line st n d p :
  c_current st = Some n -> c_nets st !! n = Some d -> ws_token (po_name p) = true ->
  parse_line st (port_line p) = set_net st n (add_port d (po_name p)).
Proof.
  intros Hc Hd Hp.
  assert (Hs : py_strip (port_line p) = port_line p) by (unfold port_line; strip_tac).
  assert (Hpn : paren_name (port_line p) = Some (po_name p)).
  { unfold port_line.
    change ("*|P (" ++ po_name p ++ " B 0.0 " ++ fmt_milli (po_x p) ++ " " ++ fmt_milli (po_y p) ++ ")")
      with ("*|P " ++ String "(" (po_name p ++ String " " ("B 0.0 " ++ fmt_milli (po_x p) ++ " " ++ fmt_milli (po_y p) ++ ")"))).
    apply paren_name_spec; [reflexivity|by apply ws_token_no_space]. }
  unfold parse_line. rewrite Hs. cbv zeta. parse_tests. by rewrite Hc, Hpn, Hd.
Qed.

Lemma ws_free_app s t : ws_free (s ++ t) = ws_free s && ws_free t.
Proof. apply all_chars_app. Qed.

Lemma pin_name_no_space i p :
  ws_free i = true -> ws_free p = true -> no_char " " (pin_name i p) = true.
Proof. intros Hi Hp. apply ws_free_no_space. unfold pin_name. by rewrite !ws_free_app, Hi, Hp. Qed.

(** The [*|I] line of an instance connection adds the pin to the current
    net. *)
Lemma parse_inst_line st n d c :
  c_current st = Some n -> c_nets st !! n = Some d ->
  ws_free (ic_inst c) = true -> ws_free (ic_pin c) = true ->
  parse_line st (inst_line c) = set_net st n (add_inst_pin d (pin_name (ic_inst c) (ic_pin c))).
Proof.
  intros Hc Hd Hi Hp.
  assert (Hs : py_strip (inst_line c) = inst_line c) by (unfold inst_line; strip_tac).
  assert (Hpn : paren_name (inst_line c) = Some (pin_name (ic_inst c) (ic_pin c))).
  { unfold inst_line.
    match goal with |- paren_name ("*|I (" ++ ?nm ++ " " ++ ?r) = _ =>
      change ("*|I (" ++ nm ++ " " ++ r) with ("*|I " ++ String "(" (nm ++ String " " r)) end.
    apply paren_name_spec; [reflexivity|by apply pin_name_no_space]. }
  unfold parse_line. rewrite Hs. cbv zeta. parse_tests. by rewrite Hc, Hpn, Hd.
Qed.

(** The [*|S] line of a node adds the node to the current net and to the
    spatial map. *)
Lemma parse_node_line st n d name x y :
  c_current st = Some n -> c_nets st !! n = Some d -> ws_token name = true ->
  parse_line st (node_line name x y) =
    set_spatial (set_net st n (add_node d name)) (add_to_spatial_map name n (c_spatial st)).
Proof.
  intros Hc Hd Hn.
  assert (Hs : py_strip (node_line name x y) = node_line name x y) by (unfold node_line; strip_tac).
  assert (Hpn : paren_name (node_line name x y) = Some name).
  { unfold node_line.
    match goal with |- paren_name ("*|S (" ++ ?nm ++ " " ++ ?r) = _ =>
      change ("*|S (" ++ nm ++ " " ++ r) with ("*|S " ++ String "(" (nm ++ String " " r)) end.
    apply paren_name_spec; [reflexivity|by apply ws_token_no_space]. }
  unfold parse_line. rewrite Hs. cbv zeta. parse_tests. by rewrite Hc, Hpn, Hd.
Qed.

Lemma py_str_Z_ws_free z : ws_free (py_str_Z z) = true.
Proof.
  unfold py_str_Z, ws_free. destruct z as [|p|p]; simpl; [done| |];
    apply digits_no_space, string_of_uint_digits.
Qed.

Lemma elem_name_ws_token k net i :
  ws_token k = true -> ws_free net = true -> ws_token (elem_name k net i) = true.
Proof.
  intros Hk Hn. unfold ws_token in *. apply andb_prop in Hk as [Hk Hk'].
  unfold elem_name. rewrite !ws_free_app, Hk', Hn, py_str_Z_ws_free. simpl.
  destruct k; [done|reflexivity].
Qed.

Lemma ws_token_app s t : ws_token s = true -> ws_free t = true -> ws_token (s ++ t) = true.
Proof.
  unfold ws_token. intros Hs Ht. apply andb_prop in Hs as [Hs Hs'].
  rewrite ws_free_app, Hs', Ht. destruct s; [done|reflexivity].
Qed.

Lemma startswith_first a r : py_startswith (String a r) (String a "") = true.
Proof. unfold py_startswith. simpl. destruct (Ascii.ascii_dec a a); [|done]. by destruct r. Qed.

(** A resistor line adds the resistor to the current net and its two
    node names to the spatial map. *)
Lemma parse_res_line st n d i a b v :
  c_current st = Some n -> c_nets st !! n = Some d -> ws_free n = true ->
  ws_token a = true -> ws_token b = true ->
  parse_line st (res_line n i a b v) =
    set_spatial (set_net st n (add_res d (elem_name "R" n i) a b))
      (add_to_spatial_map b n (add_to_spatial_map a n (c_spatial st))).
Proof.
  intros Hc Hd Hn Ha Hb.
  assert (He : ws_token (elem_name "R" n i) = true) by (by apply elem_name_ws_token).
  assert (Hw : py_words (res_line n i a b v) = [elem_name "R" n i; a; b; fmt_E v]).
  { apply (py_words_join [elem_name "R" n i; a; b; fmt_E v]); [done|].
    repeat constructor; auto using fmt_E_ws. }
  assert (Hs : py_strip (res_line n i a b v) = res_line n i a b v).
  { unfold res_line, elem_name. rewrite !string_app_assoc. strip_tac. }
  assert (Hr : py_startswith (res_line n i a b v) "R" = true).
  { unfold res_line, elem_name. rewrite string_app_assoc, string_app_cons. apply startswith_first. }
  unfold parse_line. rewrite Hs. cbv zeta. parse_tests. by rewrite Hc, Hr, Hw, Hd.
Qed.

Lemma prefix_first a b r s : a <> b -> String.prefix (String b s) (String a r) = false.
Proof. intros Hab. simpl. destruct (Ascii.ascii_dec b a); [congruence|done]. Qed.

(** A line that starts with a character other than [*] and [R] changes
    nothing. *)
Lemma parse_line_other st raw a r :
  a <> "*"%char -> a <> "R"%char -> py_strip raw = String a r -> parse_line st raw = st.
Proof.
  intros Ha HR Hs. unfold parse_line. rewrite Hs. cbv zeta. simpl String.eqb. cbv iota.
  unfold py_startswith. rewrite !prefix_first by done. cbv iota.
  by destruct (c_current st).
Qed.

Lemma py_strip_lit a r : py_isspace a = false -> py_strip (String a r) = String a (rstrip r).
Proof. intros Ha. unfold py_strip. simpl. rewrite Ha. by apply rstrip_cons. Qed.

(** The net header line opens a fresh record for the net. *)
Lemma parse_net_line st n cap :
  ws_token n = true ->
  parse_line st (net_line n cap) =
    {| c_nets := <[n := empty_net_rec]> (c_nets st); c_ground := c_ground st;
       c_spatial := c_spatial st; c_current := Some n |}.
Proof.
  intros Hn.
  assert (Ht : ws_token (fmt_E cap ++ "PF") = true) by (apply ws_token_app; [apply fmt_E_ws|done]).
  assert (Hw : py_words (net_line n cap) = ["*|NET"; n; fmt_E cap ++ "PF"]).
  { apply (py_words_join ["*|NET"; n; fmt_E cap ++ "PF"]); [done|]. repeat constructor; auto. }
  assert (Hs : py_strip (net_line n cap) = net_line n cap) by (unfold net_line; strip_tac).
  unfold parse_line. rewrite Hs. cbv zeta. parse_tests. by rewrite Hw.
Qed.

(** ** What [_write_net] writes, as a pure list of lines *)

Definition ports_in (e : ext_state) (n : string) : list port :=
  List.filter (fun p => String.eqb (po_net p) n) (ports e).

Definition insts_in (e : ext_state) (n : string) : list inst_conn :=
  List.filter (fun c => String.eqb (ic_net c) n) (inst_conns e).

(** [name_cache] after the port and instance loops of [_write_net]: the
    last port or pin written at an id names it. *)
Definition base_cache (e : ext_state) (n : string) : gmap nat string :=
  fold_left (fun m c => <[ic_nid c := pin_name (ic_inst c) (ic_pin c)]> m) (insts_in e n)
    (fold_left (fun m p => <[po_nid p := po_name p]> m) (ports_in e n) ∅).

(** The name [get_name] gives a node of the net. *)
Definition node_name (e : ext_state) (n : string) (d : NetStore) (nid : nat) : string :=
  match base_cache e n !! nid with
  | Some s => s
  | None =>
      match renamed d !! nid with
      | Some s => s
      | None =>
          match id_coords d !! nid with
          | Some (l, x, y) => coord_name n l x y
          | None => ""
          end
      end
  end.

(** [[g(i, x) for i, x in enumerate(l, start)]]. *)
Fixpoint enum_map {A B} (g : Z -> A -> B) (i : Z) (l : list A) : list B :=
  match l with
  | [] => []
  | x :: r => g i x :: enum_map g (i + 1) r
  end.

Definition enum_lines {A} (g : Z -> A -> list string) (i : Z) (l : list A) : list string :=
  concat (enum_map g i l).

Definition special_ids (e : ext_state) (n : string) : gset nat :=
  list_to_set (map po_nid (ports_in e n) ++ map ic_nid (insts_in e n)).

Definition node_lines (e : ext_state) (n : string) (d : NetStore) : list string :=
  concat (map (fun nid =>
      if decide (nid ∈ special_ids e n) then []
      else match id_coords d !! nid with
           | Some (l, x, y) => [node_line (node_name e n d nid) x y]
           | None => []
           end) (sorted_ids (map fst (map_to_list (id_coords d))))).

(** The block of lines of one net. *)
Definition net_block (e : ext_state) (ground n : string) (d : NetStore) : list string :=
  ([net_line n (Qsum (map snd (capacitors d)) / 1000)%Q] ++
  map port_line (ports_in e n) ++ map inst_line (insts_in e n) ++
  node_lines e n d ++
  enum_lines (fun i r => [res_line n i (node_name e n d r.1.1) (node_name e n d r.1.2) r.2])
    0 (resistors d) ++
  enum_lines (fun i c => [cap_line n i (node_name e n d c.1) ground c.2]) 0 (capacitors d) ++
  [""])%list.

Lemma bind_run {A B} (m : M A) (k : A -> M B) s s' a :
  m s = (s', Some a) -> (m ≫= k) s = k a s'.
Proof. intros H. unfold mbind, M_bind. by rewrite H. Qed.

Lemma for_each_set_write {A} (key : A -> nat) (val line : A -> string) l s :
  for_each (fun x => cache_set (key x) (val x) ;; write_line (line x)) l s =
  ({| ws_out := (ws_out s ++ map line l)%list;
      ws_cache := fold_left (fun m x => <[key x := val x]> m) l (ws_cache s) |}, Some tt).
Proof.
  revert s. induction l as [|x l IH]; intros s; simpl.
  - destruct s. by rewrite app_nil_r.
  - unfold mbind, M_bind. simpl. rewrite IH. simpl. by rewrite <- app_assoc.
Qed.

Lemma for_each_runs {A} (f : A -> M unit) (g : A -> list string) (P : wstate -> Prop) l :
  (forall x s, x ∈ l -> P s -> exists s', f x s = (s', Some tt) /\ P s' /\ ws_out s' = (ws_out s ++ g x)%list) ->
  forall s, P s -> exists s', for_each f l s = (s', Some tt) /\ P s' /\
    ws_out s' = (ws_out s ++ concat (map g l))%list.
Proof.
  intros Hf. induction l as [|x l IH]; intros s Hs; simpl.
  - exists s. by rewrite app_nil_r.
  - destruct (Hf x s ltac:(by left) Hs) as (s1 & E1 & H1 & O1).
    destruct (IH ltac:(intros y t Hy; apply Hf; by right) s1 H1) as (s2 & E2 & H2 & O2).
    exists s2. rewrite (bind_run _ _ _ _ _ E1). split_and!; [done|done|]. by rewrite O2, O1, app_assoc.
Qed.

Lemma for_enum_runs {A} (f : Z -> A -> M unit) (g : Z -> A -> list string) (P : wstate -> Prop) l :
  (forall i x s, x ∈ l -> P s -> exists s', f i x s = (s', Some tt) /\ P s' /\ ws_out s' = (ws_out s ++ g i x)%list) ->
  forall i s, P s -> exists s', for_enum f i l s = (s', Some tt) /\ P s' /\
    ws_out s' = (ws_out s ++ enum_lines g i l)%list.
Proof.
  intros Hf. induction l as [|x l IH]; intros i s Hs; simpl.
  - exists s. by rewrite app_nil_r.
  - destruct (Hf i x s ltac:(by left) Hs) as (s1 & E1 & H1 & O1).
    destruct (IH ltac:(intros j y t Hy; apply Hf; by right) (i + 1) s1 H1) as (s2 & E2 & H2 & O2).
    exists s2. rewrite (bind_run _ _ _ _ _ E1). split_and!; [done|done|].
    unfold enum_lines in *. simpl. by rewrite O2, O1, app_assoc.
Qed.

(** The cache during the node, resistor and capacitor loops holds the
    port and pin names of [base_cache] and otherwise only names
    [get_name] computed. *)
Definition cache_inv (e : ext_state) (n : string) (d : NetStore) (s : wstate) : Prop :=
  (forall nid nm, base_cache e n !! nid = Some nm -> ws_cache s !! nid = Some nm) /\
  (forall nid nm, ws_cache s !! nid = Some nm -> nm = node_name e n d nid).

Lemma get_name_run e n d nid s :
  is_node d nid -> cache_inv e n d s ->
  get_name n d nid s = (mkW (ws_out s) (<[nid := node_name e n d nid]> (ws_cache s)), Some (node_name e n d nid)) \/
  get_name n d nid s = (s, Some (node_name e n d nid)).
Proof.
  intros [k Hk] [Hb Hc]. unfold get_name, mbind, M_bind, cache_get. simpl.
  destruct (ws_cache s !! nid) as [nm|] eqn:E.
  - right. by rewrite (Hc _ _ E).
  - left. unfold node_name. destruct (base_cache e n !! nid) as [nm|] eqn:Eb.
    { by rewrite (Hb _ _ Eb) in E. }
    destruct (renamed d !! nid) as [nm|]; [done|]. rewrite Hk. by destruct k as [[l x] y].
Qed.

Lemma get_name_inv e n d nid s :
  is_node d nid -> cache_inv e n d s ->
  exists s', get_name n d nid s = (s', Some (node_name e n d nid)) /\ cache_inv e n d s' /\
    ws_out s' = ws_out s.
Proof.
  intros Hn Hi. destruct (get_name_run e n d nid s Hn Hi) as [E|E]; eexists; (split; [exact E|]);
    [|by split].
  split; [|done]. destruct Hi as [Hb Hc]. split; simpl.
  - intros m nm Hm. rewrite lookup_insert. case_decide; [subst|by apply Hb].
    apply Hb in Hm. specialize (Hc _ _ Hm). by subst.
  - intros m nm. rewrite lookup_insert. case_decide; [subst; by intros [= <-]|apply Hc].
Qed.

Lemma cache_inv_base e n d s : ws_cache s = base_cache e n -> cache_inv e n d s.
Proof.
  intros Hc. split; rewrite Hc; [done|]. intros nid nm Hnm. unfold node_name. by rewrite Hnm.
Qed.

(** [_write_net] writes [net_block]: the monadic writer refines the pure
    list of lines. *)
Lemma write_net_block e ground n d s :
  graph_wf d ->
  exists s', write_net e ground n d s = (s', Some tt) /\
    ws_out s' = (ws_out s ++ net_block e ground n d)%list.
Proof.
  intros Hg. unfold write_net. cbv zeta.
  erewrite bind_run; [|reflexivity]. erewrite bind_run; [|reflexivity].
  erewrite bind_run; [|apply for_each_set_write]. erewrite bind_run; [|apply for_each_set_write].
  simpl ws_out. simpl ws_cache.
  match goal with |- exists s', (?m ≫= _) ?s0 = _ /\ _ =>
    assert (H0 : cache_inv e n d s0) by (apply cache_inv_base; reflexivity) end.
  lazymatch goal with |- context [for_each ?f ?ids] => edestruct (for_each_runs f
    (fun nid => if decide (nid ∈ special_ids e n) then []
                else match id_coords d !! nid with
                     | Some (l, x, y) => [node_line (node_name e n d nid) x y]
                     | None => []
                     end) (cache_inv e n d) ids) as (s5 & E5 & I5 & O5); [|exact H0|] end.
  { intros nid t Hnid Ht. unfold special_ids, ports_in, insts_in. case_decide; [by exists t; rewrite app_nil_r|].
    apply elem_of_sorted_ids, elem_of_map_fst_map_to_list in Hnid as [[[l x] y] Hk]. rewrite Hk.
    destruct (get_name_inv e n d nid t ltac:(by eexists) Ht) as (t1 & E1 & I1 & O1).
    eexists. rewrite (bind_run _ _ _ _ _ E1). split_and!; [reflexivity|done|]. simpl. by rewrite O1. }
  rewrite (bind_run _ _ _ _ _ E5).
  lazymatch goal with |- context [for_enum ?f 0 (resistors d)] => edestruct (for_enum_runs f
    (fun i r => [res_line n i (node_name e n d r.1.1) (node_name e n d r.1.2) r.2])
    (cache_inv e n d) (resistors d)) as (s6 & E6 & I6 & O6); [|exact I5|] end.
  { intros i [[a b] v] t Hr Ht. destruct (graph_res _ Hg a b v Hr) as [Ha Hb].
    destruct (get_name_inv e n d a t Ha Ht) as (t1 & E1 & I1 & O1).
    destruct (get_name_inv e n d b t1 Hb I1) as (t2 & E2 & I2 & O2).
    eexists. rewrite (bind_run _ _ _ _ _ E1), (bind_run _ _ _ _ _ E2).
    split_and!; [reflexivity|done|]. simpl. by rewrite O2, O1. }
  rewrite (bind_run _ _ _ _ _ E6).
  lazymatch goal with |- context [for_enum ?f 0 (capacitors d)] => edestruct (for_enum_runs f
    (fun i c => [cap_line n i (node_name e n d c.1) ground c.2])
    (cache_inv e n d) (capacitors d)) as (s7 & E7 & I7 & O7); [|exact I6|] end.
  { intros i [a v] t Hc Ht.
    destruct (get_name_inv e n d a t (graph_cap _ Hg a v Hc) Ht) as (t1 & E1 & I1 & O1).
    eexists. rewrite (bind_run _ _ _ _ _ E1). split_and!; [reflexivity|done|]. simpl. by rewrite O1. }
  rewrite (bind_run _ _ _ _ _ E7).
  eexists. split; [reflexivity|]. simpl. rewrite O7, O6, O5. unfold net_block, node_lines.
  by rewrite !app_assoc.
Qed.

(** ** What [_parse] makes of a block *)

(** While [_parse] reads the block of net [n]: [n] is the current net and
    its record has the given ports, pins and resistors; the other nets
    are those of [base]. *)
Definition blk_inv (n : string) (base : gmap string net_rec) (st : chk_state)
    (P I : list string) (Rs : list (string * string * string)) : Prop :=
  c_current st = Some n /\
  exists R, c_nets st = <[n := R]> base /\ nr_ports R = P /\ nr_inst_pins R = I /\ nr_resistors R = Rs.

Lemma blk_inv_lookup n base st P I Rs :
  blk_inv n base st P I Rs -> exists R, c_nets st !! n = Some R /\ c_nets st = <[n := R]> base /\
    nr_ports R = P /\ nr_inst_pins R = I /\ nr_resistors R = Rs.
Proof. intros (_ & R & HR & H). exists R. rewrite HR, lookup_insert_eq. by split. Qed.

Lemma blk_inv_set n base st P I Rs R' :
  blk_inv n base st P I Rs ->
  blk_inv n base (set_net st n R') (nr_ports R') (nr_inst_pins R') (nr_resistors R').
Proof.
  intros [Hc (R & HR & _)]. split; [done|]. exists R'. simpl. rewrite HR.
  by rewrite insert_insert_eq.
Qed.

Lemma parse_ports n base st P I Rs l :
  (forall p, p ∈ l -> ws_token (po_name p) = true) -> blk_inv n base st P I Rs ->
  blk_inv n base (fold_left parse_line (map port_line l) st) (P ++ map po_name l)%list I Rs.
Proof.
  revert st P. induction l as [|p l IH]; intros st P Hl Hi; simpl; [by rewrite app_nil_r|].
  destruct (blk_inv_lookup _ _ _ _ _ _ Hi) as (R & HR & _ & HP & HI & HRs).
  rewrite (parse_port_line st n R p) by (try apply Hl; try left; done || apply Hi).
  rewrite cons_middle, app_assoc. apply IH; [intros q Hq; apply Hl; by right|].
  pose proof (blk_inv_set _ _ _ _ _ _ (add_port R (po_name p)) Hi) as H. simpl in H.
  by rewrite HP, HI, HRs in H.
Qed.

Lemma parse_insts n base st P I Rs l :
  (forall c, c ∈ l -> ws_free (ic_inst c) = true /\ ws_free (ic_pin c) = true) -> blk_inv n base st P I Rs ->
  blk_inv n base (fold_left parse_line (map inst_line l) st) P
    (I ++ map (fun c => pin_name (ic_inst c) (ic_pin c)) l)%list Rs.
Proof.
  revert st I. induction l as [|c l IH]; intros st I Hl Hi; simpl; [by rewrite app_nil_r|].
  destruct (blk_inv_lookup _ _ _ _ _ _ Hi) as (R & HR & _ & HP & HI & HRs).
  destruct (Hl c ltac:(by left)) as [Hci Hcp].
  rewrite (parse_inst_line st n R c) by (done || apply Hi).
  rewrite cons_middle, app_assoc. apply IH; [intros q Hq; apply Hl; by right|].
  pose proof (blk_inv_set _ _ _ _ _ _ (add_inst_pin R (pin_name (ic_inst c) (ic_pin c))) Hi) as H.
  simpl in H. by rewrite HP, HI, HRs in H.
Qed.

Lemma parse_nodes n base st P I Rs lines :
  Forall (fun l => exists nm x y, l = node_line nm x y /\ ws_token nm = true) lines ->
  blk_inv n base st P I Rs -> blk_inv n base (fold_left parse_line lines st) P I Rs.
Proof.
  intros HF. revert st. induction HF as [|l lines (nm & x & y & -> & Hnm) _ IH]; intros st Hi; simpl; [done|].
  destruct (blk_inv_lookup _ _ _ _ _ _ Hi) as (R & HR & _ & HP & HI & HRs).
  rewrite (parse_node_line st n R) by (done || apply Hi). apply IH.
  pose proof (blk_inv_set _ _ _ _ _ _ (add_node R nm) Hi) as H. simpl in H.
  rewrite HP, HI, HRs in H. exact H.
Qed.

Lemma parse_res n base st P I Rs (nm : nat -> string) i rs :
  ws_free n = true ->
  (forall r, r ∈ rs -> ws_token (nm r.1.1) = true /\ ws_token (nm r.1.2) = true) ->
  blk_inv n base st P I Rs ->
  blk_inv n base
    (fold_left parse_line (enum_lines (fun i r => [res_line n i (nm r.1.1) (nm r.1.2) r.2]) i rs) st)
    P I (Rs ++ enum_map (fun i r => (elem_name "R" n i, nm r.1.1, nm r.1.2)) i rs)%list.
Proof.
  intros Hn. revert st i Rs. induction rs as [|r rs IH]; intros st i Rs Hl Hi; simpl; [by rewrite app_nil_r|].
  destruct (blk_inv_lookup _ _ _ _ _ _ Hi) as (R & HR & _ & HP & HI & HRs).
  destruct (Hl r ltac:(by left)) as [Ha Hb]. unfold enum_lines. simpl.
  rewrite (parse_res_line st n R) by (done || apply Hi).
  rewrite cons_middle, app_assoc. apply IH; [intros q Hq; apply Hl; by right|].
  pose proof (blk_inv_set _ _ _ _ _ _ (add_res R (elem_name "R" n i) (nm r.1.1) (nm r.1.2)) Hi) as H.
  simpl in H. by rewrite HP, HI, HRs in H.
Qed.

Lemma py_strip_cap_line n i a g v : exists r, py_strip (cap_line n i a g v) = String "C" r.
Proof.
  eexists. unfold cap_line, elem_name. rewrite !string_app_assoc.
  apply py_strip_of; [reflexivity|rstrip_tac].
Qed.

Lemma parse_caps n base st P I Rs (nm : nat -> string) g i cs :
  blk_inv n base st P I Rs ->
  blk_inv n base (fold_left parse_line (enum_lines (fun i c => [cap_line n i (nm c.1) g c.2]) i cs) st) P I Rs.
Proof.
  revert st i. induction cs as [|c cs IH]; intros st i Hi; [done|]. unfold enum_lines. simpl.
  destruct (py_strip_cap_line n i (nm c.1) g c.2) as [r Hr].
  rewrite (parse_line_other st _ "C" r) by done. by apply IH.
Qed.

Lemma parse_blank st : parse_line st "" = st.
Proof. reflexivity. Qed.

(** The resistors of net [n] as the checker reads them: [(R{n}_{i},
    name of n1, name of n2)]. *)
Definition res_triples (e : ext_state) (n : string) (d : NetStore) : list (string * string * string) :=
  enum_map (fun i r => (elem_name "R" n i, node_name e n d r.1.1, node_name e n d r.1.2)) 0 (resistors d).

(** The names of a net that the text format needs to be words. *)
Record net_names_ok (e : ext_state) (n : string) (d : NetStore) : Prop := {
  nn_net : ws_token n = true;
  nn_ports : forall p, p ∈ ports_in e n -> ws_token (po_name p) = true;
  nn_insts : forall c, c ∈ insts_in e n -> ws_free (ic_inst c) = true /\ ws_free (ic_pin c) = true;
  nn_nodes : forall nid, is_node d nid -> ws_token (node_name e n d nid) = true
}.

Lemma node_lines_shape e n d :
  net_names_ok e n d ->
  Forall (fun l => exists nm x y, l = node_line nm x y /\ ws_token nm = true) (node_lines e n d).
Proof.
  intros Hn. unfold node_lines. apply Forall_concat, Forall_forall. intros ls Hls.
  apply list_elem_of_fmap in Hls as (nid & -> & Hnid).
  case_decide; [constructor|].
  destruct (id_coords d !! nid) as [[[l x] y]|] eqn:Hk; [|constructor].
  repeat constructor. exists (node_name e n d nid), x, y. split; [done|].
  apply (nn_nodes _ _ _ Hn). by eexists.
Qed.

(** Parsing the block of a net gives the net's ports, pins and
    resistors. *)
Lemma parse_net_block e g n d st :
  graph_wf d -> net_names_ok e n d ->
  blk_inv n (c_nets st) (fold_left parse_line (net_block e g n d) st)
    (map po_name (ports_in e n)) (map (fun c => pin_name (ic_inst c) (ic_pin c)) (insts_in e n))
    (res_triples e n d).
Proof.
  intros Hg Hn. unfold net_block. rewrite !fold_left_app. cbn [fold_left].
  rewrite parse_net_line by apply (nn_net _ _ _ Hn).
  match goal with |- blk_inv _ _ (parse_line (fold_left _ _ (fold_left _ _
      (fold_left _ _ (fold_left _ _ (fold_left _ _ ?st0))))) _) _ _ _ =>
    assert (H0 : blk_inv n (c_nets st) st0 [] [] []) by (split; [done|]; by exists empty_net_rec) end.
  pose proof (parse_ports _ _ _ _ _ _ _ (nn_ports _ _ _ Hn) H0) as H1.
  pose proof (parse_insts _ _ _ _ _ _ _ (nn_insts _ _ _ Hn) H1) as H2.
  pose proof (parse_nodes _ _ _ _ _ _ _ (node_lines_shape _ _ _ Hn) H2) as H3.
  pose proof (parse_res _ _ _ _ _ _ (node_name e n d) 0 (resistors d)
                (ws_token_free _ (nn_net _ _ _ Hn))
                ltac:(intros [[a b] v] Hr; destruct (graph_res _ Hg a b v Hr);
                      split; by apply (nn_nodes _ _ _ Hn)) H3) as H4.
  pose proof (parse_caps _ _ _ _ _ _ (node_name e n d) g 0 (capacitors d) H4) as H5.
  rewrite parse_blank. exact H5.
Qed.

(** ** The whole file *)

Definition write_nets (e : ext_state) : list string := sorted_strings (map fst (map_to_list (net_data e))).

Definition blk (e : ext_state) (n : string) : list string :=
  match net_data e !! n with
  | Some d => net_block e ground_net n d
  | None => []
  end.

Lemma write_instances_lines e s :
  (forall c, c ∈ inst_conns e -> exists st, net_data e !! ic_net c = Some st /\ is_node st (ic_nid c)) ->
  exists s' xs, write_instances e s = (s', Some tt) /\
    ws_out s' = (ws_out s ++ ["* Instance Section"] ++ xs)%list /\
    Forall (fun x => exists r, x = String "X" r) xs.
Proof.
  intros Hc. unfold write_instances. erewrite bind_run; [|reflexivity].
  destruct (inst_map_ok e (inst_conns e) [] Hc) as [m Hm]. rewrite Hm.
  lazymatch goal with |- context [for_each ?f ?l ?s0] =>
    destruct (for_each_runs f (fun inst => [("X" ++ inst ++ " " ++
        join_space (map (fun pn => pn.1 ++ "=" ++ pn.2) (default [] (odict_get m inst))) ++ " STD_CELL")%string])
      (fun _ => True) l) with (s := s0) as (s1 & E1 & _ & O1) end.
  - intros inst t _ _. eexists. split_and!; [reflexivity|done|done].
  - done.
  - eexists _, _. split_and!; [exact E1| |].
    + rewrite O1. simpl. by rewrite <- app_assoc.
    + apply Forall_concat, Forall_forall. intros ls Hls. apply list_elem_of_fmap in Hls as (x & -> & _).
      repeat constructor. by eexists.
Qed.

(** The lines [write] produces on a well-formed extraction: the header,
    the block of every net in sorted order, and the instance section. *)
Lemma write_lines e design :
  ext_wf e -> exists xs,
  (write e design).1 =
    ([(".SUBCKT " ++ design ++ " " ++ join_space (write_nets e))%string; "* DSPF Gen V3 Turbo";
      ("*|GROUND_NET " ++ ground_net)%string; "*"] ++ concat (map (blk e) (write_nets e)) ++
     ["* Instance Section"] ++ xs ++ [".ENDS"])%list /\
  Forall (fun x => exists r, x = String "X" r) xs.
Proof.
  intros He. unfold write. cbv zeta.
  do 4 (erewrite bind_run; [|reflexivity]).
  lazymatch goal with |- context [for_each ?f ?l] =>
    assert (Hr : forall s0, exists s1, for_each f l s0 = (s1, Some tt) /\ True /\
                   ws_out s1 = (ws_out s0 ++ concat (map (blk e) l))%list);
    [intros s0; apply (for_each_runs f (blk e) (fun _ => True) l); [|done]|] end.
  { intros n t Hn _. apply elem_of_sorted_strings, elem_of_map_fst_map_to_list in Hn as [d Hd].
    unfold blk. rewrite Hd. destruct (write_net_block e ground_net n d t (ew_stores _ He _ _ Hd))
      as (t' & E & O). by exists t'. }
  edestruct Hr as (s1 & E1 & _ & O1). erewrite bind_run; [|exact E1].
  destruct (write_instances_lines e s1 (ew_conns _ He)) as (s2 & xs & E2 & O2 & Hxs).
  rewrite (bind_run _ _ _ _ _ E2). exists xs. split; [|done].
  simpl. rewrite O2, O1. simpl. unfold write_nets. by rewrite <- !app_assoc.
Qed.

Lemma parse_other_lit st a r :
  a <> "*"%char -> a <> "R"%char -> py_isspace a = false -> parse_line st (String a r) = st.
Proof. intros H1 H2 H3. apply (parse_line_other st _ a (rstrip r)); [done|done|by apply py_strip_lit]. Qed.

Lemma parse_header design ns :
  fold_left parse_line [(".SUBCKT " ++ design ++ " " ++ join_space ns)%string; "* DSPF Gen V3 Turbo";
                        ("*|GROUND_NET " ++ ground_net)%string; "*"] init_chk =
  {| c_nets := ∅; c_ground := Some "VSS"; c_spatial := ∅; c_current := None |}.
Proof.
  cbn [fold_left].
  change (".SUBCKT " ++ design ++ " " ++ join_space ns)
    with (String "." ("SUBCKT " ++ design ++ " " ++ join_space ns)).
  rewrite (parse_other_lit init_chk "."); [reflexivity|done..].
Qed.

Lemma parse_tail st xs :
  Forall (fun x => exists r, x = String "X" r) xs ->
  fold_left parse_line (["* Instance Section"] ++ xs ++ [".ENDS"])%list st = st.
Proof.
  intros Hxs. rewrite !fold_left_app. cbn [fold_left].
  assert (H0 : parse_line st "* Instance Section" = st).
  { unfold parse_line. cbv zeta. parse_tests. by destruct (c_current st). }
  rewrite H0. rewrite parse_other_lit by done.
  induction Hxs as [|x xs (r & ->) _ IH]; [done|]. simpl. by rewrite parse_other_lit.
Qed.

(** The blocks of distinct nets: each net gets its own record, and the
    other entries of [self.nets] stay. *)
Lemma parse_blocks e ns st :
  NoDup ns ->
  (forall n, n ∈ ns -> exists d, net_data e !! n = Some d /\ graph_wf d /\ net_names_ok e n d) ->
  (forall m, m ∉ ns -> c_nets (fold_left parse_line (concat (map (blk e) ns)) st) !! m = c_nets st !! m) /\
  (forall n d, n ∈ ns -> net_data e !! n = Some d ->
     exists R, c_nets (fold_left parse_line (concat (map (blk e) ns)) st) !! n = Some R /\
       nr_ports R = map po_name (ports_in e n) /\
       nr_inst_pins R = map (fun c => pin_name (ic_inst c) (ic_pin c)) (insts_in e n) /\
       nr_resistors R = res_triples e n d).
Proof.
  intros Hnd. revert st. induction Hnd as [|n ns Hn Hnd IH]; intros st Hns; simpl.
  { split; [done|]. intros n d Hin. by apply elem_of_nil in Hin. }
  destruct (Hns n ltac:(by left)) as (d & Hd & Hg & Hok).
  assert (Hb : blk e n = net_block e ground_net n d) by (unfold blk; by rewrite Hd).
  rewrite fold_left_app, Hb.
  destruct (parse_net_block e ground_net n d st Hg Hok) as [_ (R & HR & HP & HI & HRs)].
  set (st1 := fold_left parse_line (net_block e ground_net n d) st) in *.
  destruct (IH st1 ltac:(intros m Hm; apply Hns; by right)) as [Hout Hin].
  split.
  - intros m Hm. rewrite Hout by (intros Hm'; apply Hm; by right).
    rewrite HR, lookup_insert_ne; [done|]. intros ->. apply Hm. by left.
  - intros m dm Hm Hdm. apply elem_of_cons in Hm as [->|Hm]; [|by apply Hin].
    rewrite Hd in Hdm. injection Hdm as <-. exists R. rewrite Hout by done.
    rewrite HR, lookup_insert_eq. by split_and!.
Qed.

(** The names of the extraction are words of [split()]: the condition
    under which the text format is read back as written. *)
Record names_ok (e : ext_state) : Prop := {
  ok_nets : forall n d, net_data e !! n = Some d -> ws_token n = true;
  ok_ports : forall p, p ∈ ports e -> ws_token (po_name p) = true;
  ok_insts : forall c, c ∈ inst_conns e -> ws_free (ic_inst c) = true /\ ws_free (ic_pin c) = true;
  ok_renamed : forall n d nid s, net_data e !! n = Some d -> renamed d !! nid = Some s -> ws_token s = true;
  ok_layers : forall n d nid l x y, net_data e !! n = Some d -> id_coords d !! nid = Some (l, x, y) ->
    ws_free l = true
}.

Lemma fold_insert_lookup {A} (k : A -> nat) (v : A -> string) l (m : gmap nat string) i s :
  fold_left (fun m x => <[k x := v x]> m) l m !! i = Some s -> m !! i = Some s \/ exists x, x ∈ l /\ s = v x.
Proof.
  revert m. induction l as [|x l IH]; intros m H; simpl in H; [by left|].
  destruct (IH _ H) as [Hm|(y & Hy & ->)]; [|right; exists y; split; [by right|done]].
  rewrite lookup_insert in Hm. case_decide; [injection Hm as <-; right; exists x; split; [by left|done]|by left].
Qed.

Lemma pin_name_ws_token i p : ws_free i = true -> ws_free p = true -> ws_token (pin_name i p) = true.
Proof.
  intros Hi Hp. unfold ws_token, pin_name. rewrite !ws_free_app, Hi, Hp. simpl.
  destruct i; [done|reflexivity].
Qed.

Lemma coord_name_ws_token n l x y : ws_free n = true -> ws_free l = true -> ws_token (coord_name n l x y) = true.
Proof.
  intros Hn Hl. unfold ws_token, coord_name. rewrite !ws_free_app, Hn, Hl, !py_str_Z_ws_free. reflexivity.
Qed.

Lemma names_ok_net e n d : names_ok e -> net_data e !! n = Some d -> net_names_ok e n d.
Proof.
  intros Hok Hd. split.
  - by apply (ok_nets _ Hok _ _ Hd).
  - intros p Hp. apply elem_of_List_filter in Hp as [Hp _]. by apply (ok_ports _ Hok).
  - intros c Hc. apply elem_of_List_filter in Hc as [Hc _]. by apply (ok_insts _ Hok).
  - intros nid [[[l x] y] Hk]. unfold node_name.
    destruct (base_cache e n !! nid) as [s|] eqn:Hb.
    + unfold base_cache in Hb. apply fold_insert_lookup in Hb as [Hb|(c & Hc & ->)].
      * apply fold_insert_lookup in Hb as [Hb|(p & Hp & ->)]; [by rewrite lookup_empty in Hb|].
        apply elem_of_List_filter in Hp as [Hp _]. by apply (ok_ports _ Hok).
      * apply elem_of_List_filter in Hc as [Hc _]. destruct (ok_insts _ Hok c Hc).
        by apply pin_name_ws_token.
    + destruct (renamed d !! nid) as [s|] eqn:Hr; [by apply (ok_renamed _ Hok n d nid)|].
      rewrite Hk. apply coord_name_ws_token; [apply ws_token_free, (ok_nets _ Hok _ _ Hd)|].
      by apply (ok_layers _ Hok n d nid l x y).
Qed.

Lemma elem_of_write_nets e m : m ∈ write_nets e <-> is_Some (net_data e !! m).
Proof.
  unfold write_nets. rewrite elem_of_sorted_strings. split; [apply elem_of_map_fst_map_to_list|].
  intros [d Hd]. apply list_elem_of_fmap. exists (m, d). split; [done|]. by apply elem_of_map_to_list.
Qed.

Lemma write_nets_NoDup e : NoDup (write_nets e).
Proof.
  unfold write_nets, sorted_strings. rewrite merge_sort_Permutation. apply NoDup_fst_map_to_list.
Qed.

(** What [_parse] reads back from the written file. *)
Lemma parse_write_spec (e : ext_state) (design : string) :
  ext_wf e -> names_ok e ->
  (forall m, c_nets (parse (write e design).1) !! m = None <-> net_data e !! m = None) /\
  (forall n d, net_data e !! n = Some d ->
     exists R, c_nets (parse (write e design).1) !! n = Some R /\
       nr_ports R = map po_name (ports_in e n) /\
       nr_inst_pins R = map (fun c => pin_name (ic_inst c) (ic_pin c)) (insts_in e n) /\
       nr_resistors R = res_triples e n d).
Proof.
  intros He Hok. destruct (write_lines e design He) as (xs & Hw & Hxs).
  unfold parse. rewrite Hw, fold_left_app, fold_left_app, parse_tail, parse_header by done.
  destruct (parse_blocks e (write_nets e)
              {| c_nets := ∅; c_ground := Some "VSS"; c_spatial := ∅; c_current := None |}
              (write_nets_NoDup e)) as [Hout Hin].
  { intros n Hn. apply elem_of_write_nets in Hn as [d Hd]. exists d.
    split_and!; [done|exact (ew_stores _ He _ _ Hd)|by apply names_ok_net]. }
  split.
  - intros m. destruct (decide (m ∈ write_nets e)) as [Hm|Hm].
    + destruct (elem_of_write_nets e m) as [Hs _]. destruct (Hs Hm) as [d Hd].
      destruct (Hin m d Hm Hd) as (R & HR & _). rewrite HR, Hd. done.
    + rewrite Hout by done. simpl. rewrite lookup_empty. split; [|done]. intros _.
      destruct (net_data e !! m) eqn:E; [|done]. exfalso. apply Hm, elem_of_write_nets. by rewrite E.
  - intros n d Hd. apply Hin; [apply elem_of_write_nets; by rewrite Hd|done].
Qed.

(** C15. The round trip of the specification (section 8): on a
    well-formed extraction whose names are words, [_parse] of the file
    [DSPFWriter.write] produces has exactly the extraction's nets, and
    for each net the port names, the instance-pin names ([inst:pin]) and
    the resistors, each between the names the writer gives its two
    nodes, in the extraction's order. *)
Theorem write_parse_roundtrip (e : ext_state) (design : string) :
  ext_wf e -> names_ok e ->
  (forall m, c_nets (parse (write e design).1) !! m = None <-> net_data e !! m = None) /\
  (forall n d, net_data e !! n = Some d ->
     exists R, c_nets (parse (write e design).1) !! n = Some R /\
       nr_ports R = map po_name (ports_in e n) /\
       nr_inst_pins R = map (fun c => pin_name (ic_inst c) (ic_pin c)) (insts_in e n) /\
       nr_resistors R = res_triples e n d).
Proof. apply parse_write_spec. Qed.

(** ** The name the writer gives a node *)

Lemma fold_insert_notin {A} (k : A -> nat) (v : A -> string) l (m : gmap nat string) i :
  (forall x, x ∈ l -> k x <> i) -> fold_left (fun m x => <[k x := v x]> m) l m !! i = m !! i.
Proof.
  revert m. induction l as [|x l IH]; intros m Hl; simpl; [done|].
  rewrite IH by (intros y Hy; apply Hl; by right). apply lookup_insert_ne, Hl. by left.
Qed.

(** [_write_net] names a node shared by several instance pins after
    the last of them: the name cache is overwritten pin after pin, so
    the node of a connection [c] that no later connection of the net
    shares is named [inst:pin] of [c], in every resistor and capacitor
    line. *)
Theorem writer_names_last_pin (e : ext_state) (n : string) (d : NetStore)
    (l1 l2 : list inst_conn) (c : inst_conn) :
  insts_in e n = (l1 ++ c :: l2)%list -> (forall c', c' ∈ l2 -> ic_nid c' <> ic_nid c) ->
  node_name e n d (ic_nid c) = pin_name (ic_inst c) (ic_pin c).
Proof.
  intros Hl Hl2. unfold node_name, base_cache. rewrite Hl, fold_left_app. simpl.
  by rewrite fold_insert_notin, lookup_insert_eq.
Qed.

(** ** The false open *)

Lemma tc_last {A} (R : A -> A -> Prop) x y : tc R x y -> exists z, R z y.
Proof. induction 1 as [x y H|x y z _ _ IH]; [by exists x|done]. Qed.

Lemma elem_of_enum_map {A B} (g : Z -> A -> B) i l x :
  x ∈ enum_map g i l -> exists j y, y ∈ l /\ x = g j y.
Proof.
  revert i. induction l as [|y l IH]; intros i Hx; simpl in Hx; [by apply elem_of_nil in Hx|].
  apply elem_of_cons in Hx as [->|Hx]; [exists i, y; split; [by left|done]|].
  destruct (IH _ Hx) as (j & z & Hz & ->). exists j, z. split; [by right|done].
Qed.

Lemma sum_list_with_elem {A} (f : A -> nat) x l : x ∈ l -> (f x <= sum_list_with f l)%nat.
Proof.
  induction l as [|y l IH]; intros Hx; [by apply elem_of_nil in Hx|]. simpl.
  apply elem_of_cons in Hx as [->|Hx]; [lia|]. specialize (IH Hx). lia.
Qed.

(** C16. A declared pin whose name no resistor line uses is reported
    floating, whatever the extracted graph connects: if the name of an
    instance connection of net [n] is neither a port name of [n] nor the
    name the writer gives an end of any of [n]'s resistors, then in the
    file [DSPFWriter.write] produces the checker finds it floating and
    reports at least one open. *)
Theorem written_pin_floating (e : ext_state) (design n : string) (d : NetStore) (c : inst_conn) :
  ext_wf e -> names_ok e -> net_data e !! n = Some d -> c ∈ insts_in e n ->
  (forall p, p ∈ ports_in e n -> po_name p <> pin_name (ic_inst c) (ic_pin c)) ->
  (forall r, r ∈ resistors d -> node_name e n d r.1.1 <> pin_name (ic_inst c) (ic_pin c) /\
                                node_name e n d r.1.2 <> pin_name (ic_inst c) (ic_pin c)) ->
  exists R, c_nets (parse (write e design).1) !! n = Some R /\
    pin_name (ic_inst c) (ic_pin c) ∈ floating_pins R /\
    (1 <= (run_check (write e design).1).1)%nat.
Proof.
  intros He Hok Hd Hc Hp Hr.
  destruct (parse_write_spec e design He Hok) as [_ Hin].
  destruct (Hin n d Hd) as (R & HR & HP & HI & HRs).
  assert (Hfl : pin_name (ic_inst c) (ic_pin c) ∈ floating_pins R).
  { apply floating_pins_spec. split.
    { rewrite HI. apply list_elem_of_fmap. by exists c. }
    intros [[Hy _]|(p & _ & Hpy)].
    - rewrite HP in Hy. apply list_elem_of_fmap in Hy as (p & Hpn & Hpin). by apply (Hp p).
    - destruct (tc_last _ _ _ Hpy) as (z & rn & Hz). rewrite HRs in Hz.
      destruct Hz as [Hz|Hz]; apply elem_of_enum_map in Hz as (j & r & Hrin & Heq);
        injection Heq as _ ? ?; destruct (Hr r Hrin); congruence. }
  exists R. split_and!; [done|done|].
  unfold run_check. simpl.
  assert (H1 : (1 <= check_opens R)%nat).
  { unfold check_opens. destruct (nr_ports R).
    - rewrite HI. destruct (insts_in e n) eqn:E; [by apply elem_of_nil in Hc|]. simpl. lia.
    - destruct (floating_pins R); [by apply elem_of_nil in Hfl|]. simpl. lia. }
  etransitivity; [exact H1|].
  apply (sum_list_with_elem (fun kv => check_opens kv.2) (n, R)). by apply elem_of_map_to_list.
Qed.

End Lines.

(** A net [VDD] with two nodes on [M1] joined by a resistor, the first
    the port [P] and the second the pin [U1:VDD]. *)
Definition rt_store : NetStore :=
  set_renamed (add_resistor (snd (get_node_id (snd (get_node_id empty_store "M1" 0 0)) "M1" 1000 0)) 1 2 1)
    1 "P".

Definition rt_ext : ext_state :=
  {| net_data := {[ "VDD" := rt_store ]};
     inst_conns := [mkInstConn "U1" "VDD" "VDD" 2 1000 0];
     ports := [mkPort "P" "VDD" 1 0 0]; layer_map_cache := ∅; internal_ports := [] |}.

Lemma rt_store_wf : graph_wf rt_store.
Proof.
  apply set_renamed_graph_wf; [|exists ("M1", 0, 0); reflexivity].
  apply add_resistor_graph_wf; [|exists ("M1", 0, 0); reflexivity|exists ("M1", 1000, 0); reflexivity].
  apply get_node_id_graph_wf, get_node_id_graph_wf, empty_store_graph_wf.
Qed.

Lemma rt_ext_wf : ext_wf rt_ext.
Proof.
  split; simpl.
  - intros n st Hn. apply lookup_singleton_Some in Hn as [_ <-]. apply rt_store_wf.
  - intros c Hc. apply list_elem_of_singleton in Hc as ->. exists rt_store.
    split; [reflexivity|exists ("M1", 1000, 0); reflexivity].
  - intros p Hp. apply list_elem_of_singleton in Hp as ->. exists rt_store.
    split; [reflexivity|exists ("M1", 0, 0); reflexivity].
  - apply LayerMap.cache_ok_empty.
Qed.

Lemma rt_names_ok : names_ok rt_ext.
Proof.
  split; simpl.
  - intros n d Hn. by apply lookup_singleton_Some in Hn as [<- _].
  - intros p Hp. by apply list_elem_of_singleton in Hp as ->.
  - intros c Hc. by apply list_elem_of_singleton in Hc as ->.
  - intros n d nid s Hn Hr. apply lookup_singleton_Some in Hn as [_ <-].
    assert (Hall : map_Forall (fun _ s => ws_token s = true) (renamed rt_store))
      by (apply (bool_decide_unpack _); vm_compute; reflexivity).
    exact (Hall _ _ Hr).
  - intros n d nid l x y Hn Hk. apply lookup_singleton_Some in Hn as [_ <-].
    assert (Hall : map_Forall (fun _ k => ws_free k.1.1 = true) (id_coords rt_store))
      by (apply (bool_decide_unpack _); vm_compute; reflexivity).
    exact (Hall _ _ Hk).
Qed.

Lemma write_parse_roundtrip_witness :
  ext_wf rt_ext /\ names_ok rt_ext /\
  exists R, c_nets (parse (write rt_ext "TOP").1) !! "VDD" = Some R /\
    nr_ports R = ["P"] /\ nr_inst_pins R = ["U1:VDD"] /\ nr_resistors R = [("RVDD_0", "P", "U1:VDD")].
Proof.
  split; [apply rt_ext_wf|]. split; [apply rt_names_ok|].
  destruct (write_parse_roundtrip rt_ext "TOP" rt_ext_wf rt_names_ok) as [_ Hin].
  destruct (Hin "VDD" rt_store eq_refl) as (R & HR & HP & HI & HRs).
  exists R. rewrite HR, HP, HI, HRs. split_and!; vm_compute; reflexivity.
Defined.

Lemma writer_names_last_pin_witness :
  insts_in rt_ext "VDD" = ([] ++ mkInstConn "U1" "VDD" "VDD" 2 1000 0 :: [])%list /\
  node_name rt_ext "VDD" rt_store 2 = "U1:VDD".
Proof.
  assert (H : insts_in rt_ext "VDD" = ([] ++ mkInstConn "U1" "VDD" "VDD" 2 1000 0 :: [])%list)
    by reflexivity.
  split; [exact H|].
  exact (writer_names_last_pin rt_ext "VDD" rt_store [] [] _ H
           ltac:(intros c' Hc'; by apply elem_of_nil in Hc')).
Defined.

(** The same net where a second cell [U0] has its pin at the node of
    [U1:VDD], written before it. *)
Definition rt_ext2 : ext_state :=
  {| net_data := {[ "VDD" := rt_store ]};
     inst_conns := [mkInstConn "U0" "VDD" "VDD" 2 1000 0; mkInstConn "U1" "VDD" "VDD" 2 1000 0];
     ports := [mkPort "P" "VDD" 1 0 0]; layer_map_cache := ∅; internal_ports := [] |}.

Lemma rt_ext2_wf : ext_wf rt_ext2.
Proof.
  split; simpl.
  - intros n st Hn. apply lookup_singleton_Some in Hn as [_ <-]. apply rt_store_wf.
  - intros c Hc. exists rt_store. split; [|exists ("M1", 1000, 0)];
      repeat (apply elem_of_cons in Hc as [->|Hc]; [reflexivity|]); by apply elem_of_nil in Hc.
  - intros p Hp. apply list_elem_of_singleton in Hp as ->. exists rt_store.
    split; [reflexivity|exists ("M1", 0, 0); reflexivity].
  - apply LayerMap.cache_ok_empty.
Qed.

Lemma rt_names_ok2 : names_ok rt_ext2.
Proof.
  destruct rt_names_ok as [H1 H2 H3 H4 H5]. split; try done.
  intros c Hc. repeat (apply elem_of_cons in Hc as [->|Hc]; [done|]). by apply elem_of_nil in Hc.
Qed.

Lemma written_pin_floating_witness :
  ext_wf rt_ext2 /\ names_ok rt_ext2 /\
  exists R, c_nets (parse (write rt_ext2 "TOP").1) !! "VDD" = Some R /\
    "U0:VDD" ∈ floating_pins R /\ (1 <= (run_check (write rt_ext2 "TOP").1).1)%nat.
Proof.
  split; [apply rt_ext2_wf|]. split; [apply rt_names_ok2|].
  apply (written_pin_floating rt_ext2 "TOP" "VDD" rt_store (mkInstConn "U0" "VDD" "VDD" 2 1000 0)
           rt_ext2_wf rt_names_ok2 eq_refl).
  - by left.
  - intros p Hp. apply list_elem_of_singleton in Hp as ->. discriminate.
  - intros r Hr. apply list_elem_of_singleton in Hr as ->. split; vm_compute; discriminate.
Defined.

End RoundTrip.
