(* ===== verification/Main.v ===== *)
(** * [StackManager] and [main] (stack_manager.py, main.py)

    [main] (lines 1119-1206 of the installer) builds a [TechLEF], parses
    [tech.lef] when the file exists, overrides [units] with
    [tech_properties['units']] (default [1000]) when the configuration
    has [tech_properties], and runs [StackManager.load_and_run]
    (lines 765-780): one [Generator] per entry of [dies] followed by
    [_generate_tsvs] (lines 782-802) in 3D, a single generator
    [single_die] in 2D.  It then writes the SPICE deck in 3D and, per
    generator, the DEF, runs [RCExtractor], [DSPFWriter] and, in 2D,
    [DSPFChecker].  Here [main] computes what a run writes, with three
    outcomes: a result, a [KeyError] (the only exception the modelled
    part of [_generate_tsvs] raises) and a generator loop that does not
    terminate; the check here is the one of the written lines, and
    [MainIO] runs [main] on the disk, where the check reads the DSPF
    file back under the 500 MB guard.  The timing messages and the GUI
    itself are not modelled; the guard in front of the GUI is.  The
    [units] of the configuration reach the generator only: the
    capacitance the extractor gives a generated stripe scales with
    [units / 1000] (C30). *)

From S2P Require Import Prelude PyStr Format NetStore Layers Geometry Generator GenWf TechLef Fracture Extractor OpenCheck Checker Writer Flow DefWriter.

Local Open Scope string_scope.

Module Main.
Import Geom Extract DspfWriter Check Fmt DefW.

(** ** Outcomes *)

Inductive outcome (A : Type) := Ok (a : A) | KeyError (key : string) | NoTermination.
Arguments Ok {A} a.
Arguments KeyError {A} key.
Arguments NoTermination {A}.

Definition obind {A B} (m : outcome A) (k : A -> outcome B) : outcome B :=
  match m with Ok a => k a | KeyError e => KeyError e | NoTermination => NoTermination end.

Definition of_option {A} (m : option A) : outcome A :=
  match m with Some a => Ok a | None => NoTermination end.

(** ** The configuration *)

(** An entry of [config['stack_connections']]: the keys
    [_generate_tsvs] reads ([None] when absent). *)
Record stack_conn := mkStackConn {
  sc_die1 : option string; sc_die2 : option string; sc_net : option string; sc_pitch : option Q
}.

(** An entry of [config['dies']]: the die's generator configuration and
    its [display_name]. *)
Record die_cfg := mkDieCfg { dc_gen : Gen.config; dc_display_name : option string }.

(** The top-level configuration: what [Generator.run] reads of it in 2D,
    [dies] in file order (absent: [None]), [stack_connections],
    [display_name], [tech_properties['units']] after its default when
    [tech_properties] is present, and the [tech_properties] the extractor
    reads. *)
Record top_config := mkTopConfig {
  tc_gen : Gen.config; tc_dies : option (list (string * die_cfg));
  tc_stack_connections : list stack_conn; tc_display_name : option string;
  tc_tech_units : option Z; tc_tech_props : tech_props
}.

(** ** [StackManager] *)

(** [self.generators] (insertion-ordered) and [self.is_3d]. *)
Record stack := mkStack { st_generators : list (string * Gen.gen_state); st_is_3d : bool }.

(** [_generate_tsvs]: each connection reads [die1], [die2] and [net]
    (a [KeyError] when one is missing), skips unknown dies, filters the
    two dies' wires and then [pass]es: nothing is added. *)
Fixpoint generate_tsvs (conns : list stack_conn) (gens : list (string * Gen.gen_state)) : outcome unit :=
  match conns with
  | [] => Ok tt
  | c :: r =>
      match sc_die1 c, sc_die2 c, sc_net c with
      | None, _, _ => KeyError "die1"
      | Some _, None, _ => KeyError "die2"
      | Some _, Some _, None => KeyError "net"
      | Some _, Some _, Some _ => generate_tsvs r gens
      end
  end.

(** [for die_name, die_cfg in config_data['dies'].items()]: a generator
    per die, stored under its name. *)
Fixpoint run_dies (tech : Gen.tech_lef) (dies : list (string * die_cfg))
    (gens : list (string * Gen.gen_state)) : outcome (list (string * Gen.gen_state)) :=
  match dies with
  | [] => Ok gens
  | (n, d) :: r => obind (of_option (Gen.gen_run tech (dc_gen d))) (fun st => run_dies tech r (odict_set gens n st))
  end.

(** [StackManager.load_and_run]. *)
Definition load_and_run (tech : Gen.tech_lef) (cfg : top_config) : outcome stack :=
  match tc_dies cfg with
  | Some dies =>
      obind (run_dies tech dies []) (fun gens =>
      obind (generate_tsvs (tc_stack_connections cfg) gens) (fun _ => Ok (mkStack gens true)))
  | None => obind (of_option (Gen.gen_run tech (tc_gen cfg))) (fun st => Ok (mkStack [("single_die", st)] false))
  end.

(** ** [main] *)

(** Steps 1 and 2: [TechLEF()], [tech.parse(lef_path)] when [tech.lef]
    exists, and the [units] override. *)
Definition load_tech (lef : option (list string)) (cfg : top_config) : Lef.tech :=
  let t := match lef with Some ls => (Lef.parse Lef.tech_init ls).1 | None => Lef.tech_init end in
  match tc_tech_units cfg with
  | Some u => Lef.mkTech u (Lef.layers t) (Lef.vias t)
  | None => t
  end.

(** What [main] produces for one die: its design name, the DEF file's
    name and [f.write]s, the DSPF file's name and lines and, in 2D, the
    open and short counts of the check. *)
Record die_report := mkDieReport {
  dr_name : string; dr_def_file : string; dr_def : list string;
  dr_dspf_file : string; dr_dspf : list string; dr_check : option (nat * nat)
}.

(** The export loop of step 4 on the stack's generators: in 3D the
    files are named after the die and the design after the die's
    [display_name]; in 2D both after the configuration's
    [display_name].  A generator's [die_area] is the one of the
    configuration it ran on; [units] is the shared tech's. *)
Definition export `{EFormat} `{NumStr} (units : Z) (cfg : top_config) (s : stack) : list die_report :=
  map (fun '(die_name, st) =>
         if st_is_3d s then
           let dcfg := tc_dies cfg ≫= fun ds => odict_get ds die_name in
           let name := default die_name (default None (dc_display_name <$> dcfg)) in
           let d := def_write units (dcfg ≫= fun d => Gen.cfg_die_area (dc_gen d)) st name in
           let e := run (Gen.to_gen_out st) (tc_tech_props cfg) in
           mkDieReport name ("output_" ++ die_name ++ ".def") d ("output_" ++ die_name ++ ".dspf") (write e name).1 None
         else
           let name := default die_name (tc_display_name cfg) in
           let d := def_write units (Gen.cfg_die_area (tc_gen cfg)) st name in
           let e := run (Gen.to_gen_out st) (tc_tech_props cfg) in
           let lines := (write e name).1 in
           mkDieReport name ("output_" ++ name ++ ".def") d ("output_" ++ name ++ ".dspf") lines
             (Some (run_check lines)))
      (st_generators s).

(** Step 5: [len(stack.generators['single_die'].wires) > 50000] skips
    the GUI; a stack without [single_die] raises [KeyError]. *)
Inductive gui_step := SkipGui | OpenGui.

Definition gui_guard (s : stack) : outcome gui_step :=
  match odict_get (st_generators s) "single_die" with
  | None => KeyError "single_die"
  | Some st => Ok (if (50000 <? length (Gen.gs_wires st))%nat then SkipGui else OpenGui)
  end.

(** [main]: the SPICE deck of a 3D stack, the reports of the dies, all
    written before step 5, and the outcome of step 5. *)
Definition main `{EFormat} `{NumStr} (lef : option (list string)) (cfg : top_config)
  : outcome (option (list string) * list die_report * outcome gui_step) :=
  let tech := Lef.gen_tech (load_tech lef cfg) in
  obind (load_and_run tech cfg) (fun s =>
    Ok (if st_is_3d s then Some (spice_write (st_generators s)) else None,
        export (Gen.tl_units tech) cfg s, gui_guard s)).

(** ** Examples *)

(** [Flow.ex_gen_cfg] as a 2D configuration at [units] [u], with a
    capacitance of 1 fF per square micron on [M1]. *)
Definition ex_tp : tech_props :=
  {| tp_layers := Some {[ "M1" := {[ "c_area_ff_per_um2" := 1%Q ]} ]}; tp_vias := None |}.

Definition ex_cfg_u (u : Z) : top_config := mkTopConfig Flow.ex_gen_cfg None [] (Some "TOP") (Some u) ex_tp.

(** Two dies [top] and [bot] with the same configuration and a stack
    connection of their [VDD] nets. *)
Definition ex_cfg_3d (conns : list stack_conn) : top_config :=
  mkTopConfig Flow.ex_gen_cfg (Some [("top", mkDieCfg Flow.ex_gen_cfg None); ("bot", mkDieCfg Flow.ex_gen_cfg (Some "BOTTOM"))])
    conns None (Some 1000) ex_tp.

Definition ex_conn : stack_conn := mkStackConn (Some "top") (Some "bot") (Some "VDD") None.

(** ** Lemmas *)

Lemma generate_tsvs_ok (conns : list stack_conn) (gens : list (string * Gen.gen_state)) :
  (forall c, c ∈ conns -> is_Some (sc_die1 c) /\ is_Some (sc_die2 c) /\ is_Some (sc_net c)) ->
  generate_tsvs conns gens = Ok tt.
Proof.
  induction conns as [|c r IH]; intros H; simpl; [done|].
  destruct (H c) as ([a ->] & [b ->] & [n ->]); [by left|]. apply IH. intros; apply H; by right.
Qed.

Lemma generate_tsvs_error (conns : list stack_conn) (gens : list (string * Gen.gen_state)) (c : stack_conn) :
  c ∈ conns -> sc_die1 c = None \/ sc_die2 c = None \/ sc_net c = None ->
  exists k, generate_tsvs conns gens = KeyError k.
Proof.
  induction conns as [|c' r IH]; intros Hc Hm; [inversion Hc|]. simpl.
  apply elem_of_cons in Hc as [<-|Hc].
  - destruct (sc_die1 c) eqn:E1; [|by eexists]. destruct (sc_die2 c) eqn:E2; [|by eexists].
    destruct (sc_net c) eqn:E3; [|by eexists]. naive_solver.
  - destruct (sc_die1 c'); [|by eexists]. destruct (sc_die2 c'); [|by eexists].
    destruct (sc_net c'); [|by eexists]. by apply IH.
Qed.

Lemma run_dies_keys (tech : Gen.tech_lef) (dies : list (string * die_cfg)) (gens gens' : list (string * Gen.gen_state))
    (k : string) :
  run_dies tech dies gens = Ok gens' -> odict_get gens k = None -> k ∉ map fst dies -> odict_get gens' k = None.
Proof.
  revert gens. induction dies as [|[n d] r IH]; intros gens H Hk Hn; simpl in H; [by injection H as <-|].
  destruct (Gen.gen_run tech (dc_gen d)); simpl in H; [|done].
  apply (IH _ H); [|set_solver]. rewrite odict_get_set_ne; [done|]. set_solver.
Qed.

(** Every layer rule's pitch and every pin interval of a generator
    configuration are positive numbers of database units ([C18]'s
    condition), and its test. *)
Definition steps_positive (units : Z) (c : Gen.config) : Prop :=
  (forall n lr, n ∈ Gen.cfg_nets c -> lr ∈ Gen.nc_layers n -> 0 < Gen.to_dbu units (Gen.lr_pitch lr)) /\
  (forall n pc, n ∈ Gen.cfg_nets c -> Gen.nc_pin_config n = Some pc -> 0 < Gen.to_dbu units (Gen.pc_interval pc)).

Definition steps_positiveb (units : Z) (c : Gen.config) : bool :=
  forallb (fun n => forallb (fun lr => 0 <? Gen.to_dbu units (Gen.lr_pitch lr))%Z (Gen.nc_layers n) &&
                    match Gen.nc_pin_config n with Some pc => (0 <? Gen.to_dbu units (Gen.pc_interval pc))%Z | None => true end)
    (Gen.cfg_nets c).

Lemma steps_positiveb_spec (units : Z) (c : Gen.config) : steps_positiveb units c = true -> steps_positive units c.
Proof.
  unfold steps_positiveb. rewrite forallb_forall. intros H. split.
  - intros n lr Hn Hlr. apply list_elem_of_In in Hn, Hlr. apply H, andb_prop in Hn as [Hn _].
    rewrite forallb_forall in Hn. apply Z.ltb_lt, Hn, Hlr.
  - intros n pc Hn Hpc. apply list_elem_of_In in Hn. apply H, andb_prop in Hn as [_ Hn].
    rewrite Hpc in Hn. by apply Z.ltb_lt.
Qed.

Lemma gen_run_positive (tech : Gen.tech_lef) (c : Gen.config) :
  steps_positive (Gen.tl_units tech) c -> exists st, Gen.gen_run tech c = Some st.
Proof.
  intros [Hp Hi]. unfold Gen.gen_run. destruct (Gen.cfg_die_area c) as [da|]; [|by eexists].
  destruct (Gen.gen_stripes_some (Gen.tl_units tech) (Gen.die_of (Gen.tl_units tech) da) (Gen.cfg_nets c)
              (Gen.analyze_net_types (Gen.cfg_instance_placement c) (Gen.cfg_nets c) Gen.gen_init) Hp) as [p ->].
  simpl. by apply Gen.gen_pins_some.
Qed.

Lemma run_dies_live (tech : Gen.tech_lef) (dies : list (string * die_cfg)) (gens : list (string * Gen.gen_state)) :
  (forall n d, (n, d) ∈ dies -> steps_positive (Gen.tl_units tech) (dc_gen d)) ->
  exists gens', run_dies tech dies gens = Ok gens'.
Proof.
  revert gens. induction dies as [|[n d] r IH]; intros gens H; simpl; [by eexists|].
  destruct (gen_run_positive tech (dc_gen d)) as [st ->]; [apply (H n); left|]. simpl.
  apply IH. intros n' d' Hd. apply (H n'). by right.
Qed.

(** ** Properties of [main] *)

(** In 2D (no [dies]) [main] runs the generator on the whole
    configuration with the LEF's layers and the configuration's [units];
    when the generator terminates it reports one die, named after
    [display_name] or [single_die], whose DSPF is the writer's file of
    the extraction and whose check is the 2D flow [flow_2d] of that
    design; step 5 then looks at its wire count. *)
Theorem main_2d `{EFormat} `{NumStr} (lef : option (list string)) (cfg : top_config) (st : Gen.gen_state) :
  tc_dies cfg = None -> Gen.gen_run (Lef.gen_tech (load_tech lef cfg)) (tc_gen cfg) = Some st ->
  let name := default "single_die" (tc_display_name cfg) in
  main lef cfg =
    Ok (None,
        [mkDieReport name ("output_" ++ name ++ ".def")
           (def_write (Gen.tl_units (Lef.gen_tech (load_tech lef cfg))) (Gen.cfg_die_area (tc_gen cfg)) st name)
           ("output_" ++ name ++ ".dspf")
           (write (run (Gen.to_gen_out st) (tc_tech_props cfg)) name).1
           (Some (Flow.flow_2d (Gen.to_gen_out st) (tc_tech_props cfg) name))],
        Ok (if (50000 <? length (Gen.gs_wires st))%nat then SkipGui else OpenGui)).
Proof. intros Hd Hg name. unfold main, load_and_run. cbv zeta. rewrite Hd, Hg. reflexivity. Qed.

(** C28. In 3D, once every die's generator has terminated, the stack is
    exactly the dies' generators: [_generate_tsvs] adds no TSV and no
    wire; it only raises [KeyError] when a connection lacks [die1],
    [die2] or [net]. *)
Theorem load_and_run_3d (tech : Gen.tech_lef) (cfg : top_config) (dies : list (string * die_cfg))
    (gens : list (string * Gen.gen_state)) :
  tc_dies cfg = Some dies -> run_dies tech dies [] = Ok gens ->
  ((forall c, c ∈ tc_stack_connections cfg -> is_Some (sc_die1 c) /\ is_Some (sc_die2 c) /\ is_Some (sc_net c)) ->
     load_and_run tech cfg = Ok (mkStack gens true)) /\
  ((exists c, c ∈ tc_stack_connections cfg /\ (sc_die1 c = None \/ sc_die2 c = None \/ sc_net c = None)) ->
     exists k, load_and_run tech cfg = KeyError k).
Proof.
  intros Hd Hr. unfold load_and_run. rewrite Hd, Hr. simpl. split.
  - intros H. by rewrite generate_tsvs_ok.
  - intros (c & Hc & Hm). destruct (generate_tsvs_error _ gens c Hc Hm) as [k ->]. by exists k.
Qed.

(** C29. In 3D, unless a die is named [single_die], [main] writes every
    die's DSPF and then raises [KeyError: 'single_die'] at step 5, which
    looks the 2D generator up by its fixed name. *)
Theorem main_3d_keyerror `{EFormat} `{NumStr} (lef : option (list string)) (cfg : top_config) (dies : list (string * die_cfg))
    (s : stack) :
  tc_dies cfg = Some dies -> load_and_run (Lef.gen_tech (load_tech lef cfg)) cfg = Ok s ->
  "single_die" ∉ map fst dies ->
  main lef cfg =
    Ok (Some (spice_write (st_generators s)), export (Gen.tl_units (Lef.gen_tech (load_tech lef cfg))) cfg s,
        KeyError "single_die").
Proof.
  intros Hd Hl Hn. unfold main. cbv zeta. rewrite Hl. simpl. unfold gui_guard.
  revert Hl. unfold load_and_run. rewrite Hd.
  destruct (run_dies _ dies []) as [gens| |] eqn:Hr; simpl; [|done|done].
  destruct (generate_tsvs _ gens); simpl; [|done|done]. intros [= <-]. simpl.
  by rewrite (run_dies_keys _ _ _ _ _ Hr).
Qed.

(** C35. In 3D the SPICE deck [main] writes [.INCLUDE]s exactly the
    DSPF files it writes, one per die and in the order of the stack
    ([output_<die>.dspf] on both sides); in 2D no deck is written. *)
Theorem main_spice_includes `{EFormat} `{NumStr} (lef : option (list string)) (cfg : top_config)
    (deck : option (list string)) (reps : list die_report) (g : outcome gui_step) :
  main lef cfg = Ok (deck, reps, g) ->
  deck = if bool_decide (is_Some (tc_dies cfg)) then
           Some ([("* 3D Stack SPICE Netlist" ++ nl)%string; (".PARAM" ++ nl)%string] ++
                 map (fun r => (".INCLUDE " ++ dr_dspf_file r ++ nl)%string) reps ++ [(".END" ++ nl)%string])%list
         else None.
Proof.
  unfold main. cbv zeta. unfold load_and_run.
  destruct (tc_dies cfg) as [dies|] eqn:Hd; simpl.
  - destruct (run_dies _ dies []) as [gens| |]; simpl; [|done|done].
    destruct (generate_tsvs _ gens); simpl; [|done|done]. intros [= <- <- _].
    unfold spice_write, export. rewrite map_map. simpl. do 4 f_equal. apply map_ext. intros [n st]. simpl.
    by rewrite !string_app_assoc.
  - destruct (Gen.gen_run _ _); simpl; [|done]. by intros [= <- _ _].
Qed.

(** C36. [main] reaches its last step whenever the generators have
    positive pitches and pin intervals and, in 3D, every stack
    connection names [die1], [die2] and [net]: it neither hangs nor
    raises before step 5, and it has then exported every generator of
    the stack (the DEF, the DSPF and, in 2D, the check) and written the
    SPICE deck of a 3D stack. *)
Theorem main_reaches_gui `{EFormat} `{NumStr} (lef : option (list string)) (cfg : top_config) :
  let units := Gen.tl_units (Lef.gen_tech (load_tech lef cfg)) in
  match tc_dies cfg with
  | None => steps_positive units (tc_gen cfg)
  | Some dies =>
      (forall n d, (n, d) ∈ dies -> steps_positive units (dc_gen d)) /\
      (forall c, c ∈ tc_stack_connections cfg -> is_Some (sc_die1 c) /\ is_Some (sc_die2 c) /\ is_Some (sc_net c))
  end ->
  exists s, main lef cfg =
    Ok (if st_is_3d s then Some (spice_write (st_generators s)) else None, export units cfg s, gui_guard s).
Proof.
  intros units Hp. unfold main. cbv zeta. unfold load_and_run. fold units.
  destruct (tc_dies cfg) as [dies|] eqn:Hd.
  - destruct Hp as [Hg Hc]. destruct (run_dies_live _ dies [] Hg) as [gens ->]. simpl.
    rewrite generate_tsvs_ok by exact Hc. by exists (mkStack gens true).
  - destruct (gen_run_positive _ (tc_gen cfg) Hp) as [st ->]. by exists (mkStack [("single_die", st)] false).
Qed.

(** The extent of a stripe along its direction: the die's edges. *)
Lemma stripe_span (dd : Gen.die) (w : wire) :
  w = Gen.stripe dd (w_layer w) (w_net w) (w_orient w) (w_width w) (w_center w) ->
  Fracture.wire_span w = match w_orient w with
                         | OH => (Gen.d_llx dd, Gen.d_urx dd)
                         | OV => (Gen.d_lly dd, Gen.d_ury dd)
                         end.
Proof. intros H. rewrite H at 1. unfold Fracture.wire_span. simpl. by destruct (w_orient w). Qed.

(** C30. [main] hands the configuration's [units] to the generator
    ([tech.units]), which scales every coordinate by it, but the
    extractor reads a length in database units as thousandths of a
    micron ([len_um = (b - a) / 1000]): on a die whose corners are whole
    microns, the capacitors [_fracture_wire] gives a generated stripe
    add up to [c_per_um] times [units / 1000] times the stripe's length
    in microns (the die's width or height), which is the configured
    length only at 1000 units. *)
Theorem units_scale_extraction (tech : Gen.tech_lef) (c : Gen.config) (x1 y1 x2 y2 : Z) (st : Gen.gen_state)
    (tp : tech_props) (max_len : Z) (cuts_h cuts_v : Fracture.cut_index) (ns : NetData.NetStore) (w : wire) :
  Gen.cfg_die_area c = Some (Gen.mkDieArea (inject_Z x1) (inject_Z y1) (inject_Z x2) (inject_Z y2)) ->
  0 <= Gen.tl_units tech -> x1 <= x2 -> y1 <= y2 ->
  (forall ic, Gen.cfg_instance_placement c = Some ic -> 0 <= Gen.to_dbu (Gen.tl_units tech) (Gen.ic_width_um ic)) ->
  Gen.gen_run tech c = Some st -> w ∈ Gen.gs_wires st -> NetData.graph_wf ns ->
  exists cs, NetData.capacitors (Fracture.fracture_wire tp max_len cuts_h cuts_v w ns) = (NetData.capacitors ns ++ cs)%list /\
    (Qsum (map snd cs) == Fracture.wp_cpu (Fracture.wire_params tp w) * (inject_Z (Gen.tl_units tech) / 1000) *
       inject_Z (match w_orient w with OH => x2 - x1 | OV => y2 - y1 end))%Q.
Proof.
  intros Hda Hu Hx Hy Hw Hr Hin Hg.
  destruct (GenWf.gen_run_inv tech c _ st Hda Hw Hr) as [(Hs & _ & _) _].
  pose proof (stripe_span _ w (Hs w Hin)) as Hspan.
  unfold Gen.die_of in Hspan. cbn [Gen.d_llx Gen.d_lly Gen.d_urx Gen.d_ury Gen.da_llx Gen.da_lly Gen.da_urx Gen.da_ury] in Hspan.
  rewrite !Gen.to_dbu_int in Hspan. set (u := Gen.tl_units tech) in *.
  destruct (w_orient w);
    (destruct (Fracture.fracture_wire_capacitance tp max_len cuts_h cuts_v w ns _ _ Hg Hspan) as (cs & Hc & Hsum); [nia|]);
    exists cs; (split; [done|]); rewrite Hsum; unfold Fracture.len_um;
    rewrite <- Z.mul_sub_distr_l, inject_Z_mult; field.
Qed.

(** The design of [ex_cfg_u 1000]. *)
Definition ex_st2d : Gen.gen_state :=
  default Gen.gen_init (Gen.gen_run (Lef.gen_tech (load_tech None (ex_cfg_u 1000))) Flow.ex_gen_cfg).

Lemma main_2d_witness :
  main None (ex_cfg_u 1000) =
    Ok (None,
        [mkDieReport "TOP" "output_TOP.def" (def_write 1000 (Gen.cfg_die_area Flow.ex_gen_cfg) ex_st2d "TOP")
           "output_TOP.dspf" (write (run (Gen.to_gen_out ex_st2d) ex_tp) "TOP").1
           (Some (Flow.flow_2d (Gen.to_gen_out ex_st2d) ex_tp "TOP"))],
        Ok (if (50000 <? length (Gen.gs_wires ex_st2d))%nat then SkipGui else OpenGui)).
Proof. apply (main_2d None (ex_cfg_u 1000) ex_st2d); vm_compute; reflexivity. Defined.

Definition ex_gens : list (string * Gen.gen_state) :=
  match run_dies (Lef.gen_tech (load_tech None (ex_cfg_3d [ex_conn]))) [("top", mkDieCfg Flow.ex_gen_cfg None); ("bot", mkDieCfg Flow.ex_gen_cfg (Some "BOTTOM"))] [] with
  | Ok g => g | _ => [] end.

Lemma load_and_run_3d_witness :
  ((forall c, c ∈ [ex_conn] -> is_Some (sc_die1 c) /\ is_Some (sc_die2 c) /\ is_Some (sc_net c)) ->
     load_and_run (Lef.gen_tech (load_tech None (ex_cfg_3d [ex_conn]))) (ex_cfg_3d [ex_conn]) = Ok (mkStack ex_gens true)) /\
  ((exists c, c ∈ [ex_conn] /\ (sc_die1 c = None \/ sc_die2 c = None \/ sc_net c = None)) ->
     exists k, load_and_run (Lef.gen_tech (load_tech None (ex_cfg_3d [ex_conn]))) (ex_cfg_3d [ex_conn]) = KeyError k).
Proof.
  apply (load_and_run_3d _ (ex_cfg_3d [ex_conn]) [("top", mkDieCfg Flow.ex_gen_cfg None); ("bot", mkDieCfg Flow.ex_gen_cfg (Some "BOTTOM"))]);
    vm_compute; reflexivity.
Defined.

Lemma main_3d_keyerror_witness :
  main None (ex_cfg_3d [ex_conn]) =
    Ok (Some (spice_write (st_generators (mkStack ex_gens true))),
        export (Gen.tl_units (Lef.gen_tech (load_tech None (ex_cfg_3d [ex_conn])))) (ex_cfg_3d [ex_conn]) (mkStack ex_gens true),
        KeyError "single_die").
Proof.
  apply (main_3d_keyerror None (ex_cfg_3d [ex_conn]) [("top", mkDieCfg Flow.ex_gen_cfg None); ("bot", mkDieCfg Flow.ex_gen_cfg (Some "BOTTOM"))] (mkStack ex_gens true));
    [reflexivity | vm_compute; reflexivity | simpl; set_solver].
Defined.

Lemma main_spice_includes_witness :
  let reps := export (Gen.tl_units (Lef.gen_tech (load_tech None (ex_cfg_3d [ex_conn])))) (ex_cfg_3d [ex_conn])
                (mkStack ex_gens true) in
  main None (ex_cfg_3d [ex_conn]) =
    Ok (Some (spice_write (st_generators (mkStack ex_gens true))), reps, KeyError "single_die") /\
  Some (spice_write (st_generators (mkStack ex_gens true))) =
    (if bool_decide (is_Some (tc_dies (ex_cfg_3d [ex_conn]))) then
       Some ([("* 3D Stack SPICE Netlist" ++ nl)%string; (".PARAM" ++ nl)%string] ++
             map (fun r => (".INCLUDE " ++ dr_dspf_file r ++ nl)%string) reps ++ [(".END" ++ nl)%string])%list
     else None) /\
  map dr_dspf_file reps = ["output_top.dspf"; "output_bot.dspf"].
Proof.
  intros reps.
  assert (H : main None (ex_cfg_3d [ex_conn]) =
                Ok (Some (spice_write (st_generators (mkStack ex_gens true))), reps, KeyError "single_die"))
    by (vm_compute; reflexivity).
  split; [exact H|]. split; [exact (main_spice_includes None (ex_cfg_3d [ex_conn]) _ reps _ H)|].
  vm_compute. reflexivity.
Defined.

Lemma main_reaches_gui_witness :
  exists s, main None (ex_cfg_u 1000) = Ok (if st_is_3d s then Some (spice_write (st_generators s)) else None,
    export (Gen.tl_units (Lef.gen_tech (load_tech None (ex_cfg_u 1000)))) (ex_cfg_u 1000) s, gui_guard s).
Proof.
  apply (main_reaches_gui None (ex_cfg_u 1000)). apply steps_positiveb_spec. vm_compute. reflexivity.
Defined.

(** The LEF units at 2000, and the first [VSS] rail of [Flow.ex_gen_cfg]
    there: [0.2] microns wide, at [y = 0]. *)
Definition ex_tech2000 : Gen.tech_lef := Gen.mkTechLef 2000 ["M1"; "M2"].
Definition ex_wire2000 : wire := Gen.stripe (Gen.die_of 2000 (Gen.mkDieArea 0 0 20 20)) "M1" "VSS" OH 400 0.

Lemma units_scale_extraction_witness :
  exists cs, NetData.capacitors (Fracture.fracture_wire ex_tp 20000 ∅ ∅ ex_wire2000 NetData.empty_store) =
      (NetData.capacitors NetData.empty_store ++ cs)%list /\
    (Qsum (map snd cs) == Fracture.wp_cpu (Fracture.wire_params ex_tp ex_wire2000) *
       (inject_Z (Gen.tl_units ex_tech2000) / 1000) *
       inject_Z (match w_orient ex_wire2000 with OH => 20 - 0 | OV => 20 - 0 end))%Q.
Proof.
  apply (units_scale_extraction ex_tech2000 Flow.ex_gen_cfg 0 0 20 20
           (default Gen.gen_init (Gen.gen_run ex_tech2000 Flow.ex_gen_cfg)));
    [reflexivity|compute; discriminate|lia|lia|intros ic [= <-]; vm_compute; discriminate
    |vm_compute; reflexivity|vm_compute; left|apply NetData.empty_store_graph_wf].
Defined.

End Main.
