(* ===== verification/Gui.v ===== *)
(** * The viewers (gui/viewer_2d.py, gui/viewer_3d.py)

    [Viewer2D] (lines 995-1051 of the installer) is a Tk frame with a
    canvas, a combobox holding the names of the stack's generators and a
    [Refresh] button; [redraw] clears the canvas and, when the selected
    name is a generator, draws a rectangle per wire and an oval per via,
    scaled by [0.5 / 1000] and shifted by 50.  Here the widget's state is
    the combobox's text and the list of canvas items ([viewer2d]), the
    user's actions are events ([event]) and [step] is the handler each
    one runs.  [Viewer3D.plot] (lines 1072-1094) scatters, per
    generator, one point for each of its first 100 wires at a height of
    10 per die; here it is the list of the points of each generator.
    Tk and matplotlib, which only display these items, are not
    modelled.  Step 5 of [main] (lines 1212-1230) opens, unless
    [single_die] has more than 50000 wires, a Tk root whose notebook has
    one tab holding a [Viewer2D] ([main_window], [gui_setup]), and runs
    the event loop ([mainloop]); [Viewer3D] ([viewer3d_init]) is never
    built.

    The theorems: the window [main] opens has the 2D tab only, its
    viewer selecting a generator on a blank canvas, and whatever the
    user does the canvas shows one generator's whole drawing or nothing
    (C39); the 3D view plots a horizontal stripe at
    its own height on both axes, on the diagonal, and every vertical
    stripe at the middle of the die (C40). *)

From S2P Require Import Prelude PyStr Format NetStore Layers Geometry Generator GenWf TechLef Fracture Extractor OpenCheck Checker Writer Flow DefWriter Main.

Local Open Scope string_scope.

Module Gui.
Import Geom Gen GenWf Main.

(** ** [Viewer2D] *)

(** A canvas item: [create_rectangle] with its outline and fill colors,
    or [create_oval] with its fill. *)
Inductive item :=
  | Rectangle (x1 y1 x2 y2 : Q) (outline fill : string)
  | Oval (x1 y1 x2 y2 : Q) (fill : string).

(** The dict of [_get_color] and its [.get(layer, 'grey')]. *)
Definition colors : list (string * string) :=
  [("M1", "blue"); ("M2", "red"); ("M3", "green"); ("M4", "yellow"); ("M5", "cyan");
   ("M6", "magenta"); ("M7", "orange"); ("M8", "purple"); ("M9", "pink")].

Definition get_color (layer : string) : string := default "grey" (odict_get colors layer).

(** [offset + c/1000*scale] with [scale = 0.5] and [offset = 50]. *)
Definition to_canvas (c : Z) : Q := 50 + inject_Z c / 1000 * (1 # 2).

Definition wire_item (w : wire) : item :=
  let r := w_rect w in
  let col := get_color (w_layer w) in
  Rectangle (to_canvas (rx1 r)) (to_canvas (ry1 r)) (to_canvas (rx2 r)) (to_canvas (ry2 r)) col col.

Definition via_item (v : via) : item :=
  let '(x, y) := v_pos v in
  Oval (to_canvas (x - 200)) (to_canvas (y - 200)) (to_canvas (x + 200)) (to_canvas (y + 200)) "white".

(** What [redraw] draws for a generator: its wires, then its vias. *)
Definition drawing (g : gen_state) : list item := (map wire_item (gs_wires g) ++ map via_item (gs_vias g))%list.

(** The widget: the text of [die_var] and the canvas. *)
Record viewer2d := mkViewer2D { v_die : string; v_canvas : list item }.

(** [__init__]: the combobox holds the generators' names and selects the
    first one when there is one ([StringVar] is empty otherwise); the
    canvas is empty. *)
Definition viewer2d_init (s : stack) : viewer2d :=
  mkViewer2D (match st_generators s with (k, _) :: _ => k | [] => EmptyString end) [].

(** [redraw]: [canvas.delete("all")], then nothing for a name that is
    not a generator, else the generator's drawing. *)
Definition redraw (s : stack) (v : viewer2d) : viewer2d :=
  match odict_get (st_generators s) (v_die v) with
  | None => mkViewer2D (v_die v) []
  | Some g => mkViewer2D (v_die v) (drawing g)
  end.

(** The user's actions: picking a name in the list
    ([<<ComboboxSelected>>] runs [redraw]), typing a name in the
    combobox's entry (no handler), pressing [Refresh]. *)
Inductive event := Choose (d : string) | TypeIn (d : string) | Refresh.

Definition step (s : stack) (v : viewer2d) (e : event) : viewer2d :=
  match e with
  | Choose d => redraw s (mkViewer2D d (v_canvas v))
  | TypeIn d => mkViewer2D d (v_canvas v)
  | Refresh => redraw s v
  end.

(** [root.mainloop()]: the handlers of the user's actions, in order. *)
Definition mainloop (s : stack) (v : viewer2d) (es : list event) : viewer2d := fold_left (step s) es v.

(** ** [Viewer3D.plot] *)

(** The point of a wire: [w['center'] / 1000] and
    [(rect[1] + rect[3]) / 2000]. *)
Definition plot_point (w : wire) : Q * Q :=
  ((inject_Z (w_center w) / 1000)%Q, (inject_Z (ry1 (w_rect w) + ry2 (w_rect w)) / 2000)%Q).

(** Per generator, in the stack's order, its name and the points of its
    first 100 wires at height [z], [z] going up by 10 per generator. *)
Fixpoint plot_go (gens : list (string * gen_state)) (z : Z) : list (string * list (Q * Q * Z)) :=
  match gens with
  | [] => []
  | (n, g) :: r => (n, map (fun w => (plot_point w, z)) (firstn 100 (gs_wires g))) :: plot_go r (z + 10)
  end.

Definition plot (s : stack) : list (string * list (Q * Q * Z)) := plot_go (st_generators s) 0.

(** ** The window of [main] (step 5) *)

(** A tab of the notebook: a [Viewer2D], or a [Viewer3D] holding what
    its [__init__] plots. *)
Inductive tab := Layout2D (v : viewer2d) | Stack3D (points : list (string * list (Q * Q * Z))).

(** [Viewer3D.__init__]: the figure and its canvas, then [self.plot()]. *)
Definition viewer3d_init (s : stack) : tab := Stack3D (plot s).

(** The Tk root: its title, its geometry and the notebook's tabs. *)
Record window := mkWindow { win_title : string; win_geometry : string; win_tabs : list (string * tab) }.

(** [tk.Tk()], [geometry("1400x900")], [title(...)], a [ttk.Notebook]
    and its one tab, [Layout View], holding [Viewer2D(tab1, stack)]. *)
Definition main_window (s : stack) : window :=
  mkWindow "PG Generator Phase 5" "1400x900" [("Layout View", Layout2D (viewer2d_init s))].

(** Step 5 whole: the guard on [single_die]'s wires, then the window
    ([None] when the GUI is skipped). *)
Definition gui_setup (s : stack) : outcome (option window) :=
  obind (gui_guard s) (fun g => Ok (match g with SkipGui => None | OpenGui => Some (main_window s) end)).

(** ** The 2D canvas *)

(** The canvas shows one generator's whole drawing, or nothing. *)
Definition canvas_ok (s : stack) (v : viewer2d) : Prop :=
  v_canvas v = [] \/ exists d g, odict_get (st_generators s) d = Some g /\ v_canvas v = drawing g.

(** After [redraw] the canvas is the drawing of the selected name, or
    empty. *)
Lemma redraw_canvas (s : stack) (v : viewer2d) :
  v_die (redraw s v) = v_die v /\
  v_canvas (redraw s v) = default [] (drawing <$> odict_get (st_generators s) (v_die v)).
Proof. unfold redraw. by destruct (odict_get _ _). Qed.

Lemma redraw_ok (s : stack) (v : viewer2d) : canvas_ok s (redraw s v).
Proof.
  unfold canvas_ok, redraw. destruct (odict_get _ _) as [g|] eqn:E; simpl; [right; eauto|by left].
Qed.

Lemma step_ok (s : stack) (v : viewer2d) (e : event) : canvas_ok s v -> canvas_ok s (step s v e).
Proof. intros H. destruct e; simpl; [apply redraw_ok|exact H|apply redraw_ok]. Qed.

(** Whatever the user does, a canvas that shows a generator's drawing
    or nothing keeps doing so. *)
Lemma mainloop_ok (s : stack) (v : viewer2d) (es : list event) : canvas_ok s v -> canvas_ok s (mainloop s v es).
Proof. intros Hv. unfold mainloop. apply fold_left_inv; [exact Hv|]. intros v' e. apply step_ok. Qed.

(** After a pick or [Refresh] the canvas is the selected name's drawing. *)
Lemma mainloop_redrawn (s : stack) (v : viewer2d) (es : list event) (e : event) :
  (forall d, e <> TypeIn d) ->
  v_canvas (mainloop s v (es ++ [e])) = default [] (drawing <$> odict_get (st_generators s) (v_die (mainloop s v (es ++ [e])))).
Proof.
  intros He. unfold mainloop. rewrite fold_left_app. simpl.
  destruct e as [d|d|]; [|by destruct (He d)|]; simpl;
    match goal with |- context [redraw s ?v] => destruct (redraw_canvas s v) as [-> ->] end; reflexivity.
Qed.

(** Step 5 opens its window only on a stack with [single_die], so with a
    generator, and the window is [main_window]. *)
Lemma gui_setup_open (s : stack) (w : window) :
  gui_setup s = Ok (Some w) -> w = main_window s /\ st_generators s <> [].
Proof.
  unfold gui_setup, gui_guard. intros H. destruct (odict_get _ "single_die") eqn:E; [|discriminate H].
  destruct (50000 <? length (Gen.gs_wires g))%nat; cbn in H; [discriminate H|]. injection H as <-.
  split; [done|]. intros Hn. rewrite Hn in E. discriminate.
Qed.

(** [current(0)] selects the first generator's name. *)
Lemma viewer2d_init_selects (s : stack) :
  st_generators s <> [] -> is_Some (odict_get (st_generators s) (v_die (viewer2d_init s))).
Proof.
  destruct (st_generators s) as [|[k g] r] eqn:E; [done|]. intros _.
  unfold viewer2d_init, odict_get. rewrite E. simpl. rewrite String.eqb_refl. by eexists.
Qed.

(** C39. When step 5 of [main] opens the GUI, its window has one tab,
    [Layout View], holding a [Viewer2D] (there is no [Viewer3D] tab)
    whose combobox selects a generator of the stack and whose canvas is
    blank: [__init__] draws nothing.  Whatever the user then does, the
    canvas shows the whole drawing of one generator or nothing, and
    right after a pick in the list or [Refresh] it shows the drawing of
    the selected name, nothing when the name is not a generator's; after
    typing a name only, it still shows the previous drawing. *)
Theorem viewer2d_canvas (s : stack) (w : window) (es : list event) :
  gui_setup s = Ok (Some w) ->
  exists v, win_tabs w = [("Layout View", Layout2D v)] /\ v_canvas v = [] /\
    is_Some (odict_get (st_generators s) (v_die v)) /\
    canvas_ok s (mainloop s v es) /\
    (forall e, (forall d, e <> TypeIn d) ->
       v_canvas (mainloop s v (es ++ [e])) =
         default [] (drawing <$> odict_get (st_generators s) (v_die (mainloop s v (es ++ [e]))))).
Proof.
  intros H. destruct (gui_setup_open s w H) as [-> Hn]. exists (viewer2d_init s).
  split; [done|]. split; [done|]. split; [by apply viewer2d_init_selects|].
  split; [apply mainloop_ok; by left|]. intros e. apply mainloop_redrawn.
Qed.

(** The stack of a 2D run on [DefW.ex_st]. *)
Definition ex_stack : stack := mkStack [("single_die", DefW.ex_st)] false.

Lemma viewer2d_canvas_witness :
  exists v, win_tabs (main_window ex_stack) = [("Layout View", Layout2D v)] /\ v_canvas v = [] /\
    is_Some (odict_get (st_generators ex_stack) (v_die v)) /\
    canvas_ok ex_stack (mainloop ex_stack v [Refresh]) /\
    (forall e, (forall d, e <> TypeIn d) ->
       v_canvas (mainloop ex_stack v ([Refresh] ++ [e])) =
         default [] (drawing <$> odict_get (st_generators ex_stack) (v_die (mainloop ex_stack v ([Refresh] ++ [e]))))).
Proof. apply (viewer2d_canvas ex_stack (main_window ex_stack) [Refresh]). vm_compute. reflexivity. Defined.

(** ** The 3D plot *)

(** C40. On a design [Generator.run] produced, [Viewer3D.plot] puts a
    horizontal stripe at [(c, c)] (its center on both axes: the
    diagonal, although the stripe spans the die from left to right) and
    a vertical one at [(c, middle of the die)], in microns at 1000
    units. *)
Theorem plot_stripes (tech : tech_lef) (c : config) (da : die_area) (st : gen_state) :
  cfg_die_area c = Some da ->
  (forall ic, cfg_instance_placement c = Some ic -> 0 <= to_dbu (tl_units tech) (ic_width_um ic)) ->
  gen_run tech c = Some st ->
  forall w, w ∈ gs_wires st ->
    ((plot_point w).1 == inject_Z (w_center w) / 1000)%Q /\
    ((plot_point w).2 ==
       match w_orient w with
       | OH => inject_Z (w_center w) / 1000
       | OV => inject_Z (d_lly (die_of (tl_units tech) da) + d_ury (die_of (tl_units tech) da)) / 2000
       end)%Q.
Proof.
  intros Hda Hw Hr. destruct (gen_run_inv tech c da st Hda Hw Hr) as [(Hs & _ & _) _].
  intros w Hw'. rewrite (Hs w Hw'). unfold plot_point, stripe. simpl.
  split; [reflexivity|]. destruct (w_orient w); simpl; [|reflexivity].
  unfold Qeq. unfold ry1. simpl. lia.
Qed.

Lemma plot_stripes_witness :
  stripe (die_of 1000 (mkDieArea 0 0 20 20)) "M1" "VDD" OH 200 5000 ∈ gs_wires DefW.ex_st /\
  ((plot_point (stripe (die_of 1000 (mkDieArea 0 0 20 20)) "M1" "VDD" OH 200 5000)).1 == 5)%Q /\
  ((plot_point (stripe (die_of 1000 (mkDieArea 0 0 20 20)) "M1" "VDD" OH 200 5000)).2 == 5)%Q.
Proof.
  assert (Hin : stripe (die_of 1000 (mkDieArea 0 0 20 20)) "M1" "VDD" OH 200 5000 ∈ gs_wires DefW.ex_st)
    by (vm_compute; right; right; left).
  destruct (plot_stripes ex_tech ex_cfg (mkDieArea 0 0 20 20) DefW.ex_st eq_refl)
    with (w := stripe (die_of 1000 (mkDieArea 0 0 20 20)) "M1" "VDD" OH 200 5000) as [H1 H2];
    [intros ic [= <-]; vm_compute; discriminate|vm_compute; reflexivity|exact Hin|].
  split; [exact Hin|]. split; [rewrite H1; reflexivity|rewrite H2; reflexivity].
Defined.

End Gui.
