(* ===== verification/Install.v ===== *)
(** * The installer: [install()] and [load_config]

    The repository's script (lines 20-1439) holds every module of the
    program as a string in the dict [files] and, run as a program,
    [install()] (lines 1420-1436) writes each entry to disk, creating its
    directory when it is missing, with the text [content.strip()].  Here
    the disk is a record of directories and files ([fsys]), [install] a
    fold of [install_one] over the dict's items in insertion order, and
    the dict [installer_files] the 17 assignments [files[path] = ...] of
    the script in order, with the text of the LEF written out
    ([tech_lef_raw]) and the texts of the modules left as a variable of
    the section: the installer copies them without reading them.
    [for line in f] is [file_lines]; [load_config] (config_loader.py,
    lines 812-816) raises [FileNotFoundError] for a missing file and
    hands the text to [json.load], a library function taken as a
    parameter. *)

From S2P Require Import Prelude PyStr.
From Stdlib Require Import Ascii.

Local Open Scope string_scope.

Module Install.

(** ** The disk *)

Record fsys := mkFs { fs_dirs : gset string; fs_files : gmap string string }.

(** [os.path.dirname] of a path without repeated or trailing ['/']: the
    path up to its last ['/'], or the empty string. *)
Definition dirname (p : string) : string := py_join "/" (removelast (py_split "/" p)).

(** The directories above [d]: its proper prefixes ending before a
    ['/']. *)
Definition ancestors (d : string) : list string :=
  let ps := py_split "/" d in map (fun n => py_join "/" (take n ps)) (seq 1 (length ps - 1)).

(** [os.makedirs(d, exist_ok=True)]: [d] and every directory above it. *)
Definition makedirs (d : string) (s : fsys) : fsys :=
  mkFs ({[d]} ∪ list_to_set (ancestors d) ∪ fs_dirs s) (fs_files s).

(** One item of [files.items()]: the directory test
    ([os.path.exists], here on the directories: the script's paths never
    name a directory after a file), the write of the stripped text. *)
Definition install_one (s : fsys) (kv : string * string) : fsys :=
  let '(path, content) := kv in
  let d := dirname path in
  let s := if bool_decide (d <> EmptyString) && negb (bool_decide (d ∈ fs_dirs s)) then makedirs d s else s in
  mkFs (fs_dirs s) (<[path := py_strip content]> (fs_files s)).

Definition install (files : list (string * string)) (s : fsys) : fsys := fold_left install_one files s.

(** The dict built by the assignments [files[k] = v] in order: a new key
    is appended, an old one keeps its place and takes the new value. *)
Definition files_dict (assigns : list (string * string)) : list (string * string) :=
  fold_left (fun d '(k, v) => odict_set d k v) assigns [].

(** The value of the last assignment to [k], the reference the dict is
    proved against. *)
Definition last_assign (assigns : list (string * string)) (k : string) : option string :=
  fold_left (fun acc '(k', v) => if String.eqb k' k then Some v else acc) assigns None.

(** ** Reading a file *)

(** [for line in f] on a text without carriage returns (the script's
    texts have none, so universal newlines change nothing): the lines
    with their ['\n'], the last one without when the text does not end
    in one. *)
Fixpoint lines_go (s : string) : string * list string :=
  match s with
  | EmptyString => (EmptyString, [])
  | String c r =>
      let '(l, ls) := lines_go r in
      if Ascii.eqb c (ascii_of_nat 10) then
        (String c EmptyString, match l with EmptyString => ls | _ => l :: ls end)
      else (String c l, ls)
  end.

Definition file_lines (s : string) : list string :=
  let '(l, ls) := lines_go s in match l with EmptyString => ls | _ => l :: ls end.

(** [load_config(path)]: [FileNotFoundError] for a missing file, else
    what [json.load] makes of its text ([None]: a decoding error). *)
Inductive load_error := FileNotFoundError (path : string) | JSONDecodeError.

Definition load_config {J} (json_load : string -> option J) (s : fsys) (path : string) : load_error + J :=
  match fs_files s !! path with
  | None => inl (FileNotFoundError path)
  | Some text => match json_load text with Some j => inr j | None => inl JSONDecodeError end
  end.

(** ** The dict and the disk *)

Lemma odict_get_none {V} (d : list (string * V)) (k : string) : k ∉ map fst d -> odict_get d k = None.
Proof.
  unfold odict_get. induction d as [|[k' v] r IH]; intros Hk; simpl; [done|].
  destruct (String.eqb_spec k' k) as [->|_]; [destruct Hk; by left|]. apply IH. intros H. apply Hk. by right.
Qed.

Lemma odict_set_keys {V} (d : list (string * V)) (k k' : string) (v : V) :
  k' ∈ map fst (odict_set d k v) <-> k' = k \/ k' ∈ map fst d.
Proof.
  induction d as [|[k0 v0] r IH]; simpl; [set_solver|].
  destruct (String.eqb_spec k0 k) as [->|_]; simpl; rewrite ?elem_of_cons, ?IH; tauto.
Qed.

Lemma odict_set_nodup {V} (d : list (string * V)) (k : string) (v : V) :
  NoDup (map fst d) -> NoDup (map fst (odict_set d k v)).
Proof.
  induction d as [|[k0 v0] r IH]; intros Hd; simpl; [constructor; [apply not_elem_of_nil|constructor]|].
  apply NoDup_cons in Hd as [Hk Hd]. destruct (String.eqb_spec k0 k) as [->|Hne]; simpl; constructor; [done|done| |auto].
  rewrite odict_set_keys. intros [->|H]; [done|tauto].
Qed.

Lemma files_dict_nodup (assigns : list (string * string)) : NoDup (map fst (files_dict assigns)).
Proof.
  unfold files_dict. apply (fold_left_inv (fun d => NoDup (map fst d))); [constructor|].
  intros d [k v]. apply odict_set_nodup.
Qed.

(** The dict holds the last value assigned to each key. *)
Lemma files_dict_get (assigns : list (string * string)) (k : string) :
  odict_get (files_dict assigns) k = last_assign assigns k.
Proof.
  unfold files_dict, last_assign.
  assert (G : forall d acc, odict_get d k = acc ->
            odict_get (fold_left (fun d '(k, v) => odict_set d k v) assigns d) k =
            fold_left (fun acc '(k', v) => if String.eqb k' k then Some v else acc) assigns acc).
  { induction assigns as [|[k' v] r IH]; intros d acc H; simpl; [done|]. apply IH.
    destruct (String.eqb_spec k' k) as [->|Hne]; [apply odict_get_set|by rewrite odict_get_set_ne]. }
  by apply G.
Qed.

(** [install_one] only adds directories. *)
Lemma install_dirs_mono (d : list (string * string)) (s : fsys) (x : string) :
  x ∈ fs_dirs s -> x ∈ fs_dirs (install d s).
Proof.
  intros Hx0. unfold install. apply (fold_left_inv (fun s => x ∈ fs_dirs s)); [exact Hx0|].
  intros s' [p c] Hx. unfold install_one.
  destruct (_ && _); simpl; set_solver.
Qed.

Lemma install_files (d : list (string * string)) (s : fsys) (k : string) :
  NoDup (map fst d) ->
  fs_files (install d s) !! k = match odict_get d k with Some v => Some (py_strip v) | None => fs_files s !! k end.
Proof.
  revert s. induction d as [|[k' v'] r IH]; intros s Hnd; simpl; [done|].
  apply NoDup_cons in Hnd as [Hk Hnd]. unfold install. simpl. fold (install r (install_one s (k', v'))).
  rewrite IH by done. unfold odict_get at 2. simpl. destruct (String.eqb_spec k' k) as [->|Hne]; simpl.
  - rewrite odict_get_none by done. unfold install_one. destruct (_ && _); simpl; by simplify_map_eq.
  - fold (odict_get r k). destruct (odict_get r k); [done|]. unfold install_one.
    destruct (_ && _); simpl; by simplify_map_eq.
Qed.

Lemma install_dirs (d : list (string * string)) (s : fsys) (k v : string) :
  odict_get d k = Some v -> dirname k <> EmptyString -> dirname k ∈ fs_dirs (install d s).
Proof.
  revert s. induction d as [|[k' v'] r IH]; intros s Hk Hd; [done|].
  unfold install. simpl. fold (install r (install_one s (k', v'))). unfold odict_get in Hk. simpl in Hk.
  destruct (String.eqb_spec k' k) as [->|Hne]; [|by apply IH].
  apply install_dirs_mono. unfold install_one.
  destruct (bool_decide (dirname k ∈ fs_dirs s)) eqn:E; simpl.
  - apply bool_decide_eq_true in E. rewrite andb_false_r. exact E.
  - rewrite bool_decide_true by done. simpl. set_solver.
Qed.

(** ** The installer against the dict *)

(** C37. [install()] writes the [files] dict as its assignments define
    it: every path holds the stripped text of the last assignment to it
    (the other files of the disk are left as they were) and, when the
    path has a directory, the directory exists. *)
Theorem install_spec (assigns : list (string * string)) (s : fsys) :
  (forall k, fs_files (install (files_dict assigns) s) !! k =
             match last_assign assigns k with Some v => Some (py_strip v) | None => fs_files s !! k end) /\
  (forall k v, last_assign assigns k = Some v -> dirname k <> EmptyString ->
               dirname k ∈ fs_dirs (install (files_dict assigns) s)).
Proof.
  split.
  - intros k. rewrite install_files by apply files_dict_nodup. by rewrite files_dict_get.
  - intros k v Hk. apply (install_dirs _ _ _ v). by rewrite files_dict_get.
Qed.



(** ** The script's [files] *)

(** A double quote. *)
Definition dq : string := String (ascii_of_nat 34) EmptyString.

(** The text assigned to [files["tech.lef"]] (lines 1332-1414). *)
Definition tech_lef_raw : string :=
  "
VERSION 5.8 ;
BUSBITCHARS " ++ dq ++ "[]" ++ dq ++ " ;
DIVIDERCHAR " ++ dq ++ "/" ++ dq ++ " ;

UNITS
  DATABASE MICRONS 1000 ;
END UNITS

LAYER M1
  TYPE ROUTING ;
  DIRECTION HORIZONTAL ;
  PITCH 0.2 ;
  WIDTH 0.1 ;
END M1

LAYER M2
  TYPE ROUTING ;
  DIRECTION VERTICAL ;
  PITCH 0.2 ;
  WIDTH 0.1 ;
END M2

LAYER M3
  TYPE ROUTING ;
  DIRECTION HORIZONTAL ;
  PITCH 0.2 ;
  WIDTH 0.1 ;
END M3

LAYER M4
  TYPE ROUTING ;
  DIRECTION VERTICAL ;
  PITCH 0.4 ;
  WIDTH 0.2 ;
END M4

LAYER M5
  TYPE ROUTING ;
  DIRECTION HORIZONTAL ;
  PITCH 0.4 ;
  WIDTH 0.2 ;
END M5

LAYER M6
  TYPE ROUTING ;
  DIRECTION VERTICAL ;
  PITCH 0.4 ;
  WIDTH 0.2 ;
END M6

LAYER M7
  TYPE ROUTING ;
  DIRECTION HORIZONTAL ;
  PITCH 1.0 ;
  WIDTH 0.5 ;
END M7

LAYER M8
  TYPE ROUTING ;
  DIRECTION VERTICAL ;
  PITCH 1.0 ;
  WIDTH 0.5 ;
END M8

LAYER M9
  TYPE ROUTING ;
  DIRECTION HORIZONTAL ;
  PITCH 2.0 ;
  WIDTH 1.0 ;
END M9

VIA VIA12 DEFAULT
  LAYER M1 ;
    RECT -0.05 -0.05 0.05 0.05 ;
  LAYER VIA12 ;
    RECT -0.05 -0.05 0.05 0.05 ;
  LAYER M2 ;
    RECT -0.05 -0.05 0.05 0.05 ;
END VIA12

END LIBRARY
".

Section Files.
(** The texts of the modules and of the configuration, which the
    installer copies without reading. *)
Variable text : string -> string.

(** The assignments of the script, in order (lines 24-1414). *)
Definition installer_assigns : list (string * string) :=
  [("core/__init__.py", EmptyString); ("core/tech_lef.py", text "core/tech_lef.py");
   ("core/generator.py", text "core/generator.py"); ("core/extractor.py", text "core/extractor.py");
   ("core/dspf_checker.py", text "core/dspf_checker.py"); ("core/stack_manager.py", text "core/stack_manager.py");
   ("io_utils/__init__.py", EmptyString); ("io_utils/config_loader.py", text "io_utils/config_loader.py");
   ("io_utils/def_writer.py", text "io_utils/def_writer.py"); ("io_utils/spice_writer.py", text "io_utils/spice_writer.py");
   ("io_utils/dspf_writer.py", text "io_utils/dspf_writer.py"); ("gui/__init__.py", EmptyString);
   ("gui/viewer_2d.py", text "gui/viewer_2d.py"); ("gui/viewer_3d.py", text "gui/viewer_3d.py");
   ("main.py", text "main.py"); ("performance_test_10m.json", text "performance_test_10m.json");
   ("tech.lef", tech_lef_raw)].

End Files.

End Install.
