(* ===== verification/MainIO.v ===== *)
(** * [main] on the disk (main.py)

    [main] (lines 1119-1215 of the installer) acts on the disk: it
    creates the report directory when it is missing, parses [tech.lef]
    when the file exists, loads the configuration with [load_config]
    ([FileNotFoundError] for a missing file), and writes, per die, the
    DEF and DSPF files into the report directory (and a SPICE deck
    first in 3D).  In 2D it then checks the DSPF file it has just
    written: [os.path.getsize] of it under 500 MB, the [DSPFChecker]
    reads it back from the disk line by line.  Here [main_io] threads
    the disk ([Install.fsys]) through these steps around the pure
    [Main.main], which computes what is written; the command line is the
    pair of arguments [config_file] and [-reportdir] (the parsing itself,
    [argparse], is a library), and the timing messages are not
    modelled.

    The theorems: the check [main] runs in 2D is the check of the lines
    the writer wrote, read back from the file, exactly when the file is
    under 500 MB (C22); a missing or undecodable configuration file stops
    [main] before anything is written, the report directory apart
    (C27); in 3D the SPICE deck and every die's DEF and DSPF files are on
    the disk, no check run, when [main] ends with the GUI step's
    outcome (C38). *)

From S2P Require Import Prelude PyStr Format NetStore Layers Geometry Generator GenWf TechLef Fracture Extractor OpenCheck Checker Writer Flow DefWriter Main Install.
From Stdlib Require Import Ascii.

Local Open Scope string_scope.

Module MainIO.
Import Fmt Check Main Install DefW.

(** ** Files *)

(** [os.path.join(d, f)] for a relative [f]. *)
Definition path_join (d f : string) : string :=
  match d with
  | EmptyString => f
  | _ => if String.eqb (String.substring (String.length d - 1) 1 d) "/" then d ++ f else d ++ "/" ++ f
  end.

(** [open(p, 'w')] and its writes: the file holds the text. *)
Definition write_file (p text : string) (s : fsys) : fsys := mkFs (fs_dirs s) (<[p := text]> (fs_files s)).

(** The text of a file written line by line, each line followed by
    ['\n'] (the DSPF writer's [f.write] calls). *)
Definition lines_text (ls : list string) : string := foldr (fun l acc => l ++ nl ++ acc) EmptyString ls.

(** [os.path.getsize(p) / (1024*1024) < 500]: the size in bytes (one
    per ASCII character) below [500 * 2^20]; the float division by a
    power of two is exact. *)
Definition under_500mb (text : string) : bool := (Z.of_nat (String.length text) <? 500 * 1048576)%Z.

(** The 2D check of step 4 on the file at [p]: skipped above 500 MB,
    else [DSPFChecker(p).run()] on the lines read back ([None] too when
    the file is missing, which [run] reports and returns). *)
Definition check_on_disk (p : string) (s : fsys) : option (nat * nat) :=
  match fs_files s !! p with
  | Some t => if under_500mb t then Some (run_check (file_lines t)) else None
  | None => None
  end.

(** One die of step 4: its DEF, its DSPF and, in 2D, the check of the
    DSPF file. *)
Definition export_die (is3d : bool) (out : string) (acc : fsys * list (option (nat * nat))) (r : die_report)
  : fsys * list (option (nat * nat)) :=
  let '(s, cs) := acc in
  let s := write_file (path_join out (dr_def_file r)) (String.concat EmptyString (dr_def r)) s in
  let s := write_file (path_join out (dr_dspf_file r)) (lines_text (dr_dspf r)) s in
  (s, (cs ++ [if is3d then None else check_on_disk (path_join out (dr_dspf_file r)) s])%list).

(** What a run of [main] ends with: the configuration's loading error,
    or [main]'s outcome with the checks of the DSPF files on the disk
    and the GUI step. *)
Abbreviation main_result := (load_error + outcome (list (option (nat * nat)) * outcome gui_step))%type.

(** [main()] with [config_file] and [-reportdir] on the disk [s]. *)
Definition main_io `{EFormat} `{NumStr} (json_load : string -> option top_config)
    (config_file output_dir : string) (s : fsys) : fsys * main_result :=
  let s := if bool_decide (output_dir ∈ fs_dirs s) then s else makedirs output_dir s in
  let lef := file_lines <$> fs_files s !! "tech.lef" in
  match load_config json_load s config_file with
  | inl e => (s, inl e)
  | inr cfg =>
      match main lef cfg with
      | Ok (deck, reps, g) =>
          let s := match deck with
                   | Some d => write_file (path_join output_dir "output_stack_rc.sp") (String.concat EmptyString d) s
                   | None => s
                   end in
          let '(s, cs) := fold_left (export_die (bool_decide (is_Some deck)) output_dir) reps (s, []) in
          (s, inr (Ok (cs, g)))
      | KeyError k => (s, inr (KeyError k))
      | NoTermination => (s, inr NoTermination)
      end
  end.

(** ** Reading back what was written *)

Lemma lstrip_app (s t : string) :
  lstrip (s ++ t) = match lstrip s with EmptyString => lstrip t | s' => (s' ++ t)%string end.
Proof.
  induction s as [|a s IH]; [done|]. simpl. destruct (py_isspace a); [exact IH|done].
Qed.

Lemma rstrip_snoc_space (s : string) (c : ascii) :
  py_isspace c = true -> rstrip (s ++ String c EmptyString) = rstrip s.
Proof.
  intros Hc. induction s as [|a s IH]; simpl; [by rewrite Hc|]. by rewrite IH.
Qed.

(** A trailing line feed changes nothing to [strip()]. *)
Lemma py_strip_lf (s : string) : py_strip (s ++ nl) = py_strip s.
Proof.
  unfold py_strip. rewrite lstrip_app. destruct (lstrip s) as [|a r] eqn:E; [done|].
  by apply rstrip_snoc_space.
Qed.

(** The checker sees a line with its line feed as the line. *)
Lemma parse_line_lf (st : chk_state) (l : string) : parse_line st (l ++ nl) = parse_line st l.
Proof. unfold parse_line. by rewrite py_strip_lf. Qed.

Lemma run_check_lf (ls : list string) : run_check (map (fun l => l ++ nl) ls) = run_check ls.
Proof.
  unfold run_check, parse.
  assert (E : forall st, fold_left parse_line (map (fun l => l ++ nl) ls) st = fold_left parse_line ls st).
  { induction ls as [|l ls IH]; intros st; [done|]. simpl. rewrite parse_line_lf. apply IH. }
  by rewrite E.
Qed.

Lemma lines_go_line (l r : string) :
  no_char (ascii_of_nat 10) l = true -> lines_go (l ++ nl ++ r) = ((l ++ nl)%string, file_lines r).
Proof.
  induction l as [|a l IH]; intros Hl.
  - change (lines_go (String (ascii_of_nat 10) r) = (String (ascii_of_nat 10) EmptyString, file_lines r)).
    simpl. unfold file_lines. by destruct (lines_go r).
  - simpl in Hl. apply andb_prop in Hl as [Ha Hl].
    change (lines_go (String a (l ++ nl ++ r)) = (String a (l ++ nl), file_lines r)).
    simpl. rewrite (IH Hl). destruct (Ascii.eqb a (ascii_of_nat 10)); [done|reflexivity].
Qed.

(** [for line in f] on a file written line by line gives the lines back,
    each with its line feed, when no line holds a line feed. *)
Lemma file_lines_text (ls : list string) :
  Forall (fun l => no_char (ascii_of_nat 10) l = true) ls -> file_lines (lines_text ls) = map (fun l => l ++ nl) ls.
Proof.
  induction 1 as [|l ls Hl Hls IH]; [done|].
  change (file_lines (l ++ nl ++ lines_text ls) = (l ++ nl) :: map (fun l => l ++ nl) ls).
  unfold file_lines at 1. rewrite lines_go_line by done. rewrite <- IH.
  by destruct l.
Qed.

(** [makedirs] of the report directory leaves the files as they are. *)
Lemma report_dir_files (out : string) (s : fsys) :
  fs_files (if bool_decide (out ∈ fs_dirs s) then s else makedirs out s) = fs_files s.
Proof. by case_bool_decide. Qed.

Lemma report_dir_exists (out : string) (s : fsys) :
  out ∈ fs_dirs (if bool_decide (out ∈ fs_dirs s) then s else makedirs out s).
Proof. case_bool_decide; [done|]. simpl. set_solver. Qed.

(** [os.path.join] with one directory joins distinct names to
    distinct paths. *)
Lemma path_join_inj (d a b : string) : path_join d a = path_join d b -> a = b.
Proof.
  unfold path_join. destruct d as [|c d]; [done|].
  destruct (String.eqb _ _); intros H; apply (inj (String.append _)) in H; [done|].
  by apply (inj (String.append "/")) in H.
Qed.

(** The paths step 4 writes for a die: its DEF, then its DSPF. *)
Definition die_paths (out : string) (r : die_report) : list string :=
  [path_join out (dr_def_file r); path_join out (dr_dspf_file r)].

(** The exports of a 3D run: every die's DEF and DSPF written, no check
    run; a path no export writes keeps its file. *)
Lemma export_3d (out : string) (reps : list die_report) (s : fsys) (cs : list (option (nat * nat))) :
  NoDup (reps ≫= die_paths out) ->
  let res := fold_left (export_die true out) reps (s, cs) in
  res.2 = (cs ++ map (fun _ => None) reps)%list /\
  (forall p, p ∉ reps ≫= die_paths out -> fs_files res.1 !! p = fs_files s !! p) /\
  (forall r, r ∈ reps ->
     fs_files res.1 !! path_join out (dr_def_file r) = Some (String.concat EmptyString (dr_def r)) /\
     fs_files res.1 !! path_join out (dr_dspf_file r) = Some (lines_text (dr_dspf r))).
Proof.
  revert s cs. induction reps as [|r rest IH]; intros s cs Hnd.
  - simpl. split_and!; [by rewrite app_nil_r|done|intros r Hr; inversion Hr].
  - change ((r :: rest) ≫= die_paths out) with (die_paths out r ++ rest ≫= die_paths out)%list in *.
    cbn [fold_left export_die].
    apply NoDup_app in Hnd as (Hr & Hdis & Hnd). unfold die_paths in Hr, Hdis |- *.
    apply NoDup_cons in Hr as [Hr _].
    destruct (IH (write_file (path_join out (dr_dspf_file r)) (lines_text (dr_dspf r))
                  (write_file (path_join out (dr_def_file r)) (String.concat EmptyString (dr_def r)) s))
                (cs ++ [None])%list Hnd) as (H1 & H2 & H3).
    split_and!.
    + rewrite H1, <- app_assoc. done.
    + intros p Hp. rewrite H2 by set_solver. simpl. rewrite !lookup_insert_ne by set_solver. done.
    + intros r' Hr'. apply elem_of_cons in Hr' as [->|Hr']; [|by apply H3].
      rewrite (H2 (path_join out (dr_def_file r))), (H2 (path_join out (dr_dspf_file r))) by (apply Hdis; set_solver).
      simpl.
      rewrite lookup_insert_eq, lookup_insert_ne, lookup_insert_eq by set_solver. done.
Qed.

(** Distinct file names give distinct paths in the report directory. *)
Lemma die_paths_nodup (out : string) (reps : list die_report) :
  NoDup ("output_stack_rc.sp" :: reps ≫= (fun r => [dr_def_file r; dr_dspf_file r])) ->
  NoDup (path_join out "output_stack_rc.sp" :: reps ≫= die_paths out).
Proof.
  assert (E : reps ≫= die_paths out = path_join out <$> (reps ≫= (fun r => [dr_def_file r; dr_dspf_file r]))).
  { induction reps as [|r rest IH]; [done|].
    change ((r :: rest) ≫= die_paths out) with (die_paths out r ++ rest ≫= die_paths out)%list.
    change ((r :: rest) ≫= (fun r => [dr_def_file r; dr_dspf_file r]))
      with ([dr_def_file r; dr_dspf_file r] ++ rest ≫= (fun r => [dr_def_file r; dr_dspf_file r]))%list.
    rewrite fmap_app, <- IH. done. }
  intros Hnd. rewrite E.
  change (NoDup (path_join out <$> ("output_stack_rc.sp" :: reps ≫= (fun r => [dr_def_file r; dr_dspf_file r])))).
  apply NoDup_fmap_2_strong; [|done]. intros a b _ _. apply path_join_inj.
Qed.

(** ** [main] on the disk *)

(** C22. In 2D, when the configuration file decodes and [main]'s
    single die has been exported, the DSPF file in the report directory
    holds the lines the writer wrote, each with its line feed, and the
    check [main] runs reads them back: its counts are those of the
    written lines when the file is under 500 MB, and no check runs
    otherwise. *)
Theorem main_io_check_on_disk `{EFormat} `{NumStr} (json_load : string -> option top_config)
    (config_file out : string) (s : fsys) (txt : string) (cfg : top_config) (r : die_report) (g : outcome gui_step) :
  fs_files s !! config_file = Some txt -> json_load txt = Some cfg ->
  main (file_lines <$> fs_files s !! "tech.lef") cfg = Ok (None, [r], g) ->
  Forall (fun l => no_char (ascii_of_nat 10) l = true) (dr_dspf r) ->
  fs_files (main_io json_load config_file out s).1 !! path_join out (dr_dspf_file r) = Some (lines_text (dr_dspf r)) /\
  (main_io json_load config_file out s).2 =
    inr (Ok ([if under_500mb (lines_text (dr_dspf r)) then Some (run_check (dr_dspf r)) else None], g)).
Proof.
  intros Hc Hj Hm Hl. unfold main_io, load_config. rewrite !report_dir_files, Hc, Hj, Hm. simpl.
  unfold check_on_disk. simpl. rewrite lookup_insert_eq. split; [done|].
  destruct (under_500mb _); [|done]. by rewrite file_lines_text, run_check_lf.
Qed.

(** C27. A configuration file that is missing raises
    [FileNotFoundError], and one that does not decode raises the
    decoder's error, before [main] writes anything: the disk is the one
    it started from with the report directory created. *)
Theorem main_io_config_error `{EFormat} `{NumStr} (json_load : string -> option top_config)
    (config_file out : string) (s : fsys) :
  let s0 := if bool_decide (out ∈ fs_dirs s) then s else makedirs out s in
  (fs_files s !! config_file = None ->
     main_io json_load config_file out s = (s0, inl (FileNotFoundError config_file))) /\
  (forall txt, fs_files s !! config_file = Some txt -> json_load txt = None ->
     main_io json_load config_file out s = (s0, inl JSONDecodeError)) /\
  fs_files s0 = fs_files s /\ out ∈ fs_dirs s0.
Proof.
  intros s0. assert (Hf : fs_files s0 = fs_files s) by apply report_dir_files.
  unfold main_io, load_config. cbv zeta. fold s0. rewrite Hf.
  split; [intros ->; done|]. split; [intros txt -> ->; done|].
  split; [done|apply report_dir_exists].
Qed.

(** C38. In 3D, [main] writes into the report directory the SPICE
    deck and every die's DEF and DSPF files, each holding what the
    writers produced (when the file names are distinct), runs no DSPF
    check, and only then ends with the outcome of the GUI step (the
    [KeyError: 'single_die'] of every 3D run): the files are on the disk
    when [main] raises. *)
Theorem main_io_3d_writes `{EFormat} `{NumStr} (json_load : string -> option top_config)
    (config_file out : string) (s : fsys) (txt : string) (cfg : top_config)
    (deck : list string) (reps : list die_report) (g : outcome gui_step) :
  fs_files s !! config_file = Some txt -> json_load txt = Some cfg ->
  main (file_lines <$> fs_files s !! "tech.lef") cfg = Ok (Some deck, reps, g) ->
  NoDup ("output_stack_rc.sp" :: reps ≫= (fun r => [dr_def_file r; dr_dspf_file r])) ->
  fs_files (main_io json_load config_file out s).1 !! path_join out "output_stack_rc.sp" =
    Some (String.concat EmptyString deck) /\
  (forall r, r ∈ reps ->
     fs_files (main_io json_load config_file out s).1 !! path_join out (dr_def_file r) =
       Some (String.concat EmptyString (dr_def r)) /\
     fs_files (main_io json_load config_file out s).1 !! path_join out (dr_dspf_file r) =
       Some (lines_text (dr_dspf r))) /\
  (main_io json_load config_file out s).2 = inr (Ok (map (fun _ => None) reps, g)).
Proof.
  intros Hc Hj Hm Hnd. apply (die_paths_nodup out) in Hnd. apply NoDup_cons in Hnd as [Hdeck Hnd].
  unfold main_io, load_config. rewrite !report_dir_files, Hc, Hj, Hm. cbn [fst snd].
  rewrite bool_decide_true by by eexists.
  destruct (export_3d out reps (write_file (path_join out "output_stack_rc.sp") (String.concat EmptyString deck)
              (if bool_decide (out ∈ fs_dirs s) then s else makedirs out s)) [] Hnd) as (H1 & H2 & H3).
  destruct (fold_left _ _ _) as [s' cs]. cbn [fst snd] in *.
  split_and!; [|exact H3|by rewrite H1].
  rewrite H2 by done. simpl. by rewrite lookup_insert_eq.
Qed.

(** ** Examples *)

(** A disk holding a configuration file, and a decoder that reads it as
    the 2D configuration [ex_cfg_u 1000]. *)
Definition ex_disk : fsys := mkFs ∅ {[ "cfg.json" := "{}" ]}.
Definition ex_json (t : string) : option top_config := Some (ex_cfg_u 1000).

Lemma main_io_check_on_disk_witness :
  exists r g, main None (ex_cfg_u 1000) = Ok (None, [r], g) /\
    fs_files (main_io ex_json "cfg.json" "out" ex_disk).1 !! path_join "out" (dr_dspf_file r) =
      Some (lines_text (dr_dspf r)) /\
    (main_io ex_json "cfg.json" "out" ex_disk).2 =
      inr (Ok ([if under_500mb (lines_text (dr_dspf r)) then Some (run_check (dr_dspf r)) else None], g)).
Proof.
  do 2 eexists. split; [vm_compute; reflexivity|].
  apply (main_io_check_on_disk ex_json "cfg.json" "out" ex_disk "{}" (ex_cfg_u 1000));
    [reflexivity|reflexivity|vm_compute; reflexivity|vm_compute; repeat constructor].
Defined.

Lemma main_io_config_error_witness :
  main_io ex_json "missing.json" "out" ex_disk = (makedirs "out" ex_disk, inl (FileNotFoundError "missing.json")).
Proof. apply (main_io_config_error ex_json "missing.json" "out" ex_disk). reflexivity. Defined.

(** A decoder that reads the file as the 3D configuration of two dies
    [top] and [bot]. *)
Definition ex_json3d (t : string) : option top_config := Some (ex_cfg_3d [ex_conn]).

Lemma main_io_3d_writes_witness :
  exists deck reps g, main None (ex_cfg_3d [ex_conn]) = Ok (Some deck, reps, g) /\
    fs_files (main_io ex_json3d "cfg.json" "out" ex_disk).1 !! path_join "out" "output_stack_rc.sp" =
      Some (String.concat EmptyString deck) /\
    (forall r, r ∈ reps ->
       fs_files (main_io ex_json3d "cfg.json" "out" ex_disk).1 !! path_join "out" (dr_def_file r) =
         Some (String.concat EmptyString (dr_def r)) /\
       fs_files (main_io ex_json3d "cfg.json" "out" ex_disk).1 !! path_join "out" (dr_dspf_file r) =
         Some (lines_text (dr_dspf r))) /\
    (main_io ex_json3d "cfg.json" "out" ex_disk).2 = inr (Ok (map (fun _ => None) reps, g)).
Proof.
  do 3 eexists. split; [vm_compute; reflexivity|].
  apply (main_io_3d_writes ex_json3d "cfg.json" "out" ex_disk "{}" (ex_cfg_3d [ex_conn]));
    [reflexivity|reflexivity|vm_compute; reflexivity|].
  match goal with |- NoDup ?l => apply (bool_decide_unpack (NoDup l)) end. vm_compute. reflexivity.
Defined.

End MainIO.
