(* ===== verification/Shipped.v ===== *)
(** * The repository's own inputs: [tech.lef] and [performance_test_10m.json]

    The installer writes, besides the modules, a LEF ([tech.lef], lines
    1332-1413) and the configuration of its performance test
    ([performance_test_10m.json], lines 1241-1330), which [main] reads.
    Here the LEF is its list of lines (the installer strips the text, so
    it starts at [VERSION] and ends at [END LIBRARY]) and the
    configuration is the records [Generator.run] reads.  The theorems
    apply the reader and the generator to them. *)

From S2P Require Import Prelude PyStr Layers Geometry Generator TechLef Install.
From Stdlib Require Import Ascii.

Local Open Scope string_scope.

Module Shipped.
Import Gen Lef Install.

Definition lef_busbit : string := "BUSBITCHARS " ++ dq ++ "[]" ++ dq ++ " ;".
Definition lef_divider : string := "DIVIDERCHAR " ++ dq ++ "/" ++ dq ++ " ;".

(** [tech.lef], line by line. *)
Definition tech_lef_lines : list string :=
  ["VERSION 5.8 ;"; lef_busbit; lef_divider; EmptyString; "UNITS"; "  DATABASE MICRONS 1000 ;";
   "END UNITS"; EmptyString; "LAYER M1"; "  TYPE ROUTING ;"; "  DIRECTION HORIZONTAL ;"; "  PITCH 0.2 ;";
   "  WIDTH 0.1 ;"; "END M1"; EmptyString; "LAYER M2"; "  TYPE ROUTING ;"; "  DIRECTION VERTICAL ;";
   "  PITCH 0.2 ;"; "  WIDTH 0.1 ;"; "END M2"; EmptyString; "LAYER M3"; "  TYPE ROUTING ;";
   "  DIRECTION HORIZONTAL ;"; "  PITCH 0.2 ;"; "  WIDTH 0.1 ;"; "END M3"; EmptyString; "LAYER M4";
   "  TYPE ROUTING ;"; "  DIRECTION VERTICAL ;"; "  PITCH 0.4 ;"; "  WIDTH 0.2 ;"; "END M4"; EmptyString;
   "LAYER M5"; "  TYPE ROUTING ;"; "  DIRECTION HORIZONTAL ;"; "  PITCH 0.4 ;"; "  WIDTH 0.2 ;"; "END M5";
   EmptyString; "LAYER M6"; "  TYPE ROUTING ;"; "  DIRECTION VERTICAL ;"; "  PITCH 0.4 ;"; "  WIDTH 0.2 ;";
   "END M6"; EmptyString; "LAYER M7"; "  TYPE ROUTING ;"; "  DIRECTION HORIZONTAL ;"; "  PITCH 1.0 ;";
   "  WIDTH 0.5 ;"; "END M7"; EmptyString; "LAYER M8"; "  TYPE ROUTING ;"; "  DIRECTION VERTICAL ;";
   "  PITCH 1.0 ;"; "  WIDTH 0.5 ;"; "END M8"; EmptyString; "LAYER M9"; "  TYPE ROUTING ;";
   "  DIRECTION HORIZONTAL ;"; "  PITCH 2.0 ;"; "  WIDTH 1.0 ;"; "END M9"; EmptyString; "VIA VIA12 DEFAULT";
   "  LAYER M1 ;"; "    RECT -0.05 -0.05 0.05 0.05 ;"; "  LAYER VIA12 ;"; "    RECT -0.05 -0.05 0.05 0.05 ;"; "  LAYER M2 ;"; "    RECT -0.05 -0.05 0.05 0.05 ;";
   "END VIA12"; EmptyString; "END LIBRARY"].

(** The reader sees a line only through its words. *)
Lemma parse_lines_words (st : lef_state) (l1 l2 : list string) :
  map py_words l1 = map py_words l2 -> parse_lines st l1 = parse_lines st l2.
Proof.
  revert st l2. induction l1 as [|a r IH]; intros st [|b r'] H; simpl in H; try done.
  injection H as Hab Hr. simpl. unfold lef_step. rewrite Hab.
  destruct (lef_parts st (py_words b)); [by apply IH|done].
Qed.

(** After [install()], whatever the texts of the modules and the
    disk before, [tech.lef] holds the stripped text of
    [files["tech.lef"]], and [TechLEF.parse] reads from it exactly what
    it reads from [tech_lef_lines]: [for line in f] gives these lines,
    with their line feeds, which [split()] drops. *)
Theorem installed_lef_read (text : string -> string) (s : fsys) (t : tech) :
  fs_files (install (files_dict (installer_assigns text)) s) !! "tech.lef" = Some (py_strip tech_lef_raw) /\
  parse t (file_lines (py_strip tech_lef_raw)) = parse t tech_lef_lines.
Proof.
  split.
  - rewrite install_files by apply files_dict_nodup. by rewrite files_dict_get.
  - unfold parse. rewrite (parse_lines_words _ _ tech_lef_lines); [reflexivity|vm_compute; reflexivity].
Qed.

(** A layer rule of the configuration: [name], [direction], [width],
    [pitch], [offset]. *)
Definition perf_rule (n d : string) (w p o : Q) : layer_rule := mkLayerRule n (Some d) o p w.

(** The nine layers of a net, with the offsets of its [M1]-[M3],
    [M4]-[M6] and [M7]-[M9] rules. *)
Definition perf_layers (o1 o2 o3 : Q) : list layer_rule :=
  [perf_rule "M1" "H" 0.2 4.0 o1; perf_rule "M2" "V" 0.2 4.0 o1; perf_rule "M3" "H" 0.2 4.0 o1;
   perf_rule "M4" "V" 0.4 10.0 o2; perf_rule "M5" "H" 0.4 10.0 o2; perf_rule "M6" "V" 0.4 10.0 o2;
   perf_rule "M7" "H" 1.5 40.0 o3; perf_rule "M8" "V" 1.5 40.0 o3; perf_rule "M9" "H" 4.0 40.0 o3].

(** [performance_test_10m.json] as [Generator.run] reads it. *)
Definition perf_cfg : config :=
  {| cfg_tech_layers := Some ["M1"; "M2"; "M3"; "M4"; "M5"; "M6"; "M7"; "M8"; "M9"];
     cfg_die_area := Some (mkDieArea 0.0 0.0 5000.0 5000.0);
     cfg_nets := [mkNetCfg "VDD_CORE" (perf_layers 0.0 0.0 0.0) (Some (mkPinCfg "M9" 4950.0));
                  mkNetCfg "VSS" (perf_layers 1.3 3.3 13.0) (Some (mkPinCfg "M9" 4950.0));
                  mkNetCfg "VDD_MEM" (perf_layers 2.6 6.6 26.0) (Some (mkPinCfg "M9" 4950.0))];
     cfg_instance_placement :=
       Some (mkInstCfg "M1" "STD_CELL_HD" 1500000 4.0 ["VDD_CORE"; "VDD_MEM"] ["VSS"]) |}.

(** [TechLEF.parse] on the shipped [tech.lef] prints no warning,
    but the [LAYER M1 ;] and [LAYER M2 ;] lines of [VIA12] have reset
    [M1] and [M2] to their names, and [LAYER VIA12 ;] has made the via a
    layer; [M3] to [M9] keep what the file gives them. *)
Example shipped_lef_parse :
  (parse tech_init tech_lef_lines).2 = true /\
  map fst (layers (parse tech_init tech_lef_lines).1) = ["M1"; "M2"; "M3"; "M4"; "M5"; "M6"; "M7"; "M8"; "M9"; "VIA12"] /\
  odict_get (layers (parse tech_init tech_lef_lines).1) "M1" = Some (mkLefLayer "M1" None None None None) /\
  odict_get (layers (parse tech_init tech_lef_lines).1) "M2" = Some (mkLefLayer "M2" None None None None) /\
  odict_get (layers (parse tech_init tech_lef_lines).1) "M3" =
    Some (mkLefLayer "M3" (Some "ROUTING") (Some "HORIZONTAL") (Some (PFin 0.1)) (Some (PFin 0.2))).
Proof. repeat split; vm_compute; reflexivity. Qed.

(** [Generator.run] terminates on the performance test: all its pitches
    and pin intervals are positive numbers of database units. *)
Lemma gen_run_terminates_witness : is_Some (gen_run (gen_tech (parse tech_init tech_lef_lines).1) perf_cfg).
Proof.
  apply gen_run_terminates; intros n x Hn Hx; simpl in Hn;
    repeat (apply elem_of_cons in Hn as [Hn|Hn]; [subst n; simpl in Hx;
      repeat (apply elem_of_cons in Hx as [Hx|Hx]; [subst x; vm_compute; reflexivity|]);
      first [by apply elem_of_nil in Hx | injection Hx as <-; vm_compute; reflexivity]|]);
    by apply elem_of_nil in Hn.
Defined.

End Shipped.
